(** * Trust-chain signing and showing of BIOS and kernel images

    A shallow embedding of

    - futility's BIOS file type ([fmap_limit_area], [show_gbb_buf],
      [ft_show_gbb], [ft_show_bios], [write_new_preamble], [write_loem],
      [sign_bios_at_end], [prepare_slot], [image_check_and_prepare_cbfs],
      [check_slot_after_prepare], [ft_sign_bios],
      [ft_recognize_bios_image]), and
    - [KernelUtility::GenerateSignedImage] of utility/kernel_utility.cc,
      and the command line of the tool around it ([CheckOptions],
      [ParseCmdLineOptions], [PrintUsage], [OutputSignedImage],
      [DescribeSignedImage], [VerifySignedImage], [main]),
    - the two loops of host/lib/subprocess.c that feed and drain the
      pipes of a child ([process_target_input],
      [process_target_output]),
    - the screens of vboot_display.c ([VbDisplayScreen],
      [VbDisplayMenu], [VbDisplayDebugInfo], [VbCheckDisplayKey] and
      their helpers), and
    - futility's flash command ([setup_flash], [teardown_flash],
      [get_ro_range], [print_flash_size], [print_flash_info],
      [print_wp_status], [set_flash_wp], [do_flash]),

    together with the properties of the trust-chain specification that
    these functions decide, and further properties of the code.

    Integers are [Z] with the wrap-around of their C type written out,
    the mapped image is a list of bytes addressed by offsets, and the
    library routines the functions call (FMAP lookup, vboot 2 primitives,
    cbfstool, the kernel image library) are the fields of an interface
    record: every theorem holds for every implementation of them. *)

From Stdlib Require Import ZArith List Lia Bool String.
From Stdlib Require Import Strings.Byte.
Import ListNotations.

Local Open Scope Z_scope.

(** ** Machine integers *)

Definition u16 (z : Z) : Z := z mod 2 ^ 16.
Definition u32 (z : Z) : Z := z mod 2 ^ 32.
Definition size_t (z : Z) : Z := z mod 2 ^ 64.

Definition UINT32_MAX : Z := 2 ^ 32 - 1.

(** C truth value of a comparison. *)
Definition c_bool (b : bool) : Z := if b then 1 else 0.

(** ** Byte buffers *)

Module Mem.

Definition mem := list byte.

Definition size (m : mem) : Z := Z.of_nat (List.length m).

Definition Z_of_byte (b : byte) : Z := Z.of_N (Byte.to_N b).

Definition byte_of_Z (z : Z) : byte :=
  match Byte.of_N (Z.to_N (z mod 256)) with
  | Some b => b
  | None => x00
  end.

(** The byte at offset [p] of a C object whose content is [m].  A read
    outside the object is undefined in C; here it yields zero. *)
Definition get (m : mem) (p : Z) : byte :=
  if p <? 0 then x00 else nth (Z.to_nat p) m x00.

Definition load8 (m : mem) (p : Z) : Z := Z_of_byte (get m p).

(** Little-endian loads, as on the hosts the tools are built for. *)
Definition load16 (m : mem) (p : Z) : Z :=
  load8 m p + 2 ^ 8 * load8 m (p + 1).

Definition load32 (m : mem) (p : Z) : Z :=
  load8 m p + 2 ^ 8 * load8 m (p + 1) + 2 ^ 16 * load8 m (p + 2)
  + 2 ^ 24 * load8 m (p + 3).

(** [rewrite_from f j m] replaces the byte at every offset [j + k] of
    [m] by [f (j + k)] applied to it; the object keeps its size. *)
Fixpoint rewrite_from (f : Z -> byte -> byte) (j : Z) (m : mem) : mem :=
  match m with
  | [] => []
  | b :: m' => f j b :: rewrite_from f (j + 1) m'
  end.

(** [memcpy m dst src n]: the [n] bytes at the start of [src] are
    copied to offsets [dst .. dst + n - 1] of [m].  The part of the
    copy that falls outside [m] is undefined behaviour in C; here it is
    dropped, so that the object keeps its size. *)
Definition memcpy (m : mem) (dst : Z) (src : mem) (n : Z) : mem :=
  rewrite_from
    (fun j old => if (dst <=? j) && (j <? dst + n) then get src (j - dst)
                  else old) 0 m.

Definition le32 (v : Z) : mem :=
  [byte_of_Z v; byte_of_Z (v / 2 ^ 8); byte_of_Z (v / 2 ^ 16);
   byte_of_Z (v / 2 ^ 24)].

Definition store32 (m : mem) (p : Z) (v : Z) : mem := memcpy m p (le32 v) 4.

(** The bytes [p .. p + n - 1] of [m]. *)
Definition sub (m : mem) (p n : Z) : mem :=
  firstn (Z.to_nat n) (skipn (Z.to_nat p) m).

End Mem.

(** ** Flash map area headers

    [FmapAreaHeader] is the packed structure of fmap.h,
    [{ uint32_t area_offset; uint32_t area_size; char area_name[32];
       uint16_t area_flags; }].  A pointer to one is the offset of the
    header inside the mapped image: [fmap_find_by_name] hands back, in
    its last argument, a pointer into the flash map of the buffer it was
    given (its callers read and write the fields through it and free
    nothing but the buffer, as [get_ro_range] of the flash helpers
    does). *)

Module Fmap.

Definition FMAP_NAMELEN : Z := 32.

Definition area_offset (m : Mem.mem) (ah : Z) : Z := Mem.load32 m ah.
Definition area_size (m : Mem.mem) (ah : Z) : Z := Mem.load32 m (ah + 4).

Definition set_area_offset (m : Mem.mem) (ah v : Z) : Mem.mem :=
  Mem.store32 m ah v.
Definition set_area_size (m : Mem.mem) (ah v : Z) : Mem.mem :=
  Mem.store32 m (ah + 4) v.

(** The string that [snprintf(ah_name, FMAP_NAMELEN + 1, "%s", ...)]
    makes of bytes that need not be null-terminated. *)
Fixpoint c_string (l : Mem.mem) (n : nat) : string :=
  match n, l with
  | S n', b :: l' =>
      if Byte.eqb b x00 then EmptyString
      else String (Ascii.ascii_of_byte b) (c_string l' n')
  | _, _ => EmptyString
  end.

Definition area_name (m : Mem.mem) (ah : Z) : string :=
  c_string (skipn (Z.to_nat (ah + 8)) m) (Z.to_nat FMAP_NAMELEN).

(** Does [fmap_limit_area] find the area out of range? *)
Definition out_of_range (m : Mem.mem) (ah len : Z) : bool :=
  let sum := u32 (area_offset m ah + area_size m ah) in
  (sum <? area_size m ah) || (sum >? len).

(** [static void fmap_limit_area(FmapAreaHeader *ah, uint32_t len)] *)
Definition fmap_limit_area (ah : Z) (len : Z) (m : Mem.mem) : Mem.mem :=
  let sum := u32 (area_offset m ah + area_size m ah) in
  if (sum <? area_size m ah) || (sum >? len) then
    let m1 := set_area_offset m ah 0 in
    set_area_size m1 ah 0
  else m.

End Fmap.

(** ** vboot 2 structures

    The fields of the packed structures of 2struct.h that the BIOS file
    type reads through pointers into the image or into a keyblock or
    preamble of its own.  A pointer is the offset of the structure in the
    object it lives in. *)

Module Vb2.

Definition VB2_SUCCESS : Z := 0.
Definition VB2_HASH_INVALID : Z := 0.

(** [struct vb2_hash]: algorithm and digest. *)
Record vb2_hash := { algo : Z; raw : Mem.mem }.

(** [struct vb2_keyblock] *)
Definition keyblock_size (m : Mem.mem) (kb : Z) : Z := Mem.load32 m (kb + 16).
Definition data_key (kb : Z) : Z := kb + 80.

(** [struct vb2_packed_key] *)
Definition key_offset (m : Mem.mem) (k : Z) : Z := Mem.load32 m k.
Definition key_size (m : Mem.mem) (k : Z) : Z := Mem.load32 m (k + 8).

(** [struct vb2_signature] *)
Definition data_size (m : Mem.mem) (sig : Z) : Z := Mem.load32 m (sig + 16).

(** [struct vb2_fw_preamble] *)
Definition sizeof_vb2_fw_preamble : Z := 108.
Definition preamble_size (m : Mem.mem) (p : Z) : Z := Mem.load32 m p.
Definition firmware_version (m : Mem.mem) (p : Z) : Z :=
  Mem.load32 m (p + 40).
Definition body_signature (p : Z) : Z := p + 80.
Definition flags (m : Mem.mem) (p : Z) : Z := Mem.load32 m (p + 104).

(** [struct vb2_gbb_header] *)
Definition major_version (m : Mem.mem) (g : Z) : Z := Mem.load16 m (g + 4).
Definition minor_version (m : Mem.mem) (g : Z) : Z := Mem.load16 m (g + 6).
Definition gbb_flags (m : Mem.mem) (g : Z) : Z := Mem.load32 m (g + 12).
Definition hwid_offset (m : Mem.mem) (g : Z) : Z := Mem.load32 m (g + 16).
Definition hwid_size (m : Mem.mem) (g : Z) : Z := Mem.load32 m (g + 20).
Definition rootkey_offset (m : Mem.mem) (g : Z) : Z := Mem.load32 m (g + 24).
Definition rootkey_size (m : Mem.mem) (g : Z) : Z := Mem.load32 m (g + 28).
Definition bmpfv_offset (m : Mem.mem) (g : Z) : Z := Mem.load32 m (g + 32).
Definition bmpfv_size (m : Mem.mem) (g : Z) : Z := Mem.load32 m (g + 36).
Definition recovery_key_offset (m : Mem.mem) (g : Z) : Z :=
  Mem.load32 m (g + 40).
Definition recovery_key_size (m : Mem.mem) (g : Z) : Z :=
  Mem.load32 m (g + 44).

End Vb2.

(** ** The state of a BIOS image traversal (file_type_bios.h) *)

Inductive bios_component :=
| BIOS_FMAP_GBB
| BIOS_FMAP_FW_MAIN_A
| BIOS_FMAP_FW_MAIN_B
| BIOS_FMAP_VBLOCK_A
| BIOS_FMAP_VBLOCK_B.

Definition bios_component_eqb (a b : bios_component) : bool :=
  match a, b with
  | BIOS_FMAP_GBB, BIOS_FMAP_GBB
  | BIOS_FMAP_FW_MAIN_A, BIOS_FMAP_FW_MAIN_A
  | BIOS_FMAP_FW_MAIN_B, BIOS_FMAP_FW_MAIN_B
  | BIOS_FMAP_VBLOCK_A, BIOS_FMAP_VBLOCK_A
  | BIOS_FMAP_VBLOCK_B, BIOS_FMAP_VBLOCK_B => true
  | _, _ => false
  end.

(** The components in the order of the enumeration, as the loop of
    [ft_show_bios] visits them. *)
Definition bios_components : list bios_component :=
  [BIOS_FMAP_GBB; BIOS_FMAP_FW_MAIN_A; BIOS_FMAP_FW_MAIN_B;
   BIOS_FMAP_VBLOCK_A; BIOS_FMAP_VBLOCK_B].

(** The names of the areas in the flash map. *)
Definition fmap_name (c : bios_component) : string :=
  match c with
  | BIOS_FMAP_GBB => "GBB"
  | BIOS_FMAP_FW_MAIN_A => "FW_MAIN_A"
  | BIOS_FMAP_FW_MAIN_B => "FW_MAIN_B"
  | BIOS_FMAP_VBLOCK_A => "VBLOCK_A"
  | BIOS_FMAP_VBLOCK_B => "VBLOCK_B"
  end.

(** [struct bios_area_s].  [buf] points into the mapped image and is kept
    as an offset from its start, so that [buf + ah->area_offset] is the
    area offset itself. *)
Module Area.
Record bios_area_s := {
  offset : Z;
  buf : Z;
  len : Z;
  is_valid : Z;
  flags : Z;
  version : Z;
  fw_size : Z;
  metadata_hash : Vb2.vb2_hash
}.

Definition zero : bios_area_s :=
  {| offset := 0; buf := 0; len := 0; is_valid := 0; flags := 0;
     version := 0; fw_size := 0;
     metadata_hash := {| Vb2.algo := 0; Vb2.raw := [] |} |}.

Definition set_offset (v : Z) (a : bios_area_s) : bios_area_s :=
  {| offset := v; buf := buf a; len := len a; is_valid := is_valid a;
     flags := flags a; version := version a; fw_size := fw_size a;
     metadata_hash := metadata_hash a |}.
Definition set_buf (v : Z) (a : bios_area_s) : bios_area_s :=
  {| offset := offset a; buf := v; len := len a; is_valid := is_valid a;
     flags := flags a; version := version a; fw_size := fw_size a;
     metadata_hash := metadata_hash a |}.
Definition set_len (v : Z) (a : bios_area_s) : bios_area_s :=
  {| offset := offset a; buf := buf a; len := v; is_valid := is_valid a;
     flags := flags a; version := version a; fw_size := fw_size a;
     metadata_hash := metadata_hash a |}.
Definition set_is_valid (v : Z) (a : bios_area_s) : bios_area_s :=
  {| offset := offset a; buf := buf a; len := len a; is_valid := v;
     flags := flags a; version := version a; fw_size := fw_size a;
     metadata_hash := metadata_hash a |}.
Definition set_flags (v : Z) (a : bios_area_s) : bios_area_s :=
  {| offset := offset a; buf := buf a; len := len a; is_valid := is_valid a;
     flags := v; version := version a; fw_size := fw_size a;
     metadata_hash := metadata_hash a |}.
Definition set_version (v : Z) (a : bios_area_s) : bios_area_s :=
  {| offset := offset a; buf := buf a; len := len a; is_valid := is_valid a;
     flags := flags a; version := v; fw_size := fw_size a;
     metadata_hash := metadata_hash a |}.
Definition set_fw_size (v : Z) (a : bios_area_s) : bios_area_s :=
  {| offset := offset a; buf := buf a; len := len a; is_valid := is_valid a;
     flags := flags a; version := version a; fw_size := v;
     metadata_hash := metadata_hash a |}.
Definition set_metadata_hash (v : Vb2.vb2_hash) (a : bios_area_s)
  : bios_area_s :=
  {| offset := offset a; buf := buf a; len := len a; is_valid := is_valid a;
     flags := flags a; version := version a; fw_size := fw_size a;
     metadata_hash := v |}.
End Area.

(** [struct bios_state_s] *)
Module State.
Record bios_state_s := {
  c : bios_component;
  area : bios_component -> Area.bios_area_s;
  recovery_key : Area.bios_area_s;
  rootkey : Area.bios_area_s
}.

(** [struct bios_state_s state = {0};] *)
Definition zero : bios_state_s :=
  {| c := BIOS_FMAP_GBB; area := fun _ => Area.zero;
     recovery_key := Area.zero; rootkey := Area.zero |}.

Definition set_c (v : bios_component) (s : bios_state_s) : bios_state_s :=
  {| c := v; area := area s; recovery_key := recovery_key s;
     rootkey := rootkey s |}.

(** [state->area[k].field = ...] *)
Definition upd_area (k : bios_component)
           (f : Area.bios_area_s -> Area.bios_area_s) (s : bios_state_s)
  : bios_state_s :=
  {| c := c s;
     area := fun j => if bios_component_eqb j k then f (area s k)
                      else area s j;
     recovery_key := recovery_key s; rootkey := rootkey s |}.

Definition upd_recovery_key (f : Area.bios_area_s -> Area.bios_area_s)
           (s : bios_state_s) : bios_state_s :=
  {| c := c s; area := area s; recovery_key := f (recovery_key s);
     rootkey := rootkey s |}.

Definition upd_rootkey (f : Area.bios_area_s -> Area.bios_area_s)
           (s : bios_state_s) : bios_state_s :=
  {| c := c s; area := area s; recovery_key := recovery_key s;
     rootkey := f (rootkey s) |}.
End State.

(** [struct sign_option_s sign_option], as far as the BIOS file type
    reads it.  Keys, keyblocks and signatures are the bytes of their
    objects. *)
Module SignOption.
Record sign_option_s := {
  signprivate : Mem.mem;
  keyblock : Mem.mem;
  kernel_subkey : Mem.mem;
  flags_specified : Z;
  flags : Z;
  version_specified : Z;
  version : Z;
  loemdir : option string;
  loemid : option string
}.
End SignOption.

(** [enum futil_file_type], as far as the recognizer returns it. *)
Inductive futil_file_type := FILE_TYPE_UNKNOWN | FILE_TYPE_BIOS_IMAGE.

(** ** Effects: the image, the console, and [exit]

    A run works on the bytes of the image (the file, and the buffer the
    file is mapped to) and prints messages; [FATAL] prints and leaves
    the process. *)

Inductive level := ERROR | WARN | INFO | VB2_DEBUG | STDOUT | FATAL.

(** A message: its stream, its format string and its arguments. *)
Record message := Msg {
  msg_level : level;
  msg_format : string;
  msg_names : list string;
  msg_values : list Z
}.

Record world := World { image : Mem.mem; console : list message }.

Inductive outcome (A : Type) :=
| Returns (a : A) (w : world)
| Exits (w : world).
Arguments Returns {A} a w.
Arguments Exits {A} w.

Definition M (A : Type) : Type := world -> outcome A.

(** The result and the final world of a run ([d] when the process
    exited). *)
Definition result_of {A} (d : A) (o : outcome A) : A :=
  match o with
  | Returns a _ => a
  | Exits _ => d
  end.

Definition world_of {A} (o : outcome A) : world :=
  match o with
  | Returns _ w => w
  | Exits w => w
  end.

Definition ret {A} (a : A) : M A := fun w => Returns a w.

Definition bind {A B} (c : M A) (k : A -> M B) : M B :=
  fun w => match c w with
           | Returns a w' => k a w'
           | Exits w' => Exits w'
           end.

Declare Scope run_scope.
Delimit Scope run_scope with run.
Notation "x <- c ;; k" := (bind c (fun x => k))
  (at level 61, c at next level, right associativity) : run_scope.
Notation "c ;; k" := (bind c (fun _ => k))
  (at level 61, right associativity) : run_scope.
Local Open Scope run_scope.

Definition say (l : level) (fmt : string) (names : list string)
           (values : list Z) : M unit :=
  fun w => Returns tt {| image := image w;
                         console := console w ++ [Msg l fmt names values] |}.

(** [FATAL(...)]: print and [exit(1)]. *)
Definition fatal {A} (fmt : string) (names : list string) : M A :=
  fun w => Exits {| image := image w;
                    console := console w ++ [Msg FATAL fmt names []] |}.

Definition get_image : M Mem.mem := fun w => Returns (image w) w.

Definition put_image (m : Mem.mem) : M unit :=
  fun w => Returns tt {| image := m; console := console w |}.

Definition when (b : bool) (c : M unit) : M unit := if b then c else ret tt.

(** A run that leaves every byte of the image as it was. *)
Definition keeps_image {A} (c : M A) : Prop :=
  forall w, image (world_of (c w)) = image w.

Definition emit (l : list message) : M unit :=
  fun w => Returns tt {| image := image w; console := console w ++ l |}.

(** ** The routines the BIOS file type calls

    [Host] collects the routines that file_type_bios.c calls and that
    live elsewhere (fmap.c, futility's misc.c and vb1_helper.c, 2lib,
    host_lib, cbfstool.c, stdio).  The checks and printers of the
    libraries read the image they are handed.  A lookup in the flash map
    yields the address of the area header it found, [None] when it
    returns [NULL]; library constructors yield [None] for [NULL].
    [show_fw_preamble_buf], the show function of the VBLOCK areas, is a
    run like the show functions below: it gets the buffer and the state,
    prints, and may change either. *)

Record Host := {
  (* fmap.h *)
  fmap_find : Mem.mem -> Z -> option Z;
  fmap_find_by_name : Mem.mem -> Z -> option Z -> string -> option Z;
  (* futility.h: the status of mapping the file, zero for success *)
  futil_open_and_map_file : string -> Mem.mem -> Z;
  (* validity and the maximal extent [maxlen] of the GBB *)
  futil_valid_gbb_header : Mem.mem -> Z -> Z -> bool * Z;
  print_hwid_digest : Mem.mem -> Z -> list message;
  show_pubkey : Mem.mem -> Z -> list message;
  show_fw_preamble_buf :
    string -> Z -> Z -> State.bios_state_s -> M (Z * State.bios_state_s);
  (* 2lib and host_lib *)
  vb2_packed_key_looks_ok : Mem.mem -> Z -> Z -> Z;
  vb2_verify_keyblock_hash : Mem.mem -> Z -> Z -> Z;
  vb2_unpack_key : Mem.mem -> Z -> Z * Mem.mem;
  vb2_verify_fw_preamble : Mem.mem -> Z -> Z -> Mem.mem -> Z;
  vb2_create_signature_from_hash : Vb2.vb2_hash -> option Mem.mem;
  vb2_calculate_signature : Mem.mem -> Z -> Z -> Mem.mem -> option Mem.mem;
  vb2_create_fw_preamble :
    Z -> Mem.mem -> Mem.mem -> Mem.mem -> Z -> option Mem.mem;
  (* cbfstool.h: the routines run cbfstool on the file [name], whose
     content they are handed; [cbfstool_truncate] rewrites the file *)
  cbfstool_get_config_value :
    string -> Mem.mem -> string -> Z * option string;
  cbfstool_truncate : string -> Mem.mem -> string -> Z -> Z * Z * Mem.mem;
  cbfstool_get_metadata_hash :
    string -> Mem.mem -> string -> Vb2.vb2_hash -> Z * Vb2.vb2_hash;
  (* stdio: does [fopen(filename, w)] open, does [fwrite] of the block
     return 1, does [fclose] return 0 *)
  fopen_w : string -> bool;
  fwrite_1 : string -> Mem.mem -> bool;
  fclose_0 : string -> bool
}.

Definition PATH_MAX : Z := 4096.

(** ** futility's BIOS file type *)

Module Bios.
Section WithHost.

Variable H : Host.
Variable sign_option : SignOption.sign_option_s.

(** [fmap_limit_area], run on the mapped image. *)
Definition limit_area (ah len : Z) : M unit :=
  m <- get_image ;; put_image (Fmap.fmap_limit_area ah len m).

(** *** Show functions *)

Definition show_gbb_buf (name : string) (buf len : Z)
           (state : option State.bios_state_s)
  : M (Z * option State.bios_state_s) :=
  let gbb := buf in
  if len =? 0 then
    say STDOUT "GBB header:              %s <invalid>\n" [name] [] ;;
    ret (1, state)
  else
    m <- get_image ;;
    let '(valid, maxlen) := futil_valid_gbb_header H m gbb len in
    let retval := if valid then 0 else 1 in
    say STDOUT "GBB header:              %s\n" [name] [] ;;
    say STDOUT "  Version:               %d.%d\n" []
        [Vb2.major_version m gbb; Vb2.minor_version m gbb] ;;
    say STDOUT "  Flags:                 0x%08x\n" [] [Vb2.gbb_flags m gbb] ;;
    say STDOUT "  Regions:                 offset       size\n" [] [] ;;
    say STDOUT "    hwid                 0x%08x   0x%08x\n" []
        [Vb2.hwid_offset m gbb; Vb2.hwid_size m gbb] ;;
    say STDOUT "    bmpvf                0x%08x   0x%08x\n" []
        [Vb2.bmpfv_offset m gbb; Vb2.bmpfv_size m gbb] ;;
    say STDOUT "    rootkey              0x%08x   0x%08x\n" []
        [Vb2.rootkey_offset m gbb; Vb2.rootkey_size m gbb] ;;
    say STDOUT "    recovery_key         0x%08x   0x%08x\n" []
        [Vb2.recovery_key_offset m gbb; Vb2.recovery_key_size m gbb] ;;
    say STDOUT "  Size:                  0x%08x / 0x%08x%s\n"
        [if maxlen >? len then "  (not enough)"%string else EmptyString] [maxlen; len] ;;
    if negb (retval =? 0) then
      say STDOUT "GBB header is invalid, ignoring content\n" [] [] ;;
      ret (retval, state)
    else
      say STDOUT "GBB content:\n" [] [] ;;
      say STDOUT "  HWID:                  %s\n" []
          [buf + Vb2.hwid_offset m gbb] ;;
      emit (print_hwid_digest H m gbb) ;;
      let pubkey := buf + Vb2.rootkey_offset m gbb in
      rs <- (if vb2_packed_key_looks_ok H m pubkey (Vb2.rootkey_size m gbb)
                =? Vb2.VB2_SUCCESS
             then
               let state :=
                 option_map
                   (fun st =>
                      State.upd_rootkey
                        (fun k =>
                           Area.set_is_valid 1
                             (Area.set_len (Vb2.rootkey_size m gbb)
                                (Area.set_buf (buf + Vb2.rootkey_offset m gbb)
                                   (Area.set_offset
                                      (u32 (Area.offset
                                              (State.area st BIOS_FMAP_GBB)
                                            + Vb2.rootkey_offset m gbb))
                                      k)))) st) state in
               say STDOUT "  Root Key:\n" [] [] ;;
               emit (show_pubkey H m pubkey) ;;
               ret (retval, state)
             else
               say STDOUT "  Root Key:              <invalid>\n" [] [] ;;
               ret (1, state)) ;;
      let '(retval, state) := rs in
      let pubkey := buf + Vb2.recovery_key_offset m gbb in
      rs <- (if vb2_packed_key_looks_ok H m pubkey
                  (Vb2.recovery_key_size m gbb) =? Vb2.VB2_SUCCESS
             then
               let state :=
                 option_map
                   (fun st =>
                      State.upd_recovery_key
                        (fun k =>
                           Area.set_is_valid 1
                             (Area.set_len (Vb2.recovery_key_size m gbb)
                                (Area.set_buf
                                   (buf + Vb2.recovery_key_offset m gbb)
                                   (Area.set_offset
                                      (u32 (Area.offset
                                              (State.area st BIOS_FMAP_GBB)
                                            + Vb2.recovery_key_offset m gbb))
                                      k)))) st) state in
               say STDOUT "  Recovery Key:\n" [] [] ;;
               emit (show_pubkey H m pubkey) ;;
               ret (retval, state)
             else
               say STDOUT "  Recovery Key:          <invalid>\n" [] [] ;;
               ret (1, state)) ;;
      let '(retval, state) := rs in
      let state :=
        if retval =? 0 then
          option_map (State.upd_area BIOS_FMAP_GBB (Area.set_is_valid 1))
                     state
        else state in
      ret (retval, state).

Definition ft_show_gbb (name : string) (data : option State.bios_state_s)
  : M Z :=
  m <- get_image ;;
  if negb (futil_open_and_map_file H name m =? 0) then ret 1
  else
    let buf := 0 in
    let len := u32 (Mem.size m) in
    rs <- show_gbb_buf name buf len data ;;
    ret (fst rs).

Definition fmap_show_fw_main (name : string) (buf len : Z)
           (state : State.bios_state_s) : M (Z * State.bios_state_s) :=
  if len =? 0 then
    say STDOUT "Firmware body:           %s <invalid>\n" [name] [] ;;
    ret (1, state)
  else
    say STDOUT "Firmware body:           %s\n" [name] [] ;;
    say STDOUT "  Offset:                0x%08x\n" []
        [Area.offset (State.area state (State.c state))] ;;
    say STDOUT "  Size:                  0x%08x\n" [] [len] ;;
    ret (0, State.upd_area (State.c state) (Area.set_is_valid 1) state).

(** Functions to call to show the bios components. *)
Definition fmap_show_fn (c : bios_component) (name : string) (buf len : Z)
           (state : State.bios_state_s) : M (Z * State.bios_state_s) :=
  match c with
  | BIOS_FMAP_GBB =>
      rs <- show_gbb_buf name buf len (Some state) ;;
      ret (fst rs, match snd rs with Some st => st | None => state end)
  | BIOS_FMAP_FW_MAIN_A | BIOS_FMAP_FW_MAIN_B =>
      fmap_show_fw_main name buf len state
  | BIOS_FMAP_VBLOCK_A | BIOS_FMAP_VBLOCK_B =>
      show_fw_preamble_buf H name buf len state
  end.

(** One pass of the loop of [ft_show_bios]. *)
Definition show_component (len : Z) (fmap : option Z)
           (acc : Z * State.bios_state_s) (c : bios_component)
  : M (Z * State.bios_state_s) :=
  let '(retval, state) := acc in
  m <- get_image ;;
  match fmap_find_by_name H m len fmap (fmap_name c) with
  | Some ah =>
      limit_area ah len ;;
      m <- get_image ;;
      let ah_name := Fmap.area_name m ah in
      let state := State.set_c c state in
      let state :=
        State.upd_area c (Area.set_offset (Fmap.area_offset m ah)) state in
      let state :=
        State.upd_area c (Area.set_buf (Fmap.area_offset m ah)) state in
      let state :=
        State.upd_area c (Area.set_len (Fmap.area_size m ah)) state in
      say VB2_DEBUG "showing FMAP area %d (%s), offset=0x%08x len=0x%08x\n"
          [ah_name] [Fmap.area_offset m ah; Fmap.area_size m ah] ;;
      rs <- fmap_show_fn c ah_name (Area.buf (State.area state c))
                         (Area.len (State.area state c)) state ;;
      ret (retval + fst rs, snd rs)
  | None => ret (retval, state)
  end.

Fixpoint for_each {S : Type} (body : S -> bios_component -> M S)
         (cs : list bios_component) (s : S) : M S :=
  match cs with
  | [] => ret s
  | c :: cs' => s' <- body s c ;; for_each body cs' s'
  end.

Definition ft_show_bios (name : string) : M Z :=
  m <- get_image ;;
  if negb (futil_open_and_map_file H name m =? 0) then ret 1
  else
    let len := u32 (Mem.size m) in
    say STDOUT "BIOS:                    %s\n" [name] [] ;;
    let fmap := fmap_find H m len in
    rs <- for_each (show_component len fmap) bios_components
                   (0, State.zero) ;;
    ret (fst rs).

(** *** Sign functions *)

Definition write_new_preamble (vblock fw_body : Area.bios_area_s)
           (signkey keyblock : Mem.mem) : M Z :=
  m <- get_image ;;
  let body_sig :=
    if negb (Vb2.algo (Area.metadata_hash fw_body) =? Vb2.VB2_HASH_INVALID)
    then vb2_create_signature_from_hash H (Area.metadata_hash fw_body)
    else vb2_calculate_signature H m (Area.buf fw_body) (Area.len fw_body)
                                 signkey in
  match body_sig with
  | None =>
      say ERROR "Cannot calculate or creating body signature\n" [] [] ;;
      ret 1
  | Some body_sig =>
      match vb2_create_fw_preamble H (Area.version vblock)
              (SignOption.kernel_subkey sign_option) body_sig signkey
              (Area.flags vblock) with
      | None =>
          say ERROR "Cannot create firmware preamble.\n" [] [] ;;
          ret 1
      | Some preamble =>
          if u32 (Vb2.keyblock_size keyblock 0
                  + Vb2.preamble_size preamble 0) >? Area.len vblock
          then
            say ERROR "Keyblock and preamble do not fit in VBLOCK.\n" [] [] ;;
            ret 1
          else
            (* Write the new keyblock *)
            let more := Vb2.keyblock_size keyblock 0 in
            put_image (Mem.memcpy m (Area.buf vblock) keyblock more) ;;
            (* and the new preamble *)
            m' <- get_image ;;
            put_image (Mem.memcpy m' (Area.buf vblock + more) preamble
                                  (Vb2.preamble_size preamble 0)) ;;
            ret 0
      end
  end.

Definition loem_filename (ab loemid : string) : string :=
  ((match SignOption.loemdir sign_option with
    | Some d => d
    | None => "."
    end) ++ "/vblock_" ++ ab ++ "." ++ loemid)%string.

Definition write_loem (ab loemid : string) (vblock : Area.bios_area_s)
  : M Z :=
  let filename := loem_filename ab loemid in
  let n := Z.of_nat (String.length filename) in
  if n >=? PATH_MAX then
    say ERROR "LOEM args produce bogus filename\n" [] [] ;;
    ret 1
  else if negb (fopen_w H filename) then
    say ERROR "Cannot open %s for writing: %s\n" [filename] [] ;;
    ret 1
  else
    m <- get_image ;;
    if negb (fwrite_1 H filename
               (Mem.sub m (Area.buf vblock) (Area.len vblock))) then
      say ERROR "Cannot write to %s: %s\n" [filename] [] ;;
      ret 1
    else if negb (fclose_0 H filename) then
      say ERROR "Failed closing loem output: %s\n" [] [] ;;
      ret 1
    else ret 0.

(** This signs a full BIOS image after it's been traversed. *)
Definition sign_bios_at_end (state : State.bios_state_s) : M Z :=
  let vblock_a := State.area state BIOS_FMAP_VBLOCK_A in
  let vblock_b := State.area state BIOS_FMAP_VBLOCK_B in
  let fw_a := State.area state BIOS_FMAP_FW_MAIN_A in
  let fw_b := State.area state BIOS_FMAP_FW_MAIN_B in
  let retval := 0 in
  if (Area.is_valid vblock_a =? 0) || (Area.is_valid fw_a =? 0) then
    say ERROR "Something's wrong. Not changing anything\n" [] [] ;;
    ret 1
  else
    r <- write_new_preamble vblock_a fw_a
           (SignOption.signprivate sign_option)
           (SignOption.keyblock sign_option) ;;
    let retval := Z.lor retval r in
    retval <- (if negb (Area.is_valid vblock_b =? 0)
                  && negb (Area.is_valid fw_b =? 0)
               then
                 r <- write_new_preamble vblock_b fw_b
                        (SignOption.signprivate sign_option)
                        (SignOption.keyblock sign_option) ;;
                 ret (Z.lor retval r)
               else
                 say INFO "BIOS image does not have %s. Signing only %s\n"
                     [fmap_name BIOS_FMAP_FW_MAIN_B;
                      fmap_name BIOS_FMAP_FW_MAIN_A] [] ;;
                 ret retval) ;;
    match SignOption.loemid sign_option with
    | Some loemid =>
        r <- write_loem "A" loemid vblock_a ;;
        let retval := Z.lor retval r in
        if negb (Area.is_valid vblock_b =? 0) then
          r <- write_loem "B" loemid vblock_b ;;
          ret (Z.lor retval r)
        else ret retval
    | None => ret retval
    end.

(** The checks that [prepare_slot] makes on the VBLOCK it found, from
    the keyblock hash down to the label [end]: the value of
    [keyblock_valid] there, the address [preamble] and the state. *)
Definition prepare_slot_checks (fw_c vblock_c : bios_component)
           (state : State.bios_state_s)
  : M (Z * Z * State.bios_state_s) :=
  let vblock_name := fmap_name vblock_c in
  m <- get_image ;;
  let vblock := State.area state vblock_c in
  let keyblock := Area.buf vblock in
  let preamble := Area.buf vblock + Vb2.keyblock_size m keyblock in
  if negb (vb2_verify_keyblock_hash H m keyblock (Area.len vblock)
           =? Vb2.VB2_SUCCESS) then
    say WARN "%s keyblock is invalid.\n" [vblock_name] [] ;;
    ret (0, preamble, state)
  else if negb (vb2_packed_key_looks_ok H m (Vb2.data_key keyblock)
                  (u32 (Vb2.key_offset m (Vb2.data_key keyblock)
                        + Vb2.key_size m (Vb2.data_key keyblock))) =? 0) then
    say WARN "%s public key is invalid.\n" [vblock_name] [] ;;
    ret (0, preamble, state)
  else
    let '(rv, data_key) := vb2_unpack_key H m (Vb2.data_key keyblock) in
    if negb (rv =? Vb2.VB2_SUCCESS) then
      say WARN "%s data key is invalid. Failed to parse.\n"
          [vblock_name] [] ;;
      ret (0, preamble, state)
    else if size_t (Vb2.keyblock_size m keyblock
                    + Vb2.sizeof_vb2_fw_preamble) >? Area.len vblock then
      say ERROR "%s is invalid. Keyblock and preamble do not fit.\n"
          [vblock_name] [] ;;
      ret (0, preamble, state)
    else if negb (vb2_verify_fw_preamble H m preamble
                    (u32 (Area.len vblock - Vb2.keyblock_size m keyblock))
                    data_key =? 0) then
      say WARN "%s preamble is invalid.\n" [vblock_name] [] ;;
      ret (0, preamble, state)
    else if Area.fw_size (State.area state fw_c) =? 0 then
      if Vb2.data_size m (Vb2.body_signature preamble)
         >? Area.len (State.area state fw_c) then
        say ERROR "%s says the firmware is larger than we have.\n"
            [vblock_name] [] ;;
        ret (0, preamble, state)
      else
        ret (1, preamble,
             State.upd_area fw_c
               (Area.set_len (Vb2.data_size m (Vb2.body_signature preamble)))
               state)
    else ret (1, preamble, state).

(** Prepare firmware slot for signing.
    If fw_size is not zero, then it will be used as new length of signed
    area, for zero the length will be taken form FlashMap or preamble. *)
Definition prepare_slot (len : Z) (fw_c vblock_c : bios_component)
           (state : State.bios_state_s) : M (Z * State.bios_state_s) :=
  let fw_main_name := fmap_name fw_c in
  let vblock_name := fmap_name vblock_c in
  m <- get_image ;;
  let fmap := fmap_find H m len in
  say VB2_DEBUG "Preparing areas: %s and %s\n"
      [fw_main_name; vblock_name] [] ;;
  (* FW_MAIN *)
  match fmap_find_by_name H m len fmap fw_main_name with
  | None =>
      say ERROR "%s area not found in FMAP\n" [fw_main_name] [] ;;
      ret (1, state)
  | Some ah =>
      limit_area ah len ;;
      m <- get_image ;;
      let state :=
        State.upd_area fw_c (Area.set_buf (Fmap.area_offset m ah))
                       state in
      let state := State.upd_area fw_c (Area.set_is_valid 1) state in
      if Area.fw_size (State.area state fw_c) >? Fmap.area_size m ah then
        say ERROR "%s size is incorrect.\n" [fmap_name fw_c] [] ;;
        ret (1, state)
      else
        state <-
          (if negb (Area.fw_size (State.area state fw_c) =? 0) then
             ret (State.upd_area fw_c
                    (Area.set_len
                       (u32 (Area.fw_size (State.area state fw_c)))) state)
           else
             when (Vb2.algo (Area.metadata_hash (State.area state fw_c))
                   =? Vb2.VB2_HASH_INVALID)
                  (say WARN
                     "%s does not contain CBFS. Trying to sign entire area.\n"
                     [fmap_name fw_c] []) ;;
             ret (State.upd_area fw_c
                    (Area.set_len (Fmap.area_size m ah)) state)) ;;
        (* Corresponding VBLOCK *)
        match fmap_find_by_name H m len fmap vblock_name with
        | None =>
            say ERROR "%s area not found in FMAP\n" [vblock_name] [] ;;
            ret (1, state)
        | Some ah =>
            limit_area ah len ;;
            m <- get_image ;;
            let state :=
              State.upd_area vblock_c
                (Area.set_buf (Fmap.area_offset m ah)) state in
            let state :=
              State.upd_area vblock_c (Area.set_len (Fmap.area_size m ah))
                             state in
            chk <- prepare_slot_checks fw_c vblock_c state ;;
            let '(keyblock_valid, preamble, state) := chk in
            (* end: *)
            let state :=
              State.upd_area vblock_c
                (Area.set_flags
                   (if negb (SignOption.flags_specified sign_option =? 0)
                    then SignOption.flags sign_option
                    else if negb (keyblock_valid =? 0)
                         then Vb2.flags m preamble
                         else 0)) state in
            let state :=
              State.upd_area vblock_c
                (Area.set_version
                   (if negb (SignOption.version_specified sign_option =? 0)
                    then SignOption.version sign_option
                    else if negb (keyblock_valid =? 0)
                         then Vb2.firmware_version m preamble
                         else 1)) state in
            let state :=
              State.upd_area vblock_c (Area.set_is_valid 1) state in
            ret (0, state)
        end
  end.

Definition image_uses_cbfs_integration (file : string) (m : Mem.mem)
  : bool :=
  let '(rv, value) :=
    cbfstool_get_config_value H file m "CONFIG_VBOOT_CBFS_INTEGRATION" in
  if negb (rv =? Vb2.VB2_SUCCESS) then false
  else match value with
       | Some v => String.eqb "y" v
       | None => false
       end.

Definition image_check_and_prepare_cbfs (file : string)
           (fw_c : bios_component) (uses_cbfs_integration : bool)
           (state : State.bios_state_s) : M State.bios_state_s :=
  if negb uses_cbfs_integration then
    m <- get_image ;;
    let '(rv, size, m') :=
      cbfstool_truncate H file m (fmap_name fw_c)
                        (Area.fw_size (State.area state fw_c)) in
    put_image m' ;;
    let state := State.upd_area fw_c (Area.set_fw_size size) state in
    if negb (rv =? Vb2.VB2_SUCCESS) then
      say VB2_DEBUG "CBFS not found in area %s\n" [fmap_name fw_c] [] ;;
      ret state
    else
      say VB2_DEBUG "CBFS found in area %s\n" [fmap_name fw_c] [] ;;
      ret state
  else
    m <- get_image ;;
    let '(rv, h) :=
      cbfstool_get_metadata_hash H file m (fmap_name fw_c)
        (Area.metadata_hash (State.area state fw_c)) in
    let state := State.upd_area fw_c (Area.set_metadata_hash h) state in
    if negb (rv =? Vb2.VB2_SUCCESS) then
      fatal ("CBFS metadata hash not found in area"
             ++ " %s. It is required for images with"
             ++ " VBOOT_CBFS_INTEGRATION")%string [fmap_name fw_c]
    else
      say VB2_DEBUG "CBFS metadata hash found in area %s\n"
          [fmap_name fw_c] [] ;;
      ret state.

Definition check_slot_after_prepare (fw_c : bios_component)
           (uses_cbfs_integration : bool) (state : State.bios_state_s)
  : M unit :=
  if negb (Area.is_valid (State.area state fw_c) =? 0)
     && uses_cbfs_integration
     && (Vb2.algo (Area.metadata_hash (State.area state fw_c))
         =? Vb2.VB2_HASH_INVALID)
  then
    fatal ("CBFS with metadata hash not found in area %s."
           ++ " It is required for images with"
           ++ " VBOOT_CBFS_INTEGRATION")%string [fmap_name fw_c]
  else ret tt.

Definition ft_sign_bios (name : string) : M Z :=
  let state := State.zero in
  m <- get_image ;;
  let uses_cbfs_integration := image_uses_cbfs_integration name m in
  state <- image_check_and_prepare_cbfs name BIOS_FMAP_FW_MAIN_A
             uses_cbfs_integration state ;;
  state <- image_check_and_prepare_cbfs name BIOS_FMAP_FW_MAIN_B
             uses_cbfs_integration state ;;
  m <- get_image ;;
  if negb (futil_open_and_map_file H name m =? 0) then ret 1
  else
    let len := u32 (Mem.size m) in
    rs <- prepare_slot len BIOS_FMAP_FW_MAIN_A BIOS_FMAP_VBLOCK_A state ;;
    let '(retval, state) := rs in
    if negb (retval =? 0) then ret retval
    else
      rs <- prepare_slot len BIOS_FMAP_FW_MAIN_B BIOS_FMAP_VBLOCK_B state ;;
      let '(retval, state) := rs in
      if negb (retval =? 0)
         && negb (Area.is_valid (State.area state BIOS_FMAP_FW_MAIN_B) =? 0)
      then ret retval
      else
        check_slot_after_prepare BIOS_FMAP_FW_MAIN_A uses_cbfs_integration
                                 state ;;
        check_slot_after_prepare BIOS_FMAP_FW_MAIN_B uses_cbfs_integration
                                 state ;;
        sign_bios_at_end state.

Definition ft_recognize_bios_image (buf : Mem.mem) (len : Z)
  : futil_file_type :=
  match fmap_find H buf len with
  | None => FILE_TYPE_UNKNOWN
  | Some fmap =>
      let found (c : bios_component) : Z :=
        match fmap_find_by_name H buf len (Some fmap) (fmap_name c) with
        | Some _ => 1
        | None => 0
        end in
      let gbb_slot := found BIOS_FMAP_GBB in
      let fw_slot_a := found BIOS_FMAP_FW_MAIN_A in
      let vblock_slot_a := found BIOS_FMAP_VBLOCK_A in
      if negb (gbb_slot =? 0) && negb (fw_slot_a =? 0)
         && negb (vblock_slot_a =? 0)
      then FILE_TYPE_BIOS_IMAGE
      else FILE_TYPE_UNKNOWN
  end.

End WithHost.
End Bios.

(** ** utility/kernel_utility.cc *)

Module KernelUtility.

(** [KernelImage] of kernel_image.h, with the fields that
    [GenerateSignedImage] and the library fill.  A pointer field is
    [None] when it is [NULL]. *)
Record KernelImage := {
  magic : Mem.mem;
  header_version : Z;
  header_len : Z;
  firmware_sign_algorithm : Z;
  kernel_sign_algorithm : Z;
  kernel_key_version : Z;
  kernel_sign_key : option Mem.mem;
  header_checksum : Mem.mem;
  kernel_key_signature : option Mem.mem;
  kernel_version : Z;
  padded_header_size : Z;
  kernel_len : Z;
  bootloader_offset : Z;
  bootloader_size : Z;
  preamble_signature : option Mem.mem;
  kernel_signature : option Mem.mem;
  kernel_data : option Mem.mem
}.

(** [MemcpyState] of stateful_util.h. *)
Record MemcpyState := {
  remaining_len : Z;
  remaining_buf : Mem.mem;
  overrun : Z
}.

(** The members of [KernelUtility] that [GenerateSignedImage] reads. *)
Record Options := {
  firmware_key_file_ : string;
  kernel_key_file_ : string;
  kernel_key_pub_file_ : string;
  subkey_in_file_ : string;
  firmware_sign_algorithm_ : Z;
  kernel_sign_algorithm_ : Z;
  kernel_key_version_ : Z;
  kernel_version_ : Z;
  padding_ : Z;
  vmlinuz_file_ : string;
  config_file_ : string;
  bootloader_file_ : string
}.

(** The routines of cryptolib, file_keys, kernel_image and
    stateful_util that [GenerateSignedImage] calls.  [BufferFromFile]
    yields the content of a file; the routines that return zero on an
    error and update the image yield the status and the image;
    [StatefulMemcpy] yields the state and the bytes it copied, if it
    copied; [GenerateKernelBlob] yields the blob and the three lengths
    it stores. *)
Record Lib := {
  KernelImageNew : KernelImage;
  KERNEL_MAGIC : Mem.mem;
  SHA512_DIGEST_SIZE : Z;
  kNumAlgorithms : Z;
  siglen_map : Z -> Z;
  RSAProcessedKeySize : Z -> Z;
  Malloc : Z -> Mem.mem;
  BufferFromFile : string -> option Mem.mem;
  GetKernelHeaderLen : KernelImage -> Z;
  CalculateKernelHeaderChecksum : KernelImage -> Mem.mem;
  SafeMemcmp : Mem.mem -> Mem.mem -> Z -> Z;
  StatefulMemcpy : MemcpyState -> Z -> MemcpyState * option Mem.mem;
  AddKernelKeySignature : KernelImage -> string -> bool * KernelImage;
  GenerateKernelBlob :
    string -> string -> string -> KernelImage
    -> option Mem.mem * Z * Z * Z;
  AddKernelSignature : KernelImage -> string -> bool * KernelImage
}.

(** What a run of [GenerateSignedImage] does that can be seen from
    outside: the signing and blob routines it calls and what it prints
    on [cerr] or with [debug]. *)
Inductive event :=
| Call_AddKernelKeySignature (firmware_key_file : string)
| Call_GenerateKernelBlob
| Call_AddKernelSignature (kernel_key_file : string)
| Emit_cerr (text : string)
| Emit_debug (text : string).

Record result := {
  returned : bool;
  image_ : KernelImage;
  events : list event
}.

(** The calls that compute a signature, and those that build and sign
    the kernel body. *)
Definition is_signing_call (e : event) : bool :=
  match e with
  | Call_AddKernelKeySignature _ | Call_AddKernelSignature _ => true
  | _ => false
  end.

Definition is_body_call (e : event) : bool :=
  match e with
  | Call_GenerateKernelBlob | Call_AddKernelSignature _ => true
  | _ => false
  end.

(** Two images agree on the signatures, the kernel blob and the kernel
    version: the fields that reading a subkey header leaves alone. *)
Definition same_body (a b : KernelImage) : Prop :=
  kernel_key_signature a = kernel_key_signature b
  /\ preamble_signature a = preamble_signature b
  /\ kernel_signature a = kernel_signature b
  /\ kernel_data a = kernel_data b
  /\ kernel_version a = kernel_version b.

(** [FIELD_LEN] of the 16-bit header fields. *)
Definition FIELD_LEN_uint16 : Z := 2.

Definition set_magic v (i : KernelImage) : KernelImage :=
  {| magic := v; header_version := header_version i;
     header_len := header_len i;
     firmware_sign_algorithm := firmware_sign_algorithm i;
     kernel_sign_algorithm := kernel_sign_algorithm i;
     kernel_key_version := kernel_key_version i;
     kernel_sign_key := kernel_sign_key i;
     header_checksum := header_checksum i;
     kernel_key_signature := kernel_key_signature i;
     kernel_version := kernel_version i;
     padded_header_size := padded_header_size i;
     kernel_len := kernel_len i; bootloader_offset := bootloader_offset i;
     bootloader_size := bootloader_size i;
     preamble_signature := preamble_signature i;
     kernel_signature := kernel_signature i; kernel_data := kernel_data i |}.
Definition set_header_version v (i : KernelImage) : KernelImage :=
  {| magic := magic i; header_version := v; header_len := header_len i;
     firmware_sign_algorithm := firmware_sign_algorithm i;
     kernel_sign_algorithm := kernel_sign_algorithm i;
     kernel_key_version := kernel_key_version i;
     kernel_sign_key := kernel_sign_key i;
     header_checksum := header_checksum i;
     kernel_key_signature := kernel_key_signature i;
     kernel_version := kernel_version i;
     padded_header_size := padded_header_size i;
     kernel_len := kernel_len i; bootloader_offset := bootloader_offset i;
     bootloader_size := bootloader_size i;
     preamble_signature := preamble_signature i;
     kernel_signature := kernel_signature i; kernel_data := kernel_data i |}.
Definition set_header_len v (i : KernelImage) : KernelImage :=
  {| magic := magic i; header_version := header_version i; header_len := v;
     firmware_sign_algorithm := firmware_sign_algorithm i;
     kernel_sign_algorithm := kernel_sign_algorithm i;
     kernel_key_version := kernel_key_version i;
     kernel_sign_key := kernel_sign_key i;
     header_checksum := header_checksum i;
     kernel_key_signature := kernel_key_signature i;
     kernel_version := kernel_version i;
     padded_header_size := padded_header_size i;
     kernel_len := kernel_len i; bootloader_offset := bootloader_offset i;
     bootloader_size := bootloader_size i;
     preamble_signature := preamble_signature i;
     kernel_signature := kernel_signature i; kernel_data := kernel_data i |}.
Definition set_firmware_sign_algorithm v (i : KernelImage) : KernelImage :=
  {| magic := magic i; header_version := header_version i;
     header_len := header_len i; firmware_sign_algorithm := v;
     kernel_sign_algorithm := kernel_sign_algorithm i;
     kernel_key_version := kernel_key_version i;
     kernel_sign_key := kernel_sign_key i;
     header_checksum := header_checksum i;
     kernel_key_signature := kernel_key_signature i;
     kernel_version := kernel_version i;
     padded_header_size := padded_header_size i;
     kernel_len := kernel_len i; bootloader_offset := bootloader_offset i;
     bootloader_size := bootloader_size i;
     preamble_signature := preamble_signature i;
     kernel_signature := kernel_signature i; kernel_data := kernel_data i |}.
Definition set_kernel_sign_algorithm v (i : KernelImage) : KernelImage :=
  {| magic := magic i; header_version := header_version i;
     header_len := header_len i;
     firmware_sign_algorithm := firmware_sign_algorithm i;
     kernel_sign_algorithm := v;
     kernel_key_version := kernel_key_version i;
     kernel_sign_key := kernel_sign_key i;
     header_checksum := header_checksum i;
     kernel_key_signature := kernel_key_signature i;
     kernel_version := kernel_version i;
     padded_header_size := padded_header_size i;
     kernel_len := kernel_len i; bootloader_offset := bootloader_offset i;
     bootloader_size := bootloader_size i;
     preamble_signature := preamble_signature i;
     kernel_signature := kernel_signature i; kernel_data := kernel_data i |}.
Definition set_kernel_key_version v (i : KernelImage) : KernelImage :=
  {| magic := magic i; header_version := header_version i;
     header_len := header_len i;
     firmware_sign_algorithm := firmware_sign_algorithm i;
     kernel_sign_algorithm := kernel_sign_algorithm i;
     kernel_key_version := v;
     kernel_sign_key := kernel_sign_key i;
     header_checksum := header_checksum i;
     kernel_key_signature := kernel_key_signature i;
     kernel_version := kernel_version i;
     padded_header_size := padded_header_size i;
     kernel_len := kernel_len i; bootloader_offset := bootloader_offset i;
     bootloader_size := bootloader_size i;
     preamble_signature := preamble_signature i;
     kernel_signature := kernel_signature i; kernel_data := kernel_data i |}.
Definition set_kernel_sign_key v (i : KernelImage) : KernelImage :=
  {| magic := magic i; header_version := header_version i;
     header_len := header_len i;
     firmware_sign_algorithm := firmware_sign_algorithm i;
     kernel_sign_algorithm := kernel_sign_algorithm i;
     kernel_key_version := kernel_key_version i;
     kernel_sign_key := v;
     header_checksum := header_checksum i;
     kernel_key_signature := kernel_key_signature i;
     kernel_version := kernel_version i;
     padded_header_size := padded_header_size i;
     kernel_len := kernel_len i; bootloader_offset := bootloader_offset i;
     bootloader_size := bootloader_size i;
     preamble_signature := preamble_signature i;
     kernel_signature := kernel_signature i; kernel_data := kernel_data i |}.
Definition set_header_checksum v (i : KernelImage) : KernelImage :=
  {| magic := magic i; header_version := header_version i;
     header_len := header_len i;
     firmware_sign_algorithm := firmware_sign_algorithm i;
     kernel_sign_algorithm := kernel_sign_algorithm i;
     kernel_key_version := kernel_key_version i;
     kernel_sign_key := kernel_sign_key i;
     header_checksum := v;
     kernel_key_signature := kernel_key_signature i;
     kernel_version := kernel_version i;
     padded_header_size := padded_header_size i;
     kernel_len := kernel_len i; bootloader_offset := bootloader_offset i;
     bootloader_size := bootloader_size i;
     preamble_signature := preamble_signature i;
     kernel_signature := kernel_signature i; kernel_data := kernel_data i |}.
Definition set_kernel_key_signature v (i : KernelImage) : KernelImage :=
  {| magic := magic i; header_version := header_version i;
     header_len := header_len i;
     firmware_sign_algorithm := firmware_sign_algorithm i;
     kernel_sign_algorithm := kernel_sign_algorithm i;
     kernel_key_version := kernel_key_version i;
     kernel_sign_key := kernel_sign_key i;
     header_checksum := header_checksum i;
     kernel_key_signature := v;
     kernel_version := kernel_version i;
     padded_header_size := padded_header_size i;
     kernel_len := kernel_len i; bootloader_offset := bootloader_offset i;
     bootloader_size := bootloader_size i;
     preamble_signature := preamble_signature i;
     kernel_signature := kernel_signature i; kernel_data := kernel_data i |}.
Definition set_kernel_version v (i : KernelImage) : KernelImage :=
  {| magic := magic i; header_version := header_version i;
     header_len := header_len i;
     firmware_sign_algorithm := firmware_sign_algorithm i;
     kernel_sign_algorithm := kernel_sign_algorithm i;
     kernel_key_version := kernel_key_version i;
     kernel_sign_key := kernel_sign_key i;
     header_checksum := header_checksum i;
     kernel_key_signature := kernel_key_signature i;
     kernel_version := v;
     padded_header_size := padded_header_size i;
     kernel_len := kernel_len i; bootloader_offset := bootloader_offset i;
     bootloader_size := bootloader_size i;
     preamble_signature := preamble_signature i;
     kernel_signature := kernel_signature i; kernel_data := kernel_data i |}.
Definition set_padded_header_size v (i : KernelImage) : KernelImage :=
  {| magic := magic i; header_version := header_version i;
     header_len := header_len i;
     firmware_sign_algorithm := firmware_sign_algorithm i;
     kernel_sign_algorithm := kernel_sign_algorithm i;
     kernel_key_version := kernel_key_version i;
     kernel_sign_key := kernel_sign_key i;
     header_checksum := header_checksum i;
     kernel_key_signature := kernel_key_signature i;
     kernel_version := kernel_version i;
     padded_header_size := v;
     kernel_len := kernel_len i; bootloader_offset := bootloader_offset i;
     bootloader_size := bootloader_size i;
     preamble_signature := preamble_signature i;
     kernel_signature := kernel_signature i; kernel_data := kernel_data i |}.
(** The blob and the lengths that [GenerateKernelBlob] stores. *)
Definition set_kernel_blob (data : option Mem.mem) (klen boff bsize : Z)
           (i : KernelImage) : KernelImage :=
  {| magic := magic i; header_version := header_version i;
     header_len := header_len i;
     firmware_sign_algorithm := firmware_sign_algorithm i;
     kernel_sign_algorithm := kernel_sign_algorithm i;
     kernel_key_version := kernel_key_version i;
     kernel_sign_key := kernel_sign_key i;
     header_checksum := header_checksum i;
     kernel_key_signature := kernel_key_signature i;
     kernel_version := kernel_version i;
     padded_header_size := padded_header_size i;
     kernel_len := klen; bootloader_offset := boff;
     bootloader_size := bsize;
     preamble_signature := preamble_signature i;
     kernel_signature := kernel_signature i; kernel_data := data |}.

Definition empty (s : string) : bool :=
  match s with
  | EmptyString => true
  | String _ _ => false
  end.

Section WithLib.

Variable L : Lib.

(** [StatefulMemcpy(&st, &image_->field, FIELD_LEN(field))] for a
    16-bit field: the field changes when bytes were copied. *)
Definition read_uint16 (st : MemcpyState)
           (set : Z -> KernelImage -> KernelImage) (image : KernelImage)
  : MemcpyState * KernelImage :=
  let '(st', copied) := StatefulMemcpy L st FIELD_LEN_uint16 in
  (st', match copied with
        | Some b => set (Mem.load16 b 0) image
        | None => image
        end).

(** Lines 314-319: the four fields at the start of the subkey
    header. *)
Definition read_algorithms (st : MemcpyState) (image : KernelImage)
  : MemcpyState * KernelImage :=
  let '(st, image) := read_uint16 st set_header_version image in
  let '(st, image) := read_uint16 st set_header_len image in
  let '(st, image) := read_uint16 st set_firmware_sign_algorithm image in
  read_uint16 st set_kernel_sign_algorithm image.

(** Lines 346-351: the key version, the pre-processed public half of
    the kernel signing key, and the stored header checksum. *)
Definition read_key (st : MemcpyState) (image : KernelImage)
  : MemcpyState * KernelImage :=
  let kernel_sign_key_len :=
    RSAProcessedKeySize L (kernel_sign_algorithm image) in
  let '(st, image) := read_uint16 st set_kernel_key_version image in
  let '(st, copied) := StatefulMemcpy L st kernel_sign_key_len in
  let image :=
    set_kernel_sign_key
      (Some (match copied with
             | Some b => b
             | None => Malloc L kernel_sign_key_len
             end)) image in
  let '(st, copied) := StatefulMemcpy L st (SHA512_DIGEST_SIZE L) in
  (st, match copied with
       | Some b => set_header_checksum b image
       | None => image
       end).

(** The test of lines 354-356: does the checksum computed from the
    header differ from the one read from it? *)
Definition checksum_differs (image : KernelImage) : bool :=
  negb (SafeMemcmp L (CalculateKernelHeaderChecksum L image)
                   (header_checksum image) (SHA512_DIGEST_SIZE L) =? 0).

(** The image as [GenerateSignedImage] has it at line 354, where it
    compares the checksums, when it read the subkey header [buf]. *)
Definition parsed_subkey_header (buf : Mem.mem) : KernelImage :=
  let st := {| remaining_len := Mem.size buf; remaining_buf := buf;
               overrun := 0 |} in
  let '(st, image) :=
    read_algorithms st (set_magic (KERNEL_MAGIC L) (KernelImageNew L)) in
  snd (read_key st image).

(** The [else] branch of [GenerateSignedImage], lines 292-371: use an
    existing subkey header.  [return NULL] in this [bool] function
    returns false. *)
Definition use_existing_subkey_header (o : Options) (image : KernelImage)
  : result :=
  match BufferFromFile L (subkey_in_file_ o) with
  | None =>
      {| returned := false; image_ := image;
         events := [Emit_cerr "Couldn't read subkey header from file %s\n"] |}
  | Some subkey_header_buf =>
      let st := {| remaining_len := Mem.size subkey_header_buf;
                   remaining_buf := subkey_header_buf;
                   overrun := 0 |} in
      let '(st, image) := read_algorithms st image in
      (* Valid Kernel Key signing algorithm. *)
      if firmware_sign_algorithm image >=? kNumAlgorithms L then
        {| returned := false; image_ := image; events := [] |}
      (* Valid Kernel Signing Algorithm? *)
      else if kernel_sign_algorithm image >=? kNumAlgorithms L then
        {| returned := false; image_ := image; events := [] |}
      else
        let kernel_key_signature_len :=
          siglen_map L (firmware_sign_algorithm image) in
        (* Check whether key header length is correct. *)
        let header_len' := GetKernelHeaderLen L image in
        if negb (header_len' =? header_len image) then
          {| returned := false; image_ := image;
             events := [Emit_debug "Header length mismatch. Got: %d, Expected: %d\n"] |}
        else
          let '(st, image) := read_key st image in
          (* Check whether the header checksum matches. *)
          if checksum_differs image then
            {| returned := false; image_ := image;
               events := [Emit_debug "Invalid kernel header checksum!\n"] |}
          else
            (* Read key signature. *)
            let '(st, copied) :=
              StatefulMemcpy L st kernel_key_signature_len in
            let image :=
              set_kernel_key_signature
                (Some (match copied with
                       | Some b => b
                       | None => Malloc L kernel_key_signature_len
                       end)) image in
            if negb (overrun st =? 0) || negb (remaining_len st =? 0) then
              {| returned := false; image_ := image; events := [] |}
            else
              {| returned := true; image_ := image; events := [] |}
  end.

(** Lines 373-391: fill up kernel preamble and kernel data, generate
    and add the preamble and data signatures. *)
Definition fill_and_sign_kernel (o : Options) (image : KernelImage)
           (before : list event) : result :=
  let image := set_kernel_version (u16 (kernel_version_ o)) image in
  let image :=
    if negb (padding_ o =? 0) then set_padded_header_size (padding_ o) image
    else image in
  let '(data, klen, boff, bsize) :=
    GenerateKernelBlob L (vmlinuz_file_ o) (config_file_ o)
                       (bootloader_file_ o) image in
  let image := set_kernel_blob data klen boff bsize image in
  match data with
  | None =>
      {| returned := false; image_ := image;
         events := before ++ [Call_GenerateKernelBlob] |}
  | Some _ =>
      let '(ok, image) := AddKernelSignature L image (kernel_key_file_ o) in
      if negb ok then
        {| returned := false; image_ := image;
           events :=
             before ++ [Call_GenerateKernelBlob;
                        Call_AddKernelSignature (kernel_key_file_ o);
                        Emit_cerr "Couldn't write firmware signature to verified boot kernel image.\n"] |}
      else
        {| returned := true; image_ := image;
           events :=
             before ++ [Call_GenerateKernelBlob;
                        Call_AddKernelSignature (kernel_key_file_ o)] |}
  end.

(** [bool KernelUtility::GenerateSignedImage(void)].  Every path
    through the [else] branch returns (lines 305, 324, 330, 343, 359,
    369 and 370), so that lines 373-391 follow the first branch only. *)
Definition GenerateSignedImage (o : Options) : result :=
  let image := KernelImageNew L in
  let image := set_magic (KERNEL_MAGIC L) image in
  if empty (subkey_in_file_ o) then
    (* We must generate the kernel key signature header (subkey header)
       ourselves. *)
    let image := set_header_version 1 image in
    let image :=
      set_firmware_sign_algorithm (u16 (firmware_sign_algorithm_ o)) image in
    let image :=
      set_kernel_sign_algorithm (u16 (kernel_sign_algorithm_ o)) image in
    let image :=
      set_kernel_sign_key (BufferFromFile L (kernel_key_pub_file_ o)) image in
    match kernel_sign_key image with
    | None => {| returned := false; image_ := image; events := [] |}
    | Some _ =>
        let image :=
          set_kernel_key_version (u16 (kernel_key_version_ o)) image in
        (* Update header length. *)
        let image := set_header_len (u16 (GetKernelHeaderLen L image)) image in
        (* Calculate header checksum. *)
        let image :=
          set_header_checksum (CalculateKernelHeaderChecksum L image) image in
        (* Generate and add the key signatures. *)
        let '(ok, image) :=
          AddKernelKeySignature L image (firmware_key_file_ o) in
        if negb ok then
          {| returned := false; image_ := image;
             events :=
               [Call_AddKernelKeySignature (firmware_key_file_ o);
                Emit_cerr "Couldn't write key signature to verified boot kernel image.\n"] |}
        else
          fill_and_sign_kernel o image
            [Call_AddKernelKeySignature (firmware_key_file_ o)]
    end
  else
    (* Use existing subkey header. *)
    use_existing_subkey_header o image.

End WithLib.
End KernelUtility.

(** ** What [prepare_slot] looks at

    The two lookups of [prepare_slot] and the validity of the chain it
    finds, as functions of the image, to state its properties with. *)

Module Slot.
Section WithHost.

Variable H : Host.

(** The image after [prepare_slot] has found and limited the body area:
    the address of its header and the image. *)
Definition body_area (len : Z) (fw_c : bios_component) (m : Mem.mem)
  : option (Z * Mem.mem) :=
  match fmap_find_by_name H m len (fmap_find H m len) (fmap_name fw_c) with
  | Some ah => Some (ah, Fmap.fmap_limit_area ah len m)
  | None => None
  end.

(** The same for the VBLOCK area, looked up in the image [m1] that the
    first step left, in the flash map found in the image [m]. *)
Definition vblock_area (len : Z) (vblock_c : bios_component)
           (m m1 : Mem.mem) : option (Z * Mem.mem) :=
  match fmap_find_by_name H m1 len (fmap_find H m len) (fmap_name vblock_c)
  with
  | Some ah => Some (ah, Fmap.fmap_limit_area ah len m1)
  | None => None
  end.

(** The checks of [prepare_slot] on the keyblock at [keyblock] and the
    preamble behind it, in a VBLOCK of [vblock_len] bytes: keyblock
    hash, data key, fit, preamble signature. *)
Definition chain_valid (m : Mem.mem) (keyblock vblock_len : Z) : bool :=
  (vb2_verify_keyblock_hash H m keyblock vblock_len =? Vb2.VB2_SUCCESS)
  && (vb2_packed_key_looks_ok H m (Vb2.data_key keyblock)
        (u32 (Vb2.key_offset m (Vb2.data_key keyblock)
              + Vb2.key_size m (Vb2.data_key keyblock))) =? 0)
  && (fst (vb2_unpack_key H m (Vb2.data_key keyblock)) =? Vb2.VB2_SUCCESS)
  && negb (size_t (Vb2.keyblock_size m keyblock + Vb2.sizeof_vb2_fw_preamble)
           >? vblock_len)
  && (vb2_verify_fw_preamble H m (keyblock + Vb2.keyblock_size m keyblock)
        (u32 (vblock_len - Vb2.keyblock_size m keyblock))
        (snd (vb2_unpack_key H m (Vb2.data_key keyblock))) =? 0).

(** The length the body signature of the preamble behind the keyblock
    covers. *)
Definition signed_size (m : Mem.mem) (keyblock : Z) : Z :=
  Vb2.data_size m
    (Vb2.body_signature (keyblock + Vb2.keyblock_size m keyblock)).

(** The length of the body that a prepared slot is signed over: the
    size [fw_size] when it is not zero, else the size the valid existing
    preamble signs when the body area holds that much, else the size
    [area_size] of the body area. *)
Definition resolved_len (fw_size area_size : Z) (valid : bool)
           (signed : Z) : Z :=
  if negb (fw_size =? 0) then u32 fw_size
  else if valid && negb (signed >? area_size) then signed
  else area_size.

End WithHost.

(** The warning of [prepare_slot] that the body holds no CBFS. *)
Definition cbfs_warning (fw_c : bios_component) : message :=
  Msg WARN "%s does not contain CBFS. Trying to sign entire area.\n"
      [fmap_name fw_c] [].

(** What [sign_bios_at_end] says when it signs slot A alone. *)
Definition only_slot_a_message : message :=
  Msg INFO "BIOS image does not have %s. Signing only %s\n"
      [fmap_name BIOS_FMAP_FW_MAIN_B; fmap_name BIOS_FMAP_FW_MAIN_A] [].

(** The resolution of the body length in the words of the
    specification: the explicit length when there is one, else the
    length [self_described] that the payload's own integrity metadata
    implies when it has such metadata, else the whole body area. *)
Definition spec_resolved_len (fw_size : Z) (self_described : option Z)
           (area_size : Z) : Z :=
  if negb (fw_size =? 0) then fw_size
  else match self_described with
       | Some n => n
       | None => area_size
       end.

End Slot.

(** ** An example host and example images

    One implementation of [Host], to run the functions on concrete
    images: the flash map is parsed in its on-flash format
    ([__FMAP__], a 56-byte header with the number of areas in its last
    two bytes, then 42-byte area headers), and the vboot primitives are
    replaced by structural checks (a keyblock starts with [CHROMEOS],
    sizes fit) instead of digests and RSA. *)

Module Example.

Definition bytes_of_string (s : string) : Mem.mem :=
  List.map Ascii.byte_of_ascii (list_ascii_of_string s).

Definition zeros (n : Z) : Mem.mem := repeat x00 (Z.to_nat n).

(** [l], cut or filled with zeros to [n] bytes. *)
Definition field (n : Z) (l : Mem.mem) : Mem.mem :=
  firstn (Z.to_nat n) (l ++ zeros n).

Definition le16 (v : Z) : Mem.mem :=
  [Mem.byte_of_Z v; Mem.byte_of_Z (v / 2 ^ 8)].

Fixpoint starts_with (sig m : Mem.mem) : bool :=
  match sig, m with
  | [], _ => true
  | _ :: _, [] => false
  | a :: sig', b :: m' => Byte.eqb a b && starts_with sig' m'
  end.

Definition FMAP_SIGNATURE : Mem.mem := bytes_of_string "__FMAP__".

Fixpoint find_signature (m : Mem.mem) (at_ : Z) : option Z :=
  match m with
  | [] => None
  | _ :: m' =>
      if starts_with FMAP_SIGNATURE m then Some at_
      else find_signature m' (at_ + 1)
  end.

Definition find_fmap (m : Mem.mem) (len : Z) : option Z :=
  find_signature m 0.

Fixpoint lookup_area (m : Mem.mem) (name : string) (ah : Z) (n : nat)
  : option Z :=
  match n with
  | O => None
  | S n' =>
      if String.eqb (Fmap.area_name m ah) name then Some ah
      else lookup_area m name (ah + 42) n'
  end.

Definition find_area_by_name (m : Mem.mem) (len : Z) (fmap : option Z)
           (name : string) : option Z :=
  match (match fmap with Some f => Some f | None => find_fmap m len end) with
  | Some f => lookup_area m name (f + 56) (Z.to_nat (Mem.load16 m (f + 54)))
  | None => None
  end.

Definition KEYBLOCK_MAGIC : Mem.mem := bytes_of_string "CHROMEOS".

Definition verify_keyblock_hash (m : Mem.mem) (kb size : Z) : Z :=
  if starts_with KEYBLOCK_MAGIC (skipn (Z.to_nat kb) m)
     && (112 <=? Vb2.keyblock_size m kb)
     && (Vb2.keyblock_size m kb <=? size)
  then 0 else 1.

Definition packed_key_looks_ok (m : Mem.mem) (k size : Z) : Z :=
  if (32 <=? Vb2.key_offset m k)
     && (Vb2.key_offset m k + Vb2.key_size m k <=? size)
  then 0 else 1.

Definition unpack_key (m : Mem.mem) (k : Z) : Z * Mem.mem :=
  if 0 <? Vb2.key_size m k
  then (0, Mem.sub m (k + Vb2.key_offset m k) (Vb2.key_size m k))
  else (1, []).

Definition verify_fw_preamble (m : Mem.mem) (p size : Z)
           (key : Mem.mem) : Z :=
  if (108 <=? Vb2.preamble_size m p) && (Vb2.preamble_size m p <=? size)
  then 0 else 1.

Definition calculate_signature (m : Mem.mem) (buf len : Z)
           (key : Mem.mem) : option Mem.mem :=
  Some (Mem.le32 len ++ field 4 key).

Definition create_signature_from_hash (h : Vb2.vb2_hash)
  : option Mem.mem :=
  Some (field 8 (Vb2.raw h)).

(** A preamble without signature data: the 108 bytes of the structure,
    with its size, the firmware version, the size the body signature
    covers (the first four bytes of [body_sig]) and the flags. *)
Definition create_fw_preamble (version : Z) (subkey body_sig
           signkey : Mem.mem) (flags : Z) : option Mem.mem :=
  Some (Mem.le32 108 ++ zeros 36 ++ Mem.le32 version ++ zeros 52
        ++ field 4 body_sig ++ zeros 4 ++ Mem.le32 flags).

(** What cbfstool answers about a file: the value of
    CONFIG_VBOOT_CBFS_INTEGRATION, the size of the CBFS in a region, and
    the metadata hash of a region. *)
Record Cbfs := {
  config : option string;
  cbfs_size : string -> option Z;
  metadata : string -> option Vb2.vb2_hash
}.

Definition host (t : Cbfs) : Host :=
  {| fmap_find := find_fmap;
     fmap_find_by_name := find_area_by_name;
     futil_open_and_map_file := fun _ m =>
       if Mem.size m <=? UINT32_MAX then 0 else 1;
     futil_valid_gbb_header := fun m g len =>
       (starts_with (bytes_of_string "$GBB") (skipn (Z.to_nat g) m)
        && (128 <=? len), 128);
     print_hwid_digest := fun _ _ => [];
     show_pubkey := fun _ _ => [];
     show_fw_preamble_buf := fun name buf len state =>
       (m <- get_image ;;
        if verify_keyblock_hash m buf len =? 0 then
          say STDOUT "Keyblock:                %s\n" [name] [] ;;
          ret (0, State.upd_area (State.c state) (Area.set_is_valid 1) state)
        else
          say STDOUT "%s keyblock component is invalid\n" [name] [] ;;
          ret (1, state))%run;
     vb2_packed_key_looks_ok := packed_key_looks_ok;
     vb2_verify_keyblock_hash := verify_keyblock_hash;
     vb2_unpack_key := unpack_key;
     vb2_verify_fw_preamble := verify_fw_preamble;
     vb2_create_signature_from_hash := create_signature_from_hash;
     vb2_calculate_signature := calculate_signature;
     vb2_create_fw_preamble := create_fw_preamble;
     cbfstool_get_config_value := fun _ _ _ =>
       match config t with
       | Some v => (0, Some v)
       | None => (1, None)
       end;
     cbfstool_truncate := fun _ m region old =>
       match cbfs_size t region with
       | Some n => (0, n, m)
       | None => (1, old, m)
       end;
     cbfstool_get_metadata_hash := fun _ _ region old =>
       match metadata t region with
       | Some h => (0, h)
       | None => (1, old)
       end;
     fopen_w := fun _ => true;
     fwrite_1 := fun _ _ => true;
     fclose_0 := fun _ => true |}.

(** No CBFS in the image at all. *)
Definition no_cbfs : Cbfs :=
  {| config := None; cbfs_size := fun _ => None; metadata := fun _ => None |}.

(** An image that declares CBFS integration but whose slots carry no
    metadata hash. *)
Definition integration_without_hash : Cbfs :=
  {| config := Some "y"%string; cbfs_size := fun _ => None;
     metadata := fun _ => None |}.

(** *** Images *)

Definition area_header (offset size : Z) (name : string) : Mem.mem :=
  Mem.le32 offset ++ Mem.le32 size ++ field 32 (bytes_of_string name)
  ++ le16 0.

(** A flash map of 272 bytes: the header and up to five area headers. *)
Definition flash_map (image_size : Z) (areas : list (Z * Z * string))
  : Mem.mem :=
  field 272
    (FMAP_SIGNATURE ++ [x01; x01] ++ zeros 8 ++ Mem.le32 image_size
     ++ field 32 (bytes_of_string "FMAP")
     ++ le16 (Z.of_nat (List.length areas))
     ++ flat_map (fun a => area_header (fst (fst a)) (snd (fst a)) (snd a))
                 areas).

(** A keyblock: the 112 bytes of the structure, which announce
    [keyblock_size] bytes, and the 8 bytes of its data key. *)
Definition keyblock_of_size (keyblock_size : Z) : Mem.mem :=
  KEYBLOCK_MAGIC ++ Mem.le32 2 ++ Mem.le32 1 ++ Mem.le32 keyblock_size
  ++ zeros 60 ++ Mem.le32 32 ++ zeros 4 ++ Mem.le32 8 ++ zeros 20
  ++ bytes_of_string "data key".

Definition keyblock' : Mem.mem := keyblock_of_size 120.

(** A preamble of 108 bytes: firmware version 7, body signature over 16
    bytes, flags 5. *)
Definition preamble' : Mem.mem :=
  Mem.le32 108 ++ zeros 36 ++ Mem.le32 7 ++ zeros 52 ++ Mem.le32 16
  ++ zeros 4 ++ Mem.le32 5.

Definition gbb' : Mem.mem := field 128 (bytes_of_string "$GBB").

Definition body' : Mem.mem := field 32 (bytes_of_string "firmware body").

(** A signed VBLOCK of 256 bytes, and one that holds no keyblock. *)
Definition vblock_signed : Mem.mem := field 256 (keyblock' ++ preamble').
Definition vblock_blank : Mem.mem := zeros 256.

(** Slot A only: GBB, FW_MAIN_A and VBLOCK_A, 688 bytes. *)
Definition image_a (vblock : Mem.mem) : Mem.mem :=
  flash_map 688 [(272, 128, "GBB"%string); (400, 32, "FW_MAIN_A"%string);
                 (432, 256, "VBLOCK_A"%string)]
  ++ gbb' ++ body' ++ vblock.

(** Both slots, 976 bytes. *)
Definition image_ab (vblock_a vblock_b : Mem.mem) : Mem.mem :=
  flash_map 976 [(272, 128, "GBB"%string); (400, 32, "FW_MAIN_A"%string);
                 (688, 32, "FW_MAIN_B"%string); (432, 256, "VBLOCK_A"%string);
                 (720, 256, "VBLOCK_B"%string)]
  ++ gbb' ++ body' ++ vblock_a ++ body' ++ vblock_b.

(** Slot B has a body but no VBLOCK area in the flash map. *)
Definition image_b_without_vblock : Mem.mem :=
  flash_map 720 [(272, 128, "GBB"%string); (400, 32, "FW_MAIN_A"%string);
                 (688, 32, "FW_MAIN_B"%string); (432, 256, "VBLOCK_A"%string)]
  ++ gbb' ++ body' ++ vblock_signed ++ body'.

(** The slot-A image cut after 500 bytes, in the middle of VBLOCK_A. *)
Definition image_truncated : Mem.mem := firstn 500 (image_a vblock_signed).

Definition options : SignOption.sign_option_s :=
  {| SignOption.signprivate := bytes_of_string "key!";
     SignOption.keyblock := keyblock';
     SignOption.kernel_subkey := zeros 32;
     SignOption.flags_specified := 0;
     SignOption.flags := 0;
     SignOption.version_specified := 0;
     SignOption.version := 0;
     SignOption.loemdir := None;
     SignOption.loemid := None |}.

(** The same with a keyblock that announces 4294967188 bytes. *)
Definition options_huge_keyblock : SignOption.sign_option_s :=
  {| SignOption.signprivate := bytes_of_string "key!";
     SignOption.keyblock := keyblock_of_size 4294967188;
     SignOption.kernel_subkey := zeros 32;
     SignOption.flags_specified := 0;
     SignOption.flags := 0;
     SignOption.version_specified := 0;
     SignOption.version := 0;
     SignOption.loemdir := None;
     SignOption.loemid := None |}.

Definition start (m : Mem.mem) : world := {| image := m; console := [] |}.

(** A prepared area of [len] bytes at offset [buf]; a VBLOCK area gets
    version 1 and no flags. *)
Definition area_at (buf len : Z) : Area.bios_area_s :=
  Area.set_version 1
    (Area.set_is_valid 1 (Area.set_len len (Area.set_buf buf Area.zero))).

(** *** The kernel image library

    One implementation of [KernelUtility.Lib] over a table of files:
    the header checksum is the sum of the header's bytes, four times,
    and keys and signatures are four bytes long. *)

Fixpoint same_bytes (a b : Mem.mem) : bool :=
  match a, b with
  | [], [] => true
  | x :: a', y :: b' => Byte.eqb x y && same_bytes a' b'
  | _, _ => false
  end.

Definition header_sum (i : KernelUtility.KernelImage) : Z :=
  KernelUtility.header_version i + KernelUtility.header_len i
  + KernelUtility.firmware_sign_algorithm i
  + KernelUtility.kernel_sign_algorithm i
  + KernelUtility.kernel_key_version i
  + fold_right (fun b acc => Mem.Z_of_byte b + acc) 0
               (match KernelUtility.kernel_sign_key i with
                | Some k => k
                | None => []
                end).

Definition checksum (i : KernelUtility.KernelImage) : Mem.mem :=
  repeat (Mem.byte_of_Z (header_sum i)) 4.

Definition stateful_memcpy (st : KernelUtility.MemcpyState) (n : Z)
  : KernelUtility.MemcpyState * option Mem.mem :=
  if negb (KernelUtility.overrun st =? 0) then (st, None)
  else if n >? KernelUtility.remaining_len st then
    ({| KernelUtility.remaining_len := KernelUtility.remaining_len st;
        KernelUtility.remaining_buf := KernelUtility.remaining_buf st;
        KernelUtility.overrun := 1 |}, None)
  else
    ({| KernelUtility.remaining_len := KernelUtility.remaining_len st - n;
        KernelUtility.remaining_buf :=
          skipn (Z.to_nat n) (KernelUtility.remaining_buf st);
        KernelUtility.overrun := 0 |},
     Some (firstn (Z.to_nat n) (KernelUtility.remaining_buf st))).

Definition blank_image : KernelUtility.KernelImage :=
  {| KernelUtility.magic := zeros 8;
     KernelUtility.header_version := 0;
     KernelUtility.header_len := 0;
     KernelUtility.firmware_sign_algorithm := 0;
     KernelUtility.kernel_sign_algorithm := 0;
     KernelUtility.kernel_key_version := 0;
     KernelUtility.kernel_sign_key := None;
     KernelUtility.header_checksum := zeros 4;
     KernelUtility.kernel_key_signature := None;
     KernelUtility.kernel_version := 0;
     KernelUtility.padded_header_size := 0;
     KernelUtility.kernel_len := 0;
     KernelUtility.bootloader_offset := 0;
     KernelUtility.bootloader_size := 0;
     KernelUtility.preamble_signature := None;
     KernelUtility.kernel_signature := None;
     KernelUtility.kernel_data := None |}.

Definition with_signatures (sig : Mem.mem) (i : KernelUtility.KernelImage)
  : KernelUtility.KernelImage :=
  {| KernelUtility.magic := KernelUtility.magic i;
     KernelUtility.header_version := KernelUtility.header_version i;
     KernelUtility.header_len := KernelUtility.header_len i;
     KernelUtility.firmware_sign_algorithm :=
       KernelUtility.firmware_sign_algorithm i;
     KernelUtility.kernel_sign_algorithm :=
       KernelUtility.kernel_sign_algorithm i;
     KernelUtility.kernel_key_version := KernelUtility.kernel_key_version i;
     KernelUtility.kernel_sign_key := KernelUtility.kernel_sign_key i;
     KernelUtility.header_checksum := KernelUtility.header_checksum i;
     KernelUtility.kernel_key_signature :=
       KernelUtility.kernel_key_signature i;
     KernelUtility.kernel_version := KernelUtility.kernel_version i;
     KernelUtility.padded_header_size := KernelUtility.padded_header_size i;
     KernelUtility.kernel_len := KernelUtility.kernel_len i;
     KernelUtility.bootloader_offset := KernelUtility.bootloader_offset i;
     KernelUtility.bootloader_size := KernelUtility.bootloader_size i;
     KernelUtility.preamble_signature := Some sig;
     KernelUtility.kernel_signature := Some sig;
     KernelUtility.kernel_data := KernelUtility.kernel_data i |}.

Definition lib (files : string -> option Mem.mem) : KernelUtility.Lib :=
  {| KernelUtility.KernelImageNew := blank_image;
     KernelUtility.KERNEL_MAGIC := KEYBLOCK_MAGIC;
     KernelUtility.SHA512_DIGEST_SIZE := 4;
     KernelUtility.kNumAlgorithms := 12;
     KernelUtility.siglen_map := fun _ => 4;
     KernelUtility.RSAProcessedKeySize := fun _ => 4;
     KernelUtility.Malloc := zeros;
     KernelUtility.BufferFromFile := files;
     KernelUtility.GetKernelHeaderLen := fun _ => 18;
     KernelUtility.CalculateKernelHeaderChecksum := checksum;
     KernelUtility.SafeMemcmp := fun a b n =>
       if same_bytes (firstn (Z.to_nat n) a) (firstn (Z.to_nat n) b)
       then 0 else 1;
     KernelUtility.StatefulMemcpy := stateful_memcpy;
     KernelUtility.AddKernelKeySignature := fun i key =>
       (true,
        KernelUtility.set_kernel_key_signature
          (Some (field 4 (bytes_of_string key))) i);
     KernelUtility.GenerateKernelBlob := fun vmlinuz _ _ i =>
       match files vmlinuz with
       | Some k => (Some k, Mem.size k, 0, 0)
       | None => (None, KernelUtility.kernel_len i,
                  KernelUtility.bootloader_offset i,
                  KernelUtility.bootloader_size i)
       end;
     KernelUtility.AddKernelSignature := fun i key =>
       (true, with_signatures (field 4 (bytes_of_string key)) i) |}.

(** A subkey header: version 1, 18 bytes up to the checksum, algorithms
    0, key version 1, the key [kkey], the checksum bytes [sum] and the
    key signature [ksig]. *)
Definition subkey_header (sum : byte) : Mem.mem :=
  le16 1 ++ le16 18 ++ le16 0 ++ le16 0 ++ le16 1
  ++ bytes_of_string "kkey" ++ repeat sum 4 ++ bytes_of_string "ksig".

(** The files of the example: a subkey header with the right checksum
    (the header's fields and key bytes add up to 456, which is 200
    modulo 256), one
    whose stored checksum is wrong, the public kernel key and the
    kernel. *)
Definition files (name : string) : option Mem.mem :=
  if String.eqb name "subkey.good" then Some (subkey_header xc8)
  else if String.eqb name "subkey.bad" then Some (subkey_header x00)
  else if String.eqb name "kernel_key.pub" then Some (bytes_of_string "kkey")
  else if String.eqb name "vmlinuz" then Some (bytes_of_string "kernel data")
  else None.

Definition generate (subkey_in : string) : KernelUtility.Options :=
  {| KernelUtility.firmware_key_file_ := "firmware.pem";
     KernelUtility.kernel_key_file_ := "kernel.pem";
     KernelUtility.kernel_key_pub_file_ := "kernel_key.pub";
     KernelUtility.subkey_in_file_ := subkey_in;
     KernelUtility.firmware_sign_algorithm_ := 0;
     KernelUtility.kernel_sign_algorithm_ := 0;
     KernelUtility.kernel_key_version_ := 1;
     KernelUtility.kernel_version_ := 1;
     KernelUtility.padding_ := 0;
     KernelUtility.vmlinuz_file_ := "vmlinuz";
     KernelUtility.config_file_ := "config.txt";
     KernelUtility.bootloader_file_ := "bootloader.bin" |}.

End Example.

(** ** What [write_new_preamble] writes, and what [prepare_slot] leaves

    The body signature and the preamble that [write_new_preamble] makes
    for a slot, and the image that [prepare_slot] leaves, as functions
    of the image, to state their properties with. *)

Module Chain.
Section WithHost.

Variable H : Host.
Variable sign_option : SignOption.sign_option_s.

(** The body signature: made from the metadata hash when the body has
    one, else calculated over the body with the signing key. *)
Definition body_signature (fw_body : Area.bios_area_s) (signkey : Mem.mem)
           (m : Mem.mem) : option Mem.mem :=
  if negb (Vb2.algo (Area.metadata_hash fw_body) =? Vb2.VB2_HASH_INVALID)
  then vb2_create_signature_from_hash H (Area.metadata_hash fw_body)
  else vb2_calculate_signature H m (Area.buf fw_body) (Area.len fw_body)
                               signkey.

(** The preamble with that body signature, the version and the flags of
    the VBLOCK area and the kernel subkey of the options. *)
Definition preamble (vblock fw_body : Area.bios_area_s) (signkey : Mem.mem)
           (m : Mem.mem) : option Mem.mem :=
  match body_signature fw_body signkey m with
  | Some body_sig =>
      vb2_create_fw_preamble H (Area.version vblock)
        (SignOption.kernel_subkey sign_option) body_sig signkey
        (Area.flags vblock)
  | None => None
  end.

(** The image after [prepare_slot]: the body area is limited when it is
    found, and then the VBLOCK area, when the body size fits and the
    VBLOCK area is found. *)
Definition prepared (len : Z) (fw_c vblock_c : bios_component)
           (fw_size : Z) (m : Mem.mem) : Mem.mem :=
  match Slot.body_area H len fw_c m with
  | None => m
  | Some (ah1, m1) =>
      if fw_size >? Fmap.area_size m1 ah1 then m1
      else match Slot.vblock_area H len vblock_c m m1 with
           | None => m1
           | Some (_, m2) => m2
           end
  end.

End WithHost.

(** The message with which a show function turns down an area of no
    length. *)
Definition invalid_area_message (c : bios_component) (name : string)
  : message :=
  match c with
  | BIOS_FMAP_GBB => Msg STDOUT "GBB header:              %s <invalid>\n"
                         [name] []
  | _ => Msg STDOUT "Firmware body:           %s <invalid>\n" [name] []
  end.

End Chain.

(** ** What [ft_show_bios] leaves of the buffer *)

Module Shown.

(** A run that comes back and leaves every byte of the image as it
    was. *)
Definition returns_keeping_image {A} (c : M A) : Prop :=
  forall w, exists a w', c w = Returns a w' /\ image w' = image w.

(** The buffer after the pass of the loop of [ft_show_bios] over the
    component [c], when the show function leaves the buffer alone: the
    area of the component, if it is found, is limited. *)
Definition limited (H : Host) (len : Z) (fmap : option Z) (m : Mem.mem)
           (c : bios_component) : Mem.mem :=
  match fmap_find_by_name H m len fmap (fmap_name c) with
  | Some ah => Fmap.fmap_limit_area ah len m
  | None => m
  end.

End Shown.


(** ** host/lib/subprocess.c

    The two loops with which [subprocess_run] feeds the input of the
    child from a buffer and drains its output into one.  The system
    calls [read], [write] and [close] act on the parent's ends of one
    pipe: [incoming] is what the child writes into it, piece by piece as
    [read] will find it, and [room] says how many bytes each [write]
    will take. *)

Module Subprocess.

Inductive target_type :=
| TARGET_NULL
| TARGET_FD
| TARGET_FILE
| TARGET_BUFFER
| TARGET_BUFFER_NULL_TERMINATED.

(** [struct subprocess_target] of subprocess.h, the members of its union
    side by side.  [buf] is the object that [buffer.buf] points to. *)
Record subprocess_target := {
  type : target_type;
  fd : Z;
  buf : Mem.mem;
  size : Z;
  _pipefd : Z * Z;
  bytes_consumed : Z
}.

Definition set_buf (v : Mem.mem) (t : subprocess_target) : subprocess_target :=
  {| type := type t; fd := fd t; buf := v; size := size t;
     _pipefd := _pipefd t; bytes_consumed := bytes_consumed t |}.

Definition set_bytes_consumed (v : Z) (t : subprocess_target)
  : subprocess_target :=
  {| type := type t; fd := fd t; buf := buf t; size := size t;
     _pipefd := _pipefd t; bytes_consumed := v |}.

(** One piece of what the child writes, or a failure of [read]. *)
Inductive chunk :=
| Data (d : Mem.mem)
| Failure.

Record os := {
  incoming : list chunk;
  room : list Z;
  written : Mem.mem;
  closed : list Z
}.

Definition close (fd : Z) (o : os) : os :=
  {| incoming := incoming o; room := room o; written := written o;
     closed := closed o ++ [fd] |}.

(** [write(fd, buf, n)]: the pipe takes the first [k] of the [n] bytes
    when it has room for [k] of them, and fails when it has none. *)
Definition write (fd : Z) (buf : Mem.mem) (n : Z) (o : os) : Z * os :=
  match room o with
  | [] => (-1, o)
  | k :: rest =>
      if k <=? 0 then
        (-1, {| incoming := incoming o; room := rest; written := written o;
                closed := closed o |})
      else
        let r := Z.min n k in
        (r, {| incoming := incoming o; room := rest;
               written := written o ++ firstn (Z.to_nat r) buf;
               closed := closed o |})
  end.

(** [read(fd, buf, n)]: the count it returns, the bytes it stores at
    [buf], and what is left in the pipe.  At the end of the data it
    returns 0. *)
Definition read (fd : Z) (n : Z) (o : os) : Z * Mem.mem * os :=
  match incoming o with
  | [] => (0, [], o)
  | Failure :: rest =>
      (-1, [], {| incoming := rest; room := room o; written := written o;
                  closed := closed o |})
  | Data d :: rest =>
      let r := Z.min n (Mem.size d) in
      (r, firstn (Z.to_nat r) d,
       {| incoming := if r <? Mem.size d
                      then Data (skipn (Z.to_nat r) d) :: rest
                      else rest;
          room := room o; written := written o; closed := closed o |})
  end.

Fixpoint strlen (s : Mem.mem) : Z :=
  match s with
  | [] => 0
  | b :: s' => if Byte.eqb b x00 then 0 else 1 + strlen s'
  end.

(** The loop [while (bytes_to_write)] of [process_target_input]; [buf]
    is what the pointer [buf] points to.  Every pass but the last
    writes at least one byte, so that [bytes_to_write] passes are
    enough. *)
Fixpoint write_loop (fuel : nat) (fd : Z) (buf : Mem.mem)
         (bytes_to_write : Z) (o : os) : option (Z * os) :=
  if bytes_to_write =? 0 then Some (0, o)
  else
    match fuel with
    | O => None
    | S fuel' =>
        let '(write_rv, o) := write fd buf bytes_to_write o in
        if write_rv <=? 0 then Some (-1, o)
        else
          write_loop fuel' fd (skipn (Z.to_nat write_rv) buf)
                     (size_t (bytes_to_write - write_rv)) o
    end.

(** [static int process_target_input(struct subprocess_target *target)] *)
Definition process_target_input (target : subprocess_target) (o : os)
  : option (Z * os) :=
  match type target with
  | TARGET_BUFFER | TARGET_BUFFER_NULL_TERMINATED =>
      let bytes_to_write :=
        match type target with
        | TARGET_BUFFER => size target
        | _ => strlen (buf target)
        end in
      let o := close (fst (_pipefd target)) o in
      match write_loop (Z.to_nat bytes_to_write) (snd (_pipefd target))
                       (buf target) bytes_to_write o with
      | Some (rv, o) =>
          (* cleanup: *)
          Some (rv, close (snd (_pipefd target)) o)
      | None => None
      end
  | _ => Some (0, o)
  end.

(** The loop [while (bytes_remaining)] of [process_target_output]: the
    value of [rv] after it, the target and the pipe. *)
Fixpoint read_loop (fuel : nat) (target : subprocess_target)
         (bytes_remaining : Z) (o : os)
  : option (Z * subprocess_target * os) :=
  if bytes_remaining =? 0 then Some (0, target, o)
  else
    match fuel with
    | O => None
    | S fuel' =>
        let '(read_rv, data, o) :=
          read (fst (_pipefd target)) bytes_remaining o in
        if read_rv <? 0 then Some (-1, target, o)
        else if read_rv =? 0 then Some (0, target, o)
        else
          let target :=
            set_buf (Mem.memcpy (buf target) (bytes_consumed target) data
                                read_rv) target in
          let target :=
            set_bytes_consumed (size_t (bytes_consumed target + read_rv))
                               target in
          read_loop fuel' target (size_t (bytes_remaining - read_rv)) o
    end.

(** [static int process_target_output(struct subprocess_target *target)]:
    its result, the target and the pipe. *)
Definition process_target_output (target : subprocess_target) (o : os)
  : option (Z * subprocess_target * os) :=
  match type target with
  | TARGET_BUFFER | TARGET_BUFFER_NULL_TERMINATED =>
      if match type target with
         | TARGET_BUFFER_NULL_TERMINATED => size target =? 0
         | _ => false
         end
      then Some (-1, target, o)
      else
        let bytes_remaining :=
          match type target with
          | TARGET_BUFFER => size target
          | _ => size_t (size target - 1)
          end in
        let o := close (snd (_pipefd target)) o in
        let target := set_bytes_consumed 0 target in
        match read_loop (Z.to_nat bytes_remaining) target bytes_remaining o
        with
        | Some (rv, target, o) =>
            let target :=
              if rv =? 0 then
                match type target with
                | TARGET_BUFFER_NULL_TERMINATED =>
                    set_buf (Mem.memcpy (buf target) (bytes_consumed target)
                                        [x00] 1) target
                | _ => target
                end
              else target in
            (* cleanup: *)
            Some (rv, target, close (fst (_pipefd target)) o)
        | None => None
        end
  | _ => Some (0, target, o)
  end.

Definition is_data (c : chunk) : bool :=
  match c with
  | Data _ => true
  | Failure => false
  end.

(** The bytes that the child has written before the first failure of
    [read]. *)
Fixpoint stream (l : list chunk) : Mem.mem :=
  match l with
  | Data d :: l' => d ++ stream l'
  | _ => []
  end.

End Subprocess.

(** ** firmware/lib/vboot_display.c

    Display functions used in kernel selection.  The three static
    variables of the file, the context that [ctx] points to, and the
    state of the firmware behind the [VbEx] callbacks are the state of a
    run; the calls of the callbacks are recorded in the order they are
    made. *)

Module Display.

(** The fields of non-volatile storage that the file reads and writes
    (2nvstorage.h). *)
Inductive vb2_nv_param :=
| VB2_NV_LOCALIZATION_INDEX
| VB2_NV_BACKUP_NVRAM_REQUEST
| VB2_NV_RECOVERY_SUBCODE
| VB2_NV_DEV_BOOT_USB
| VB2_NV_DEV_BOOT_LEGACY
| VB2_NV_DEV_DEFAULT_BOOT
| VB2_NV_DEV_BOOT_SIGNED_ONLY.

(** The recovery reasons that [RecoveryReasonString] knows. *)
Inductive vb2_recovery_reason :=
| VB2_RECOVERY_NOT_REQUESTED
| VB2_RECOVERY_LEGACY
| VB2_RECOVERY_RO_MANUAL
| VB2_RECOVERY_RO_INVALID_RW
| VB2_RECOVERY_RO_SHARED_DATA
| VB2_RECOVERY_FW_KEYBLOCK
| VB2_RECOVERY_FW_KEY_ROLLBACK
| VB2_RECOVERY_FW_PREAMBLE
| VB2_RECOVERY_FW_ROLLBACK
| VB2_RECOVERY_FW_BODY
| VB2_RECOVERY_RO_FIRMWARE
| VB2_RECOVERY_RO_TPM_REBOOT
| VB2_RECOVERY_EC_SOFTWARE_SYNC
| VB2_RECOVERY_EC_UNKNOWN_IMAGE
| VB2_RECOVERY_EC_UPDATE
| VB2_RECOVERY_EC_JUMP_RW
| VB2_RECOVERY_EC_PROTECT
| VB2_RECOVERY_EC_EXPECTED_HASH
| VB2_RECOVERY_SECDATA_FIRMWARE_INIT
| VB2_RECOVERY_GBB_HEADER
| VB2_RECOVERY_TPM_CLEAR_OWNER
| VB2_RECOVERY_DEV_SWITCH
| VB2_RECOVERY_FW_SLOT
| VB2_RECOVERY_AUX_FW_UPDATE
| VB2_RECOVERY_RO_UNSPECIFIED
| VB2_RECOVERY_RW_INVALID_OS
| VB2_RECOVERY_RW_SHARED_DATA
| VB2_RECOVERY_TPM_E_FAIL
| VB2_RECOVERY_RO_TPM_S_ERROR
| VB2_RECOVERY_RO_TPM_W_ERROR
| VB2_RECOVERY_RO_TPM_L_ERROR
| VB2_RECOVERY_RO_TPM_U_ERROR
| VB2_RECOVERY_RW_TPM_R_ERROR
| VB2_RECOVERY_RW_TPM_W_ERROR
| VB2_RECOVERY_RW_TPM_L_ERROR
| VB2_RECOVERY_EC_HASH_FAILED
| VB2_RECOVERY_EC_HASH_SIZE
| VB2_RECOVERY_LK_UNSPECIFIED
| VB2_RECOVERY_RW_NO_DISK
| VB2_RECOVERY_RW_NO_KERNEL
| VB2_RECOVERY_SECDATA_KERNEL_INIT
| VB2_RECOVERY_RO_TPM_REC_HASH_L_ERROR
| VB2_RECOVERY_TPM_DISABLE_FAILED
| VB2_RECOVERY_ALTFW_HASH_FAILED
| VB2_RECOVERY_CR50_BOOT_MODE
| VB2_RECOVERY_ESCAPE_NO_BOOT
| VB2_RECOVERY_RW_UNSPECIFIED
| VB2_RECOVERY_US_TEST
| VB2_RECOVERY_TRAIN_AND_REBOOT
| VB2_RECOVERY_US_UNSPECIFIED.

(** [struct vb2_shared_data], the members that the debug screen shows. *)
Record vb2_shared_data := {
  recovery_reason : Z;
  sd_flags : Z;
  status : Z;
  fw_version_secdata : Z;
  kernel_version_secdata : Z;
  kernel_key_offset : Z
}.

(** What the file calls and reads that lives elsewhere: the constants
    of vboot_api.h and 2api.h, the context ([C]) with its non-volatile
    storage and shared data, the digest, [printf]'s rendering of a
    format with its string and integer arguments, and the callbacks of
    the firmware ([X] is its state). *)
Record Firmware (C X : Type) := {
  VB2_SUCCESS : Z;
  VB2_ERROR_UNKNOWN : Z;
  VB_SCREEN_BLANK : Z;
  VB_KEY_ESC : Z;
  VB_KEY_UP : Z;
  VB_KEY_DOWN : Z;
  VB_KEY_LEFT : Z;
  VB_KEY_RIGHT : Z;
  VB2_CONTEXT_RECOVERY_MODE : Z;
  VB2_SHA1_DIGEST_SIZE : Z;
  PRIx64 : string;
  ctx_flags : C -> Z;
  ctx_nvdata : C -> Z -> Z;
  vb2_nv_get : C -> vb2_nv_param -> Z;
  vb2_nv_set : C -> vb2_nv_param -> Z -> C;
  vb2_nv_get_size : C -> Z;
  vb2_get_sd : C -> vb2_shared_data;
  vb2_get_gbb_flags : C -> Z;
  vb2api_gbb_read_hwid : C -> Z * string;
  vb2_gbb_read_root_key : C -> Z * Mem.mem;
  vb2_gbb_read_recovery_key : C -> Z * Mem.mem;
  vb2_member_of_sd : C -> Z -> Mem.mem;
  vb2_digest_buffer : Mem.mem -> Mem.mem;
  vb2_allow_recovery : C -> Z;
  vb2ex_commit_data : C -> C;
  reason_of_code : Z -> option vb2_recovery_reason;
  printf : string -> list string -> list Z -> string;
  VbExDisplayScreen : X -> Z -> Z -> Z -> Z * X;
  VbExDisplayMenu : X -> Z -> Z -> Z -> Z -> Z -> Z * X;
  VbExDisplayDebugInfo : X -> string -> Z -> Z * X;
  VbExGetLocalizationCount : X -> Z -> Z * Z
}.
Arguments VB2_SUCCESS {C X}.
Arguments VB2_ERROR_UNKNOWN {C X}.
Arguments VB_SCREEN_BLANK {C X}.
Arguments VB_KEY_ESC {C X}.
Arguments VB_KEY_UP {C X}.
Arguments VB_KEY_DOWN {C X}.
Arguments VB_KEY_LEFT {C X}.
Arguments VB_KEY_RIGHT {C X}.
Arguments VB2_CONTEXT_RECOVERY_MODE {C X}.
Arguments VB2_SHA1_DIGEST_SIZE {C X}.
Arguments PRIx64 {C X}.
Arguments ctx_flags {C X}.
Arguments ctx_nvdata {C X}.
Arguments vb2_nv_get {C X}.
Arguments vb2_nv_set {C X}.
Arguments vb2_nv_get_size {C X}.
Arguments vb2_get_sd {C X}.
Arguments vb2_get_gbb_flags {C X}.
Arguments vb2api_gbb_read_hwid {C X}.
Arguments vb2_gbb_read_root_key {C X}.
Arguments vb2_gbb_read_recovery_key {C X}.
Arguments vb2_member_of_sd {C X}.
Arguments vb2_digest_buffer {C X}.
Arguments vb2_allow_recovery {C X}.
Arguments vb2ex_commit_data {C X}.
Arguments reason_of_code {C X}.
Arguments printf {C X}.
Arguments VbExDisplayScreen {C X}.
Arguments VbExDisplayMenu {C X}.
Arguments VbExDisplayDebugInfo {C X}.
Arguments VbExGetLocalizationCount {C X}.

(** The calls of the callbacks, and what [VB2_DEBUG] prints. *)
Inductive call :=
| Call_VbExDisplayScreen (screen locale data : Z)
| Call_VbExDisplayMenu
    (screen locale selected_index disabled_idx_mask redraw_base_screen : Z)
| Call_VbExDisplayDebugInfo (info_str : string) (full_info : Z)
| Call_vb2ex_commit_data
| Print_VB2_DEBUG (format : string) (texts : list string) (values : list Z).

Record machine (C X : Type) := {
  disp_current_screen : Z;
  disp_current_index : Z;
  disp_disabled_idx_mask : Z;
  ctx : C;
  firmware : X;
  calls : list call
}.
Arguments disp_current_screen {C X}.
Arguments disp_current_index {C X}.
Arguments disp_disabled_idx_mask {C X}.
Arguments ctx {C X}.
Arguments firmware {C X}.
Arguments calls {C X}.

(** [static void Uint8ToString(char *buf, uint8_t val)]: the two
    characters it stores. *)
Definition trans : string := "0123456789abcdef".

Definition char_at (s : string) (i : Z) : Ascii.ascii :=
  match String.get (Z.to_nat i) s with
  | Some c => c
  | None => Ascii.zero
  end.

Definition Uint8ToString (val : Z) : string :=
  String (char_at trans (Z.shiftr val 4))
         (String (char_at trans (Z.land val 15)) EmptyString).

(** [const char *RecoveryReasonString(uint8_t code)], on the reason
    that the code stands for. *)
Definition reason_string (r : vb2_recovery_reason) : string :=
  match r with
  | VB2_RECOVERY_NOT_REQUESTED => "Recovery not requested"
  | VB2_RECOVERY_LEGACY => "Recovery requested from legacy utility"
  | VB2_RECOVERY_RO_MANUAL => "recovery button pressed"
  | VB2_RECOVERY_RO_INVALID_RW => "RW firmware failed signature check"
  | VB2_RECOVERY_RO_SHARED_DATA => "Shared data error in read-only firmware"
  | VB2_RECOVERY_FW_KEYBLOCK => "RW firmware unable to verify keyblock"
  | VB2_RECOVERY_FW_KEY_ROLLBACK =>
      "RW firmware key version rollback detected"
  | VB2_RECOVERY_FW_PREAMBLE => "RW firmware unable to verify preamble"
  | VB2_RECOVERY_FW_ROLLBACK => "RW firmware version rollback detected"
  | VB2_RECOVERY_FW_BODY => "RW firmware unable to verify firmware body"
  | VB2_RECOVERY_RO_FIRMWARE => "Firmware problem outside of verified boot"
  | VB2_RECOVERY_RO_TPM_REBOOT =>
      "TPM requires a system reboot (should be transient)"
  | VB2_RECOVERY_EC_SOFTWARE_SYNC => "EC software sync error"
  | VB2_RECOVERY_EC_UNKNOWN_IMAGE =>
      "EC software sync unable to determine active EC image"
  | VB2_RECOVERY_EC_UPDATE => "EC software sync error updating EC"
  | VB2_RECOVERY_EC_JUMP_RW => "EC software sync unable to jump to EC-RW"
  | VB2_RECOVERY_EC_PROTECT => "EC software sync protection error"
  | VB2_RECOVERY_EC_EXPECTED_HASH =>
      "EC software sync error obtaining expected EC hash from BIOS"
  | VB2_RECOVERY_SECDATA_FIRMWARE_INIT =>
      "Firmware secure NVRAM (TPM) initialization error"
  | VB2_RECOVERY_GBB_HEADER => "Error parsing GBB header"
  | VB2_RECOVERY_TPM_CLEAR_OWNER => "Error trying to clear TPM owner"
  | VB2_RECOVERY_DEV_SWITCH => "Error reading or updating developer switch"
  | VB2_RECOVERY_FW_SLOT => "Error selecting RW firmware slot"
  | VB2_RECOVERY_AUX_FW_UPDATE => "Error updating AUX firmware"
  | VB2_RECOVERY_RO_UNSPECIFIED =>
      "Unspecified/unknown error in RO firmware"
  | VB2_RECOVERY_RW_INVALID_OS =>
      "OS kernel or rootfs failed signature check"
  | VB2_RECOVERY_RW_SHARED_DATA =>
      "Shared data error in rewritable firmware"
  | VB2_RECOVERY_TPM_E_FAIL => "TPM error that was not fixed by reboot"
  | VB2_RECOVERY_RO_TPM_S_ERROR => "TPM setup error in read-only firmware"
  | VB2_RECOVERY_RO_TPM_W_ERROR => "TPM write error in read-only firmware"
  | VB2_RECOVERY_RO_TPM_L_ERROR => "TPM lock error in read-only firmware"
  | VB2_RECOVERY_RO_TPM_U_ERROR => "TPM update error in read-only firmware"
  | VB2_RECOVERY_RW_TPM_R_ERROR => "TPM read error in rewritable firmware"
  | VB2_RECOVERY_RW_TPM_W_ERROR => "TPM write error in rewritable firmware"
  | VB2_RECOVERY_RW_TPM_L_ERROR => "TPM lock error in rewritable firmware"
  | VB2_RECOVERY_EC_HASH_FAILED =>
      "EC software sync unable to get EC image hash"
  | VB2_RECOVERY_EC_HASH_SIZE => "EC software sync invalid image hash size"
  | VB2_RECOVERY_LK_UNSPECIFIED =>
      "Unspecified error while trying to load kernel"
  | VB2_RECOVERY_RW_NO_DISK => "No bootable storage device in system"
  | VB2_RECOVERY_RW_NO_KERNEL => "No bootable kernel found on disk"
  | VB2_RECOVERY_SECDATA_KERNEL_INIT =>
      "Kernel secure NVRAM (TPM) initialization error"
  | VB2_RECOVERY_RO_TPM_REC_HASH_L_ERROR =>
      "Recovery hash space lock error in RO firmware"
  | VB2_RECOVERY_TPM_DISABLE_FAILED =>
      "Failed to disable TPM before running untrusted code"
  | VB2_RECOVERY_ALTFW_HASH_FAILED =>
      "Verification of alternative firmware payload failed"
  | VB2_RECOVERY_CR50_BOOT_MODE => "Failed to get boot mode from Cr50"
  | VB2_RECOVERY_ESCAPE_NO_BOOT =>
      "Attempt to escape from NO_BOOT mode was detected"
  | VB2_RECOVERY_RW_UNSPECIFIED =>
      "Unspecified/unknown error in RW firmware"
  | VB2_RECOVERY_US_TEST => "Recovery mode test from user-mode"
  | VB2_RECOVERY_TRAIN_AND_REBOOT =>
      "User-mode requested DRAM train and reboot"
  | VB2_RECOVERY_US_UNSPECIFIED => "Unspecified/unknown error in user-mode"
  end.

Definition DEBUG_INFO_SIZE : Z := 1024.

(** The value that an [int32_t] takes of a sum. *)
Definition int32 (z : Z) : Z := (z + 2 ^ 31) mod 2 ^ 32 - 2 ^ 31.

(** The text in [buf] and the count [used] of [VbDisplayDebugInfo]. *)
Record debug_info := { buf : string; used : Z }.

(** [snprintf(buf + used, n, ...)] for the text that the format and the
    arguments render to: what is in [buf] afterwards, and the length
    that is returned. *)
Definition snprintf_at (b : string) (at_ n : Z) (text : string)
  : string * Z :=
  ((substring 0 (Z.to_nat at_) b
    ++ substring 0 (Z.to_nat (n - 1)) text)%string,
   Z.of_nat (String.length text)).

(** The macro [DEBUG_INFO_APPEND]. *)
Definition DEBUG_INFO_APPEND (i : debug_info) (text : string) : debug_info :=
  if used i <? DEBUG_INFO_SIZE then
    let '(b, n) :=
      snprintf_at (buf i) (used i) (DEBUG_INFO_SIZE - used i) text in
    {| buf := b; used := int32 (used i + n) |}
  else i.

Section WithFirmware.

Context {C X : Type}.
Variable F : Firmware C X.

Definition state := machine C X.

Definition set_ctx (c : C) (s : state) : state :=
  {| disp_current_screen := disp_current_screen s;
     disp_current_index := disp_current_index s;
     disp_disabled_idx_mask := disp_disabled_idx_mask s;
     ctx := c; firmware := firmware s; calls := calls s |}.

Definition set_firmware (x : X) (s : state) : state :=
  {| disp_current_screen := disp_current_screen s;
     disp_current_index := disp_current_index s;
     disp_disabled_idx_mask := disp_disabled_idx_mask s;
     ctx := ctx s; firmware := x; calls := calls s |}.

Definition log_call (c : call) (s : state) : state :=
  {| disp_current_screen := disp_current_screen s;
     disp_current_index := disp_current_index s;
     disp_disabled_idx_mask := disp_disabled_idx_mask s;
     ctx := ctx s; firmware := firmware s; calls := calls s ++ [c] |}.

Definition set_screen (screen : Z) (s : state) : state :=
  {| disp_current_screen := screen;
     disp_current_index := disp_current_index s;
     disp_disabled_idx_mask := disp_disabled_idx_mask s;
     ctx := ctx s; firmware := firmware s; calls := calls s |}.

Definition set_menu (selected_index disabled_idx_mask : Z) (s : state)
  : state :=
  {| disp_current_screen := disp_current_screen s;
     disp_current_index := selected_index;
     disp_disabled_idx_mask := disabled_idx_mask;
     ctx := ctx s; firmware := firmware s; calls := calls s |}.

(** The file as it is loaded. *)
Definition loaded (c : C) (x : X) : state :=
  {| disp_current_screen := VB_SCREEN_BLANK F; disp_current_index := 0;
     disp_disabled_idx_mask := 0; ctx := c; firmware := x; calls := [] |}.

(** The weak [VbExGetLocalizationCount] of the file, which is called
    when the firmware brings none: the result and [*count]. *)
Definition weak_VbExGetLocalizationCount (x : X) (count : Z) : Z * Z :=
  (VB2_ERROR_UNKNOWN F, 0).

(** The weak [VbExGetAltFwIdxMask] of the file. *)
Definition weak_VbExGetAltFwIdxMask : Z := 0.

(** [vb2_error_t VbDisplayScreen(struct vb2_context *ctx, uint32_t
    screen, int force, const VbScreenData *data)] *)
Definition VbDisplayScreen (screen force data : Z) (s : state) : Z * state :=
  (* If requested screen is the same as the current one, we're done. *)
  if (disp_current_screen s =? screen) && (force =? 0) then
    (VB2_SUCCESS F, s)
  else
    (* Keep track of the currently displayed screen *)
    let s := set_screen screen s in
    (* Read the locale last saved *)
    let locale := vb2_nv_get F (ctx s) VB2_NV_LOCALIZATION_INDEX in
    let '(rv, x) := VbExDisplayScreen F (firmware s) screen locale data in
    (rv, set_firmware x (log_call (Call_VbExDisplayScreen screen locale data) s)).

(** [vb2_error_t VbDisplayMenu(struct vb2_context *ctx, uint32_t screen,
    int force, uint32_t selected_index, uint32_t disabled_idx_mask)] *)
Definition VbDisplayMenu (screen force selected_index disabled_idx_mask : Z)
           (s : state) : Z * state :=
  let redraw_base_screen := 0 in
  (* If requested screen/selected_index is the same as the current one,
     we're done. *)
  if (disp_current_screen s =? screen)
     && (disp_current_index s =? selected_index)
     && (force =? 0) then
    (VB2_SUCCESS F, s)
  else
    (* If current screen is not the same, make sure we redraw the base
       screen as well to avoid having artifacts from the menu. *)
    let redraw_base_screen :=
      if negb (disp_current_screen s =? screen) || negb (force =? 0)
      then 1 else redraw_base_screen in
    (* Keep track of the currently displayed screen and selected_index *)
    let s := set_screen screen s in
    let s := set_menu selected_index disabled_idx_mask s in
    (* Read the locale last saved *)
    let locale := vb2_nv_get F (ctx s) VB2_NV_LOCALIZATION_INDEX in
    let '(rv, x) :=
      VbExDisplayMenu F (firmware s) screen locale selected_index
                      disabled_idx_mask redraw_base_screen in
    (rv, set_firmware x
           (log_call (Call_VbExDisplayMenu screen locale selected_index
                      disabled_idx_mask redraw_base_screen) s)).

(** The loop of [FillInSha1Sum] over the bytes [i .. i + n - 1] of the
    digest. *)
Fixpoint hex_of (digest : Mem.mem) (i : Z) (n : nat) : string :=
  match n with
  | O => EmptyString
  | S n' =>
      (Uint8ToString (Mem.load8 digest i) ++ hex_of digest (i + 1) n')%string
  end.

(** [static void FillInSha1Sum(char *outbuf, struct vb2_packed_key
    *key)]: the string it leaves in [outbuf]. *)
Definition FillInSha1Sum (key : Mem.mem) : string :=
  let buf := Mem.sub key (Vb2.key_offset key 0) (Vb2.key_size key 0) in
  let digest := vb2_digest_buffer F buf in
  hex_of digest 0 (Z.to_nat (VB2_SHA1_DIGEST_SIZE F)).

Definition RecoveryReasonString (code : Z) : string :=
  match reason_of_code F code with
  | Some r => reason_string r
  | None => "Unknown or deprecated error code"
  end.

Definition append (i : debug_info) (format : string)
           (texts : list string) (values : list Z) : debug_info :=
  DEBUG_INFO_APPEND i (printf F format texts values).

(** The loop of [VbDisplayDebugInfo] over the bytes of nvdata, from
    index [i] on. *)
Fixpoint append_nvdata (c : C) (i : Z) (n : nat) (info : debug_info)
  : debug_info :=
  match n with
  | O => info
  | S n' =>
      (* Split into 16-byte blocks *)
      let info :=
        if (i >? 0) && (i mod 16 =? 0) then append info "\n  " [] []
        else info in
      let info := append info " %02x" [] [ctx_nvdata F c i] in
      append_nvdata c (i + 1) n' info
  end.

(** [vb2_error_t VbDisplayDebugInfo(struct vb2_context *ctx)] *)
Definition VbDisplayDebugInfo (s : state) : Z * state :=
  let c := ctx s in
  let sd := vb2_get_sd F c in
  let info := {| buf := EmptyString; used := 0 |} in
  (* Add hardware ID *)
  let '(ret, hwid) := vb2api_gbb_read_hwid F c in
  let hwid := if negb (ret =? 0) then "{INVALID}"%string else hwid in
  let info := append info "HWID: %s" [hwid] [] in
  (* Add recovery reason and subcode *)
  let i := vb2_nv_get F c VB2_NV_RECOVERY_SUBCODE in
  let info :=
    append info "\nrecovery_reason: %#.2x / %#.2x  %s"
           [RecoveryReasonString (recovery_reason sd)]
           [recovery_reason sd; i] in
  (* Add vb2_context and vb2_shared_data flags *)
  let info :=
    append info ("\ncontext.flags: %#.16" ++ PRIx64 F)%string []
           [ctx_flags F c] in
  let info := append info "\nshared_data.flags: %#.8x" [] [sd_flags sd] in
  let info := append info "\nshared_data.status: %#.8x" [] [status sd] in
  (* Add raw contents of nvdata *)
  let info := append info "\nnvdata:" [] [] in
  let info :=
    if vb2_nv_get_size F c >? 16 then append info "\n  " [] [] else info in
  let info := append_nvdata c 0 (Z.to_nat (vb2_nv_get_size F c)) info in
  (* Add dev_boot_usb flag *)
  let i := vb2_nv_get F c VB2_NV_DEV_BOOT_USB in
  let info := append info "\ndev_boot_usb: %d" [] [i] in
  (* Add dev_boot_legacy flag *)
  let i := vb2_nv_get F c VB2_NV_DEV_BOOT_LEGACY in
  let info := append info "\ndev_boot_legacy: %d" [] [i] in
  (* Add dev_default_boot flag *)
  let i := vb2_nv_get F c VB2_NV_DEV_DEFAULT_BOOT in
  let info := append info "\ndev_default_boot: %d" [] [i] in
  (* Add dev_boot_signed_only flag *)
  let i := vb2_nv_get F c VB2_NV_DEV_BOOT_SIGNED_ONLY in
  let info := append info "\ndev_boot_signed_only: %d" [] [i] in
  (* Add TPM versions *)
  let info :=
    append info "\nTPM: fwver=%#.8x kernver=%#.8x" []
           [fw_version_secdata sd; kernel_version_secdata sd] in
  (* Add GBB flags *)
  let info := append info "\ngbb.flags: %#.8x" [] [vb2_get_gbb_flags F c] in
  (* Add sha1sum for Root & Recovery keys *)
  let info :=
    let '(ret, key) := vb2_gbb_read_root_key F c in
    if ret =? 0 then append info "\ngbb.rootkey: %s" [FillInSha1Sum key] []
    else info in
  let info :=
    let '(ret, key) := vb2_gbb_read_recovery_key F c in
    if ret =? 0
    then append info "\ngbb.recovery_key: %s" [FillInSha1Sum key] []
    else info in
  (* If we're in dev-mode, show the kernel subkey that we expect, too. *)
  let info :=
    if (Z.land (ctx_flags F c) (VB2_CONTEXT_RECOVERY_MODE F) =? 0)
       && negb (kernel_key_offset sd =? 0)
    then
      let key := vb2_member_of_sd F c (kernel_key_offset sd) in
      append info "\nkernel_subkey: %s" [FillInSha1Sum key] []
    else info in
  (* Make sure we finish with a newline *)
  let info := append info "\n" [] [] in
  let text := substring 0 (Z.to_nat (DEBUG_INFO_SIZE - 1)) (buf info) in
  let s := log_call (Print_VB2_DEBUG "[TAB] Debug Info:\n%s" [text] []) s in
  let '(rv, x) := VbExDisplayDebugInfo F (firmware s) text 1 in
  (rv, set_firmware x (log_call (Call_VbExDisplayDebugInfo text 1) s)).

(** The localization that [VbCheckDisplayKey] stores for an arrow key:
    [forward] says whether the key is [VB_KEY_RIGHT] or [VB_KEY_UP],
    [status] and [count] are what [VbExGetLocalizationCount] returned,
    [loc] is the localization last saved. *)
Definition next_locale (forward : bool) (status count loc : Z) : Z :=
  if negb (VB2_SUCCESS F =? status) then
    0 (* No localization count (bad GBB?) *)
  else if forward then
    if loc <? u32 (count - 1) then u32 (loc + 1) else 0
  else
    if loc >? 0 then u32 (loc - 1) else u32 (count - 1).

(** [vb2_error_t VbCheckDisplayKey(struct vb2_context *ctx, uint32_t
    key, const VbScreenData *data)] *)
Definition VbCheckDisplayKey (key data : Z) (s : state) : Z * state :=
  if key =? 9 then
    (* Tab = display debug info *)
    VbDisplayDebugInfo s
  else if key =? VB_KEY_ESC F then
    (* Force redraw current screen (to clear Tab debug output) *)
    VbDisplayScreen (disp_current_screen s) 1 data s
  else if (key =? VB_KEY_LEFT F) || (key =? VB_KEY_RIGHT F)
          || (key =? VB_KEY_UP F) || (key =? VB_KEY_DOWN F) then
    (* Arrow keys = change localization *)
    let count := 0 in
    let loc := vb2_nv_get F (ctx s) VB2_NV_LOCALIZATION_INDEX in
    let '(status, count) := VbExGetLocalizationCount F (firmware s) count in
    let loc :=
      next_locale ((VB_KEY_RIGHT F =? key) || (VB_KEY_UP F =? key))
                  status count loc in
    let s :=
      log_call (Print_VB2_DEBUG
                "VbCheckDisplayKey() - change localization to %d\n" [] [loc])
             s in
    let s := set_ctx (vb2_nv_set F (ctx s) VB2_NV_LOCALIZATION_INDEX loc) s in
    let s := set_ctx (vb2_nv_set F (ctx s) VB2_NV_BACKUP_NVRAM_REQUEST 1) s in
    (* Non-manual recovery mode is meant to be left via three-finger
       salute (into manual recovery mode). Need to commit nvdata changes
       immediately.  Ignore commit errors in recovery mode. *)
    let s :=
      if negb (Z.land (ctx_flags F (ctx s)) (VB2_CONTEXT_RECOVERY_MODE F)
               =? 0)
         && (vb2_allow_recovery F (ctx s) =? 0)
      then set_ctx (vb2ex_commit_data F (ctx s))
                   (log_call Call_vb2ex_commit_data s)
      else s in
    (* Force redraw of current screen *)
    VbDisplayScreen (disp_current_screen s) 1 data s
  else (VB2_SUCCESS F, s).

End WithFirmware.

(** The value of a hexadecimal digit, to read back what
    [Uint8ToString] wrote. *)
Definition hex_value (c : Ascii.ascii) : option Z :=
  let n := Z.of_nat (Ascii.nat_of_ascii c) in
  if (48 <=? n) && (n <=? 57) then Some (n - 48)
  else if (97 <=? n) && (n <=? 102) then Some (n - 87)
  else None.

End Display.

(** ** utility/kernel_utility.cc: the command line

    The rest of [KernelUtility]: the options, their check, the three
    modes and [main]. *)

Module KernelTool.
Import KernelUtility.

Definition UINT16_MAX : Z := 65535.

(** The value that an [int] member takes of the [long] that [strtol]
    returns. *)
Definition int (z : Z) : Z := (z + 2 ^ 31) mod 2 ^ 32 - 2 ^ 31.

(** The members of [KernelUtility] that hold the command line: those
    that [GenerateSignedImage] reads, and the others. *)
Record Members := {
  generate_options : Options;
  firmware_key_pub_file_ : string;
  in_file_ : string;
  out_file_ : string;
  is_generate_ : bool;
  is_verify_ : bool;
  is_describe_ : bool;
  is_only_vblock_ : bool;
  is_subkey_out_ : bool
}.

(** [KernelUtility::KernelUtility()].  The constructor gives
    [is_subkey_out_] no value: [is_subkey_out0] is what the member
    holds. *)
Definition KernelUtility (is_subkey_out0 : bool) : Members :=
  {| generate_options :=
       {| firmware_key_file_ := EmptyString;
          kernel_key_file_ := EmptyString;
          kernel_key_pub_file_ := EmptyString;
          subkey_in_file_ := EmptyString;
          firmware_sign_algorithm_ := -1;
          kernel_sign_algorithm_ := -1;
          kernel_key_version_ := -1;
          kernel_version_ := -1;
          padding_ := 0;
          vmlinuz_file_ := EmptyString;
          config_file_ := EmptyString;
          bootloader_file_ := EmptyString |};
     firmware_key_pub_file_ := EmptyString;
     in_file_ := EmptyString;
     out_file_ := EmptyString;
     is_generate_ := false;
     is_verify_ := false;
     is_describe_ := false;
     is_only_vblock_ := false;
     is_subkey_out_ := is_subkey_out0 |}.

Definition with_options (f : Options -> Options) (m : Members) : Members :=
  {| generate_options := f (generate_options m);
     firmware_key_pub_file_ := firmware_key_pub_file_ m;
     in_file_ := in_file_ m; out_file_ := out_file_ m;
     is_generate_ := is_generate_ m; is_verify_ := is_verify_ m;
     is_describe_ := is_describe_ m; is_only_vblock_ := is_only_vblock_ m;
     is_subkey_out_ := is_subkey_out_ m |}.

Definition set_firmware_key_file_ (v : string) (o : Options) : Options :=
  {| firmware_key_file_ := v; kernel_key_file_ := kernel_key_file_ o;
     kernel_key_pub_file_ := kernel_key_pub_file_ o;
     subkey_in_file_ := subkey_in_file_ o;
     firmware_sign_algorithm_ := firmware_sign_algorithm_ o;
     kernel_sign_algorithm_ := kernel_sign_algorithm_ o;
     kernel_key_version_ := kernel_key_version_ o;
     kernel_version_ := kernel_version_ o; padding_ := padding_ o;
     vmlinuz_file_ := vmlinuz_file_ o; config_file_ := config_file_ o;
     bootloader_file_ := bootloader_file_ o |}.
Definition set_kernel_key_file_ (v : string) (o : Options) : Options :=
  {| firmware_key_file_ := firmware_key_file_ o; kernel_key_file_ := v;
     kernel_key_pub_file_ := kernel_key_pub_file_ o;
     subkey_in_file_ := subkey_in_file_ o;
     firmware_sign_algorithm_ := firmware_sign_algorithm_ o;
     kernel_sign_algorithm_ := kernel_sign_algorithm_ o;
     kernel_key_version_ := kernel_key_version_ o;
     kernel_version_ := kernel_version_ o; padding_ := padding_ o;
     vmlinuz_file_ := vmlinuz_file_ o; config_file_ := config_file_ o;
     bootloader_file_ := bootloader_file_ o |}.
Definition set_kernel_key_pub_file_ (v : string) (o : Options) : Options :=
  {| firmware_key_file_ := firmware_key_file_ o;
     kernel_key_file_ := kernel_key_file_ o; kernel_key_pub_file_ := v;
     subkey_in_file_ := subkey_in_file_ o;
     firmware_sign_algorithm_ := firmware_sign_algorithm_ o;
     kernel_sign_algorithm_ := kernel_sign_algorithm_ o;
     kernel_key_version_ := kernel_key_version_ o;
     kernel_version_ := kernel_version_ o; padding_ := padding_ o;
     vmlinuz_file_ := vmlinuz_file_ o; config_file_ := config_file_ o;
     bootloader_file_ := bootloader_file_ o |}.
Definition set_subkey_in_file_ (v : string) (o : Options) : Options :=
  {| firmware_key_file_ := firmware_key_file_ o;
     kernel_key_file_ := kernel_key_file_ o;
     kernel_key_pub_file_ := kernel_key_pub_file_ o; subkey_in_file_ := v;
     firmware_sign_algorithm_ := firmware_sign_algorithm_ o;
     kernel_sign_algorithm_ := kernel_sign_algorithm_ o;
     kernel_key_version_ := kernel_key_version_ o;
     kernel_version_ := kernel_version_ o; padding_ := padding_ o;
     vmlinuz_file_ := vmlinuz_file_ o; config_file_ := config_file_ o;
     bootloader_file_ := bootloader_file_ o |}.
Definition set_firmware_sign_algorithm_ (v : Z) (o : Options) : Options :=
  {| firmware_key_file_ := firmware_key_file_ o;
     kernel_key_file_ := kernel_key_file_ o;
     kernel_key_pub_file_ := kernel_key_pub_file_ o;
     subkey_in_file_ := subkey_in_file_ o; firmware_sign_algorithm_ := v;
     kernel_sign_algorithm_ := kernel_sign_algorithm_ o;
     kernel_key_version_ := kernel_key_version_ o;
     kernel_version_ := kernel_version_ o; padding_ := padding_ o;
     vmlinuz_file_ := vmlinuz_file_ o; config_file_ := config_file_ o;
     bootloader_file_ := bootloader_file_ o |}.
Definition set_kernel_sign_algorithm_ (v : Z) (o : Options) : Options :=
  {| firmware_key_file_ := firmware_key_file_ o;
     kernel_key_file_ := kernel_key_file_ o;
     kernel_key_pub_file_ := kernel_key_pub_file_ o;
     subkey_in_file_ := subkey_in_file_ o;
     firmware_sign_algorithm_ := firmware_sign_algorithm_ o;
     kernel_sign_algorithm_ := v;
     kernel_key_version_ := kernel_key_version_ o;
     kernel_version_ := kernel_version_ o; padding_ := padding_ o;
     vmlinuz_file_ := vmlinuz_file_ o; config_file_ := config_file_ o;
     bootloader_file_ := bootloader_file_ o |}.
Definition set_kernel_key_version_ (v : Z) (o : Options) : Options :=
  {| firmware_key_file_ := firmware_key_file_ o;
     kernel_key_file_ := kernel_key_file_ o;
     kernel_key_pub_file_ := kernel_key_pub_file_ o;
     subkey_in_file_ := subkey_in_file_ o;
     firmware_sign_algorithm_ := firmware_sign_algorithm_ o;
     kernel_sign_algorithm_ := kernel_sign_algorithm_ o;
     kernel_key_version_ := v;
     kernel_version_ := kernel_version_ o; padding_ := padding_ o;
     vmlinuz_file_ := vmlinuz_file_ o; config_file_ := config_file_ o;
     bootloader_file_ := bootloader_file_ o |}.
Definition set_kernel_version_ (v : Z) (o : Options) : Options :=
  {| firmware_key_file_ := firmware_key_file_ o;
     kernel_key_file_ := kernel_key_file_ o;
     kernel_key_pub_file_ := kernel_key_pub_file_ o;
     subkey_in_file_ := subkey_in_file_ o;
     firmware_sign_algorithm_ := firmware_sign_algorithm_ o;
     kernel_sign_algorithm_ := kernel_sign_algorithm_ o;
     kernel_key_version_ := kernel_key_version_ o;
     kernel_version_ := v; padding_ := padding_ o;
     vmlinuz_file_ := vmlinuz_file_ o; config_file_ := config_file_ o;
     bootloader_file_ := bootloader_file_ o |}.
Definition set_padding_ (v : Z) (o : Options) : Options :=
  {| firmware_key_file_ := firmware_key_file_ o;
     kernel_key_file_ := kernel_key_file_ o;
     kernel_key_pub_file_ := kernel_key_pub_file_ o;
     subkey_in_file_ := subkey_in_file_ o;
     firmware_sign_algorithm_ := firmware_sign_algorithm_ o;
     kernel_sign_algorithm_ := kernel_sign_algorithm_ o;
     kernel_key_version_ := kernel_key_version_ o;
     kernel_version_ := kernel_version_ o; padding_ := v;
     vmlinuz_file_ := vmlinuz_file_ o; config_file_ := config_file_ o;
     bootloader_file_ := bootloader_file_ o |}.
Definition set_vmlinuz_file_ (v : string) (o : Options) : Options :=
  {| firmware_key_file_ := firmware_key_file_ o;
     kernel_key_file_ := kernel_key_file_ o;
     kernel_key_pub_file_ := kernel_key_pub_file_ o;
     subkey_in_file_ := subkey_in_file_ o;
     firmware_sign_algorithm_ := firmware_sign_algorithm_ o;
     kernel_sign_algorithm_ := kernel_sign_algorithm_ o;
     kernel_key_version_ := kernel_key_version_ o;
     kernel_version_ := kernel_version_ o; padding_ := padding_ o;
     vmlinuz_file_ := v; config_file_ := config_file_ o;
     bootloader_file_ := bootloader_file_ o |}.
Definition set_config_file_ (v : string) (o : Options) : Options :=
  {| firmware_key_file_ := firmware_key_file_ o;
     kernel_key_file_ := kernel_key_file_ o;
     kernel_key_pub_file_ := kernel_key_pub_file_ o;
     subkey_in_file_ := subkey_in_file_ o;
     firmware_sign_algorithm_ := firmware_sign_algorithm_ o;
     kernel_sign_algorithm_ := kernel_sign_algorithm_ o;
     kernel_key_version_ := kernel_key_version_ o;
     kernel_version_ := kernel_version_ o; padding_ := padding_ o;
     vmlinuz_file_ := vmlinuz_file_ o; config_file_ := v;
     bootloader_file_ := bootloader_file_ o |}.
Definition set_bootloader_file_ (v : string) (o : Options) : Options :=
  {| firmware_key_file_ := firmware_key_file_ o;
     kernel_key_file_ := kernel_key_file_ o;
     kernel_key_pub_file_ := kernel_key_pub_file_ o;
     subkey_in_file_ := subkey_in_file_ o;
     firmware_sign_algorithm_ := firmware_sign_algorithm_ o;
     kernel_sign_algorithm_ := kernel_sign_algorithm_ o;
     kernel_key_version_ := kernel_key_version_ o;
     kernel_version_ := kernel_version_ o; padding_ := padding_ o;
     vmlinuz_file_ := vmlinuz_file_ o; config_file_ := config_file_ o;
     bootloader_file_ := v |}.

Definition set_firmware_key_pub_file_ (v : string) (m : Members) : Members :=
  {| generate_options := generate_options m; firmware_key_pub_file_ := v;
     in_file_ := in_file_ m; out_file_ := out_file_ m;
     is_generate_ := is_generate_ m; is_verify_ := is_verify_ m;
     is_describe_ := is_describe_ m; is_only_vblock_ := is_only_vblock_ m;
     is_subkey_out_ := is_subkey_out_ m |}.
Definition set_in_file_ (v : string) (m : Members) : Members :=
  {| generate_options := generate_options m;
     firmware_key_pub_file_ := firmware_key_pub_file_ m;
     in_file_ := v; out_file_ := out_file_ m;
     is_generate_ := is_generate_ m; is_verify_ := is_verify_ m;
     is_describe_ := is_describe_ m; is_only_vblock_ := is_only_vblock_ m;
     is_subkey_out_ := is_subkey_out_ m |}.
Definition set_out_file_ (v : string) (m : Members) : Members :=
  {| generate_options := generate_options m;
     firmware_key_pub_file_ := firmware_key_pub_file_ m;
     in_file_ := in_file_ m; out_file_ := v;
     is_generate_ := is_generate_ m; is_verify_ := is_verify_ m;
     is_describe_ := is_describe_ m; is_only_vblock_ := is_only_vblock_ m;
     is_subkey_out_ := is_subkey_out_ m |}.
Definition set_is_generate_ (v : bool) (m : Members) : Members :=
  {| generate_options := generate_options m;
     firmware_key_pub_file_ := firmware_key_pub_file_ m;
     in_file_ := in_file_ m; out_file_ := out_file_ m;
     is_generate_ := v; is_verify_ := is_verify_ m;
     is_describe_ := is_describe_ m; is_only_vblock_ := is_only_vblock_ m;
     is_subkey_out_ := is_subkey_out_ m |}.
Definition set_is_verify_ (v : bool) (m : Members) : Members :=
  {| generate_options := generate_options m;
     firmware_key_pub_file_ := firmware_key_pub_file_ m;
     in_file_ := in_file_ m; out_file_ := out_file_ m;
     is_generate_ := is_generate_ m; is_verify_ := v;
     is_describe_ := is_describe_ m; is_only_vblock_ := is_only_vblock_ m;
     is_subkey_out_ := is_subkey_out_ m |}.
Definition set_is_describe_ (v : bool) (m : Members) : Members :=
  {| generate_options := generate_options m;
     firmware_key_pub_file_ := firmware_key_pub_file_ m;
     in_file_ := in_file_ m; out_file_ := out_file_ m;
     is_generate_ := is_generate_ m; is_verify_ := is_verify_ m;
     is_describe_ := v; is_only_vblock_ := is_only_vblock_ m;
     is_subkey_out_ := is_subkey_out_ m |}.
Definition set_is_only_vblock_ (v : bool) (m : Members) : Members :=
  {| generate_options := generate_options m;
     firmware_key_pub_file_ := firmware_key_pub_file_ m;
     in_file_ := in_file_ m; out_file_ := out_file_ m;
     is_generate_ := is_generate_ m; is_verify_ := is_verify_ m;
     is_describe_ := is_describe_ m; is_only_vblock_ := v;
     is_subkey_out_ := is_subkey_out_ m |}.
Definition set_is_subkey_out_ (v : bool) (m : Members) : Members :=
  {| generate_options := generate_options m;
     firmware_key_pub_file_ := firmware_key_pub_file_ m;
     in_file_ := in_file_ m; out_file_ := out_file_ m;
     is_generate_ := is_generate_ m; is_verify_ := is_verify_ m;
     is_describe_ := is_describe_ m; is_only_vblock_ := is_only_vblock_ m;
     is_subkey_out_ := v |}.

(** What [getopt_long] returns for the table [long_options] and the
    empty string of short options: the value of the option it found, or
    ['?']. *)
Inductive option_value :=
| OPT_FIRMWARE_KEY
| OPT_FIRMWARE_KEY_PUB
| OPT_KERNEL_KEY
| OPT_KERNEL_KEY_PUB
| OPT_SUBKEY_IN
| OPT_FIRMWARE_SIGN_ALGORITHM
| OPT_KERNEL_SIGN_ALGORITHM
| OPT_KERNEL_KEY_VERSION
| OPT_KERNEL_VERSION
| OPT_IN
| OPT_OUT
| OPT_GENERATE
| OPT_VERIFY
| OPT_DESCRIBE
| OPT_VBLOCK
| OPT_BOOTLOADER
| OPT_VMLINUZ
| OPT_CONFIG
| OPT_PADDING
| OPT_SUBKEY_OUT
| Question_mark.

(** [long_options[option_index].name] for the option found. *)
Definition long_option_name (i : option_value) : string :=
  match i with
  | OPT_FIRMWARE_KEY => "firmware_key"
  | OPT_FIRMWARE_KEY_PUB => "firmware_key_pub"
  | OPT_KERNEL_KEY => "kernel_key"
  | OPT_KERNEL_KEY_PUB => "kernel_key_pub"
  | OPT_SUBKEY_IN => "subkey_in"
  | OPT_FIRMWARE_SIGN_ALGORITHM => "firmware_sign_algorithm"
  | OPT_KERNEL_SIGN_ALGORITHM => "kernel_sign_algorithm"
  | OPT_KERNEL_KEY_VERSION => "kernel_key_version"
  | OPT_KERNEL_VERSION => "kernel_version"
  | OPT_IN => "in"
  | OPT_OUT => "out"
  | OPT_GENERATE => "generate"
  | OPT_VERIFY => "verify"
  | OPT_DESCRIBE => "describe"
  | OPT_VBLOCK => "vblock"
  | OPT_BOOTLOADER => "bootloader"
  | OPT_VMLINUZ => "vmlinuz"
  | OPT_CONFIG => "config"
  | OPT_PADDING => "padding"
  | OPT_SUBKEY_OUT => "subkey_out"
  | Question_mark => EmptyString
  end.

(** The routines of kernel_image, file_keys and the C library that the
    rest of the class calls, besides those of [Lib].  [strtol] yields
    the number and the text at which it stopped ([e]);
    [WriteKernelImage] yields whether it wrote. *)
Record Tool := {
  library : Lib;
  strtol : string -> Z * string;
  algo_strings : Z -> string;
  ReadKernelImage : string -> option KernelImage;
  WriteKernelImage : string -> KernelImage -> bool -> bool -> bool;
  RSAPublicKeyFromFile : string -> option Mem.mem;
  VerifyKernelImage : Mem.mem -> KernelImage -> Z -> Z;
  VerifyKernelErrorString : Z -> string
}.

(** What a run of the tool does that can be seen from outside. *)
Inductive action :=
| Cerr (text : string)
| Cerr_number (i : Z)
| Generating (e : event)
| Call_WriteKernelImage (out_file : string) (image : KernelImage)
                        (is_only_vblock is_subkey_out : bool)
| Call_PrintKernelImage (image : KernelImage)
| Call_VerifyKernelImage (image : KernelImage).

Section WithTool.

Variable T : Tool.

(** [bool KernelUtility::CheckOptions(void)]: its result and what it
    writes to [cerr]. *)
Definition CheckOptions (m : Members) : bool * list action :=
  let o := generate_options m in
  (* Ensure that only one of --{describe|generate|verify} is set. *)
  if negb ((is_describe_ m && negb (is_generate_ m) && negb (is_verify_ m))
           || (negb (is_describe_ m) && is_generate_ m
               && negb (is_verify_ m))
           || (negb (is_describe_ m) && negb (is_generate_ m)
               && is_verify_ m)) then
    (false, [Cerr "One (and only one) of --describe, --generate or --verify ";
             Cerr "must be specified.\n"])
  (* Required options for --describe. *)
  else if is_describe_ m && empty (in_file_ m) then
    (false, [Cerr "No input file specified.\n"])
  (* Required options for --verify. *)
  else if is_verify_ m && empty (firmware_key_pub_file_ m) then
    (false, [Cerr "No pre-processed public firmware key file specified.\n"])
  else if is_verify_ m && empty (in_file_ m) then
    (false, [Cerr "No input file specified.\n"])
  (* Required options for --generate. *)
  else if is_generate_ m then
    (* Firmware private key (root key), kernel signing public key, and
       signing algorithms are required to generate the key signature
       header. *)
    if empty (subkey_in_file_ o) && empty (firmware_key_file_ o) then
      (false, [Cerr "No firmware key file specified.\n"])
    else if empty (subkey_in_file_ o) && empty (kernel_key_pub_file_ o) then
      (false, [Cerr "No pre-processed public kernel key file specified\n"])
    else if empty (subkey_in_file_ o)
            && ((kernel_key_version_ o <=? 0)
                || (kernel_key_version_ o >? UINT16_MAX)) then
      (false, [Cerr "Invalid or no kernel key version specified.\n"])
    else if empty (subkey_in_file_ o)
            && ((firmware_sign_algorithm_ o <? 0)
                || (firmware_sign_algorithm_ o
                    >=? kNumAlgorithms (library T))) then
      (false,
       [Cerr "Invalid or no firmware signing key algorithm specified.\n"])
    else if empty (subkey_in_file_ o)
            && ((kernel_sign_algorithm_ o <? 0)
                || (kernel_sign_algorithm_ o
                    >=? kNumAlgorithms (library T))) then
      (false,
       [Cerr "Invalid or no kernel signing key algorithm specified.\n"])
    else if empty (kernel_key_file_ o) then
      (false, [Cerr "No kernel key file specified.\n"])
    else if (kernel_version_ o <=? 0) || (kernel_version_ o >? UINT16_MAX)
    then
      (false, [Cerr "Invalid or no kernel version specified.\n"])
    else if empty (out_file_ m) then
      (false, [Cerr "No output file specified.\n"])
    else if empty (config_file_ o) then
      (false, [Cerr "No config file specified.\n"])
    else if empty (bootloader_file_ o) then
      (false, [Cerr "No bootloader file specified.\n"])
    else if empty (vmlinuz_file_ o) then
      (false, [Cerr "No vmlinuz file specified.\n"])
    else (true, [])
  else (true, []).

(** The test [!*optarg || (e && *e)] on an argument that should be a
    number, and what is written when it holds. *)
Definition not_a_number (optarg e : string) : bool :=
  empty optarg || negb (empty e).

Definition invalid_argument (i : option_value) (optarg : string)
  : list action :=
  [Cerr "Invalid argument to --"; Cerr (long_option_name i); Cerr ": ";
   Cerr optarg; Cerr "\n"].

(** [bool KernelUtility::ParseCmdLineOptions(int argc, char* argv[])].
    [found] is what the calls of [getopt_long] return, one after the
    other, before it returns -1: the value and [optarg]. *)
Fixpoint ParseCmdLineOptions (found : list (option_value * string))
         (m : Members) : bool * Members * list action :=
  match found with
  | [] =>
      let '(ok, said) := CheckOptions m in (ok, m, said)
  | (i, optarg) :: found' =>
      let number (set : Z -> Options -> Options) :=
        let '(v, e) := strtol T optarg in
        let m := with_options (set (int v)) m in
        if not_a_number optarg e then (false, m, invalid_argument i optarg)
        else ParseCmdLineOptions found' m in
      match i with
      | Question_mark => (false, m, [])
      | OPT_FIRMWARE_KEY =>
          ParseCmdLineOptions found'
            (with_options (set_firmware_key_file_ optarg) m)
      | OPT_FIRMWARE_KEY_PUB =>
          ParseCmdLineOptions found' (set_firmware_key_pub_file_ optarg m)
      | OPT_KERNEL_KEY =>
          ParseCmdLineOptions found'
            (with_options (set_kernel_key_file_ optarg) m)
      | OPT_KERNEL_KEY_PUB =>
          ParseCmdLineOptions found'
            (with_options (set_kernel_key_pub_file_ optarg) m)
      | OPT_SUBKEY_IN =>
          ParseCmdLineOptions found'
            (with_options (set_subkey_in_file_ optarg) m)
      | OPT_FIRMWARE_SIGN_ALGORITHM => number set_firmware_sign_algorithm_
      | OPT_KERNEL_SIGN_ALGORITHM => number set_kernel_sign_algorithm_
      | OPT_KERNEL_KEY_VERSION => number set_kernel_key_version_
      | OPT_KERNEL_VERSION => number set_kernel_version_
      | OPT_IN => ParseCmdLineOptions found' (set_in_file_ optarg m)
      | OPT_OUT => ParseCmdLineOptions found' (set_out_file_ optarg m)
      | OPT_GENERATE => ParseCmdLineOptions found' (set_is_generate_ true m)
      | OPT_VERIFY => ParseCmdLineOptions found' (set_is_verify_ true m)
      | OPT_DESCRIBE => ParseCmdLineOptions found' (set_is_describe_ true m)
      | OPT_VBLOCK => ParseCmdLineOptions found' (set_is_only_vblock_ true m)
      | OPT_BOOTLOADER =>
          ParseCmdLineOptions found'
            (with_options (set_bootloader_file_ optarg) m)
      | OPT_VMLINUZ =>
          ParseCmdLineOptions found'
            (with_options (set_vmlinuz_file_ optarg) m)
      | OPT_CONFIG =>
          ParseCmdLineOptions found'
            (with_options (set_config_file_ optarg) m)
      | OPT_PADDING => number set_padding_
      | OPT_SUBKEY_OUT =>
          ParseCmdLineOptions found' (set_is_subkey_out_ true m)
      end
  end.

(** The double quote, which the text of [PrintUsage] escapes. *)
Definition dq : string := String (Ascii.ascii_of_nat 34) EmptyString.

(** The loop of [PrintUsage] over the algorithms [i .. i + n - 1]. *)
Fixpoint usage_algorithms (i : Z) (n : nat) : list action :=
  match n with
  | O => []
  | S n' =>
      [Cerr "  "; Cerr_number i; Cerr " for ";
       Cerr (algo_strings T i); Cerr "\n"] ++ usage_algorithms (i + 1) n'
  end.

(** [void KernelUtility::PrintUsage(void)] *)
Definition PrintUsage : list action :=
  [Cerr ("\n"
         ++ "Utility to generate/verify/describe a verified boot kernel image\n"
         ++ "\n"
         ++ "Usage: kernel_utility <--generate|--verify|--describe> [OPTIONS]\n"
         ++ "\n"
         ++ "For " ++ dq ++ "--describe" ++ dq
         ++ ", the required OPTIONS are:\n"
         ++ "  --in <infile>\t\t\t\tSigned boot image to describe.\n"
         ++ "\n"
         ++ "For " ++ dq ++ "--verify" ++ dq ++ ",  required OPTIONS are:\n"
         ++ "  --in <infile>\t\t\t\tSigned boot image to verify.\n"
         ++ "  --firmware_key_pub <pubkeyfile>\tPre-processed public firmware key\n"
         ++ "\n"
         ++ "For " ++ dq ++ "--generate" ++ dq ++ ", required OPTIONS are:\n"
         ++ "  --firmware_key <privkeyfile>\t\tPrivate firmware signing key file\n"
         ++ "  --kernel_key_pub <pubkeyfile>\t\tPre-processed public kernel signing"
         ++ " key\n"
         ++ "  --firmware_sign_algorithm <algoid>\tSigning algorithm for firmware\n"
         ++ "  --kernel_sign_algorithm <algoid>\tSigning algorithm for kernel\n"
         ++ "  --kernel_key_version <number>\t\tKernel signing key version number\n"
         ++ "OR\n"
         ++ "  --subkey_in <subkeyfile>\t\tExisting key signature header\n"
         ++ "\n"
         ++ "  --kernel_key <privkeyfile>\t\tPrivate kernel signing key file\n"
         ++ "  --kernel_version <number>\t\tKernel Version number\n"
         ++ "  --config <file>\t\t\tEmbedded kernel command-line parameters\n"
         ++ "  --bootloader <file>\t\t\tEmbedded bootloader stub\n"
         ++ "  --vmlinuz <file>\t\t\tEmbedded kernel image\n"
         ++ "  --out <outfile>\t\t\tOutput file for verified boot image\n"
         ++ "\n"
         ++ "Optional arguments for " ++ dq ++ "--generate" ++ dq ++ " are:\n"
         ++ "  --padding <size>\t\t\tPad the header to this size\n"
         ++ "  --subkey_out\t\t\t\tJust output the subkey (key verification) header\n"
         ++ "  --vblock\t\t\t\tJust output the verification block\n"
         ++ "\n"
         ++ "<algoid> (for --*_sign_algorithm) is one of the following:\n")%string]
  ++ usage_algorithms 0 (Z.to_nat (kNumAlgorithms (library T)))
  ++ [Cerr "\n\n"].

(** [void KernelUtility::OutputSignedImage(void)], for the image that
    [image_] points to. *)
Definition OutputSignedImage (m : Members) (image : option KernelImage)
  : list action :=
  match image with
  | Some image =>
      [Call_WriteKernelImage (out_file_ m) image (is_only_vblock_ m)
                             (is_subkey_out_ m)]
      ++ (if negb (WriteKernelImage T (out_file_ m) image (is_only_vblock_ m)
                                    (is_subkey_out_ m))
          then [Cerr "Couldn't write verified boot kernel image to file ";
                Cerr (out_file_ m); Cerr ".\n"]
          else [])
  | None => []
  end.

(** [void KernelUtility::DescribeSignedImage(void)] *)
Definition DescribeSignedImage (m : Members) : list action :=
  match ReadKernelImage T (in_file_ m) with
  | None => [Cerr "Couldn't read kernel image or malformed image.\n"]
  | Some image => [Call_PrintKernelImage image]
  end.

(** [bool KernelUtility::VerifySignedImage(void)] *)
Definition VerifySignedImage (m : Members) : bool * list action :=
  let firmware_key_pub := RSAPublicKeyFromFile T (firmware_key_pub_file_ m) in
  let image := ReadKernelImage T (in_file_ m) in
  match firmware_key_pub with
  | None => (false, [Cerr "Couldn't read pre-processed public root key.\n"])
  | Some key =>
      match image with
      | None =>
          (false, [Cerr "Couldn't read kernel image or malformed image.\n"])
      | Some image =>
          let error := VerifyKernelImage T key image 0 in
          if error =? 0 then (true, [Call_VerifyKernelImage image])
          else
            (false, [Call_VerifyKernelImage image;
                     Cerr (VerifyKernelErrorString T error); Cerr "\n"])
      end
  end.

(** [int main(int argc, char* argv[])]: the value it returns and what
    the run did. *)
Definition main (is_subkey_out0 : bool)
           (found : list (option_value * string)) : Z * list action :=
  let ku := KernelUtility is_subkey_out0 in
  let '(ok, ku, said) := ParseCmdLineOptions found ku in
  if negb ok then (-1, said ++ PrintUsage)
  else if is_describe_ ku then (0, said ++ DescribeSignedImage ku)
  else if is_generate_ ku then
    let r := GenerateSignedImage (library T) (generate_options ku) in
    let said := said ++ List.map Generating (events r) in
    if negb (returned r) then (-1, said)
    else (0, said ++ OutputSignedImage ku (Some (image_ r)))
  else if is_verify_ ku then
    let '(verified, did) := VerifySignedImage ku in
    (0, said ++ [Cerr "Verification "] ++ did
        ++ [Cerr (if verified then "SUCCESS.\n" else "FAILURE.\n")])
  else (0, said).

(** An option that makes [ParseCmdLineOptions] return at once: one that
    [getopt_long] does not know, or a number that is none. *)
Definition stops (f : option_value * string) : bool :=
  match fst f with
  | Question_mark => true
  | OPT_FIRMWARE_SIGN_ALGORITHM | OPT_KERNEL_SIGN_ALGORITHM
  | OPT_KERNEL_KEY_VERSION | OPT_KERNEL_VERSION | OPT_PADDING =>
      not_a_number (snd f) (snd (strtol T (snd f)))
  | _ => false
  end.

(** Is an action an output to [cerr]? *)
Definition is_cerr (a : action) : bool :=
  match a with
  | Cerr _ | Cerr_number _ => true
  | _ => false
  end.

(** Is an action a call of [WriteKernelImage]? *)
Definition is_write (a : action) : bool :=
  match a with
  | Call_WriteKernelImage _ _ _ _ => true
  | _ => false
  end.

End WithTool.
End KernelTool.

(** ** futility: flash_helpers.c and the [flash] command

    [setup_flash] and [teardown_flash], and the command that uses them
    to show and change the write protection of the AP SPI flash.  The
    calls of the updater, of flashrom and of the servo control are
    recorded in the order they are made. *)

Module Flash.

(** [struct updater_config_arguments] and [struct updater_config] of
    updater.h, the members that the code here reads and writes.
    [image_current] is the data of the image last read, [None] when it
    is [NULL]. *)
Record updater_config_arguments := {
  programmer : option string;
  detect_servo : bool;
  verbosity : Z
}.

Record updater_config := {
  prepare_ctrl_name : option string;
  image_programmer : string;
  image_current : option Mem.mem;
  cfg_verbosity : Z
}.

Definition set_image_current (v : option Mem.mem) (c : updater_config)
  : updater_config :=
  {| prepare_ctrl_name := prepare_ctrl_name c;
     image_programmer := image_programmer c;
     image_current := v; cfg_verbosity := cfg_verbosity c |}.

Definition set_programmer (v : option string) (a : updater_config_arguments)
  : updater_config_arguments :=
  {| programmer := v; detect_servo := detect_servo a;
     verbosity := verbosity a |}.

Definition set_verbosity (v : Z) (a : updater_config_arguments)
  : updater_config_arguments :=
  {| programmer := programmer a; detect_servo := detect_servo a;
     verbosity := v |}.

(** What [getopt_long] hands back at one call: its result, [optarg],
    [optopt] and [argv[optind - 1]]. *)
Record found := {
  opt : Z;
  optarg : string;
  optopt : Z;
  last_arg : option string
}.

(** The routines of the updater, of flashrom and of the device under
    test, and the build option.  A routine that returns a status and
    fills variables yields the status first. *)
Record Updater := {
  USE_FLASHROM : bool;
  MYNAME : string;
  SHARED_FLASH_ARGS_HELP : string;
  PRIx64 : string;
  FMAP_RO_FMAP : string;
  FMAP_RO : string;
  updater_new_config : option updater_config;
  host_detect_servo : option string -> option string * option string;
  updater_setup_config :
    updater_config -> updater_config_arguments
    -> Z * bool * updater_config;
  handle_flash_argument :
    updater_config_arguments -> Z -> string
    -> option updater_config_arguments;
  flashrom_read_image :
    updater_config -> list string -> Z -> Z * option Mem.mem;
  flashrom_get_size : string -> Z -> Z * Z;
  flashrom_get_info : string -> Z -> Z * (string * string * Z * Z * Z);
  flashrom_get_wp : string -> Z -> Z * (bool * Z * Z);
  flashrom_set_wp : string -> bool -> Z -> Z -> Z -> Z;
  dut_get_property_WP_HW : updater_config -> Z;
  fmap_find_by_name_in : Mem.mem -> Z -> string -> option Z
}.

Inductive call :=
| Call_updater_new_config
| Call_host_detect_servo
| Call_free_servo_programmer
| Call_updater_setup_config
| Call_prepare_servo_control (name : option string) (enable : bool)
| Call_updater_delete_config
| Call_flashrom_read_image (regions : list string)
| Call_flashrom_get_size
| Call_flashrom_get_info
| Call_flashrom_get_wp
| Call_flashrom_set_wp (enable : bool) (wp_start wp_len : Z)
| Call_dut_get_property
| Call_free_image
| Says (m : message).

(** Does a call reach the flash chip or the servo? *)
Definition touches_hardware (c : call) : bool :=
  match c with
  | Says _ | Call_updater_new_config | Call_updater_delete_config
  | Call_free_servo_programmer | Call_free_image => false
  | _ => true
  end.

(** The calls that make and release a configuration, and those that
    switch the servo control. *)
Definition is_new_config (c : call) : bool :=
  match c with Call_updater_new_config => true | _ => false end.

Definition is_delete_config (c : call) : bool :=
  match c with Call_updater_delete_config => true | _ => false end.

Definition is_servo_control (enable : bool) (c : call) : bool :=
  match c with
  | Call_prepare_servo_control _ e => Bool.eqb e enable
  | _ => false
  end.

Definition is_set_wp (c : call) : bool :=
  match c with Call_flashrom_set_wp _ _ _ => true | _ => false end.

(** The calls of [setup_flash] and [teardown_flash]. *)
Definition is_setup_call (c : call) : bool :=
  match c with
  | Call_updater_new_config | Call_host_detect_servo
  | Call_free_servo_programmer | Call_updater_setup_config
  | Call_prepare_servo_control _ _ | Call_updater_delete_config => true
  | _ => false
  end.

(** How many of the calls are of one kind. *)
Definition count (p : call -> bool) (l : list call) : nat :=
  List.length (filter p l).

Section WithUpdater.

Variable U : Updater.

(** What [setup_flash] leaves: its result, [*cfg], [*args] and
    [*update_needed], and the calls. *)
Record setup := {
  setup_result : Z;
  setup_cfg : option updater_config;
  setup_args : updater_config_arguments;
  setup_update_needed : option bool;
  setup_calls : list call
}.

(** [int setup_flash(struct updater_config **cfg, struct
    updater_config_arguments *args, bool *update_needed)];
    [update_needed] says whether the pointer is not [NULL], and [cfg0]
    is what [*cfg] holds at the call. *)
Definition setup_flash (cfg0 : option updater_config)
           (args : updater_config_arguments) (update_needed : bool)
  : setup :=
  if USE_FLASHROM U then
    match updater_new_config U with
    | None =>
        {| setup_result := 1; setup_cfg := None; setup_args := args;
           setup_update_needed := None;
           setup_calls :=
             [Call_updater_new_config;
              Says (Msg ERROR "Out of memory\n" [] [])] |}
    | Some cfg =>
        let errdelete (args : updater_config_arguments)
                      (calls : list call) :=
          {| setup_result := 1; setup_cfg := None; setup_args := args;
             setup_update_needed := None;
             setup_calls := calls ++ [Call_updater_delete_config] |} in
        let calls := [Call_updater_new_config] in
        let prepare_ctrl_name := prepare_ctrl_name cfg in
        let detected :=
          if detect_servo args then
            let '(servo_programmer, prepare_ctrl_name) :=
              host_detect_servo U prepare_ctrl_name in
            let calls := calls ++ [Call_host_detect_servo] in
            match servo_programmer with
            | None =>
                inl (calls
                     ++ [Says (Msg ERROR
                                    "Problem communicating with servo\n"
                                    [] [])])
            | Some servo_programmer =>
                match programmer args with
                | None =>
                    inr (set_programmer (Some servo_programmer) args,
                         prepare_ctrl_name, calls)
                | Some _ =>
                    inr (args, prepare_ctrl_name,
                         calls ++ [Call_free_servo_programmer])
                end
            end
          else inr (args, prepare_ctrl_name, calls) in
        match detected with
        | inl calls => errdelete args calls
        | inr (args, prepare_ctrl_name, calls) =>
            let '(rv, is_update_needed, cfg) :=
              updater_setup_config U cfg args in
            let calls := calls ++ [Call_updater_setup_config] in
            if negb (rv =? 0) then
              errdelete args
                (calls ++ [Says (Msg ERROR "Bad servo options\n" [] [])])
            else
              {| setup_result := 0; setup_cfg := Some cfg;
                 setup_args := args;
                 setup_update_needed :=
                   if update_needed then Some is_update_needed else None;
                 setup_calls :=
                   calls ++ [Call_prepare_servo_control prepare_ctrl_name
                                                        true] |}
        end
    end
  else
    {| setup_result := 1; setup_cfg := cfg0; setup_args := args;
       setup_update_needed := None; setup_calls := [] |}.

(** [void teardown_flash(struct updater_config *cfg)] *)
Definition teardown_flash (cfg : updater_config) : list call :=
  if USE_FLASHROM U then
    [Call_prepare_servo_control (prepare_ctrl_name cfg) false;
     Call_updater_delete_config]
  else [].

(** [static int get_ro_range(struct updater_config *cfg, uint32_t
    *start, uint32_t *len)]: [*start] and [*len] when it returns 0 and
    [None] when it returns -1, the configuration and the calls. *)
Definition get_ro_range (cfg : updater_config)
  : option (Z * Z) * updater_config * list call :=
  (* Read fmap *)
  let regions := [FMAP_RO_FMAP U] in
  let '(rv, data) :=
    flashrom_read_image U cfg regions (cfg_verbosity cfg + 1) in
  let cfg := set_image_current data cfg in
  let calls := [Call_flashrom_read_image regions] in
  if negb (rv =? 0) then (None, cfg, calls)
  else
    let image := match data with Some d => d | None => [] end in
    let wp_ro :=
      fmap_find_by_name_in U image (u32 (Mem.size image)) (FMAP_RO U) in
    let '(range, calls) :=
      match wp_ro with
      | None =>
          (None,
           calls ++ [Says (Msg ERROR "Could not find WP_RO in the FMAP\n"
                                [] [])])
      | Some wp_ro =>
          (Some (Fmap.area_offset image wp_ro, Fmap.area_size image wp_ro),
           calls)
      end in
    (* err: *)
    (range, set_image_current None cfg, calls ++ [Call_free_image]).

(** [static int print_flash_size(struct updater_config *cfg)] *)
Definition print_flash_size (cfg : updater_config) : Z * list call :=
  let '(rv, flash_size) :=
    flashrom_get_size U (image_programmer cfg) (cfg_verbosity cfg + 1) in
  if negb (rv =? 0) then
    (-1, [Call_flashrom_get_size;
          Says (Msg ERROR "%s failed.\n" ["print_flash_size"%string] [])])
  else
    (0, [Call_flashrom_get_size;
         Says (Msg STDOUT "Flash size: %#010x\n" [] [flash_size])]).

(** [static int print_flash_info(struct updater_config *cfg)] *)
Definition print_flash_info (cfg : updater_config)
  : Z * updater_config * list call :=
  let '(rv, (vendor, name, vid, pid, flash_size)) :=
    flashrom_get_info U (image_programmer cfg) (cfg_verbosity cfg + 1) in
  if negb (rv =? 0) then
    (-1, cfg,
     [Call_flashrom_get_info;
      Says (Msg ERROR "%s failed.\n" ["print_flash_info"%string] [])])
  else
    let vidpid := Z.lor (Z.shiftl vid 32 mod 2 ^ 64) pid in
    let calls :=
      [Call_flashrom_get_info;
       Says (Msg STDOUT "Flash vendor: %s\n" [vendor] []);
       Says (Msg STDOUT "Flash name: %s\n" [name] []);
       Says (Msg STDOUT ("Flash vid-pid: 0x%" ++ PRIx64 U ++ "\n")%string
                  [] [vidpid]);
       Says (Msg STDOUT "Flash size: %#010x\n" [] [flash_size])] in
    (* Get WP_RO region start and length from image *)
    let '(range, cfg, read) := get_ro_range cfg in
    match range with
    | None => (-1, cfg, calls ++ read)
    | Some (ro_start, ro_len) =>
        (0, cfg,
         calls ++ read
         ++ [Says (Msg STDOUT
                        "Expected WP SR configuration by FW image: (start = %#010x, length = %#010x)\n"
                        [] [ro_start; ro_len])])
    end.

(** The three answers of [print_wp_status]. *)
Inductive wp_status := WP_disabled | WP_enabled | WP_misconfigured.

(** The classification that [print_wp_status] prints: [hwwp] is the
    hardware write protection, [wp_mode], [wp_start] and [wp_len] are
    what the flash chip is set to, [ro_start] and [ro_len] the WP_RO
    area of the image. *)
Definition classify (hwwp : Z) (wp_mode : bool)
           (wp_start wp_len ro_start ro_len : Z) : wp_status :=
  if (hwwp =? 0) || (negb wp_mode && (wp_start =? 0) && (wp_len =? 0))
  then WP_disabled
  else if wp_mode && (wp_start =? ro_start) && (wp_len =? ro_len)
  then WP_enabled
  else WP_misconfigured.

Definition wp_status_message (s : wp_status) (wp_mode : bool)
           (wp_start wp_len : Z) : message :=
  match s with
  | WP_disabled => Msg STDOUT "WP status: disabled\n" [] []
  | WP_enabled => Msg STDOUT "WP status: enabled\n" [] []
  | WP_misconfigured =>
      Msg STDOUT
          "WP status: misconfigured (srp = %d, start = %#010x, length = %#010x)\n"
          [] [if wp_mode then 1 else 0; wp_start; wp_len]
  end.

(** [static int print_wp_status(struct updater_config *cfg, bool
    ignore_hw)] *)
Definition print_wp_status (cfg : updater_config) (ignore_hw : bool)
  : Z * updater_config * list call :=
  (* Get WP_RO region start and length from image *)
  let '(range, cfg, calls) := get_ro_range cfg in
  match range with
  | None => (-1, cfg, calls)
  | Some (ro_start, ro_len) =>
      (* Get current WP region and mode from SPI flash *)
      let '(rv, (wp_mode, wp_start, wp_len)) :=
        flashrom_get_wp U (image_programmer cfg) (cfg_verbosity cfg + 1) in
      let calls := calls ++ [Call_flashrom_get_wp] in
      if negb (rv =? 0) then
        (-1, cfg,
         calls ++ [Says (Msg ERROR "Failed to get WP status\n" [] [])])
      else
        (* A 1 implies HWWP is enabled. *)
        let '(hwwp, calls) :=
          if ignore_hw then (1, calls)
          else (dut_get_property_WP_HW U cfg,
                calls ++ [Call_dut_get_property]) in
        (0, cfg,
         calls
         ++ [Says (wp_status_message
                      (classify hwwp wp_mode wp_start wp_len ro_start ro_len)
                      wp_mode wp_start wp_len)])
  end.

(** [static int set_flash_wp(struct updater_config *cfg, bool enable)] *)
Definition set_flash_wp (cfg : updater_config) (enable : bool)
  : Z * updater_config * list call :=
  let wp_start := 0 in
  let wp_len := 0 in
  let '(range, cfg, calls) :=
    if enable then
      (* Use the WP_RO region as the protection range *)
      get_ro_range cfg
    else (Some (wp_start, wp_len), cfg, []) in
  match range with
  | None => (-1, cfg, calls)
  | Some (wp_start, wp_len) =>
    let calls := calls ++ [Call_flashrom_set_wp enable wp_start wp_len] in
    if negb (flashrom_set_wp U (image_programmer cfg) enable wp_start wp_len
                             (cfg_verbosity cfg + 1) =? 0) then
      (-1, cfg,
       calls
       ++ [Says (Msg ERROR "Failed to modify WP configuration.\n" [] [])])
    else
      (0, cfg,
       calls
       ++ [Says (Msg STDOUT "%s WP\n"
                      [if enable then "Enabled"%string
                       else "Disabled"%string] [])])
  end.

(** [static void print_help(int argc, char *argv[])], with [argv[0]]. *)
Definition print_help (argv0 : string) : call :=
  Says (Msg STDOUT
             ("\n"
              ++ "Allows for the management of AP SPI flash configuration.\n"
              ++ "\n"
              ++ "Usage:  " ++ MYNAME U ++ " %s [OPTIONS] \n"
              ++ "\n"
              ++ "    --wp-status          \tGet the current flash WP state.\n"
              ++ "    --wp-status          \tGet the current HW and SW WP state.\n"
              ++ "        [--ignore-hw]    \tGet SW WP state only.\n"
              ++ "    --wp-enable          \tEnable protection for the RO image section.\n"
              ++ "    --wp-disable         \tDisable all write protection.\n"
              ++ "    --flash-size         \tGet flash size.\n"
              ++ "    --flash-info         \tGet flash info.\n"
              ++ "\n"
              ++ SHARED_FLASH_ARGS_HELP U)%string
             [argv0] []).

(** The flags that the options of [do_flash] set. *)
Record flags := {
  enable_wp : bool;
  disable_wp : bool;
  get_wp_status : bool;
  ignore_hw_wp : bool;
  get_size : bool;
  get_info : bool
}.

(** How the loop over the options of [do_flash] ends: with a [return],
    or with the arguments and flags it has gathered. *)
Inductive parsed :=
| Return (value : Z) (calls : list call)
| Parsed (args : updater_config_arguments) (f : flags).

(** The loop [while ((i = getopt_long(...)) != -1)] of [do_flash]. *)
Fixpoint parse_options (argv0 : string) (l : list found)
         (args : updater_config_arguments) (f : flags) : parsed :=
  match l with
  | [] => Parsed args f
  | o :: l' =>
      match handle_flash_argument U args (opt o) (optarg o) with
      | Some args => parse_options argv0 l' args f
      | None =>
          let i := opt o in
          if i =? 104 (* 'h' *) then Return 0 [print_help argv0]
          else if i =? 115 (* 's' *) then
            parse_options argv0 l' args
              {| enable_wp := enable_wp f; disable_wp := disable_wp f;
                 get_wp_status := true; ignore_hw_wp := ignore_hw_wp f;
                 get_size := get_size f; get_info := get_info f |}
          else if i =? 111 (* 'o' *) then
            parse_options argv0 l' args
              {| enable_wp := enable_wp f; disable_wp := disable_wp f;
                 get_wp_status := get_wp_status f; ignore_hw_wp := true;
                 get_size := get_size f; get_info := get_info f |}
          else if i =? 101 (* 'e' *) then
            parse_options argv0 l' args
              {| enable_wp := true; disable_wp := disable_wp f;
                 get_wp_status := get_wp_status f;
                 ignore_hw_wp := ignore_hw_wp f;
                 get_size := get_size f; get_info := get_info f |}
          else if i =? 100 (* 'd' *) then
            parse_options argv0 l' args
              {| enable_wp := enable_wp f; disable_wp := true;
                 get_wp_status := get_wp_status f;
                 ignore_hw_wp := ignore_hw_wp f;
                 get_size := get_size f; get_info := get_info f |}
          else if i =? 105 (* 'i' *) then
            parse_options argv0 l' args
              {| enable_wp := enable_wp f; disable_wp := disable_wp f;
                 get_wp_status := get_wp_status f;
                 ignore_hw_wp := ignore_hw_wp f;
                 get_size := get_size f; get_info := true |}
          else if i =? 122 (* 'z' *) then
            parse_options argv0 l' args
              {| enable_wp := enable_wp f; disable_wp := disable_wp f;
                 get_wp_status := get_wp_status f;
                 ignore_hw_wp := ignore_hw_wp f;
                 get_size := true; get_info := get_info f |}
          else if i =? 118 (* 'v' *) then
            parse_options argv0 l'
              (set_verbosity (verbosity args + 1) args) f
          else if i =? 63 (* '?' *) then
            Return 1
              [Says
                 (if negb (optopt o =? 0) then
                    Msg ERROR "Unrecognized option: -%c\n" [] [optopt o]
                  else match last_arg o with
                       | Some a =>
                           Msg ERROR
                               "Unrecognized option (possibly '%s')\n" [a] []
                       | None => Msg ERROR "Unrecognized option.\n" [] []
                       end)]
          else Return 1 [Says (Msg ERROR "Failed parsing options.\n" [] [])]
      end
  end.

(** The operations of [do_flash] between [setup_flash] and
    [teardown_flash]: each one runs when it was asked for and none
    before it has failed. *)
Definition operations (cfg : updater_config) (f : flags)
  : Z * updater_config * list call :=
  let ret := 0 in
  let '(ret, cfg, calls) :=
    if get_info f then print_flash_info cfg else (ret, cfg, []) in
  let '(ret, calls) :=
    if (ret =? 0) && get_size f then
      let '(r, c) := print_flash_size cfg in (r, calls ++ c)
    else (ret, calls) in
  let '(ret, cfg, calls) :=
    if (ret =? 0) && enable_wp f then
      let '(r, cfg, c) := set_flash_wp cfg true in (r, cfg, calls ++ c)
    else (ret, cfg, calls) in
  let '(ret, cfg, calls) :=
    if (ret =? 0) && disable_wp f then
      let '(r, cfg, c) := set_flash_wp cfg false in (r, cfg, calls ++ c)
    else (ret, cfg, calls) in
  if (ret =? 0) && get_wp_status f then
    let '(r, cfg, c) := print_wp_status cfg (ignore_hw_wp f) in
    (r, cfg, calls ++ c)
  else (ret, cfg, calls).

(** [static int do_flash(int argc, char *argv[])], built with flashrom:
    [options] is what [getopt_long] finds, [unexpected] whether
    [optind < argc] after it.  The result is [None] when the command
    does not return. *)
Definition do_flash (argv0 : string) (options : list found)
           (unexpected : bool) : option Z * list call :=
  if USE_FLASHROM U then
    let args := {| programmer := None; detect_servo := false;
                   verbosity := 0 |} in
    let f := {| enable_wp := false; disable_wp := false;
                get_wp_status := false; ignore_hw_wp := false;
                get_size := false; get_info := false |} in
    match parse_options argv0 options args f with
    | Return value calls => (Some value, calls)
    | Parsed args f =>
        if unexpected then
          (Some 1, [Says (Msg ERROR "Unexpected arguments.\n" [] [])])
        else if negb (get_size f) && negb (get_info f) && negb (enable_wp f)
                && negb (disable_wp f) && negb (get_wp_status f) then
          (Some 0, [print_help argv0])
        else if negb (get_wp_status f) && ignore_hw_wp f then
          (Some 1,
           [Says (Msg ERROR "--ignore-hw must be used with --wp-status.\n"
                       [] [])])
        else if enable_wp f && disable_wp f then
          (Some 1,
           [Says (Msg ERROR
                       "--wp-enable and --wp-disable cannot be used together.\n"
                       [] [])])
        else
          let s := setup_flash None args false in
          if negb (setup_result s =? 0) then
            (Some 1,
             setup_calls s
             ++ [Says (Msg ERROR "While preparing flash\n" [] [])])
          else
            match setup_cfg s with
            | Some cfg =>
                let '(ret, cfg, calls) := operations cfg f in
                (Some ret, setup_calls s ++ calls ++ teardown_flash cfg)
            | None =>
                (* [cfg] is [NULL] and would be dereferenced: this does
                   not occur, as [setup_flash] sets [*cfg] when it
                   returns 0 *)
                (None, setup_calls s)
            end
    end
  else
    (None,
     [Says (Msg FATAL
                 (MYNAME U
                  ++ " was built without flashrom support, `flash` command unavailable!\n")%string
                 [] [])]).

End WithUpdater.
End Flash.

(** ** Examples for the tools

    Pipes, a firmware, a kernel tool and an updater to run the
    functions above on. *)

Module Samples.

(** A child that writes [hello world] in two pieces, and a pipe to it
    that takes four bytes at a time, three times. *)
Definition pipe : Subprocess.os :=
  {| Subprocess.incoming :=
       [Subprocess.Data (Example.bytes_of_string "hello");
        Subprocess.Data (Example.bytes_of_string " world")];
     Subprocess.room := [4; 4; 4];
     Subprocess.written := [];
     Subprocess.closed := [] |}.

(** A target of [size] bytes in an object of 16: a buffer that holds
    [text], then filled up with the letter x. *)
Definition target (type : Subprocess.target_type) (text : string)
           (size : Z) : Subprocess.subprocess_target :=
  {| Subprocess.type := type;
     Subprocess.fd := 0;
     Subprocess.buf :=
       firstn 16 (Example.bytes_of_string text
                  ++ repeat "x"%byte 16);
     Subprocess.size := size;
     Subprocess._pipefd := (3, 4);
     Subprocess.bytes_consumed := 0 |}.

(** A context: the fields of non-volatile storage, and whether the
    flag of recovery mode is set. *)
Record context := {
  nv : Display.vb2_nv_param -> Z;
  recovery_mode : bool
}.

Definition same_param (a b : Display.vb2_nv_param) : bool :=
  match a, b with
  | Display.VB2_NV_LOCALIZATION_INDEX, Display.VB2_NV_LOCALIZATION_INDEX
  | Display.VB2_NV_BACKUP_NVRAM_REQUEST, Display.VB2_NV_BACKUP_NVRAM_REQUEST
  | Display.VB2_NV_RECOVERY_SUBCODE, Display.VB2_NV_RECOVERY_SUBCODE
  | Display.VB2_NV_DEV_BOOT_USB, Display.VB2_NV_DEV_BOOT_USB
  | Display.VB2_NV_DEV_BOOT_LEGACY, Display.VB2_NV_DEV_BOOT_LEGACY
  | Display.VB2_NV_DEV_DEFAULT_BOOT, Display.VB2_NV_DEV_DEFAULT_BOOT
  | Display.VB2_NV_DEV_BOOT_SIGNED_ONLY, Display.VB2_NV_DEV_BOOT_SIGNED_ONLY =>
      true
  | _, _ => false
  end.

(** A firmware with [count] localizations whose display callbacks
    return [display_status]; its state is the number of screens it has
    drawn.  The digest of a buffer is its first twenty bytes. *)
Definition firmware (count display_status : Z)
  : Display.Firmware context Z :=
  {| Display.VB2_SUCCESS := 0;
     Display.VB2_ERROR_UNKNOWN := 65536;
     Display.VB_SCREEN_BLANK := 0;
     Display.VB_KEY_ESC := 27;
     Display.VB_KEY_UP := 256;
     Display.VB_KEY_DOWN := 257;
     Display.VB_KEY_LEFT := 258;
     Display.VB_KEY_RIGHT := 259;
     Display.VB2_CONTEXT_RECOVERY_MODE := 2;
     Display.VB2_SHA1_DIGEST_SIZE := 20;
     Display.PRIx64 := "lx";
     Display.ctx_flags := fun c => if recovery_mode c then 2 else 0;
     Display.ctx_nvdata := fun c i => 0;
     Display.vb2_nv_get := fun c p => nv c p;
     Display.vb2_nv_set := fun c p v =>
       {| nv := fun q => if same_param q p then v else nv c q;
          recovery_mode := recovery_mode c |};
     Display.vb2_nv_get_size := fun _ => 16;
     Display.vb2_get_sd := fun _ =>
       {| Display.recovery_reason := 0; Display.sd_flags := 0;
          Display.status := 0; Display.fw_version_secdata := 0;
          Display.kernel_version_secdata := 0;
          Display.kernel_key_offset := 0 |};
     Display.vb2_get_gbb_flags := fun _ => 0;
     Display.vb2api_gbb_read_hwid := fun _ => (0, "SAMPLE"%string);
     Display.vb2_gbb_read_root_key := fun _ => (1, []);
     Display.vb2_gbb_read_recovery_key := fun _ => (1, []);
     Display.vb2_member_of_sd := fun _ _ => [];
     Display.vb2_digest_buffer := Example.field 20;
     Display.vb2_allow_recovery := fun _ => 1;
     Display.vb2ex_commit_data := fun c => c;
     Display.reason_of_code := fun code =>
       if code =? 0 then Some Display.VB2_RECOVERY_NOT_REQUESTED else None;
     Display.printf := fun format _ _ => format;
     Display.VbExDisplayScreen := fun x _ _ _ => (display_status, x + 1);
     Display.VbExDisplayMenu := fun x _ _ _ _ _ => (display_status, x + 1);
     Display.VbExDisplayDebugInfo := fun x _ _ => (display_status, x);
     Display.VbExGetLocalizationCount := fun _ _ => (0, count) |}.

(** A context in which localization [loc] was saved last. *)
Definition context_at (loc : Z) : context :=
  {| nv := fun p => if same_param p Display.VB2_NV_LOCALIZATION_INDEX
                    then loc else 0;
     recovery_mode := false |}.

(** A packed key: the 32 bytes of the structure, which say that 24
    bytes of key data follow them, and the data. *)
Definition packed_key : Mem.mem :=
  Mem.le32 32 ++ Example.zeros 4 ++ Mem.le32 24 ++ Example.zeros 20
  ++ Example.bytes_of_string "0123456789abcdefghijklmn".

(** [strtol] for decimal numbers without sign: the number that the
    leading digits of [s] spell after [acc], and the rest of [s]. *)
Fixpoint decimal (acc : Z) (s : string) : Z * string :=
  match s with
  | String c s' =>
      let d := Z.of_nat (Ascii.nat_of_ascii c) - 48 in
      if (0 <=? d) && (d <=? 9) then decimal (10 * acc + d) s'
      else (acc, s)
  | EmptyString => (acc, s)
  end.

(** A kernel tool over the files of the examples: [signed.bin] can be
    read as a kernel image, every key file can be read, and the
    verification of an image fails with error 1. *)
Definition tool : KernelTool.Tool :=
  {| KernelTool.library := Example.lib Example.files;
     KernelTool.strtol := decimal 0;
     KernelTool.algo_strings := fun _ => "RSA"%string;
     KernelTool.ReadKernelImage := fun file =>
       if String.eqb file "signed.bin" then Some Example.blank_image
       else None;
     KernelTool.WriteKernelImage := fun _ _ _ _ => true;
     KernelTool.RSAPublicKeyFromFile := fun _ => Some [];
     KernelTool.VerifyKernelImage := fun _ _ _ => 1;
     KernelTool.VerifyKernelErrorString := fun _ =>
       "Invalid Image."%string |}.

(** [--verify --in signed.bin --firmware_key_pub root.pub] *)
Definition verify_command : list (KernelTool.option_value * string) :=
  [(KernelTool.OPT_VERIFY, EmptyString);
   (KernelTool.OPT_IN, "signed.bin"%string);
   (KernelTool.OPT_FIRMWARE_KEY_PUB, "root.pub"%string)].

(** [--generate] with a subkey header to reuse, and with all the
    options that the mode asks for. *)
Definition generate_command (subkey_in : string)
  : list (KernelTool.option_value * string) :=
  [(KernelTool.OPT_GENERATE, EmptyString);
   (KernelTool.OPT_SUBKEY_IN, subkey_in);
   (KernelTool.OPT_KERNEL_KEY, "kernel.pem"%string);
   (KernelTool.OPT_KERNEL_VERSION, "1"%string);
   (KernelTool.OPT_CONFIG, "config.txt"%string);
   (KernelTool.OPT_BOOTLOADER, "bootloader.bin"%string);
   (KernelTool.OPT_VMLINUZ, "vmlinuz"%string);
   (KernelTool.OPT_OUT, "out.bin"%string)].

(** An image of eight bytes that the updater reads from the flash
    chip: an area header with offset 0 and size 0x200000. *)
Definition flash_image : Mem.mem :=
  [x00; x00; x00; x00; x00; x00; x20; x00].

(** An updater built with flashrom.  Its option 1000 asks for the
    detection of a servo, which finds one; the flash chip is protected
    over the range [wp_range], and [setup_status] is what
    [updater_setup_config] returns. *)
Definition updater (setup_status : Z) (wp_range : Z * Z) : Flash.Updater :=
  {| Flash.USE_FLASHROM := true;
     Flash.MYNAME := "futility";
     Flash.SHARED_FLASH_ARGS_HELP := "    --servo\n";
     Flash.PRIx64 := "lx";
     Flash.FMAP_RO_FMAP := "FMAP";
     Flash.FMAP_RO := "WP_RO";
     Flash.updater_new_config :=
       Some {| Flash.prepare_ctrl_name := Some "cpu_fw_spi"%string;
               Flash.image_programmer := "host";
               Flash.image_current := None;
               Flash.cfg_verbosity := 0 |};
     Flash.host_detect_servo := fun _ =>
       (Some "raiden_debug_spi"%string, Some "ccd_cpu_fw_spi"%string);
     Flash.updater_setup_config := fun cfg _ => (setup_status, false, cfg);
     Flash.handle_flash_argument := fun args i _ =>
       if i =? 1000 then
         Some {| Flash.programmer := Flash.programmer args;
                 Flash.detect_servo := true;
                 Flash.verbosity := Flash.verbosity args |}
       else None;
     Flash.flashrom_read_image := fun _ _ _ => (0, Some flash_image);
     Flash.flashrom_get_size := fun _ _ => (0, 8388608);
     Flash.flashrom_get_info := fun _ _ =>
       (0, ("Winbond"%string, "W25Q64"%string, 239, 16407, 8388608));
     Flash.flashrom_get_wp := fun _ _ =>
       (0, (true, fst wp_range, snd wp_range));
     Flash.flashrom_set_wp := fun _ _ _ _ _ => 0;
     Flash.dut_get_property_WP_HW := fun _ => 1;
     Flash.fmap_find_by_name_in := fun _ _ _ => Some 0 |}.

(** What [getopt_long] hands back for an option without argument. *)
Definition flag (c : Z) : Flash.found :=
  {| Flash.opt := c; Flash.optarg := EmptyString; Flash.optopt := 0;
     Flash.last_arg := None |}.

(** What cbfstool answers for an image that declares CBFS integration
    and has a metadata hash in FW_MAIN_A only, and for one whose
    hashes name no algorithm. *)
Definition sha256_hash : Vb2.vb2_hash :=
  {| Vb2.algo := 2; Vb2.raw := Example.bytes_of_string "digest" |}.

Definition hash_in_slot_a_only : Example.Cbfs :=
  {| Example.config := Some "y"%string;
     Example.cbfs_size := fun _ => None;
     Example.metadata := fun region =>
       if String.eqb region "FW_MAIN_A" then Some sha256_hash else None |}.

Definition hash_without_algorithm : Example.Cbfs :=
  {| Example.config := Some "y"%string;
     Example.cbfs_size := fun _ => None;
     Example.metadata := fun _ =>
       Some {| Vb2.algo := Vb2.VB2_HASH_INVALID; Vb2.raw := [] |} |}.

End Samples.

(** ** Lemmas on byte buffers *)

Module MemFacts.
Import Mem.

Lemma Z_of_byte_range (b : byte) : 0 <= Z_of_byte b < 256.
Proof.
  unfold Z_of_byte. pose proof (Byte.to_N_bounded b) as H.
  split; [apply N2Z.is_nonneg|].
  apply N2Z.inj_le in H. change (Z.of_N 255) with 255 in H. lia.
Qed.

Lemma Z_of_byte_of_Z (z : Z) : Z_of_byte (byte_of_Z z) = z mod 256.
Proof.
  unfold Z_of_byte, byte_of_Z.
  assert (Hr : 0 <= z mod 256 < 256) by (apply Z.mod_pos_bound; lia).
  destruct (Byte.of_N (Z.to_N (z mod 256))) as [b|] eqn:E.
  - apply Byte.to_of_N in E. rewrite E. rewrite Z2N.id; lia.
  - apply Byte.of_N_None_iff in E. lia.
Qed.

Lemma load8_range (m : mem) (p : Z) : 0 <= load8 m p < 256.
Proof. apply Z_of_byte_range. Qed.

Lemma load32_range (m : mem) (p : Z) : 0 <= load32 m p < 2 ^ 32.
Proof.
  unfold load32.
  pose proof (load8_range m p). pose proof (load8_range m (p + 1)).
  pose proof (load8_range m (p + 2)). pose proof (load8_range m (p + 3)).
  lia.
Qed.

Lemma rewrite_from_length f j m :
  List.length (rewrite_from f j m) = List.length m.
Proof.
  revert j. induction m as [|b m IH]; intros j; simpl; [reflexivity|].
  now rewrite IH.
Qed.

Lemma get_rewrite_from f j m k :
  0 <= k < size m ->
  get (rewrite_from f j m) k = f (j + k) (get m k).
Proof.
  unfold get, size. revert j k.
  induction m as [|b m IH]; intros j k Hk; simpl in *; [lia|].
  destruct (k <? 0) eqn:Ek; [lia|].
  destruct (Z.to_nat k) as [|n] eqn:En.
  - assert (k = 0) by lia. subst k. now rewrite Z.add_0_r.
  - specialize (IH (j + 1) (k - 1)).
    assert (Hk' : 0 <= k - 1 < Z.of_nat (List.length m)) by lia.
    specialize (IH Hk').
    destruct (k - 1 <? 0) eqn:Ek'; [lia|].
    replace (Z.to_nat (k - 1)) with n in IH by lia.
    rewrite IH. f_equal. lia.
Qed.

Lemma rewrite_from_id f j m :
  (forall k b, f k b = b) -> rewrite_from f j m = m.
Proof.
  intros Hf. revert j. induction m as [|b m IH]; intros j; simpl;
    [reflexivity|]. now rewrite Hf, IH.
Qed.

Lemma memcpy_length m dst src n :
  List.length (memcpy m dst src n) = List.length m.
Proof. apply rewrite_from_length. Qed.

Lemma memcpy_size m dst src n : size (memcpy m dst src n) = size m.
Proof. unfold size. now rewrite memcpy_length. Qed.

Lemma get_memcpy m dst src n k :
  0 <= k < size m ->
  get (memcpy m dst src n) k =
  if (dst <=? k) && (k <? dst + n) then get src (k - dst) else get m k.
Proof. intros Hk. unfold memcpy. now rewrite get_rewrite_from. Qed.

Lemma load8_memcpy_in m dst src n k :
  0 <= k < size m -> dst <= k < dst + n ->
  load8 (memcpy m dst src n) k = load8 src (k - dst).
Proof.
  intros Hk Hin. unfold load8. rewrite get_memcpy by assumption.
  destruct (dst <=? k) eqn:E1; [|lia].
  destruct (k <? dst + n) eqn:E2; [|lia]. reflexivity.
Qed.

Lemma load8_memcpy_out m dst src n k :
  0 <= k < size m -> k < dst \/ dst + n <= k ->
  load8 (memcpy m dst src n) k = load8 m k.
Proof.
  intros Hk Hout. unfold load8. rewrite get_memcpy by assumption.
  destruct (dst <=? k) eqn:E1; destruct (k <? dst + n) eqn:E2;
    simpl; try reflexivity; lia.
Qed.

Lemma load8_le32 v i :
  0 <= i < 4 -> load8 (le32 v) i = (v / 2 ^ (8 * i)) mod 256.
Proof.
  intros Hi. unfold load8, get, le32.
  assert (i = 0 \/ i = 1 \/ i = 2 \/ i = 3) as [-> | [-> | [-> | ->]]] by lia;
    simpl; rewrite Z_of_byte_of_Z; try reflexivity.
  now rewrite Z.div_1_r.
Qed.

Lemma load32_store32_same m p v :
  0 <= p -> p + 4 <= size m ->
  load32 (store32 m p v) p = u32 v.
Proof.
  intros Hp Hs. unfold load32, store32.
  rewrite !load8_memcpy_in by lia.
  replace (p - p) with 0 by lia. replace (p + 1 - p) with 1 by lia.
  replace (p + 2 - p) with 2 by lia. replace (p + 3 - p) with 3 by lia.
  rewrite !load8_le32 by lia. unfold u32.
  change (8 * 0) with 0. change (8 * 1) with 8. change (8 * 2) with 16.
  change (8 * 3) with 24. rewrite Z.pow_0_r, Z.div_1_r.
  change (2 ^ 8) with 256. change (2 ^ 16) with (256 * 256).
  change (2 ^ 24) with (256 * 256 * 256).
  change (2 ^ 32) with (256 * 256 * 256 * 256).
  rewrite <- !Z.div_div by lia.
  set (d1 := v / 256). set (d2 := d1 / 256). set (d3 := d2 / 256).
  pose proof (Z.div_mod v 256 ltac:(lia)) as H0.
  pose proof (Z.div_mod d1 256 ltac:(lia)) as H1.
  pose proof (Z.div_mod d2 256 ltac:(lia)) as H2.
  pose proof (Z.div_mod d3 256 ltac:(lia)) as H3.
  pose proof (Z.mod_pos_bound v 256 ltac:(lia)).
  pose proof (Z.mod_pos_bound d1 256 ltac:(lia)).
  pose proof (Z.mod_pos_bound d2 256 ltac:(lia)).
  pose proof (Z.mod_pos_bound d3 256 ltac:(lia)).
  fold d1 in H0. fold d2 in H1. fold d3 in H2.
  apply Z.mod_unique_pos with (q := d3 / 256); lia.
Qed.

Lemma load32_store32_other m p q v :
  0 <= q -> q + 4 <= size m -> q + 4 <= p \/ p + 4 <= q ->
  load32 (store32 m p v) q = load32 m q.
Proof.
  intros Hq Hs Hd. unfold load32, store32.
  now rewrite !load8_memcpy_out by lia.
Qed.

Lemma store32_size m p v : size (store32 m p v) = size m.
Proof. apply memcpy_size. Qed.

End MemFacts.

(** ** [fmap_limit_area] *)

Module FmapFacts.
Import Fmap.

Lemma fmap_limit_area_size ah len m :
  Mem.size (fmap_limit_area ah len m) = Mem.size m.
Proof.
  unfold fmap_limit_area.
  destruct (_ || _); [|reflexivity].
  unfold set_area_size, set_area_offset.
  now rewrite !MemFacts.store32_size.
Qed.

(** The test of [fmap_limit_area] fires exactly when the mathematical
    sum leaves the 32-bit range or the buffer. *)
Lemma out_of_range_spec m ah len :
  out_of_range m ah len = true <->
  (2 ^ 32 <= area_offset m ah + area_size m ah
   \/ len < area_offset m ah + area_size m ah).
Proof.
  unfold out_of_range, area_offset, area_size, u32.
  pose proof (MemFacts.load32_range m ah) as Ho.
  pose proof (MemFacts.load32_range m (ah + 4)) as Hs.
  set (o := Mem.load32 m ah) in *. set (s := Mem.load32 m (ah + 4)) in *.
  rewrite orb_true_iff, Z.ltb_lt, Z.gtb_lt.
  destruct (Z_lt_ge_dec (o + s) (2 ^ 32)) as [Hlt|Hge].
  - rewrite Z.mod_small by lia. lia.
  - assert (Hm : (o + s) mod 2 ^ 32 = o + s - 2 ^ 32).
    { symmetry. apply Z.mod_unique_pos with (q := 1); lia. }
    rewrite Hm. lia.
Qed.

Lemma fmap_limit_area_unchanged ah len m :
  out_of_range m ah len = false -> fmap_limit_area ah len m = m.
Proof.
  unfold out_of_range, fmap_limit_area. now intros ->.
Qed.

Lemma fmap_limit_area_zeroed ah len m :
  0 <= ah -> ah + 8 <= Mem.size m ->
  out_of_range m ah len = true ->
  area_offset (fmap_limit_area ah len m) ah = 0
  /\ area_size (fmap_limit_area ah len m) ah = 0.
Proof.
  intros Hah Hsz Hout.
  unfold out_of_range in Hout. unfold fmap_limit_area. rewrite Hout.
  unfold area_offset, area_size, set_area_size, set_area_offset. split.
  - rewrite MemFacts.load32_store32_other
      by (rewrite ?MemFacts.store32_size; lia).
    rewrite MemFacts.load32_store32_same by lia. reflexivity.
  - rewrite MemFacts.load32_store32_same
      by (rewrite ?MemFacts.store32_size; lia).
    reflexivity.
Qed.

End FmapFacts.



(** ** The clamp of flash map areas *)

Ltac by_computation :=
  first [ vm_compute; reflexivity
        | vm_compute; discriminate
        | apply Z.leb_le; vm_compute; reflexivity
        | apply Z.ltb_lt; vm_compute; reflexivity
        | vm_compute; intuition discriminate ].

Ltac in_console :=
  vm_compute; repeat first [ left; reflexivity | right ].

(** C4.  For every area header that lies in the buffer: if the declared
    offset plus size leaves the 32-bit range or exceeds the buffer
    length, [fmap_limit_area] sets both offset and size to zero; and in
    every case the area that is left ends inside the buffer, so that
    nothing reads past the end of the buffer through it. *)
Theorem fmap_limit_area_clamps (m : Mem.mem) (ah len : Z) :
  0 <= ah -> ah + 8 <= Mem.size m -> 0 <= len ->
  let m' := Fmap.fmap_limit_area ah len m in
  ((2 ^ 32 <= Fmap.area_offset m ah + Fmap.area_size m ah
    \/ len < Fmap.area_offset m ah + Fmap.area_size m ah) ->
   Fmap.area_offset m' ah = 0 /\ Fmap.area_size m' ah = 0)
  /\ Fmap.area_offset m' ah + Fmap.area_size m' ah <= len
  /\ Mem.size m' = Mem.size m.
Proof.
  intros Hah Hsz Hlen m'. subst m'.
  split; [|split].
  - intros Hout. apply FmapFacts.out_of_range_spec in Hout.
    now apply FmapFacts.fmap_limit_area_zeroed.
  - destruct (Fmap.out_of_range m ah len) eqn:E.
    + destruct (FmapFacts.fmap_limit_area_zeroed ah len m Hah Hsz E)
        as [-> ->]. lia.
    + rewrite FmapFacts.fmap_limit_area_unchanged by assumption.
      assert (Hn : ~ (2 ^ 32 <= Fmap.area_offset m ah + Fmap.area_size m ah
                      \/ len < Fmap.area_offset m ah + Fmap.area_size m ah)).
      { intros Hc. apply FmapFacts.out_of_range_spec in Hc. congruence. }
      lia.
  - apply FmapFacts.fmap_limit_area_size.
Qed.

(** The header of an area of 600 bytes at offset 400, in a buffer of
    688 bytes, and one whose offset plus size wraps around. *)
Lemma fmap_limit_area_clamps_witness :
  let m := Example.area_header 400 600 "VBLOCK_A" in
  let w := Example.area_header 4294967040 512 "VBLOCK_A" in
  (Fmap.area_offset (Fmap.fmap_limit_area 0 688 m) 0 = 0
   /\ Fmap.area_size (Fmap.fmap_limit_area 0 688 m) 0 = 0)
  /\ (Fmap.area_offset (Fmap.fmap_limit_area 0 688 w) 0 = 0
      /\ Fmap.area_size (Fmap.fmap_limit_area 0 688 w) 0 = 0).
Proof.
  intros m w. split.
  - apply (fmap_limit_area_clamps m 0 688); try lia; by_computation.
  - apply (fmap_limit_area_clamps w 0 688); try lia; by_computation.
Defined.

(** ** The recognizer *)

(** C10.  A buffer is classified as a BIOS image exactly when a flash
    map is found in it and the GBB, FW_MAIN_A and VBLOCK_A areas are
    found in that flash map; what the lookups of FW_MAIN_B and VBLOCK_B
    would yield plays no part. *)
Theorem recognize_bios_image_exactly (H : Host) (buf : Mem.mem) (len : Z) :
  Bios.ft_recognize_bios_image H buf len = FILE_TYPE_BIOS_IMAGE
  <-> exists fmap,
      fmap_find H buf len = Some fmap
      /\ fmap_find_by_name H buf len (Some fmap)
           (fmap_name BIOS_FMAP_GBB) <> None
      /\ fmap_find_by_name H buf len (Some fmap)
           (fmap_name BIOS_FMAP_FW_MAIN_A) <> None
      /\ fmap_find_by_name H buf len (Some fmap)
           (fmap_name BIOS_FMAP_VBLOCK_A) <> None.
Proof.
  unfold Bios.ft_recognize_bios_image.
  destruct (fmap_find H buf len) as [fmap|].
  - cbv zeta beta. cbn [fmap_name].
    destruct (fmap_find_by_name H buf len (Some fmap) "GBB")
      as [g|] eqn:Eg;
      destruct (fmap_find_by_name H buf len (Some fmap) "FW_MAIN_A")
        as [f|] eqn:Ef;
      destruct (fmap_find_by_name H buf len (Some fmap) "VBLOCK_A")
        as [v|] eqn:Ev;
      cbn; split; intros Hx; try discriminate;
      try (destruct Hx as (fm & Hfm & Hg & Hf & Hv);
           injection Hfm as <-; congruence).
    exists fmap. rewrite Eg, Ef, Ev. repeat split; discriminate.
  - split; [discriminate|]. intros (fm & Hfm & _). discriminate.
Qed.

(** The slot-A image, which has no FW_MAIN_B and no VBLOCK_B, is a BIOS
    image; without its VBLOCK_A it is not. *)
Example recognize_slot_a_image :
  Bios.ft_recognize_bios_image (Example.host Example.no_cbfs)
    (Example.image_a Example.vblock_signed) 688 = FILE_TYPE_BIOS_IMAGE
  /\ fmap_find_by_name (Example.host Example.no_cbfs)
       (Example.image_a Example.vblock_signed) 688 (Some 0)
       (fmap_name BIOS_FMAP_FW_MAIN_B) = None
  /\ fmap_find_by_name (Example.host Example.no_cbfs)
       (Example.image_a Example.vblock_signed) 688 (Some 0)
       (fmap_name BIOS_FMAP_VBLOCK_B) = None.
Proof. repeat split; vm_compute; reflexivity. Qed.

(** ** Reusing a subkey header in [GenerateSignedImage] *)

Module KernelFacts.
Import KernelUtility.

Lemma same_body_refl a : same_body a a.
Proof. repeat split. Qed.

Lemma same_body_trans a b c : same_body a b -> same_body b c -> same_body a c.
Proof.
  unfold same_body. intros (?&?&?&?&?) (?&?&?&?&?).
  repeat split; congruence.
Qed.

Lemma read_uint16_same_body L st set image :
  (forall v i, same_body (set v i) i) ->
  same_body (snd (read_uint16 L st set image)) image.
Proof.
  intros Hset. unfold read_uint16.
  destruct (StatefulMemcpy L st FIELD_LEN_uint16) as [st' [b|]]; cbn.
  - apply Hset.
  - apply same_body_refl.
Qed.

Lemma read_algorithms_same_body L st image :
  same_body (snd (read_algorithms L st image)) image.
Proof.
  unfold read_algorithms.
  destruct (read_uint16 L st set_header_version image) as [s1 i1] eqn:E1.
  destruct (read_uint16 L s1 set_header_len i1) as [s2 i2] eqn:E2.
  destruct (read_uint16 L s2 set_firmware_sign_algorithm i2)
    as [s3 i3] eqn:E3.
  pose proof (read_uint16_same_body L st set_header_version image
                ltac:(intros; repeat split)) as H1.
  pose proof (read_uint16_same_body L s1 set_header_len i1
                ltac:(intros; repeat split)) as H2.
  pose proof (read_uint16_same_body L s2 set_firmware_sign_algorithm i2
                ltac:(intros; repeat split)) as H3.
  pose proof (read_uint16_same_body L s3 set_kernel_sign_algorithm i3
                ltac:(intros; repeat split)) as H4.
  rewrite E1 in H1. rewrite E2 in H2. rewrite E3 in H3. cbn in H1, H2, H3.
  eauto using same_body_trans.
Qed.

Lemma read_key_same_body L st image :
  same_body (snd (read_key L st image)) image.
Proof.
  unfold read_key.
  destruct (read_uint16 L st set_kernel_key_version image)
    as [s1 i1] eqn:E1.
  pose proof (read_uint16_same_body L st set_kernel_key_version image
                ltac:(intros; repeat split)) as H1.
  rewrite E1 in H1. cbn in H1.
  destruct (StatefulMemcpy L s1 _) as [s2 c2].
  destruct (StatefulMemcpy L s2 _) as [s3 [b|]]; cbn;
    (eapply same_body_trans; [|exact H1]); repeat split.
Qed.

End KernelFacts.

(** C8.  When an existing subkey header is reused and the checksum
    computed from the header that was read differs from the checksum
    stored in it, [GenerateSignedImage] returns false, has called no
    signing routine, and has taken no signature into the image: neither
    the key signature of the header nor a signature of the kernel. *)
Theorem reused_header_checksum_mismatch_rejected
        (L : KernelUtility.Lib) (o : KernelUtility.Options) (buf : Mem.mem) :
  KernelUtility.empty (KernelUtility.subkey_in_file_ o) = false ->
  KernelUtility.BufferFromFile L (KernelUtility.subkey_in_file_ o)
  = Some buf ->
  KernelUtility.checksum_differs L
    (KernelUtility.parsed_subkey_header L buf) = true ->
  let r := KernelUtility.GenerateSignedImage L o in
  KernelUtility.returned r = false
  /\ Forall (fun e => KernelUtility.is_signing_call e = false)
            (KernelUtility.events r)
  /\ KernelUtility.kernel_key_signature (KernelUtility.image_ r)
     = KernelUtility.kernel_key_signature (KernelUtility.KernelImageNew L)
  /\ KernelUtility.preamble_signature (KernelUtility.image_ r)
     = KernelUtility.preamble_signature (KernelUtility.KernelImageNew L)
  /\ KernelUtility.kernel_signature (KernelUtility.image_ r)
     = KernelUtility.kernel_signature (KernelUtility.KernelImageNew L).
Proof.
  intros Hreuse Hfile Hsum r. subst r.
  unfold KernelUtility.GenerateSignedImage. rewrite Hreuse.
  unfold KernelUtility.use_existing_subkey_header. rewrite Hfile.
  unfold KernelUtility.parsed_subkey_header in Hsum.
  set (st0 := {| KernelUtility.remaining_len := Mem.size buf;
                 KernelUtility.remaining_buf := buf;
                 KernelUtility.overrun := 0 |}) in *.
  set (i0 := KernelUtility.set_magic (KernelUtility.KERNEL_MAGIC L)
               (KernelUtility.KernelImageNew L)) in *.
  pose proof (KernelFacts.read_algorithms_same_body L st0 i0) as Ha.
  destruct (KernelUtility.read_algorithms L st0 i0) as [s1 i1].
  cbn in Ha.
  assert (Hi0 : KernelUtility.same_body i0 (KernelUtility.KernelImageNew L))
    by (repeat split).
  pose proof (KernelFacts.same_body_trans _ _ _ Ha Hi0) as (K1&K2&K3&_).
  destruct (_ >=? _); [cbn; auto|].
  destruct (_ >=? _); [cbn; auto|].
  destruct (negb _); [cbn; repeat split; auto|].
  pose proof (KernelFacts.read_key_same_body L s1 i1) as Hk.
  destruct (KernelUtility.read_key L s1 i1) as [s2 i2]. cbn in Hk, Hsum.
  rewrite Hsum. cbn.
  destruct Hk as (J1&J2&J3&_).
  repeat split; auto; congruence.
Qed.

(** The subkey header whose stored checksum is wrong. *)
Lemma reused_header_checksum_mismatch_rejected_witness :
  let r := KernelUtility.GenerateSignedImage (Example.lib Example.files)
             (Example.generate "subkey.bad") in
  KernelUtility.returned r = false
  /\ Forall (fun e => KernelUtility.is_signing_call e = false)
            (KernelUtility.events r)
  /\ KernelUtility.kernel_key_signature (KernelUtility.image_ r) = None
  /\ KernelUtility.preamble_signature (KernelUtility.image_ r) = None
  /\ KernelUtility.kernel_signature (KernelUtility.image_ r) = None.
Proof.
  apply (reused_header_checksum_mismatch_rejected
           (Example.lib Example.files) (Example.generate "subkey.bad")
           (Example.subkey_header x00)); by_computation.
Defined.

(** C3, as the code has it.  When an existing subkey header is reused,
    [GenerateSignedImage] returns from the branch that read the header:
    it never calls [GenerateKernelBlob] or [AddKernelSignature], and the
    image it leaves has the kernel version, kernel blob, preamble
    signature and kernel signature of a new image. *)
Theorem reused_chain_skips_body_signature
        (L : KernelUtility.Lib) (o : KernelUtility.Options) :
  KernelUtility.empty (KernelUtility.subkey_in_file_ o) = false ->
  let r := KernelUtility.GenerateSignedImage L o in
  Forall (fun e => KernelUtility.is_body_call e = false)
         (KernelUtility.events r)
  /\ KernelUtility.preamble_signature (KernelUtility.image_ r)
     = KernelUtility.preamble_signature (KernelUtility.KernelImageNew L)
  /\ KernelUtility.kernel_signature (KernelUtility.image_ r)
     = KernelUtility.kernel_signature (KernelUtility.KernelImageNew L)
  /\ KernelUtility.kernel_data (KernelUtility.image_ r)
     = KernelUtility.kernel_data (KernelUtility.KernelImageNew L)
  /\ KernelUtility.kernel_version (KernelUtility.image_ r)
     = KernelUtility.kernel_version (KernelUtility.KernelImageNew L).
Proof.
  intros Hreuse r. subst r.
  unfold KernelUtility.GenerateSignedImage. rewrite Hreuse.
  unfold KernelUtility.use_existing_subkey_header.
  set (i0 := KernelUtility.set_magic (KernelUtility.KERNEL_MAGIC L)
               (KernelUtility.KernelImageNew L)).
  assert (Hi0 : KernelUtility.same_body i0 (KernelUtility.KernelImageNew L))
    by (repeat split).
  destruct (KernelUtility.BufferFromFile L _) as [buf|].
  2:{ cbn. destruct Hi0 as (_&?&?&?&?). repeat split; auto. }
  set (st0 := {| KernelUtility.remaining_len := Mem.size buf;
                 KernelUtility.remaining_buf := buf;
                 KernelUtility.overrun := 0 |}).
  pose proof (KernelFacts.read_algorithms_same_body L st0 i0) as Ha.
  destruct (KernelUtility.read_algorithms L st0 i0) as [s1 i1].
  cbn in Ha.
  pose proof (KernelFacts.same_body_trans _ _ _ Ha Hi0) as (_&K2&K3&K4&K5).
  destruct (_ >=? _); [cbn; auto|].
  destruct (_ >=? _); [cbn; auto|].
  destruct (negb _); [cbn; repeat split; auto|].
  pose proof (KernelFacts.read_key_same_body L s1 i1) as Hk.
  destruct (KernelUtility.read_key L s1 i1) as [s2 i2]. cbn in Hk.
  destruct Hk as (_&J2&J3&J4&J5).
  destruct (KernelUtility.checksum_differs L i2);
    [cbn; repeat split; auto; congruence|].
  destruct (KernelUtility.StatefulMemcpy L s2 _) as [s3 c3].
  destruct (_ || _); cbn; repeat split; auto; congruence.
Qed.

(** Reusing the subkey header whose checksum is right: the function
    returns true, and the image has no kernel and no signature of it. *)
Lemma reused_chain_skips_body_signature_witness :
  let r := KernelUtility.GenerateSignedImage (Example.lib Example.files)
             (Example.generate "subkey.good") in
  KernelUtility.returned r = true
  /\ Forall (fun e => KernelUtility.is_body_call e = false)
            (KernelUtility.events r)
  /\ KernelUtility.preamble_signature (KernelUtility.image_ r) = None
  /\ KernelUtility.kernel_signature (KernelUtility.image_ r) = None
  /\ KernelUtility.kernel_data (KernelUtility.image_ r) = None
  /\ KernelUtility.kernel_version (KernelUtility.image_ r) = 0.
Proof.
  split; [by_computation|].
  apply (reused_chain_skips_body_signature (Example.lib Example.files)
           (Example.generate "subkey.good")); by_computation.
Defined.

(** In the other mode, a run that returns true has called
    [AddKernelSignature] with the kernel key. *)
Lemma fresh_chain_signs_body (L : KernelUtility.Lib)
      (o : KernelUtility.Options) :
  KernelUtility.empty (KernelUtility.subkey_in_file_ o) = true ->
  KernelUtility.returned (KernelUtility.GenerateSignedImage L o) = true ->
  In (KernelUtility.Call_AddKernelSignature (KernelUtility.kernel_key_file_ o))
     (KernelUtility.events (KernelUtility.GenerateSignedImage L o)).
Proof.
  intros Hfresh. unfold KernelUtility.GenerateSignedImage. rewrite Hfresh.
  cbn.
  destruct (KernelUtility.BufferFromFile L _) as [key|]; cbn;
    [|discriminate].
  destruct (KernelUtility.AddKernelKeySignature L _ _) as [[|] i1]; cbn;
    [|discriminate].
  unfold KernelUtility.fill_and_sign_kernel.
  destruct (KernelUtility.GenerateKernelBlob L _ _ _ _)
    as [[[[d|] kl] bo] bs]; cbn; [|discriminate].
  destruct (KernelUtility.AddKernelSignature L _ _) as [[|] i2]; cbn;
    [|discriminate].
  intros _. right. right. left. reflexivity.
Qed.

Lemma fresh_chain_signs_body_witness :
  In (KernelUtility.Call_AddKernelSignature "kernel.pem")
     (KernelUtility.events
        (KernelUtility.GenerateSignedImage (Example.lib Example.files)
           (Example.generate EmptyString))).
Proof.
  apply (fresh_chain_signs_body (Example.lib Example.files)
           (Example.generate EmptyString)); by_computation.
Defined.

(** ** Runs *)

Module RunFacts.

Lemma bind_returns {A B} (c : M A) (k : A -> M B) w a w' :
  c w = Returns a w' -> bind c k w = k a w'.
Proof. unfold bind. now intros ->. Qed.

Lemma bind_exits {A B} (c : M A) (k : A -> M B) w w' :
  c w = Exits w' -> bind c k w = Exits w'.
Proof. unfold bind. now intros ->. Qed.

Lemma console_say l fmt names values w :
  say l fmt names values w
  = Returns tt {| image := image w;
                  console := console w ++ [Msg l fmt names values] |}.
Proof. reflexivity. Qed.

End RunFacts.

(** ** Writing the new preamble *)

(** When the keyblock and the preamble that was made add up to less
    than 2^32 bytes and to more than the VBLOCK holds, and also when no
    signature or no preamble could be made, [write_new_preamble] returns
    1 and leaves every byte of the image as it was. *)
Lemma write_new_preamble_too_small (H : Host)
      (opt : SignOption.sign_option_s) (vblock fw_body : Area.bios_area_s)
      (signkey keyblock : Mem.mem) (w : world) :
  (forall body_sig preamble,
      vb2_create_fw_preamble H (Area.version vblock)
        (SignOption.kernel_subkey opt) body_sig signkey (Area.flags vblock)
      = Some preamble ->
      Area.len vblock
      < Vb2.keyblock_size keyblock 0 + Vb2.preamble_size preamble 0
      < 2 ^ 32) ->
  exists w',
    Bios.write_new_preamble H opt vblock fw_body signkey keyblock w
    = Returns 1 w'
    /\ image w' = image w.
Proof.
  intros Hfit. unfold Bios.write_new_preamble, bind, get_image.
  destruct (if negb _ then _ else _) as [body_sig|];
    [|eexists; split; reflexivity].
  destruct (vb2_create_fw_preamble H _ _ _ _ _) as [preamble|] eqn:E;
    [|eexists; split; reflexivity].
  specialize (Hfit _ _ E). unfold u32.
  rewrite Z.mod_small.
  2:{ pose proof (MemFacts.load32_range keyblock (0 + 16)).
      pose proof (MemFacts.load32_range preamble 0).
      unfold Vb2.keyblock_size, Vb2.preamble_size in *. lia. }
  destruct (_ >? _) eqn:Egt; [eexists; split; reflexivity|].
  rewrite Z.gtb_ltb in Egt. apply Z.ltb_ge in Egt. lia.
Qed.

Lemma write_new_preamble_too_small_witness :
  exists w',
    Bios.write_new_preamble (Example.host Example.no_cbfs) Example.options
      (Example.area_at 432 224) (Example.area_at 400 32)
      (SignOption.signprivate Example.options)
      (SignOption.keyblock Example.options)
      (Example.start (Example.image_a Example.vblock_signed))
    = Returns 1 w'
    /\ image w' = Example.image_a Example.vblock_signed.
Proof.
  apply (write_new_preamble_too_small (Example.host Example.no_cbfs)
           Example.options (Example.area_at 432 224) (Example.area_at 400 32)
           (SignOption.signprivate Example.options)
           (SignOption.keyblock Example.options)
           (Example.start (Example.image_a Example.vblock_signed))).
  intros body_sig preamble Hp. cbn in Hp. injection Hp as <-.
  split; by_computation.
Defined.

(** C1, at the input where the code departs from it.  The keyblock
    announces 4294967188 bytes and the preamble made for it has 108, so
    the 32-bit sum is 0: [write_new_preamble] does not fail for the
    VBLOCK_A area of 256 bytes at offset 432, but returns 0 and copies
    the keyblock over that area and over what follows it (here the body
    of slot B at offset 688). *)
Theorem write_new_preamble_size_sum_wraps :
  let keyblock := SignOption.keyblock Example.options_huge_keyblock in
  let m := Example.image_ab Example.vblock_signed Example.vblock_signed in
  Area.len (Example.area_at 432 256) < Vb2.keyblock_size keyblock 0 + 108
  /\ exists w',
      Bios.write_new_preamble (Example.host Example.no_cbfs)
        Example.options_huge_keyblock
        (Example.area_at 432 256) (Example.area_at 400 32)
        (SignOption.signprivate Example.options_huge_keyblock) keyblock
        (Example.start m)
      = Returns 0 w'
      /\ Mem.sub (image w') 688 32 <> Mem.sub m 688 32.
Proof.
  cbv zeta. split; [by_computation|].
  eexists. split; [vm_compute; reflexivity|].
  vm_compute. discriminate.
Qed.

(** ** Preparing a slot *)

Module SlotFacts.

Lemma eqb_refl c : bios_component_eqb c c = true.
Proof. now destruct c. Qed.

Lemma eqb_sym a b : bios_component_eqb a b = bios_component_eqb b a.
Proof. now destruct a, b. Qed.

Lemma eqb_eq a b : bios_component_eqb a b = true <-> a = b.
Proof. destruct a, b; split; intros; try reflexivity; discriminate. Qed.

Lemma area_upd_same k f s :
  State.area (State.upd_area k f s) k = f (State.area s k).
Proof. cbn. now rewrite eqb_refl. Qed.

Lemma area_upd_other j k f s :
  bios_component_eqb j k = false ->
  State.area (State.upd_area k f s) j = State.area s j.
Proof. cbn. now intros ->. Qed.

Lemma world_eta w : {| image := image w; console := console w |} = w.
Proof. now destruct w. Qed.

Lemma prepare_slot_checks_run H fw_c vblock_c st w :
  let vb := State.area st vblock_c in
  let fw := State.area st fw_c in
  let valid := Slot.chain_valid H (image w) (Area.buf vb) (Area.len vb) in
  let signed := Slot.signed_size (image w) (Area.buf vb) in
  let kv := valid && (negb (Area.fw_size fw =? 0)
                      || negb (signed >? Area.len fw)) in
  exists msgs,
    Bios.prepare_slot_checks H fw_c vblock_c st w
    = Returns (c_bool kv,
               Area.buf vb + Vb2.keyblock_size (image w) (Area.buf vb),
               if kv && (Area.fw_size fw =? 0)
               then State.upd_area fw_c (Area.set_len signed) st else st)
              {| image := image w; console := console w ++ msgs |}.
Proof.
  intros vb fw valid signed kv. subst kv valid signed.
  unfold Bios.prepare_slot_checks, Slot.chain_valid, Slot.signed_size.
  fold vb. fold fw.
  unfold bind at 1. unfold get_image at 1.
  destruct (vb2_verify_keyblock_hash H (image w) (Area.buf vb) (Area.len vb)
            =? Vb2.VB2_SUCCESS); cbn [negb andb].
  2:{ eexists. reflexivity. }
  destruct (vb2_packed_key_looks_ok H _ _ _ =? 0); cbn [negb andb].
  2:{ eexists. reflexivity. }
  destruct (vb2_unpack_key H (image w) (Vb2.data_key (Area.buf vb)))
    as [rv dk]. cbn [fst snd].
  destruct (rv =? Vb2.VB2_SUCCESS); cbn [negb andb].
  2:{ eexists. reflexivity. }
  destruct (size_t _ >? Area.len vb); cbn [negb andb].
  { eexists. reflexivity. }
  destruct (vb2_verify_fw_preamble H _ _ _ _ =? 0); cbn [negb andb].
  2:{ eexists. reflexivity. }
  destruct (Area.fw_size fw =? 0); cbn [negb andb orb].
  - destruct (_ >? Area.len fw); cbn [negb andb].
    + eexists. reflexivity.
    + exists []. rewrite app_nil_r, world_eta. reflexivity.
  - exists []. rewrite app_nil_r, world_eta. reflexivity.
Qed.


Lemma prepare_slot_run H opt len fw_c vblock_c st w ah1 m1 ah2 m2 :
  bios_component_eqb fw_c vblock_c = false ->
  Slot.body_area H len fw_c (image w) = Some (ah1, m1) ->
  (Area.fw_size (State.area st fw_c) >? Fmap.area_size m1 ah1) = false ->
  Slot.vblock_area H len vblock_c (image w) m1 = Some (ah2, m2) ->
  let fw_size := Area.fw_size (State.area st fw_c) in
  let area_size := Fmap.area_size m1 ah1 in
  let keyblock := Fmap.area_offset m2 ah2 in
  let valid := Slot.chain_valid H m2 keyblock (Fmap.area_size m2 ah2) in
  let signed := Slot.signed_size m2 keyblock in
  let kv := valid && (negb (fw_size =? 0) || negb (signed >? area_size)) in
  exists st' w',
    Bios.prepare_slot H opt len fw_c vblock_c st w = Returns (0, st') w'
    /\ image w' = m2
    /\ Area.len (State.area st' fw_c)
       = Slot.resolved_len fw_size area_size valid signed
    /\ Area.is_valid (State.area st' fw_c) = 1
    /\ Area.is_valid (State.area st' vblock_c) = 1
    /\ Area.flags (State.area st' vblock_c)
       = (if negb (SignOption.flags_specified opt =? 0)
          then SignOption.flags opt
          else if kv
               then Vb2.flags m2 (keyblock + Vb2.keyblock_size m2 keyblock)
               else 0)
    /\ Area.version (State.area st' vblock_c)
       = (if negb (SignOption.version_specified opt =? 0)
          then SignOption.version opt
          else if kv
               then Vb2.firmware_version m2
                      (keyblock + Vb2.keyblock_size m2 keyblock)
               else 1)
    /\ ((fw_size =? 0)
        && (Vb2.algo (Area.metadata_hash (State.area st fw_c))
            =? Vb2.VB2_HASH_INVALID) = true ->
        In (Slot.cbfs_warning fw_c) (console w'))
    /\ (forall c, bios_component_eqb c fw_c = false ->
                  bios_component_eqb c vblock_c = false ->
                  State.area st' c = State.area st c).
Proof.
  intros Hne Hfw Hsize Hvb fw_size area_size keyblock valid signed kv.
  unfold Slot.body_area in Hfw. unfold Slot.vblock_area in Hvb.
  destruct (fmap_find_by_name H (image w) len _ (fmap_name fw_c))
    as [a1|] eqn:E1; [|discriminate].
  injection Hfw as -> <-.
  destruct (fmap_find_by_name H _ len _ (fmap_name vblock_c))
    as [a2|] eqn:E2; [|discriminate].
  injection Hvb as -> <-.
  assert (Hne' : bios_component_eqb vblock_c fw_c = false)
    by (now rewrite eqb_sym).
  unfold Bios.prepare_slot.
  unfold bind at 1. unfold get_image at 1.
  unfold bind at 1. unfold say at 1. cbn [image console].
  rewrite E1.
  unfold bind at 1. unfold Bios.limit_area, bind at 1, get_image at 1,
    put_image at 1. cbn [image console].
  unfold bind at 1. unfold get_image at 1. cbn [image console].
  rewrite !area_upd_same. cbn [Area.fw_size Area.set_is_valid Area.set_buf].
  rewrite Hsize.
  set (m1 := Fmap.fmap_limit_area ah1 len (image w)) in *.
  set (m2 := Fmap.fmap_limit_area ah2 len m1) in *.
  set (st1 := State.upd_area fw_c (Area.set_is_valid 1)
                (State.upd_area fw_c
                   (Area.set_buf (Fmap.area_offset m1 ah1)) st)).
  unfold bind at 1.
  (* the state and the world after the body area *)
  assert (Hmid : exists msgs,
    (if negb (Area.fw_size (State.area st fw_c) =? 0)
     then ret (State.upd_area fw_c
                 (Area.set_len (u32 (Area.fw_size (State.area st fw_c)))) st1)
     else
       when (Vb2.algo
               (Area.metadata_hash
                  (Area.set_is_valid 1
                     (Area.set_buf (Fmap.area_offset m1 ah1)
                        (State.area st fw_c)))) =? Vb2.VB2_HASH_INVALID)
            (say WARN
                 "%s does not contain CBFS. Trying to sign entire area.\n"
                 [fmap_name fw_c] []);;
       ret (State.upd_area fw_c (Area.set_len (Fmap.area_size m1 ah1)) st1))
      {| image := m1;
         console := console w ++
           [Msg VB2_DEBUG "Preparing areas: %s and %s\n"
                [fmap_name fw_c; fmap_name vblock_c] []] |}
    = Returns
        (State.upd_area fw_c
           (Area.set_len (if negb (fw_size =? 0) then u32 fw_size
                          else area_size)) st1)
        {| image := m1; console := console w ++ msgs |}
    /\ ((fw_size =? 0)
        && (Vb2.algo (Area.metadata_hash (State.area st fw_c))
            =? Vb2.VB2_HASH_INVALID) = true ->
        In (Slot.cbfs_warning fw_c) msgs)).
  { fold fw_size. destruct (fw_size =? 0); cbn [negb andb].
    - cbn [Area.metadata_hash Area.set_is_valid Area.set_buf].
      destruct (Vb2.algo _ =? Vb2.VB2_HASH_INVALID);
        cbv [when say bind ret]; cbn [image console];
        rewrite <- ?app_assoc; eexists; (split; [reflexivity|]).
      + intros _. right. left. reflexivity.
      + discriminate.
    - cbv [ret]. eexists. split; [reflexivity|]. discriminate. }
  destruct Hmid as (msgs & -> & Hwarn).
  rewrite E2.
  unfold bind at 1. unfold Bios.limit_area, bind at 1, get_image at 1,
    put_image at 1. cbn [image console]. fold m2.
  unfold bind at 1. unfold get_image at 1. cbn [image console].
  unfold bind at 1.
  match goal with
  | |- context [Bios.prepare_slot_checks H fw_c vblock_c ?s ?w0] =>
      destruct (prepare_slot_checks_run H fw_c vblock_c s w0) as (msgs2 & ->)
  end.
  cbn [image console].
  rewrite !area_upd_same. rewrite !area_upd_other by assumption.
  rewrite !area_upd_same.
  cbn [Area.buf Area.len Area.fw_size Area.set_len Area.set_buf
       Area.set_is_valid].
  fold fw_size. fold keyblock. fold area_size.
  assert (Hfs : Area.fw_size (State.area st1 fw_c) = fw_size)
    by (subst st1; rewrite !area_upd_same; reflexivity).
  rewrite Hfs. fold valid. fold signed.
  unfold Slot.resolved_len. subst kv.
  eexists _, _. split; [reflexivity|]. cbn [image console].
  split; [reflexivity|].
  assert (Hin : (fw_size =? 0)
                && (Vb2.algo (Area.metadata_hash (State.area st fw_c))
                    =? Vb2.VB2_HASH_INVALID) = true ->
                In (Slot.cbfs_warning fw_c) ((console w ++ msgs) ++ msgs2)).
  { intros Hc. apply in_or_app. left. apply in_or_app. right. auto. }
  subst st1.
  destruct (fw_size =? 0); cbn [negb andb orb];
    destruct valid; destruct (signed >? area_size);
    cbn [negb andb orb c_bool Z.eqb];
    repeat (rewrite ?area_upd_same; rewrite ?area_upd_other by assumption);
    cbn [Area.len Area.is_valid Area.flags Area.version Area.set_len
         Area.set_buf Area.set_is_valid Area.set_flags Area.set_version];
    repeat split; auto;
    intros c0 Hc1 Hc2;
    repeat (rewrite ?area_upd_other by assumption); reflexivity.
Qed.

Lemma prepare_slot_returns H opt len fw_c vblock_c st w :
  bios_component_eqb fw_c vblock_c = false ->
  exists r st' w',
    Bios.prepare_slot H opt len fw_c vblock_c st w = Returns (r, st') w'
    /\ (r = 0 \/ r = 1)
    /\ (forall c, bios_component_eqb c fw_c = false ->
                  bios_component_eqb c vblock_c = false ->
                  State.area st' c = State.area st c)
    /\ (fmap_find_by_name H (image w) len (fmap_find H (image w) len)
          (fmap_name fw_c) = None ->
        r = 1 /\ st' = st /\ image w' = image w
        /\ console w'
           = console w
             ++ [Msg VB2_DEBUG "Preparing areas: %s and %s\n"
                     [fmap_name fw_c; fmap_name vblock_c] [];
                 Msg ERROR "%s area not found in FMAP\n" [fmap_name fw_c] []])
    /\ (fmap_find_by_name H (image w) len (fmap_find H (image w) len)
          (fmap_name fw_c) <> None ->
        Area.is_valid (State.area st' fw_c) = 1)
    /\ (r = 0 ->
        Area.is_valid (State.area st' fw_c) = 1
        /\ Area.is_valid (State.area st' vblock_c) = 1).
Proof.
  intros Hne.
  assert (Hne' : bios_component_eqb vblock_c fw_c = false)
    by (now rewrite eqb_sym).
  destruct (Slot.body_area H len fw_c (image w)) as [[ah1 m1]|] eqn:Hfw.
  - destruct (Area.fw_size (State.area st fw_c) >? Fmap.area_size m1 ah1)
      eqn:Hsize.
    + (* the size is incorrect *)
      unfold Slot.body_area in Hfw.
      destruct (fmap_find_by_name H (image w) len _ (fmap_name fw_c))
        as [a1|] eqn:E1; [|discriminate].
      injection Hfw as -> <-.
      unfold Bios.prepare_slot.
      unfold bind at 1. unfold get_image at 1.
      unfold bind at 1. unfold say at 1. cbn [image console].
      rewrite E1.
      unfold bind at 1. unfold Bios.limit_area, bind at 1, get_image at 1,
        put_image at 1. cbn [image console].
      unfold bind at 1. unfold get_image at 1. cbn [image console].
      rewrite !area_upd_same.
      cbn [Area.fw_size Area.set_is_valid Area.set_buf].
      rewrite Hsize.
      eexists _, _, _. split; [reflexivity|].
      split; [now right|]. split; [|split; [|split]].
      * intros c0 Hc1 Hc2.
        repeat (rewrite ?area_upd_other by assumption); reflexivity.
      * discriminate.
      * intros _. rewrite !area_upd_same. reflexivity.
      * discriminate.
    + destruct (Slot.vblock_area H len vblock_c (image w) m1)
        as [[ah2 m2]|] eqn:Hvb.
      * destruct (prepare_slot_run H opt len fw_c vblock_c st w ah1 m1 ah2 m2
                    Hne Hfw Hsize Hvb)
          as (st' & w' & Hrun & _ & _ & Hvalid & Hvalid' & _ & _ & _
              & Hframe).
        exists 0, st', w'. split; [exact Hrun|]. split; [now left|].
        split; [exact Hframe|]. split; [|split].
        -- unfold Slot.body_area in Hfw. intros E. rewrite E in Hfw.
           discriminate.
        -- intros _. exact Hvalid.
        -- intros _. split; assumption.
      * (* the VBLOCK is not found *)
        unfold Slot.body_area in Hfw. unfold Slot.vblock_area in Hvb.
        destruct (fmap_find_by_name H (image w) len _ (fmap_name fw_c))
          as [a1|] eqn:E1; [|discriminate].
        injection Hfw as -> <-.
        destruct (fmap_find_by_name H _ len _ (fmap_name vblock_c))
          as [a2|] eqn:E2; [discriminate|].
        unfold Bios.prepare_slot.
        unfold bind at 1. unfold get_image at 1.
        unfold bind at 1. unfold say at 1. cbn [image console].
        rewrite E1.
        unfold bind at 1. unfold Bios.limit_area, bind at 1, get_image at 1,
          put_image at 1. cbn [image console].
        unfold bind at 1. unfold get_image at 1. cbn [image console].
        rewrite !area_upd_same.
        cbn [Area.fw_size Area.set_is_valid Area.set_buf].
        rewrite Hsize. rewrite E2.
        destruct (Area.fw_size (State.area st fw_c) =? 0);
          cbn [negb];
          [destruct (Vb2.algo _ =? Vb2.VB2_HASH_INVALID)|];
          cbv [bind when say ret]; cbn [image console];
          (eexists _, _, _; split; [reflexivity|];
           split; [now right|]; split; [|split; [|split]];
           [ intros c0 Hc1 Hc2;
             repeat (rewrite ?area_upd_other by assumption); reflexivity
           | discriminate
           | intros _; rewrite !area_upd_same; reflexivity
           | discriminate ]).
  - unfold Slot.body_area in Hfw.
    destruct (fmap_find_by_name H (image w) len _ (fmap_name fw_c))
      as [a1|] eqn:E1; [discriminate|].
    unfold Bios.prepare_slot.
    unfold bind at 1. unfold get_image at 1.
    unfold bind at 1. unfold say at 1. cbn [image console].
    rewrite E1. cbv [bind say ret]. cbn [image console].
    eexists _, _, _. split; [reflexivity|].
    split; [now right|]. split; [reflexivity|]. split; [|split].
    + intros _. rewrite <- app_assoc. repeat split.
    + intros Hc. now elim Hc.
    + discriminate.
Qed.
End SlotFacts.

(** C6.  When [prepare_slot] has found both areas of a slot and the body
    size it was given fits, and the keyblock or preamble in the VBLOCK
    fails one of its checks (keyblock hash, data key, fit, preamble
    signature), it still returns 0 and marks the VBLOCK valid; when no
    flags were specified the flags of the slot are 0, and when no
    version was specified its version is 1. *)
Theorem prepare_slot_tolerates_invalid_chain
        (H : Host) (opt : SignOption.sign_option_s) (len : Z)
        (fw_c vblock_c : bios_component) (st : State.bios_state_s)
        (w : world) (ah1 ah2 : Z) (m1 m2 : Mem.mem) :
  bios_component_eqb fw_c vblock_c = false ->
  Slot.body_area H len fw_c (image w) = Some (ah1, m1) ->
  Area.fw_size (State.area st fw_c) <= Fmap.area_size m1 ah1 ->
  Slot.vblock_area H len vblock_c (image w) m1 = Some (ah2, m2) ->
  Slot.chain_valid H m2 (Fmap.area_offset m2 ah2) (Fmap.area_size m2 ah2)
  = false ->
  exists st' w',
    Bios.prepare_slot H opt len fw_c vblock_c st w = Returns (0, st') w'
    /\ Area.is_valid (State.area st' vblock_c) = 1
    /\ (SignOption.flags_specified opt = 0 ->
        Area.flags (State.area st' vblock_c) = 0)
    /\ (SignOption.version_specified opt = 0 ->
        Area.version (State.area st' vblock_c) = 1).
Proof.
  intros Hne Hfw Hsize Hvb Hbad.
  assert (Hsize' : (Area.fw_size (State.area st fw_c)
                    >? Fmap.area_size m1 ah1) = false).
  { rewrite Z.gtb_ltb. apply Z.ltb_ge. exact Hsize. }
  destruct (SlotFacts.prepare_slot_run H opt len fw_c vblock_c st w
              ah1 m1 ah2 m2 Hne Hfw Hsize' Hvb)
    as (st' & w' & Hrun & _ & _ & _ & Hvalid & Hflags & Hversion & _).
  rewrite Hbad in Hflags, Hversion. cbn [andb] in Hflags, Hversion.
  exists st', w'. repeat split; auto.
  - intros Hf. rewrite Hflags, Hf. reflexivity.
  - intros Hv. rewrite Hversion, Hv. reflexivity.
Qed.

(** Slot A of the image whose VBLOCK_A holds no keyblock. *)
Lemma prepare_slot_tolerates_invalid_chain_witness :
  exists st' w',
    Bios.prepare_slot (Example.host Example.no_cbfs) Example.options 688
      BIOS_FMAP_FW_MAIN_A BIOS_FMAP_VBLOCK_A State.zero
      (Example.start (Example.image_a Example.vblock_blank))
    = Returns (0, st') w'
    /\ Area.is_valid (State.area st' BIOS_FMAP_VBLOCK_A) = 1
    /\ Area.flags (State.area st' BIOS_FMAP_VBLOCK_A) = 0
    /\ Area.version (State.area st' BIOS_FMAP_VBLOCK_A) = 1.
Proof.
  destruct (prepare_slot_tolerates_invalid_chain
              (Example.host Example.no_cbfs) Example.options 688
              BIOS_FMAP_FW_MAIN_A BIOS_FMAP_VBLOCK_A State.zero
              (Example.start (Example.image_a Example.vblock_blank))
              98 140
              (Example.image_a Example.vblock_blank)
              (Example.image_a Example.vblock_blank)
              ltac:(by_computation) ltac:(by_computation)
              ltac:(by_computation) ltac:(by_computation)
              ltac:(by_computation))
    as (st' & w' & Hrun & Hvalid & Hflags & Hversion).
  exists st', w'. repeat split; auto.
Defined.

(** C2, as stated, fails: slot A of the signed example image is given
    no length ([fw_size] is 0) and has no metadata hash, and the warning
    that it holds no CBFS is printed; yet the body is not signed over
    the 32 bytes of its area but over the 16 bytes that the preamble
    already in VBLOCK_A signs. *)
Lemma body_length_taken_from_existing_preamble :
  exists st' w',
    Bios.prepare_slot (Example.host Example.no_cbfs) Example.options 688
      BIOS_FMAP_FW_MAIN_A BIOS_FMAP_VBLOCK_A State.zero
      (Example.start (Example.image_a Example.vblock_signed))
    = Returns (0, st') w'
    /\ Area.fw_size (State.area State.zero BIOS_FMAP_FW_MAIN_A) = 0
    /\ Vb2.algo (Area.metadata_hash (State.area State.zero
                                       BIOS_FMAP_FW_MAIN_A))
       = Vb2.VB2_HASH_INVALID
    /\ Fmap.area_size (Example.image_a Example.vblock_signed) 98 = 32
    /\ In (Slot.cbfs_warning BIOS_FMAP_FW_MAIN_A) (console w')
    /\ Area.len (State.area st' BIOS_FMAP_FW_MAIN_A) = 16
    /\ Area.len (State.area st' BIOS_FMAP_FW_MAIN_A)
       <> Slot.spec_resolved_len 0 None 32.
Proof.
  eexists _, _. split; [vm_compute; reflexivity|].
  split; [reflexivity|]. split; [reflexivity|].
  split; [vm_compute; reflexivity|].
  split; [in_console|].
  split; [vm_compute; reflexivity|].
  vm_compute. discriminate.
Qed.

(** C2, amended.  When [prepare_slot] has found both areas of a slot
    and [fw_size] does not exceed the limited body area, it returns 0
    and the body length of the slot is [fw_size] when that is not zero;
    else the size that the preamble already in the VBLOCK signs, when
    keyblock and preamble there are valid and the body area holds that
    much; else the size of the limited body area.  The warning that the
    body holds no CBFS is printed whenever [fw_size] is zero and the
    slot has no metadata hash. *)
Theorem prepare_slot_resolves_body_length
        (H : Host) (opt : SignOption.sign_option_s) (len : Z)
        (fw_c vblock_c : bios_component) (st : State.bios_state_s)
        (w : world) (ah1 ah2 : Z) (m1 m2 : Mem.mem) :
  bios_component_eqb fw_c vblock_c = false ->
  Slot.body_area H len fw_c (image w) = Some (ah1, m1) ->
  Area.fw_size (State.area st fw_c) <= Fmap.area_size m1 ah1 ->
  Slot.vblock_area H len vblock_c (image w) m1 = Some (ah2, m2) ->
  exists st' w',
    Bios.prepare_slot H opt len fw_c vblock_c st w = Returns (0, st') w'
    /\ Area.len (State.area st' fw_c)
       = Slot.resolved_len (Area.fw_size (State.area st fw_c))
           (Fmap.area_size m1 ah1)
           (Slot.chain_valid H m2 (Fmap.area_offset m2 ah2)
              (Fmap.area_size m2 ah2))
           (Slot.signed_size m2 (Fmap.area_offset m2 ah2))
    /\ (Area.fw_size (State.area st fw_c) = 0 ->
        Vb2.algo (Area.metadata_hash (State.area st fw_c))
        = Vb2.VB2_HASH_INVALID ->
        In (Slot.cbfs_warning fw_c) (console w')).
Proof.
  intros Hne Hfw Hsize Hvb.
  assert (Hsize' : (Area.fw_size (State.area st fw_c)
                    >? Fmap.area_size m1 ah1) = false).
  { rewrite Z.gtb_ltb. apply Z.ltb_ge. exact Hsize. }
  destruct (SlotFacts.prepare_slot_run H opt len fw_c vblock_c st w
              ah1 m1 ah2 m2 Hne Hfw Hsize' Hvb)
    as (st' & w' & Hrun & _ & Hlen & _ & _ & _ & _ & Hwarn & _).
  exists st', w'. repeat split; auto.
  intros Hz Ha. apply Hwarn. rewrite Hz, Ha. reflexivity.
Qed.

(** Slot A of the signed example image: the length is the 16 bytes that
    the existing preamble signs. *)
Lemma prepare_slot_resolves_body_length_witness :
  exists st' w',
    Bios.prepare_slot (Example.host Example.no_cbfs) Example.options 688
      BIOS_FMAP_FW_MAIN_A BIOS_FMAP_VBLOCK_A State.zero
      (Example.start (Example.image_a Example.vblock_signed))
    = Returns (0, st') w'
    /\ Area.len (State.area st' BIOS_FMAP_FW_MAIN_A) = 16
    /\ In (Slot.cbfs_warning BIOS_FMAP_FW_MAIN_A) (console w').
Proof.
  destruct (prepare_slot_resolves_body_length
              (Example.host Example.no_cbfs) Example.options 688
              BIOS_FMAP_FW_MAIN_A BIOS_FMAP_VBLOCK_A State.zero
              (Example.start (Example.image_a Example.vblock_signed))
              98 140
              (Example.image_a Example.vblock_signed)
              (Example.image_a Example.vblock_signed)
              ltac:(by_computation) ltac:(by_computation)
              ltac:(by_computation) ltac:(by_computation))
    as (st' & w' & Hrun & Hlen & Hwarn).
  exists st', w'. split; [exact Hrun|]. split.
  - rewrite Hlen. by_computation.
  - apply Hwarn; by_computation.
Defined.

(** ** Signing both slots *)

Module SignFacts.

Lemma cbfs_step_keeps_validity H name fw_c uses st w st' w' :
  Bios.image_check_and_prepare_cbfs H name fw_c uses st w = Returns st' w' ->
  forall c, Area.is_valid (State.area st' c) = Area.is_valid (State.area st c).
Proof.
  unfold Bios.image_check_and_prepare_cbfs.
  destruct uses; cbn [negb].
  - unfold bind at 1. unfold get_image at 1.
    destruct (cbfstool_get_metadata_hash H name (image w) (fmap_name fw_c) _)
      as [rv h].
    destruct (negb (rv =? Vb2.VB2_SUCCESS)); [discriminate|].
    cbv [bind say ret]. intros Hr. injection Hr as <- _. intros c.
    cbn. destruct (bios_component_eqb c fw_c) eqn:E; [|reflexivity].
    apply SlotFacts.eqb_eq in E. subst c. reflexivity.
  - unfold bind at 1. unfold get_image at 1.
    destruct (cbfstool_truncate H name (image w) (fmap_name fw_c) _)
      as [[rv size] m'].
    destruct (negb (rv =? Vb2.VB2_SUCCESS));
      cbv [bind say ret put_image]; intros Hr; injection Hr as <- _;
      intros c; cbn;
      (destruct (bios_component_eqb c fw_c) eqn:E; [|reflexivity]);
      apply SlotFacts.eqb_eq in E; subst c; reflexivity.
Qed.

Lemma write_new_preamble_returns H opt vblock fw_body signkey keyblock w :
  exists r w',
    Bios.write_new_preamble H opt vblock fw_body signkey keyblock w
    = Returns r w'
    /\ exists l, console w' = console w ++ l.
Proof.
  unfold Bios.write_new_preamble, bind, get_image, put_image, say, ret.
  destruct (if negb _ then _ else _) as [body_sig|].
  2:{ eexists _, _. split; [reflexivity|]. eexists. reflexivity. }
  destruct (vb2_create_fw_preamble H _ _ _ _ _) as [preamble|].
  2:{ eexists _, _. split; [reflexivity|]. eexists. reflexivity. }
  destruct (_ >? _).
  - eexists _, _. split; [reflexivity|]. eexists. reflexivity.
  - eexists _, _. split; [reflexivity|]. exists []. cbn.
    now rewrite app_nil_r.
Qed.

Lemma write_loem_returns H opt ab loemid vblock w :
  exists r w',
    Bios.write_loem H opt ab loemid vblock w = Returns r w'
    /\ exists l, console w' = console w ++ l.
Proof.
  unfold Bios.write_loem, bind, get_image, say, ret.
  destruct (_ >=? PATH_MAX).
  { eexists _, _. split; [reflexivity|]. eexists. reflexivity. }
  destruct (negb (fopen_w H _)).
  { eexists _, _. split; [reflexivity|]. eexists. reflexivity. }
  destruct (negb (fwrite_1 H _ _)).
  { eexists _, _. split; [reflexivity|]. eexists. reflexivity. }
  destruct (negb (fclose_0 H _)).
  { eexists _, _. split; [reflexivity|]. eexists. reflexivity. }
  eexists _, _. split; [reflexivity|]. exists []. now rewrite app_nil_r.
Qed.

(** [sign_bios_at_end] returns 0 only when both areas of slot A were
    valid and the write of its new preamble returned 0. *)
Lemma sign_bios_at_end_needs_slot_a H opt st w w' :
  Bios.sign_bios_at_end H opt st w = Returns 0 w' ->
  Area.is_valid (State.area st BIOS_FMAP_VBLOCK_A) <> 0
  /\ Area.is_valid (State.area st BIOS_FMAP_FW_MAIN_A) <> 0
  /\ exists wa,
      Bios.write_new_preamble H opt (State.area st BIOS_FMAP_VBLOCK_A)
        (State.area st BIOS_FMAP_FW_MAIN_A)
        (SignOption.signprivate opt) (SignOption.keyblock opt) w
      = Returns 0 wa.
Proof.
  unfold Bios.sign_bios_at_end.
  destruct (Area.is_valid (State.area st BIOS_FMAP_VBLOCK_A) =? 0) eqn:Ev;
    cbn [orb].
  { cbv [bind say ret]. discriminate. }
  destruct (Area.is_valid (State.area st BIOS_FMAP_FW_MAIN_A) =? 0) eqn:Ef.
  { cbv [bind say ret]. discriminate. }
  apply Z.eqb_neq in Ev. apply Z.eqb_neq in Ef.
  intros Hrun. split; [exact Ev|]. split; [exact Ef|].
  unfold bind at 1 in Hrun.
  destruct (write_new_preamble_returns H opt
              (State.area st BIOS_FMAP_VBLOCK_A)
              (State.area st BIOS_FMAP_FW_MAIN_A)
              (SignOption.signprivate opt) (SignOption.keyblock opt) w)
    as (ra & wa & Ha & _).
  rewrite Ha in Hrun. exists wa. rewrite Ha. f_equal.
  cbn [Z.lor] in Hrun.
  (* every later result is or-ed to [ra] *)
  unfold bind at 1 in Hrun.
  destruct (negb _ && negb _).
  - unfold bind at 1 in Hrun.
    destruct (write_new_preamble_returns H opt
                (State.area st BIOS_FMAP_VBLOCK_B)
                (State.area st BIOS_FMAP_FW_MAIN_B)
                (SignOption.signprivate opt) (SignOption.keyblock opt) wa)
      as (rb & wb & Hb & _).
    rewrite Hb in Hrun. unfold ret at 1 in Hrun.
    destruct (SignOption.loemid opt) as [id|].
    + unfold bind at 1 in Hrun.
      destruct (write_loem_returns H opt "A" id
                  (State.area st BIOS_FMAP_VBLOCK_A) wb)
        as (rl & wl & Hl & _).
      rewrite Hl in Hrun.
      destruct (negb _).
      * unfold bind at 1 in Hrun.
        destruct (write_loem_returns H opt "B" id
                    (State.area st BIOS_FMAP_VBLOCK_B) wl)
          as (rm & wm & Hm & _).
        rewrite Hm in Hrun. unfold ret in Hrun.
        injection Hrun as Hr _.
        apply Z.lor_eq_0_iff in Hr. destruct Hr as [Hr _].
        apply Z.lor_eq_0_iff in Hr. destruct Hr as [Hr _].
        apply Z.lor_eq_0_iff in Hr. tauto.
      * unfold ret in Hrun. injection Hrun as Hr _.
        apply Z.lor_eq_0_iff in Hr. destruct Hr as [Hr _].
        apply Z.lor_eq_0_iff in Hr. tauto.
    + unfold ret in Hrun. injection Hrun as Hr _.
      apply Z.lor_eq_0_iff in Hr. tauto.
  - unfold bind at 1 in Hrun. unfold say at 1 in Hrun.
    unfold ret at 1 in Hrun.
    destruct (SignOption.loemid opt) as [id|].
    + unfold bind at 1 in Hrun.
      match type of Hrun with
      | context [Bios.write_loem H opt "A" id ?v ?w0] =>
          destruct (write_loem_returns H opt "A" id v w0)
            as (rl & wl & Hl & _)
      end.
      rewrite Hl in Hrun.
      destruct (negb _).
      * unfold bind at 1 in Hrun.
        destruct (write_loem_returns H opt "B" id
                    (State.area st BIOS_FMAP_VBLOCK_B) wl)
          as (rm & wm & Hm & _).
        rewrite Hm in Hrun. unfold ret in Hrun.
        injection Hrun as Hr _.
        apply Z.lor_eq_0_iff in Hr. destruct Hr as [Hr _].
        apply Z.lor_eq_0_iff in Hr. tauto.
      * unfold ret in Hrun. injection Hrun as Hr _.
        apply Z.lor_eq_0_iff in Hr. tauto.
    + unfold ret in Hrun. injection Hrun as Hr _. exact Hr.
Qed.


Lemma write_loem_success H opt ab loemid vblock w r w' :
  Bios.write_loem H opt ab loemid vblock w = Returns r w' -> r = 0 -> w' = w.
Proof.
  unfold Bios.write_loem, bind, get_image, say, ret.
  destruct (_ >=? PATH_MAX); [intros Hr; injection Hr; lia|].
  destruct (negb (fopen_w H _)); [intros Hr; injection Hr; lia|].
  destruct (negb (fwrite_1 H _ _)); [intros Hr; injection Hr; lia|].
  destruct (negb (fclose_0 H _)); [intros Hr; injection Hr; lia|].
  intros Hr _. now injection Hr.
Qed.

(** With slot A valid and no valid VBLOCK_B, [sign_bios_at_end] signs
    slot A and says that it signs only that one. *)
Lemma sign_bios_at_end_without_slot_b H opt st w wa :
  Area.is_valid (State.area st BIOS_FMAP_VBLOCK_A) <> 0 ->
  Area.is_valid (State.area st BIOS_FMAP_FW_MAIN_A) <> 0 ->
  Area.is_valid (State.area st BIOS_FMAP_VBLOCK_B) = 0 ->
  Bios.write_new_preamble H opt (State.area st BIOS_FMAP_VBLOCK_A)
    (State.area st BIOS_FMAP_FW_MAIN_A)
    (SignOption.signprivate opt) (SignOption.keyblock opt) w
  = Returns 0 wa ->
  (forall id wx, SignOption.loemid opt = Some id -> image wx = image wa ->
     exists wy, Bios.write_loem H opt "A" id
                  (State.area st BIOS_FMAP_VBLOCK_A) wx = Returns 0 wy) ->
  exists w',
    Bios.sign_bios_at_end H opt st w = Returns 0 w'
    /\ image w' = image wa
    /\ In Slot.only_slot_a_message (console w').
Proof.
  intros Hva Hfa Hvb Hwrite Hloem.
  unfold Bios.sign_bios_at_end.
  apply Z.eqb_neq in Hva. apply Z.eqb_neq in Hfa. rewrite Hva, Hfa.
  cbn [orb]. unfold bind at 1. rewrite Hwrite.
  rewrite Hvb. cbn [Z.eqb negb andb Z.lor].
  unfold bind at 1. unfold bind at 1. unfold say at 1. unfold ret at 1.
  destruct (SignOption.loemid opt) as [id|] eqn:El.
  - unfold bind at 1.
    match goal with
    | |- context [Bios.write_loem H opt "A" id ?v ?w0] =>
        destruct (Hloem id w0 eq_refl eq_refl) as (wy & Hy);
        pose proof (write_loem_success H opt "A" id v w0 0 wy Hy eq_refl)
          as ->
    end.
    rewrite Hy. cbn [Z.lor]. unfold ret.
    eexists. split; [reflexivity|]. split; [reflexivity|].
    cbn [console]. apply in_or_app. right. left. reflexivity.
  - unfold ret. eexists. split; [reflexivity|]. split; [reflexivity|].
    cbn [console]. apply in_or_app. right. left. reflexivity.
Qed.

End SignFacts.

Ltac sign_prologue Ha Hb Hmap :=
  unfold Bios.ft_sign_bios; cbv zeta;
  unfold bind at 1; unfold get_image at 1;
  unfold bind at 1; rewrite Ha;
  unfold bind at 1; rewrite Hb;
  unfold bind at 1; unfold get_image at 1;
  rewrite Hmap; cbn [Z.eqb negb];
  unfold bind at 1.

(** ** The run of [ft_sign_bios] *)

Module DualFacts.

Lemma hash_upd k f s c :
  (forall a, Area.metadata_hash (f a) = Area.metadata_hash a) ->
  Area.metadata_hash (State.area (State.upd_area k f s) c)
  = Area.metadata_hash (State.area s c).
Proof.
  intros Hf. cbn. destruct (bios_component_eqb c k) eqn:E; [|reflexivity].
  apply SlotFacts.eqb_eq in E. subst c. apply Hf.
Qed.

Ltac keep_hash :=
  repeat (rewrite hash_upd by (intros; reflexivity)); try reflexivity.

(** [prepare_slot] leaves the metadata hashes of the state alone. *)
Lemma prepare_slot_keeps_hash H opt len fw_c vblock_c st w r st' w' :
  Bios.prepare_slot H opt len fw_c vblock_c st w = Returns (r, st') w' ->
  forall c,
    Area.metadata_hash (State.area st' c)
    = Area.metadata_hash (State.area st c).
Proof.
  unfold Bios.prepare_slot.
  unfold bind at 1. unfold get_image at 1.
  unfold bind at 1. unfold say at 1. cbn [image console].
  destruct (fmap_find_by_name H (image w) len _ (fmap_name fw_c))
    as [a1|].
  2:{ cbv [bind say ret]. intros Hr. injection Hr as _ <- _. reflexivity. }
  unfold bind at 1. unfold Bios.limit_area, bind at 1, get_image at 1,
    put_image at 1. cbn [image console].
  unfold bind at 1. unfold get_image at 1. cbn [image console].
  destruct (_ >? _).
  { cbv [bind say ret]. intros Hr. injection Hr as _ <- _. intros c.
    keep_hash. }
  unfold bind at 1.
  match goal with
  | |- context [(if ?b then ret ?s1 else (when ?t ?c ;; ret ?s2)) ?w0] =>
      assert (Hmid : exists s wm,
                 (if b then ret s1 else (when t c ;; ret s2)) w0
                 = Returns s wm
                 /\ forall c0, Area.metadata_hash (State.area s c0)
                               = Area.metadata_hash (State.area st c0))
  end.
  { destruct (negb _).
    - eexists _, _. split; [reflexivity|]. intros c. keep_hash.
    - destruct (_ =? Vb2.VB2_HASH_INVALID); cbv [when bind say ret];
        eexists _, _; (split; [reflexivity|]); intros c; keep_hash. }
  destruct Hmid as (s & wm & -> & Hs).
  destruct (fmap_find_by_name H _ len _ (fmap_name vblock_c)) as [a2|].
  2:{ cbv [bind say ret]. intros Hr. injection Hr as _ <- _. exact Hs. }
  unfold bind at 1. unfold Bios.limit_area, bind at 1, get_image at 1,
    put_image at 1. cbn [image console].
  unfold bind at 1. unfold get_image at 1. cbn [image console].
  unfold bind at 1.
  match goal with
  | |- context [Bios.prepare_slot_checks H fw_c vblock_c ?s0 ?w0] =>
      destruct (SlotFacts.prepare_slot_checks_run H fw_c vblock_c s0 w0)
        as (msgs & ->)
  end.
  unfold ret. intros Hr. injection Hr as _ <- _. intros c.
  rewrite <- Hs.
  destruct (_ && (_ =? 0)); keep_hash.
Qed.

Lemma plain_step_returns H name fw_c st w :
  exists st' w',
    Bios.image_check_and_prepare_cbfs H name fw_c false st w = Returns st' w'.
Proof.
  unfold Bios.image_check_and_prepare_cbfs. cbn [negb].
  unfold bind at 1. unfold get_image at 1.
  destruct (cbfstool_truncate H name (image w) (fmap_name fw_c) _)
    as [[rv size] m'].
  destruct (negb _); cbv [bind put_image say ret]; eexists _, _; reflexivity.
Qed.

Lemma integration_step H name fw_c st w rv h :
  cbfstool_get_metadata_hash H name (image w) (fmap_name fw_c)
    (Area.metadata_hash (State.area st fw_c)) = (rv, h) ->
  rv = Vb2.VB2_SUCCESS ->
  Bios.image_check_and_prepare_cbfs H name fw_c true st w
  = Returns (State.upd_area fw_c (Area.set_metadata_hash h) st)
            {| image := image w;
               console :=
                 console w
                 ++ [Msg VB2_DEBUG "CBFS metadata hash found in area %s\n"
                         [fmap_name fw_c] []] |}.
Proof.
  intros Hl ->. unfold Bios.image_check_and_prepare_cbfs. cbn [negb].
  unfold bind at 1. unfold get_image at 1. rewrite Hl.
  cbn [Z.eqb negb]. reflexivity.
Qed.

(** The two CBFS steps at the start of [ft_sign_bios] come back when
    the image does not declare CBFS integration, and when cbfstool
    finds both metadata hashes. *)
Lemma cbfs_steps_return H name w :
  let uses := Bios.image_uses_cbfs_integration H name (image w) in
  let lookup c :=
    cbfstool_get_metadata_hash H name (image w) (fmap_name c)
      (Area.metadata_hash Area.zero) in
  uses = false
  \/ fst (lookup BIOS_FMAP_FW_MAIN_A) = Vb2.VB2_SUCCESS
     /\ fst (lookup BIOS_FMAP_FW_MAIN_B) = Vb2.VB2_SUCCESS ->
  exists sa wa st0 w0,
    Bios.image_check_and_prepare_cbfs H name BIOS_FMAP_FW_MAIN_A uses
      State.zero w = Returns sa wa
    /\ Bios.image_check_and_prepare_cbfs H name BIOS_FMAP_FW_MAIN_B uses
         sa wa = Returns st0 w0
    /\ (forall c, Area.is_valid (State.area st0 c) = 0)
    /\ (uses = true ->
        image w0 = image w
        /\ Area.metadata_hash (State.area st0 BIOS_FMAP_FW_MAIN_A)
           = snd (lookup BIOS_FMAP_FW_MAIN_A)
        /\ Area.metadata_hash (State.area st0 BIOS_FMAP_FW_MAIN_B)
           = snd (lookup BIOS_FMAP_FW_MAIN_B)).
Proof.
  intros uses lookup Hsteps. subst lookup.
  assert (Hvalid : forall sa wa st0 w0,
             Bios.image_check_and_prepare_cbfs H name BIOS_FMAP_FW_MAIN_A
               uses State.zero w = Returns sa wa ->
             Bios.image_check_and_prepare_cbfs H name BIOS_FMAP_FW_MAIN_B
               uses sa wa = Returns st0 w0 ->
             forall c, Area.is_valid (State.area st0 c) = 0).
  { intros sa wa st0 w0 Ha Hb c.
    rewrite (SignFacts.cbfs_step_keeps_validity _ _ _ _ _ _ _ _ Hb).
    rewrite (SignFacts.cbfs_step_keeps_validity _ _ _ _ _ _ _ _ Ha).
    reflexivity. }
  destruct uses eqn:Euses.
  - destruct Hsteps as [Hc|[Hla Hlb]]; [discriminate Hc|].
    destruct (cbfstool_get_metadata_hash H name (image w)
                (fmap_name BIOS_FMAP_FW_MAIN_A)
                (Area.metadata_hash Area.zero)) as [rva ha] eqn:Ea.
    destruct (cbfstool_get_metadata_hash H name (image w)
                (fmap_name BIOS_FMAP_FW_MAIN_B)
                (Area.metadata_hash Area.zero)) as [rvb hb] eqn:Eb.
    cbn [fst snd] in *. subst rva rvb.
    pose proof (integration_step H name BIOS_FMAP_FW_MAIN_A State.zero w
                  _ ha Ea eq_refl) as Ha.
    match type of Ha with
    | _ = Returns ?sa ?wa =>
        pose proof (integration_step H name BIOS_FMAP_FW_MAIN_B sa wa
                      _ hb Eb eq_refl) as Hb
    end.
    eexists _, _, _, _. split; [exact Ha|]. split; [exact Hb|].
    split; [exact (Hvalid _ _ _ _ Ha Hb)|].
    intros _. repeat split; reflexivity.
  - clear Hsteps.
    destruct (plain_step_returns H name BIOS_FMAP_FW_MAIN_A State.zero w)
      as (sa & wa & Ha).
    destruct (plain_step_returns H name BIOS_FMAP_FW_MAIN_B sa wa)
      as (st0 & w0 & Hb).
    exists sa, wa, st0, w0. split; [exact Ha|]. split; [exact Hb|].
    split; [exact (Hvalid _ _ _ _ Ha Hb)|]. discriminate.
Qed.

(** When the image declares CBFS integration and cbfstool finds no
    metadata hash for one of the two bodies, [ft_sign_bios] ends in
    [FATAL] before the file is mapped. *)
Lemma missing_hash_exits H opt name w :
  Bios.image_uses_cbfs_integration H name (image w) = true ->
  fst (cbfstool_get_metadata_hash H name (image w)
         (fmap_name BIOS_FMAP_FW_MAIN_A) (Area.metadata_hash Area.zero))
  <> Vb2.VB2_SUCCESS
  \/ fst (cbfstool_get_metadata_hash H name (image w)
            (fmap_name BIOS_FMAP_FW_MAIN_B) (Area.metadata_hash Area.zero))
     <> Vb2.VB2_SUCCESS ->
  exists w',
    Bios.ft_sign_bios H opt name w = Exits w'
    /\ image w' = image w
    /\ exists l fmt names,
        console w' = console w ++ l ++ [Msg FATAL fmt names []]
        /\ Forall (fun m => msg_level m = VB2_DEBUG) l.
Proof.
  intros Huses Hfail.
  unfold Bios.ft_sign_bios. cbv zeta.
  unfold bind at 1. unfold get_image at 1. rewrite Huses.
  unfold bind at 1.
  unfold Bios.image_check_and_prepare_cbfs at 1. cbn [negb].
  unfold bind at 1. unfold get_image at 1.
  change (State.area State.zero BIOS_FMAP_FW_MAIN_A) with Area.zero.
  destruct (cbfstool_get_metadata_hash H name (image w)
              (fmap_name BIOS_FMAP_FW_MAIN_A)
              (Area.metadata_hash Area.zero)) as [rva ha] eqn:Ea.
  cbn [fst] in Hfail.
  destruct (rva =? Vb2.VB2_SUCCESS) eqn:Era; cbn [negb].
  2:{ unfold fatal. eexists. split; [reflexivity|].
      split; [reflexivity|]. exists []. cbn [console app].
      eexists _, _. split; [reflexivity|constructor]. }
  apply Z.eqb_eq in Era.
  unfold bind at 1. unfold say at 1. unfold ret at 1.
  unfold bind at 1.
  unfold Bios.image_check_and_prepare_cbfs at 1. cbn [negb].
  unfold bind at 1. unfold get_image at 1. cbn [image].
  change (State.area
            (State.upd_area BIOS_FMAP_FW_MAIN_A
               (Area.set_metadata_hash ha) State.zero)
            BIOS_FMAP_FW_MAIN_B) with Area.zero.
  destruct (cbfstool_get_metadata_hash H name (image w)
              (fmap_name BIOS_FMAP_FW_MAIN_B)
              (Area.metadata_hash Area.zero)) as [rvb hb] eqn:Eb.
  cbn [fst] in Hfail.
  destruct (rvb =? Vb2.VB2_SUCCESS) eqn:Erb; cbn [negb].
  2:{ unfold fatal. eexists. split; [reflexivity|].
      split; [reflexivity|]. cbn [console].
      eexists [_]. eexists _, _. rewrite <- app_assoc.
      split; [reflexivity|]. constructor; [reflexivity|constructor]. }
  apply Z.eqb_eq in Erb. tauto.
Qed.

(** [ft_sign_bios] from the CBFS steps to the checks after the
    preparation of the two slots. *)
Lemma sign_run H opt name w sa wa st0 w0 :
  let uses := Bios.image_uses_cbfs_integration H name (image w) in
  Bios.image_check_and_prepare_cbfs H name BIOS_FMAP_FW_MAIN_A uses
    State.zero w = Returns sa wa ->
  Bios.image_check_and_prepare_cbfs H name BIOS_FMAP_FW_MAIN_B uses
    sa wa = Returns st0 w0 ->
  let len := u32 (Mem.size (image w0)) in
  (futil_open_and_map_file H name (image w0) <> 0 ->
   Bios.ft_sign_bios H opt name w = Returns 1 w0)
  /\ (futil_open_and_map_file H name (image w0) = 0 ->
      forall ra st1 w1,
        Bios.prepare_slot H opt len BIOS_FMAP_FW_MAIN_A BIOS_FMAP_VBLOCK_A
          st0 w0 = Returns (ra, st1) w1 ->
        (ra <> 0 -> Bios.ft_sign_bios H opt name w = Returns ra w1)
        /\ (ra = 0 ->
            forall rb st2 w2,
              Bios.prepare_slot H opt len BIOS_FMAP_FW_MAIN_B
                BIOS_FMAP_VBLOCK_B st1 w1 = Returns (rb, st2) w2 ->
              (rb <> 0 ->
               Area.is_valid (State.area st2 BIOS_FMAP_FW_MAIN_B) <> 0 ->
               Bios.ft_sign_bios H opt name w = Returns rb w2)
              /\ (rb = 0
                  \/ Area.is_valid (State.area st2 BIOS_FMAP_FW_MAIN_B) = 0 ->
                  Bios.ft_sign_bios H opt name w
                  = (Bios.check_slot_after_prepare BIOS_FMAP_FW_MAIN_A uses
                       st2 ;;
                     Bios.check_slot_after_prepare BIOS_FMAP_FW_MAIN_B uses
                       st2 ;;
                     Bios.sign_bios_at_end H opt st2) w2))).
Proof.
  intros uses Ha Hb len. subst uses len.
  split.
  - intros Hmap. apply Z.eqb_neq in Hmap.
    unfold Bios.ft_sign_bios; cbv zeta.
    unfold bind at 1; unfold get_image at 1.
    unfold bind at 1; rewrite Ha.
    unfold bind at 1; rewrite Hb.
    unfold bind at 1; unfold get_image at 1.
    rewrite Hmap. reflexivity.
  - intros Hmap ra st1 w1 Hpa. split.
    + intros Hra. sign_prologue Ha Hb Hmap. rewrite Hpa.
      apply Z.eqb_neq in Hra. rewrite Hra. reflexivity.
    + intros -> rb st2 w2 Hpb. split.
      * intros Hrb Hvb. sign_prologue Ha Hb Hmap. rewrite Hpa.
        cbn [Z.eqb negb]. unfold bind at 1. rewrite Hpb.
        apply Z.eqb_neq in Hrb. apply Z.eqb_neq in Hvb.
        rewrite Hrb, Hvb. reflexivity.
      * intros Hgo. sign_prologue Ha Hb Hmap. rewrite Hpa.
        cbn [Z.eqb negb]. unfold bind at 1. rewrite Hpb.
        assert (Hc : negb (rb =? 0)
                     && negb (Area.is_valid
                                (State.area st2 BIOS_FMAP_FW_MAIN_B) =? 0)
                     = false).
        { destruct Hgo as [-> | ->]; [reflexivity|].
          cbn. apply andb_false_r. }
        rewrite Hc. reflexivity.
Qed.

End DualFacts.

(** C5, as stated, fails: the slot-A image of the example has neither
    FW_MAIN_B nor VBLOCK_B in its flash map, and slot A can be prepared
    and signed; but under a cbfstool that reports CBFS integration and
    has a metadata hash for FW_MAIN_A only, [ft_sign_bios] does not
    return: it leaves the process with [FATAL], for want of a metadata
    hash in FW_MAIN_B. *)
Lemma absent_slot_b_is_fatal_with_cbfs_integration :
  let H := Example.host Samples.hash_in_slot_a_only in
  let m := Example.image_a Example.vblock_signed in
  let len := u32 (Mem.size m) in
  fmap_find_by_name H m len (fmap_find H m len)
    (fmap_name BIOS_FMAP_FW_MAIN_B) = None
  /\ fmap_find_by_name H m len (fmap_find H m len)
       (fmap_name BIOS_FMAP_VBLOCK_B) = None
  /\ (exists st1 w1 wy,
         Bios.prepare_slot H Example.options len BIOS_FMAP_FW_MAIN_A
           BIOS_FMAP_VBLOCK_A
           (State.upd_area BIOS_FMAP_FW_MAIN_A
              (Area.set_metadata_hash Samples.sha256_hash) State.zero)
           (Example.start m)
         = Returns (0, st1) w1
         /\ Bios.write_new_preamble H Example.options
              (State.area st1 BIOS_FMAP_VBLOCK_A)
              (State.area st1 BIOS_FMAP_FW_MAIN_A)
              (SignOption.signprivate Example.options)
              (SignOption.keyblock Example.options) w1
            = Returns 0 wy)
  /\ Bios.ft_sign_bios H Example.options "bios.bin" (Example.start m)
     = Exits {| image := m;
                console :=
                  [Msg VB2_DEBUG "CBFS metadata hash found in area %s\n"
                       ["FW_MAIN_A"%string] [];
                   Msg FATAL
                       ("CBFS metadata hash not found in area"
                        ++ " %s. It is required for images with"
                        ++ " VBOOT_CBFS_INTEGRATION")
                       ["FW_MAIN_B"%string] []] |}.
Proof.
  cbv zeta. split; [vm_compute; reflexivity|].
  split; [vm_compute; reflexivity|]. split.
  - pose (pa := Bios.prepare_slot
                  (Example.host Samples.hash_in_slot_a_only) Example.options
                  (u32 (Mem.size (Example.image_a Example.vblock_signed)))
                  BIOS_FMAP_FW_MAIN_A BIOS_FMAP_VBLOCK_A
                  (State.upd_area BIOS_FMAP_FW_MAIN_A
                     (Area.set_metadata_hash Samples.sha256_hash) State.zero)
                  (Example.start (Example.image_a Example.vblock_signed))).
    pose (st1 := snd (result_of (0, State.zero) pa)).
    pose (wr := Bios.write_new_preamble
                  (Example.host Samples.hash_in_slot_a_only) Example.options
                  (State.area st1 BIOS_FMAP_VBLOCK_A)
                  (State.area st1 BIOS_FMAP_FW_MAIN_A)
                  (SignOption.signprivate Example.options)
                  (SignOption.keyblock Example.options) (world_of pa)).
    exists st1, (world_of pa), (world_of wr).
    split; vm_compute; reflexivity.
  - vm_compute. reflexivity.
Qed.

(** C5, amended.  (0) When the image declares CBFS integration and
    cbfstool finds no metadata hash for FW_MAIN_A or for FW_MAIN_B,
    [ft_sign_bios] leaves the process with [FATAL], whether slot B is in
    the flash map or not.  Otherwise the two CBFS steps come back, and
    then: [ft_sign_bios] returns 1 when the file cannot be mapped; and
    when it is mapped, (1) it returns the result of [prepare_slot] for
    slot A when that is not 0, it returns 0 only if slot A was prepared
    and the write of its new preamble, in the state and the buffer that
    the preparation of the two slots left, returned 0, and it does not
    return 0 when that write returns something else; (2) when FW_MAIN_B
    is found in the flash map and [prepare_slot] fails for slot B, it
    returns that result; (3) when FW_MAIN_B is not found, every hash
    that is asked for is there, and slot A is prepared and signed, it
    returns 0 and has said that it signs slot A alone. *)
Theorem dual_slot_signing
        (H : Host) (opt : SignOption.sign_option_s) (name : string)
        (w : world) :
  let uses := Bios.image_uses_cbfs_integration H name (image w) in
  let lookup c :=
    cbfstool_get_metadata_hash H name (image w) (fmap_name c)
      (Area.metadata_hash Area.zero) in
  (uses = true ->
   fst (lookup BIOS_FMAP_FW_MAIN_A) <> Vb2.VB2_SUCCESS
   \/ fst (lookup BIOS_FMAP_FW_MAIN_B) <> Vb2.VB2_SUCCESS ->
   exists w', Bios.ft_sign_bios H opt name w = Exits w')
  /\ (uses = false
      \/ fst (lookup BIOS_FMAP_FW_MAIN_A) = Vb2.VB2_SUCCESS
         /\ fst (lookup BIOS_FMAP_FW_MAIN_B) = Vb2.VB2_SUCCESS ->
      exists sa wa st0 w0,
        Bios.image_check_and_prepare_cbfs H name BIOS_FMAP_FW_MAIN_A uses
          State.zero w = Returns sa wa
        /\ Bios.image_check_and_prepare_cbfs H name BIOS_FMAP_FW_MAIN_B uses
             sa wa = Returns st0 w0
        /\ (uses = true ->
            Area.metadata_hash (State.area st0 BIOS_FMAP_FW_MAIN_A)
            = snd (lookup BIOS_FMAP_FW_MAIN_A)))
  /\ (forall sa wa st0 w0,
        Bios.image_check_and_prepare_cbfs H name BIOS_FMAP_FW_MAIN_A uses
          State.zero w = Returns sa wa ->
        Bios.image_check_and_prepare_cbfs H name BIOS_FMAP_FW_MAIN_B uses
          sa wa = Returns st0 w0 ->
        (futil_open_and_map_file H name (image w0) <> 0 ->
         Bios.ft_sign_bios H opt name w = Returns 1 w0)
        /\ (futil_open_and_map_file H name (image w0) = 0 ->
            let len := u32 (Mem.size (image w0)) in
            let prepare_a :=
              Bios.prepare_slot H opt len BIOS_FMAP_FW_MAIN_A
                BIOS_FMAP_VBLOCK_A st0 w0 in
            let prepare_b st1 w1 :=
              Bios.prepare_slot H opt len BIOS_FMAP_FW_MAIN_B
                BIOS_FMAP_VBLOCK_B st1 w1 in
            let write_a st1 w2 :=
              Bios.write_new_preamble H opt
                (State.area st1 BIOS_FMAP_VBLOCK_A)
                (State.area st1 BIOS_FMAP_FW_MAIN_A)
                (SignOption.signprivate opt) (SignOption.keyblock opt) w2 in
            (forall r st1 w1,
                prepare_a = Returns (r, st1) w1 -> r <> 0 ->
                Bios.ft_sign_bios H opt name w = Returns r w1)
            /\ (forall w',
                   Bios.ft_sign_bios H opt name w = Returns 0 w' ->
                   exists st1 w1 rb st2 w2 w3,
                     prepare_a = Returns (0, st1) w1
                     /\ prepare_b st1 w1 = Returns (rb, st2) w2
                     /\ write_a st1 w2 = Returns 0 w3)
            /\ (forall st1 w1 rb st2 w2 r w3,
                   prepare_a = Returns (0, st1) w1 ->
                   prepare_b st1 w1 = Returns (rb, st2) w2 ->
                   write_a st1 w2 = Returns r w3 -> r <> 0 ->
                   forall w', Bios.ft_sign_bios H opt name w <> Returns 0 w')
            /\ (forall st1 w1 r st2 w2,
                   prepare_a = Returns (0, st1) w1 ->
                   fmap_find_by_name H (image w1) len
                     (fmap_find H (image w1) len)
                     (fmap_name BIOS_FMAP_FW_MAIN_B) <> None ->
                   prepare_b st1 w1 = Returns (r, st2) w2 ->
                   r <> 0 ->
                   Bios.ft_sign_bios H opt name w = Returns r w2)
            /\ (forall st1 w1 rb st2 w2 wy,
                   prepare_a = Returns (0, st1) w1 ->
                   fmap_find_by_name H (image w1) len
                     (fmap_find H (image w1) len)
                     (fmap_name BIOS_FMAP_FW_MAIN_B) = None ->
                   prepare_b st1 w1 = Returns (rb, st2) w2 ->
                   (uses = true ->
                    Vb2.algo (Area.metadata_hash
                                (State.area st0 BIOS_FMAP_FW_MAIN_A))
                    <> Vb2.VB2_HASH_INVALID) ->
                   write_a st1 w2 = Returns 0 wy ->
                   (forall id wx,
                       SignOption.loemid opt = Some id ->
                       image wx = image wy ->
                       exists wz,
                         Bios.write_loem H opt "A" id
                           (State.area st1 BIOS_FMAP_VBLOCK_A) wx
                         = Returns 0 wz) ->
                   exists w',
                     Bios.ft_sign_bios H opt name w = Returns 0 w'
                     /\ image w' = image wy
                     /\ In Slot.only_slot_a_message (console w')))).
Proof.
  intros uses lookup. subst uses lookup. cbv beta. split.
  { intros Huses Hfail.
    destruct (DualFacts.missing_hash_exits H opt name w Huses Hfail)
      as (w' & Hrun & _).
    exists w'. exact Hrun. }
  split.
  { intros Hsteps.
    destruct (DualFacts.cbfs_steps_return H name w Hsteps)
      as (sa & wa & st0 & w0 & Ha & Hb & _ & Hhash).
    exists sa, wa, st0, w0. split; [exact Ha|]. split; [exact Hb|].
    intros Hu. now destruct (Hhash Hu) as (_ & -> & _). }
  intros sa wa st0 w0 Ha Hb.
  assert (Hzero : forall c, Area.is_valid (State.area st0 c) = 0).
  { intros c.
    rewrite (SignFacts.cbfs_step_keeps_validity _ _ _ _ _ _ _ _ Hb).
    rewrite (SignFacts.cbfs_step_keeps_validity _ _ _ _ _ _ _ _ Ha).
    reflexivity. }
  destruct (DualFacts.sign_run H opt name w sa wa st0 w0 Ha Hb)
    as (Hunmapped & Hrun).
  split; [exact Hunmapped|].
  intros Hmap len prepare_a prepare_b write_a.
  specialize (Hrun Hmap). fold len in Hrun.
  (* slot A and slot B are prepared, in any case *)
  destruct (SlotFacts.prepare_slot_returns H opt len BIOS_FMAP_FW_MAIN_A
              BIOS_FMAP_VBLOCK_A st0 w0 eq_refl)
    as (ra & sA & wA & HpA & _ & HframeA & _ & _ & HvalidA).
  assert (Hslot_b : forall st1 w1,
             exists rb st2 w2,
               prepare_b st1 w1 = Returns (rb, st2) w2
               /\ State.area st2 BIOS_FMAP_VBLOCK_A
                  = State.area st1 BIOS_FMAP_VBLOCK_A
               /\ State.area st2 BIOS_FMAP_FW_MAIN_A
                  = State.area st1 BIOS_FMAP_FW_MAIN_A).
  { intros st1 w1.
    destruct (SlotFacts.prepare_slot_returns H opt len BIOS_FMAP_FW_MAIN_B
                BIOS_FMAP_VBLOCK_B st1 w1 eq_refl)
      as (rb & st2 & w2 & Hpb & _ & Hframe & _).
    exists rb, st2, w2. split; [exact Hpb|].
    split; apply Hframe; reflexivity. }
  (* what a return of 0 takes *)
  assert (Hzero_takes : forall w',
             Bios.ft_sign_bios H opt name w = Returns 0 w' ->
             exists st1 w1 rb st2 w2 w3,
               prepare_a = Returns (0, st1) w1
               /\ prepare_b st1 w1 = Returns (rb, st2) w2
               /\ write_a st1 w2 = Returns 0 w3).
  { intros w' Hret.
    destruct (Hrun ra sA wA HpA) as (Hfail_a & Hgo_a).
    destruct (Z.eq_dec ra 0) as [->|Hra].
    2:{ rewrite (Hfail_a Hra) in Hret. injection Hret as Hr _.
        contradiction. }
    destruct (Hslot_b sA wA) as (rb & st2 & w2 & Hpb & HkeepV & HkeepF).
    destruct (Hgo_a eq_refl rb st2 w2 Hpb) as (Hfail_b & Hgo_b).
    destruct (Z.eq_dec rb 0) as [Hrb|Hrb].
    - rewrite (Hgo_b (or_introl Hrb)) in Hret.
      unfold bind at 1 in Hret.
      unfold Bios.check_slot_after_prepare at 1 in Hret.
      destruct (_ && _ && _); [discriminate Hret|].
      unfold ret at 1 in Hret. unfold bind at 1 in Hret.
      unfold Bios.check_slot_after_prepare at 1 in Hret.
      destruct (_ && _ && _); [discriminate Hret|].
      unfold ret at 1 in Hret.
      destruct (SignFacts.sign_bios_at_end_needs_slot_a H opt st2 w2 w'
                  Hret) as (_ & _ & w3 & Hw).
      exists sA, wA, rb, st2, w2, w3.
      split; [exact HpA|]. split; [exact Hpb|].
      unfold write_a. rewrite <- HkeepV, <- HkeepF. exact Hw.
    - destruct (Z.eq_dec
                  (Area.is_valid (State.area st2 BIOS_FMAP_FW_MAIN_B)) 0)
        as [Hvb|Hvb].
      + rewrite (Hgo_b (or_intror Hvb)) in Hret.
        unfold bind at 1 in Hret.
        unfold Bios.check_slot_after_prepare at 1 in Hret.
        destruct (_ && _ && _); [discriminate Hret|].
        unfold ret at 1 in Hret. unfold bind at 1 in Hret.
        unfold Bios.check_slot_after_prepare at 1 in Hret.
        destruct (_ && _ && _); [discriminate Hret|].
        unfold ret at 1 in Hret.
        destruct (SignFacts.sign_bios_at_end_needs_slot_a H opt st2 w2 w'
                    Hret) as (_ & _ & w3 & Hw).
        exists sA, wA, rb, st2, w2, w3.
        split; [exact HpA|]. split; [exact Hpb|].
        unfold write_a. rewrite <- HkeepV, <- HkeepF. exact Hw.
      + rewrite (Hfail_b Hrb Hvb) in Hret. injection Hret as Hr _.
        contradiction. }
  split; [|split; [|split; [|split]]].
  - intros r st1 w1 Hpa Hr.
    destruct (Hrun r st1 w1 Hpa) as (Hfail_a & _). now apply Hfail_a.
  - exact Hzero_takes.
  - intros st1 w1 rb st2 w2 r w3 Hpa Hpb Hwrite Hr w' Hret.
    destruct (Hzero_takes w' Hret)
      as (st1' & w1' & rb' & st2' & w2' & w3' & Hpa' & Hpb' & Hwrite').
    rewrite Hpa in Hpa'. injection Hpa' as <- <-.
    rewrite Hpb in Hpb'. injection Hpb' as <- <- <-.
    rewrite Hwrite in Hwrite'. injection Hwrite' as Hr' _.
    contradiction.
  - intros st1 w1 r st2 w2 Hpa Hfound Hpb Hr.
    destruct (Hrun 0 st1 w1 Hpa) as (_ & Hgo_a).
    destruct (Hgo_a eq_refl r st2 w2 Hpb) as (Hfail_b & _).
    apply Hfail_b; [exact Hr|].
    destruct (SlotFacts.prepare_slot_returns H opt len BIOS_FMAP_FW_MAIN_B
                BIOS_FMAP_VBLOCK_B st1 w1 eq_refl)
      as (rb & st2' & w2' & Hpb' & _ & _ & _ & Hvalid & _).
    unfold prepare_b in Hpb. rewrite Hpb in Hpb'.
    injection Hpb' as <- <- <-.
    rewrite (Hvalid Hfound). discriminate.
  - intros st1 w1 rb st2 w2 wy Hpa Habsent Hpb Hhash_a Hwrite Hloem.
    unfold prepare_a in Hpa. rewrite Hpa in HpA.
    injection HpA as <- <- <-.
    destruct (HvalidA eq_refl) as [Hfa Hva].
    destruct (SlotFacts.prepare_slot_returns H opt len BIOS_FMAP_FW_MAIN_B
                BIOS_FMAP_VBLOCK_B st1 w1 eq_refl)
      as (rb' & st2' & w2' & Hpb' & _ & _ & Hnone & _ & _).
    unfold prepare_b in Hpb. rewrite Hpb in Hpb'.
    injection Hpb' as <- <- <-.
    destruct (Hnone Habsent) as (-> & -> & Him & Hcon).
    assert (Hfb : Area.is_valid (State.area st1 BIOS_FMAP_FW_MAIN_B) = 0)
      by (rewrite HframeA by reflexivity; apply Hzero).
    assert (Hvb : Area.is_valid (State.area st1 BIOS_FMAP_VBLOCK_B) = 0)
      by (rewrite HframeA by reflexivity; apply Hzero).
    destruct (Hrun 0 st1 w1 Hpa) as (_ & Hgo_a).
    destruct (Hgo_a eq_refl 1 st1 w2 Hpb) as (_ & Hgo_b).
    rewrite (Hgo_b (or_intror Hfb)).
    unfold bind at 1. unfold Bios.check_slot_after_prepare at 1.
    rewrite Hfa. cbn [Z.eqb negb andb].
    assert (Hok : Bios.image_uses_cbfs_integration H name (image w)
                  && (Vb2.algo (Area.metadata_hash
                                  (State.area st1 BIOS_FMAP_FW_MAIN_A))
                      =? Vb2.VB2_HASH_INVALID) = false).
    { destruct (Bios.image_uses_cbfs_integration H name (image w)) eqn:Euses;
        [|reflexivity].
      cbn [andb]. apply Z.eqb_neq.
      rewrite (DualFacts.prepare_slot_keeps_hash _ _ _ _ _ _ _ _ _ _ Hpa).
      exact (Hhash_a eq_refl). }
    rewrite Hok. unfold ret at 1.
    unfold bind at 1. unfold Bios.check_slot_after_prepare at 1.
    rewrite Hfb. cbn [Z.eqb negb andb]. unfold ret at 1.
    destruct (SignFacts.sign_bios_at_end_without_slot_b H opt st1 w2 wy)
      as (w' & Hend & Himage & Hin).
    + rewrite Hva. discriminate.
    + rewrite Hfa. discriminate.
    + exact Hvb.
    + exact Hwrite.
    + exact Hloem.
    + exists w'. repeat split; assumption.
Qed.

(** The slot-A image is signed with a note that slot B is missing; the
    image whose slot B has a body but no VBLOCK is not signed; and the
    slot-A image is not signed either when it declares CBFS
    integration and has a metadata hash for FW_MAIN_A only. *)
Lemma dual_slot_signing_witness :
  (exists w',
      Bios.ft_sign_bios (Example.host Example.no_cbfs) Example.options
        "bios.bin" (Example.start (Example.image_a Example.vblock_signed))
      = Returns 0 w'
      /\ In Slot.only_slot_a_message (console w'))
  /\ (exists w',
         Bios.ft_sign_bios (Example.host Example.no_cbfs) Example.options
           "bios.bin" (Example.start Example.image_b_without_vblock)
         = Returns 1 w')
  /\ (exists w',
         Bios.ft_sign_bios (Example.host Samples.hash_in_slot_a_only)
           Example.options "bios.bin"
           (Example.start (Example.image_a Example.vblock_signed))
         = Exits w').
Proof.
  split; [|split].
  - pose (H := Example.host Example.no_cbfs).
    pose (w := Example.start (Example.image_a Example.vblock_signed)).
    pose (uses := Bios.image_uses_cbfs_integration H "bios.bin" (image w)).
    pose (ca := Bios.image_check_and_prepare_cbfs H "bios.bin"
                  BIOS_FMAP_FW_MAIN_A uses State.zero w).
    pose (cb := Bios.image_check_and_prepare_cbfs H "bios.bin"
                  BIOS_FMAP_FW_MAIN_B uses (result_of State.zero ca)
                  (world_of ca)).
    pose (len := u32 (Mem.size (image (world_of cb)))).
    pose (pa := Bios.prepare_slot H Example.options len
                  BIOS_FMAP_FW_MAIN_A BIOS_FMAP_VBLOCK_A
                  (result_of State.zero cb) (world_of cb)).
    pose (st1 := snd (result_of (0, State.zero) pa)).
    pose (pb := Bios.prepare_slot H Example.options len
                  BIOS_FMAP_FW_MAIN_B BIOS_FMAP_VBLOCK_B st1 (world_of pa)).
    pose (wr := Bios.write_new_preamble H Example.options
                  (State.area st1 BIOS_FMAP_VBLOCK_A)
                  (State.area st1 BIOS_FMAP_FW_MAIN_A)
                  (SignOption.signprivate Example.options)
                  (SignOption.keyblock Example.options) (world_of pb)).
    assert (Ha : ca = Returns (result_of State.zero ca) (world_of ca))
      by (vm_compute; reflexivity).
    assert (Hb : cb = Returns (result_of State.zero cb) (world_of cb))
      by (vm_compute; reflexivity).
    assert (Hmap : futil_open_and_map_file H "bios.bin"
                     (image (world_of cb)) = 0)
      by (vm_compute; reflexivity).
    destruct (dual_slot_signing H Example.options "bios.bin" w)
      as (_ & _ & T).
    destruct (T (result_of State.zero ca) (world_of ca)
                (result_of State.zero cb) (world_of cb) Ha Hb)
      as (_ & T').
    destruct (T' Hmap) as (_ & _ & _ & _ & T3).
    destruct (T3 st1 (world_of pa) 1
                (snd (result_of (0, State.zero) pb)) (world_of pb)
                (world_of wr))
      as (w' & Hrun & _ & Hin).
    + vm_compute. reflexivity.
    + vm_compute. reflexivity.
    + vm_compute. reflexivity.
    + intros Hu. vm_compute in Hu. discriminate Hu.
    + vm_compute. reflexivity.
    + intros id wx Hid. vm_compute in Hid. discriminate Hid.
    + exists w'. split; assumption.
  - pose (H := Example.host Example.no_cbfs).
    pose (w := Example.start Example.image_b_without_vblock).
    pose (uses := Bios.image_uses_cbfs_integration H "bios.bin" (image w)).
    pose (ca := Bios.image_check_and_prepare_cbfs H "bios.bin"
                  BIOS_FMAP_FW_MAIN_A uses State.zero w).
    pose (cb := Bios.image_check_and_prepare_cbfs H "bios.bin"
                  BIOS_FMAP_FW_MAIN_B uses (result_of State.zero ca)
                  (world_of ca)).
    pose (len := u32 (Mem.size (image (world_of cb)))).
    pose (pa := Bios.prepare_slot H Example.options len
                  BIOS_FMAP_FW_MAIN_A BIOS_FMAP_VBLOCK_A
                  (result_of State.zero cb) (world_of cb)).
    pose (pb := Bios.prepare_slot H Example.options len
                  BIOS_FMAP_FW_MAIN_B BIOS_FMAP_VBLOCK_B
                  (snd (result_of (0, State.zero) pa)) (world_of pa)).
    assert (Ha : ca = Returns (result_of State.zero ca) (world_of ca))
      by (vm_compute; reflexivity).
    assert (Hb : cb = Returns (result_of State.zero cb) (world_of cb))
      by (vm_compute; reflexivity).
    assert (Hmap : futil_open_and_map_file H "bios.bin"
                     (image (world_of cb)) = 0)
      by (vm_compute; reflexivity).
    destruct (dual_slot_signing H Example.options "bios.bin" w)
      as (_ & _ & T).
    destruct (T (result_of State.zero ca) (world_of ca)
                (result_of State.zero cb) (world_of cb) Ha Hb)
      as (_ & T').
    destruct (T' Hmap) as (_ & _ & _ & T2 & _).
    exists (world_of pb).
    apply (T2 (snd (result_of (0, State.zero) pa)) (world_of pa) 1
              (snd (result_of (0, State.zero) pb)) (world_of pb)).
    + vm_compute. reflexivity.
    + vm_compute. intros Hc. discriminate Hc.
    + vm_compute. reflexivity.
    + intros Hc. discriminate Hc.
  - destruct (dual_slot_signing (Example.host Samples.hash_in_slot_a_only)
                Example.options "bios.bin"
                (Example.start (Example.image_a Example.vblock_signed)))
      as (T0 & _).
    apply T0.
    + vm_compute. reflexivity.
    + right. vm_compute. intros Hc. discriminate Hc.
Defined.

(** ** Images that declare CBFS integration *)

(** C7.  Let the image declare CBFS integration.  (1) When cbfstool
    finds no metadata hash for FW_MAIN_A or for FW_MAIN_B,
    [ft_sign_bios] ends in [FATAL]: the process exits, the image is as
    it was, and nothing but debug output comes before the fatal
    message.  (2) When cbfstool answers for both bodies, the two CBFS
    steps come back with the image as it was, and a body that is there
    and has no hash (algorithm [VB2_HASH_INVALID]) makes the signing
    fail as a whole: [ft_sign_bios] never returns 0 when that body is
    FW_MAIN_A, nor when it is FW_MAIN_B and FW_MAIN_B is found in the
    flash map; and it ends in [FATAL], with the buffer as the
    preparation of the slots left it, as soon as the file is mapped and
    the preparation of the two slots does not fail first. *)
Theorem missing_metadata_hash_is_fatal
        (H : Host) (opt : SignOption.sign_option_s) (name : string)
        (w : world) :
  let lookup c :=
    cbfstool_get_metadata_hash H name (image w) (fmap_name c)
      (Area.metadata_hash Area.zero) in
  let no_hash c := Vb2.algo (snd (lookup c)) = Vb2.VB2_HASH_INVALID in
  Bios.image_uses_cbfs_integration H name (image w) = true ->
  (fst (lookup BIOS_FMAP_FW_MAIN_A) <> Vb2.VB2_SUCCESS
   \/ fst (lookup BIOS_FMAP_FW_MAIN_B) <> Vb2.VB2_SUCCESS ->
   exists w',
     Bios.ft_sign_bios H opt name w = Exits w'
     /\ image w' = image w
     /\ exists l fmt names,
         console w' = console w ++ l ++ [Msg FATAL fmt names []]
         /\ Forall (fun m => msg_level m = VB2_DEBUG) l)
  /\ (fst (lookup BIOS_FMAP_FW_MAIN_A) = Vb2.VB2_SUCCESS ->
      fst (lookup BIOS_FMAP_FW_MAIN_B) = Vb2.VB2_SUCCESS ->
      (exists sa wa st0 w0,
          Bios.image_check_and_prepare_cbfs H name BIOS_FMAP_FW_MAIN_A true
            State.zero w = Returns sa wa
          /\ Bios.image_check_and_prepare_cbfs H name BIOS_FMAP_FW_MAIN_B
               true sa wa = Returns st0 w0
          /\ image w0 = image w)
      /\ (no_hash BIOS_FMAP_FW_MAIN_A ->
          forall w', Bios.ft_sign_bios H opt name w <> Returns 0 w')
      /\ (forall sa wa st0 w0,
             Bios.image_check_and_prepare_cbfs H name BIOS_FMAP_FW_MAIN_A
               true State.zero w = Returns sa wa ->
             Bios.image_check_and_prepare_cbfs H name BIOS_FMAP_FW_MAIN_B
               true sa wa = Returns st0 w0 ->
             let len := u32 (Mem.size (image w0)) in
             forall st1 w1 rb st2 w2,
               Bios.prepare_slot H opt len BIOS_FMAP_FW_MAIN_A
                 BIOS_FMAP_VBLOCK_A st0 w0 = Returns (0, st1) w1 ->
               Bios.prepare_slot H opt len BIOS_FMAP_FW_MAIN_B
                 BIOS_FMAP_VBLOCK_B st1 w1 = Returns (rb, st2) w2 ->
               let found_b :=
                 fmap_find_by_name H (image w1) len
                   (fmap_find H (image w1) len)
                   (fmap_name BIOS_FMAP_FW_MAIN_B) <> None in
               (no_hash BIOS_FMAP_FW_MAIN_B -> found_b ->
                forall w', Bios.ft_sign_bios H opt name w <> Returns 0 w')
               /\ (futil_open_and_map_file H name (image w0) = 0 ->
                   rb = 0 \/ ~ found_b ->
                   no_hash BIOS_FMAP_FW_MAIN_A
                   \/ no_hash BIOS_FMAP_FW_MAIN_B /\ found_b ->
                   exists w',
                     Bios.ft_sign_bios H opt name w = Exits w'
                     /\ image w' = image w2
                     /\ exists fmt names,
                         console w'
                         = console w2 ++ [Msg FATAL fmt names []]))).
Proof.
  intros lookup no_hash Huses. subst lookup no_hash. cbv beta.
  split; [exact (DualFacts.missing_hash_exits H opt name w Huses)|].
  intros Hla Hlb.
  destruct (DualFacts.cbfs_steps_return H name w (or_intror (conj Hla Hlb)))
    as (sa & wa & st0 & w0 & Ha & Hb & Hzero & Hhash).
  destruct (Hhash Huses) as (Him0 & Hha & Hhb). clear Hhash.
  rewrite Huses in Ha, Hb.
  (* the run after the preparation of the two slots *)
  assert (Hafter : forall st1 w1 rb st2 w2,
    Bios.prepare_slot H opt (u32 (Mem.size (image w0))) BIOS_FMAP_FW_MAIN_A
      BIOS_FMAP_VBLOCK_A st0 w0 = Returns (0, st1) w1 ->
    Bios.prepare_slot H opt (u32 (Mem.size (image w0))) BIOS_FMAP_FW_MAIN_B
      BIOS_FMAP_VBLOCK_B st1 w1 = Returns (rb, st2) w2 ->
    Area.is_valid (State.area st2 BIOS_FMAP_FW_MAIN_A) <> 0
    /\ (fmap_find_by_name H (image w1) (u32 (Mem.size (image w0)))
          (fmap_find H (image w1) (u32 (Mem.size (image w0))))
          (fmap_name BIOS_FMAP_FW_MAIN_B) <> None ->
        Area.is_valid (State.area st2 BIOS_FMAP_FW_MAIN_B) <> 0)
    /\ (fmap_find_by_name H (image w1) (u32 (Mem.size (image w0)))
          (fmap_find H (image w1) (u32 (Mem.size (image w0))))
          (fmap_name BIOS_FMAP_FW_MAIN_B) = None ->
        Area.is_valid (State.area st2 BIOS_FMAP_FW_MAIN_B) = 0)
    /\ (forall c,
           Area.metadata_hash (State.area st2 c)
           = Area.metadata_hash (State.area st0 c))).
  { intros st1 w1 rb st2 w2 Hpa Hpb.
    destruct (SlotFacts.prepare_slot_returns H opt
                (u32 (Mem.size (image w0))) BIOS_FMAP_FW_MAIN_A
                BIOS_FMAP_VBLOCK_A st0 w0 eq_refl)
      as (ra & sA & wA & HpA & _ & HframeA & _ & _ & HvalidA).
    rewrite Hpa in HpA. injection HpA as <- <- <-.
    destruct (HvalidA eq_refl) as [Hfa _].
    destruct (SlotFacts.prepare_slot_returns H opt
                (u32 (Mem.size (image w0))) BIOS_FMAP_FW_MAIN_B
                BIOS_FMAP_VBLOCK_B st1 w1 eq_refl)
      as (rb' & sB & wB & HpB & _ & HframeB & Hnone & Hfound & _).
    rewrite Hpb in HpB. injection HpB as <- <- <-.
    split; [|split; [|split]].
    - rewrite HframeB by reflexivity. rewrite Hfa. discriminate.
    - intros Hf. rewrite (Hfound Hf). discriminate.
    - intros Hn. destruct (Hnone Hn) as (_ & -> & _).
      rewrite HframeA by reflexivity. apply Hzero.
    - intros c.
      rewrite (DualFacts.prepare_slot_keeps_hash _ _ _ _ _ _ _ _ _ _ Hpb).
      apply (DualFacts.prepare_slot_keeps_hash _ _ _ _ _ _ _ _ _ _ Hpa). }
  pose proof (DualFacts.sign_run H opt name w sa wa st0 w0) as Hrun.
  cbv zeta in Hrun. rewrite Huses in Hrun.
  destruct (Hrun Ha Hb) as (Hunmapped & Hmapped). clear Hrun.
  (* the checks on a state with a body that has no hash *)
  assert (Hchecks : forall st2 w2,
    Area.is_valid (State.area st2 BIOS_FMAP_FW_MAIN_A) <> 0 ->
    Vb2.algo (Area.metadata_hash (State.area st2 BIOS_FMAP_FW_MAIN_A))
    = Vb2.VB2_HASH_INVALID
    \/ Area.is_valid (State.area st2 BIOS_FMAP_FW_MAIN_B) <> 0
       /\ Vb2.algo (Area.metadata_hash (State.area st2 BIOS_FMAP_FW_MAIN_B))
          = Vb2.VB2_HASH_INVALID ->
    exists fmt names,
      (Bios.check_slot_after_prepare BIOS_FMAP_FW_MAIN_A true st2 ;;
       Bios.check_slot_after_prepare BIOS_FMAP_FW_MAIN_B true st2 ;;
       Bios.sign_bios_at_end H opt st2) w2
      = Exits {| image := image w2;
                 console := console w2 ++ [Msg FATAL fmt names []] |}).
  { intros st2 w2 Hva Hno.
    unfold bind at 1. unfold Bios.check_slot_after_prepare at 1.
    apply Z.eqb_neq in Hva. rewrite Hva. cbn [negb andb].
    destruct (Vb2.algo (Area.metadata_hash
                          (State.area st2 BIOS_FMAP_FW_MAIN_A))
              =? Vb2.VB2_HASH_INVALID) eqn:Ea.
    { unfold fatal. eexists _, _. reflexivity. }
    apply Z.eqb_neq in Ea.
    destruct Hno as [Hc|[Hvb Hb0]]; [contradiction|].
    unfold ret at 1. unfold bind at 1.
    unfold Bios.check_slot_after_prepare at 1.
    apply Z.eqb_neq in Hvb. rewrite Hvb, Hb0. cbn [negb andb Z.eqb].
    unfold fatal. eexists _, _. reflexivity. }
  (* no return of 0 once the slots are prepared and a body has no hash *)
  assert (Hnever : forall st1 w1 rb st2 w2,
    Bios.prepare_slot H opt (u32 (Mem.size (image w0))) BIOS_FMAP_FW_MAIN_A
      BIOS_FMAP_VBLOCK_A st0 w0 = Returns (0, st1) w1 ->
    Bios.prepare_slot H opt (u32 (Mem.size (image w0))) BIOS_FMAP_FW_MAIN_B
      BIOS_FMAP_VBLOCK_B st1 w1 = Returns (rb, st2) w2 ->
    Vb2.algo (Area.metadata_hash (State.area st2 BIOS_FMAP_FW_MAIN_A))
    = Vb2.VB2_HASH_INVALID
    \/ Area.is_valid (State.area st2 BIOS_FMAP_FW_MAIN_B) <> 0
       /\ Vb2.algo (Area.metadata_hash (State.area st2 BIOS_FMAP_FW_MAIN_B))
          = Vb2.VB2_HASH_INVALID ->
    forall w', Bios.ft_sign_bios H opt name w <> Returns 0 w').
  { intros st1 w1 rb st2 w2 Hpa Hpb Hno w' Hret.
    destruct (Z.eq_dec (futil_open_and_map_file H name (image w0)) 0)
      as [Hmap|Hmap].
    2:{ rewrite (Hunmapped Hmap) in Hret. discriminate Hret. }
    destruct (Hmapped Hmap 0 st1 w1 Hpa) as (_ & Hgo_a).
    destruct (Hgo_a eq_refl rb st2 w2 Hpb) as (Hfail_b & Hgo_b).
    destruct (Hafter st1 w1 rb st2 w2 Hpa Hpb) as (Hva & _).
    destruct (Z.eq_dec rb 0) as [Hrb|Hrb].
    - rewrite (Hgo_b (or_introl Hrb)) in Hret.
      destruct (Hchecks st2 w2 Hva Hno) as (fmt & names & Hex).
      rewrite Hex in Hret. discriminate Hret.
    - destruct (Z.eq_dec
                  (Area.is_valid (State.area st2 BIOS_FMAP_FW_MAIN_B)) 0)
        as [Hvb|Hvb].
      + rewrite (Hgo_b (or_intror Hvb)) in Hret.
        destruct (Hchecks st2 w2 Hva Hno) as (fmt & names & Hex).
        rewrite Hex in Hret. discriminate Hret.
      + rewrite (Hfail_b Hrb Hvb) in Hret. injection Hret as Hr _.
        contradiction. }
  split; [|split].
  - exists sa, wa, st0, w0. repeat split; assumption.
  - intros Hno w' Hret.
    destruct (Z.eq_dec (futil_open_and_map_file H name (image w0)) 0)
      as [Hmap|Hmap].
    2:{ rewrite (Hunmapped Hmap) in Hret. discriminate Hret. }
    destruct (SlotFacts.prepare_slot_returns H opt
                (u32 (Mem.size (image w0))) BIOS_FMAP_FW_MAIN_A
                BIOS_FMAP_VBLOCK_A st0 w0 eq_refl)
      as (ra & st1 & w1 & Hpa & _).
    destruct (Hmapped Hmap ra st1 w1 Hpa) as (Hfail_a & _).
    destruct (Z.eq_dec ra 0) as [->|Hra].
    2:{ rewrite (Hfail_a Hra) in Hret. injection Hret as Hr _.
        contradiction. }
    destruct (SlotFacts.prepare_slot_returns H opt
                (u32 (Mem.size (image w0))) BIOS_FMAP_FW_MAIN_B
                BIOS_FMAP_VBLOCK_B st1 w1 eq_refl)
      as (rb & st2 & w2 & Hpb & _).
    apply (Hnever st1 w1 rb st2 w2 Hpa Hpb) with (w' := w'); [|exact Hret].
    left. destruct (Hafter st1 w1 rb st2 w2 Hpa Hpb) as (_ & _ & _ & Hh).
    rewrite Hh, Hha. exact Hno.
  - intros sa' wa' st0' w0' Ha' Hb'.
    rewrite Ha in Ha'. injection Ha' as <- <-.
    rewrite Hb in Hb'. injection Hb' as <- <-.
    intros len st1 w1 rb st2 w2 Hpa Hpb found_b. subst len found_b.
    destruct (Hafter st1 w1 rb st2 w2 Hpa Hpb)
      as (Hva & Hvb_found & Hvb_none & Hh).
    split.
    + intros Hno Hfound.
      apply (Hnever st1 w1 rb st2 w2 Hpa Hpb).
      right. split; [now apply Hvb_found|].
      rewrite Hh, Hhb. exact Hno.
    + intros Hmap Hprepared Hno.
      destruct (Hmapped Hmap 0 st1 w1 Hpa) as (_ & Hgo_a).
      destruct (Hgo_a eq_refl rb st2 w2 Hpb) as (_ & Hgo_b).
      assert (Hgo : rb = 0
                    \/ Area.is_valid (State.area st2 BIOS_FMAP_FW_MAIN_B)
                       = 0).
      { destruct Hprepared as [Hrb|Hnf]; [now left|right].
        apply Hvb_none.
        destruct (fmap_find_by_name H (image w1) _ _
                    (fmap_name BIOS_FMAP_FW_MAIN_B)) eqn:E;
          [|reflexivity].
        exfalso. apply Hnf. discriminate. }
      rewrite (Hgo_b Hgo).
      destruct (Hchecks st2 w2 Hva) as (fmt & names & Hex).
      { destruct Hno as [Hna|[Hnb Hfound]].
        - left. rewrite Hh, Hha. exact Hna.
        - right. split; [now apply Hvb_found|].
          rewrite Hh, Hhb. exact Hnb. }
      rewrite Hex. eexists. split; [reflexivity|].
      split; [reflexivity|]. exists fmt, names. reflexivity.
Qed.

(** The two-slot image under a cbfstool that reports CBFS integration
    but no metadata hash, and under one that answers with a hash of no
    algorithm. *)
Lemma missing_metadata_hash_is_fatal_witness :
  (exists w',
      Bios.ft_sign_bios (Example.host Example.integration_without_hash)
        Example.options "bios.bin"
        (Example.start (Example.image_ab Example.vblock_signed
                                         Example.vblock_signed))
      = Exits w'
      /\ image w'
         = Example.image_ab Example.vblock_signed Example.vblock_signed)
  /\ (forall w',
         Bios.ft_sign_bios (Example.host Samples.hash_without_algorithm)
           Example.options "bios.bin"
           (Example.start (Example.image_ab Example.vblock_signed
                                            Example.vblock_signed))
         <> Returns 0 w').
Proof.
  split.
  - destruct (missing_metadata_hash_is_fatal
                (Example.host Example.integration_without_hash)
                Example.options "bios.bin"
                (Example.start (Example.image_ab Example.vblock_signed
                                                 Example.vblock_signed)))
      as (T & _).
    + vm_compute. reflexivity.
    + destruct T as (w' & Hrun & Him & _).
      * left. vm_compute. intros Hc. discriminate Hc.
      * exists w'. split; assumption.
  - destruct (missing_metadata_hash_is_fatal
                (Example.host Samples.hash_without_algorithm)
                Example.options "bios.bin"
                (Example.start (Example.image_ab Example.vblock_signed
                                                 Example.vblock_signed)))
      as (_ & T).
    + vm_compute. reflexivity.
    + destruct T as (_ & Tnever & _).
      * vm_compute. reflexivity.
      * vm_compute. reflexivity.
      * apply Tnever. vm_compute. reflexivity.
Defined.

(** Under the cbfstool whose hashes name no algorithm, the signing of
    the two-slot image ends in the check of FW_MAIN_A. *)
Example hash_without_algorithm_is_fatal :
  Bios.ft_sign_bios (Example.host Samples.hash_without_algorithm)
    Example.options "bios.bin"
    (Example.start (Example.image_ab Example.vblock_signed
                                     Example.vblock_signed))
  = Exits (world_of
             (Bios.ft_sign_bios (Example.host Samples.hash_without_algorithm)
                Example.options "bios.bin"
                (Example.start (Example.image_ab Example.vblock_signed
                                                 Example.vblock_signed))))
  /\ last (console
             (world_of
                (Bios.ft_sign_bios
                   (Example.host Samples.hash_without_algorithm)
                   Example.options "bios.bin"
                   (Example.start (Example.image_ab Example.vblock_signed
                                                    Example.vblock_signed)))))
          (Msg INFO EmptyString [] [])
     = Msg FATAL
           ("CBFS with metadata hash not found in area %s."
            ++ " It is required for images with"
            ++ " VBOOT_CBFS_INTEGRATION")
           ["FW_MAIN_A"%string] [].
Proof. split; vm_compute; reflexivity. Qed.

(** ** The show functions and the image *)

Module ShowFacts.

Lemma keeps_ret {A} (a : A) : keeps_image (ret a).
Proof. intros w. reflexivity. Qed.

Lemma keeps_say l fmt names values : keeps_image (say l fmt names values).
Proof. intros w. reflexivity. Qed.

Lemma keeps_emit l : keeps_image (emit l).
Proof. intros w. reflexivity. Qed.

Lemma keeps_get_image : keeps_image get_image.
Proof. intros w. reflexivity. Qed.

Lemma keeps_fatal {A} fmt names : keeps_image (@fatal A fmt names).
Proof. intros w. reflexivity. Qed.

Lemma keeps_bind {A B} (c : M A) (k : A -> M B) :
  keeps_image c -> (forall a, keeps_image (k a)) -> keeps_image (bind c k).
Proof.
  intros Hc Hk w. unfold bind. specialize (Hc w).
  destruct (c w) as [a w'|w']; cbn in *; [|exact Hc].
  now rewrite Hk.
Qed.

Create HintDb frame.

#[local] Hint Resolve keeps_ret keeps_say keeps_emit keeps_get_image
  keeps_fatal : frame.

Ltac frame :=
  repeat first
    [ solve [auto with frame]
    | apply keeps_bind; [|intros ?]
    | match goal with
      | |- keeps_image (if ?b then _ else _) => destruct b
      | |- keeps_image (match ?p with pair _ _ => _ end) => destruct p
      | |- keeps_image (match ?o with Some _ => _ | None => _ end) =>
          destruct o
      end ].

Lemma show_gbb_buf_keeps_image H name buf len state :
  keeps_image (Bios.show_gbb_buf H name buf len state).
Proof. unfold Bios.show_gbb_buf. frame. Qed.

Lemma fmap_show_fw_main_keeps_image name buf len state :
  keeps_image (Bios.fmap_show_fw_main name buf len state).
Proof. unfold Bios.fmap_show_fw_main. frame. Qed.

Lemma fmap_show_fn_keeps_image H c name buf len state :
  (forall nm b l st, keeps_image (show_fw_preamble_buf H nm b l st)) ->
  keeps_image (Bios.fmap_show_fn H c name buf len state).
Proof.
  intros Hpre. unfold Bios.fmap_show_fn.
  destruct c; auto using fmap_show_fw_main_keeps_image.
  apply keeps_bind; [apply show_gbb_buf_keeps_image|]. intros ?. frame.
Qed.

Lemma show_component_keeps_image H len fmap acc c w :
  (forall nm b l st, keeps_image (show_fw_preamble_buf H nm b l st)) ->
  (forall ah,
      fmap_find_by_name H (image w) len fmap (fmap_name c) = Some ah ->
      Fmap.out_of_range (image w) ah len = false) ->
  image (world_of (Bios.show_component H len fmap acc c w)) = image w.
Proof.
  intros Hpre Hrange. unfold Bios.show_component. destruct acc as [retval st].
  unfold bind at 1. unfold get_image at 1.
  destruct (fmap_find_by_name H (image w) len fmap (fmap_name c))
    as [ah|] eqn:E; [|reflexivity].
  unfold bind at 1. unfold Bios.limit_area, bind at 1, get_image at 1,
    put_image at 1.
  rewrite (FmapFacts.fmap_limit_area_unchanged ah len (image w))
    by (now apply Hrange).
  match goal with
  | |- image (world_of (?k ?a ?w1)) = _ =>
      change (image w) with (image w1) at 2;
      apply (keeps_bind get_image (fun m => _) keeps_get_image)
  end.
  intros m. apply keeps_bind; [apply keeps_say|]. intros _.
  apply keeps_bind; [now apply fmap_show_fn_keeps_image|]. intros rs.
  apply keeps_ret.
Qed.

Lemma for_each_keeps_image H len fmap cs :
  (forall nm b l st, keeps_image (show_fw_preamble_buf H nm b l st)) ->
  forall acc w,
    (forall c ah,
        fmap_find_by_name H (image w) len fmap (fmap_name c) = Some ah ->
        Fmap.out_of_range (image w) ah len = false) ->
    image (world_of
             (Bios.for_each (Bios.show_component H len fmap) cs acc w))
    = image w.
Proof.
  intros Hpre. induction cs as [|c cs IH]; intros acc w Hrange.
  - reflexivity.
  - cbn [Bios.for_each]. unfold bind.
    pose proof (show_component_keeps_image H len fmap acc c w Hpre
                  (Hrange c)) as Hstep.
    destruct (Bios.show_component H len fmap acc c w) as [acc' w'|w'];
      cbn [world_of] in *; [|exact Hstep].
    rewrite <- Hstep. apply IH. rewrite Hstep. exact Hrange.
Qed.

End ShowFacts.

(** ** The buffer after [ft_show_bios] *)

Module ShownFacts.
Import Shown.

Lemma rk_ret {A} (a : A) : returns_keeping_image (ret a).
Proof. intros w. eexists _, _. split; reflexivity. Qed.

Lemma rk_say l fmt names values :
  returns_keeping_image (say l fmt names values).
Proof. intros w. eexists _, _. split; reflexivity. Qed.

Lemma rk_emit l : returns_keeping_image (emit l).
Proof. intros w. eexists _, _. split; reflexivity. Qed.

Lemma rk_get_image : returns_keeping_image get_image.
Proof. intros w. eexists _, _. split; reflexivity. Qed.

Lemma rk_bind {A B} (c : M A) (k : A -> M B) :
  returns_keeping_image c -> (forall a, returns_keeping_image (k a)) ->
  returns_keeping_image (bind c k).
Proof.
  intros Hc Hk w. unfold bind.
  destruct (Hc w) as (a & w1 & -> & H1).
  destruct (Hk a w1) as (b & w2 & -> & H2).
  exists b, w2. split; [reflexivity|congruence].
Qed.

Create HintDb shown.

#[local] Hint Resolve rk_ret rk_say rk_emit rk_get_image : shown.

Ltac comes_back :=
  repeat first
    [ solve [auto with shown]
    | apply rk_bind; [|intros ?]
    | match goal with
      | |- returns_keeping_image (if ?b then _ else _) => destruct b
      | |- returns_keeping_image (match ?p with pair _ _ => _ end) =>
          destruct p
      | |- returns_keeping_image
             (match ?o with Some _ => _ | None => _ end) => destruct o
      end ].

Lemma show_gbb_buf_comes_back H name buf len state :
  returns_keeping_image (Bios.show_gbb_buf H name buf len state).
Proof. unfold Bios.show_gbb_buf. comes_back. Qed.

Lemma fmap_show_fw_main_comes_back name buf len state :
  returns_keeping_image (Bios.fmap_show_fw_main name buf len state).
Proof. unfold Bios.fmap_show_fw_main. comes_back. Qed.

Lemma fmap_show_fn_comes_back H c name buf len state :
  (forall nm b l st, returns_keeping_image (show_fw_preamble_buf H nm b l st)) ->
  returns_keeping_image (Bios.fmap_show_fn H c name buf len state).
Proof.
  intros Hpre. unfold Bios.fmap_show_fn.
  destruct c; auto using fmap_show_fw_main_comes_back.
  apply rk_bind; [apply show_gbb_buf_comes_back|]. intros ?. comes_back.
Qed.

(** One pass of the loop limits the area of its component. *)
Lemma show_component_limits H len fmap acc c w :
  (forall nm b l st, returns_keeping_image (show_fw_preamble_buf H nm b l st)) ->
  exists acc' w',
    Bios.show_component H len fmap acc c w = Returns acc' w'
    /\ image w' = limited H len fmap (image w) c.
Proof.
  intros Hpre. unfold Bios.show_component, limited.
  destruct acc as [retval st].
  unfold bind at 1. unfold get_image at 1.
  destruct (fmap_find_by_name H (image w) len fmap (fmap_name c))
    as [ah|] eqn:E.
  2:{ eexists _, _. split; reflexivity. }
  unfold bind at 1. unfold Bios.limit_area, bind at 1, get_image at 1,
    put_image at 1.
  match goal with
  | |- exists acc' w', ?k ?a ?w1 = _ /\ _ =>
      assert (Hk : returns_keeping_image (k a))
  end.
  { apply rk_bind; [apply rk_get_image|]. intros m.
    apply rk_bind; [apply rk_say|]. intros _.
    apply rk_bind; [now apply fmap_show_fn_comes_back|]. intros rs.
    apply rk_ret. }
  match goal with
  | |- exists acc' w', ?k ?a ?w1 = _ /\ _ =>
      destruct (Hk w1) as (acc' & w' & Hrun & Him)
  end.
  exists acc', w'. split; [exact Hrun|]. rewrite Him. reflexivity.
Qed.

Lemma for_each_limits H len fmap cs :
  (forall nm b l st, returns_keeping_image (show_fw_preamble_buf H nm b l st)) ->
  forall acc w,
  exists acc' w',
    Bios.for_each (Bios.show_component H len fmap) cs acc w = Returns acc' w'
    /\ image w' = fold_left (limited H len fmap) cs (image w).
Proof.
  intros Hpre. induction cs as [|c cs IH]; intros acc w.
  - eexists _, _. split; reflexivity.
  - cbn [Bios.for_each fold_left]. unfold bind.
    destruct (show_component_limits H len fmap acc c w Hpre)
      as (acc1 & w1 & -> & H1).
    destruct (IH acc1 w1) as (acc2 & w2 & -> & H2).
    exists acc2, w2. split; [reflexivity|]. rewrite H2, H1. reflexivity.
Qed.

Lemma limited_size H len fmap m c :
  Mem.size (limited H len fmap m c) = Mem.size m.
Proof.
  unfold limited. destruct (fmap_find_by_name H m len fmap (fmap_name c));
    [apply FmapFacts.fmap_limit_area_size|reflexivity].
Qed.

Lemma fold_limited_size H len fmap cs : forall m,
  Mem.size (fold_left (limited H len fmap) cs m) = Mem.size m.
Proof.
  induction cs as [|c cs IH]; intros m; [reflexivity|].
  cbn [fold_left]. rewrite IH. apply limited_size.
Qed.

(** [fmap_limit_area] leaves a byte as it was or makes it zero. *)
Lemma get_store32_zero m q p :
  Mem.get (Mem.store32 m q 0) p = Mem.get m p
  \/ Mem.get (Mem.store32 m q 0) p = x00.
Proof.
  destruct (Z_lt_ge_dec p 0) as [Hneg|Hpos].
  { right. unfold Mem.get. destruct (p <? 0) eqn:E; [reflexivity|lia]. }
  destruct (Z_lt_ge_dec p (Mem.size m)) as [Hin|Hout].
  - unfold Mem.store32. rewrite MemFacts.get_memcpy by lia.
    destruct ((q <=? p) && (p <? q + 4)) eqn:E; [right|now left].
    apply andb_true_iff in E. destruct E as [E1 E2].
    apply Z.leb_le in E1. apply Z.ltb_lt in E2.
    assert (p - q = 0 \/ p - q = 1 \/ p - q = 2 \/ p - q = 3)
      as [-> | [-> | [-> | ->]]] by lia; reflexivity.
  - right. unfold Mem.get. destruct (p <? 0); [reflexivity|].
    apply nth_overflow.
    pose proof (MemFacts.store32_size m q 0) as Hs. unfold Mem.size in *.
    lia.
Qed.

Lemma get_fmap_limit_area ah len m p :
  Mem.get (Fmap.fmap_limit_area ah len m) p = Mem.get m p
  \/ Mem.get (Fmap.fmap_limit_area ah len m) p = x00.
Proof.
  unfold Fmap.fmap_limit_area. destruct (_ || _); [|now left].
  unfold Fmap.set_area_size, Fmap.set_area_offset.
  destruct (get_store32_zero (Mem.store32 m ah 0) (ah + 4) p) as [E|E];
    [|now right].
  rewrite E. apply get_store32_zero.
Qed.

Lemma load8_zero m m' p :
  Mem.get m' p = Mem.get m p \/ Mem.get m' p = x00 ->
  Mem.load8 m p = 0 -> Mem.load8 m' p = 0.
Proof.
  unfold Mem.load8. intros [-> | ->]; [auto|reflexivity].
Qed.

Lemma load32_zero m m' a :
  (forall p, Mem.get m' p = Mem.get m p \/ Mem.get m' p = x00) ->
  Mem.load32 m a = 0 -> Mem.load32 m' a = 0.
Proof.
  intros Hget. unfold Mem.load32. intros Hz.
  pose proof (MemFacts.load8_range m a).
  pose proof (MemFacts.load8_range m (a + 1)).
  pose proof (MemFacts.load8_range m (a + 2)).
  pose proof (MemFacts.load8_range m (a + 3)).
  rewrite (load8_zero m m' a), (load8_zero m m' (a + 1)),
    (load8_zero m m' (a + 2)), (load8_zero m m' (a + 3));
    auto; lia.
Qed.

(** Fields of a header that are zero stay zero in the passes that
    follow. *)
Lemma fold_limited_zero H len fmap cs a : forall m,
  Mem.load32 m a = 0 ->
  Mem.load32 (fold_left (limited H len fmap) cs m) a = 0.
Proof.
  induction cs as [|c cs IH]; intros m Hz; [exact Hz|].
  cbn [fold_left]. apply IH. unfold limited.
  destruct (fmap_find_by_name H m len fmap (fmap_name c)) as [ah|];
    [|exact Hz].
  apply (load32_zero m); [|exact Hz].
  intros p. apply get_fmap_limit_area.
Qed.

End ShownFacts.

(** C9, as stated, fails: showing the example image that was cut in the
    middle of VBLOCK_A changes the mapped buffer, because the area
    header of VBLOCK_A in the buffer gets offset 0 and size 0. *)
Lemma show_bios_limits_areas_in_the_buffer :
  image (world_of (Bios.ft_show_bios (Example.host Example.no_cbfs)
                     "bios.bin" (Example.start Example.image_truncated)))
  <> Example.image_truncated
  /\ Fmap.area_offset Example.image_truncated 140 = 432
  /\ Fmap.area_size Example.image_truncated 140 = 256
  /\ Fmap.area_offset
       (image (world_of (Bios.ft_show_bios (Example.host Example.no_cbfs)
                           "bios.bin"
                           (Example.start Example.image_truncated)))) 140
     = 0
  /\ Fmap.area_size
       (image (world_of (Bios.ft_show_bios (Example.host Example.no_cbfs)
                           "bios.bin"
                           (Example.start Example.image_truncated)))) 140
     = 0.
Proof.
  split; [vm_compute; intros Hc; discriminate Hc|].
  repeat split; vm_compute; reflexivity.
Qed.

(** C9, amended.  [ft_show_gbb] leaves every byte of the mapped buffer
    as it was.  So does [ft_show_bios] when every area that is found in
    the flash map lies within the buffer, given that the display of a
    VBLOCK, [show_fw_preamble_buf], leaves the buffer as it was.  And
    when the file is mapped and [show_fw_preamble_buf] comes back
    without a change to the buffer, what [ft_show_bios] leaves is the
    buffer in which the passes over the components, in their order,
    have limited each area they found; so that the header of an area
    that a pass finds, in the buffer as the passes before it left it,
    and that does not lie within the buffer, has offset 0 and size 0 in
    the end. *)
Theorem show_keeps_image_within_bounds (H : Host) (name : string)
        (w : world) :
  (forall data,
      image (world_of (Bios.ft_show_gbb H name data w)) = image w)
  /\ ((forall nm b l st, keeps_image (show_fw_preamble_buf H nm b l st)) ->
      (forall c ah,
          fmap_find_by_name H (image w) (u32 (Mem.size (image w)))
            (fmap_find H (image w) (u32 (Mem.size (image w))))
            (fmap_name c) = Some ah ->
          Fmap.out_of_range (image w) ah (u32 (Mem.size (image w)))
          = false) ->
      image (world_of (Bios.ft_show_bios H name w)) = image w)
  /\ ((forall nm b l st,
          Shown.returns_keeping_image (show_fw_preamble_buf H nm b l st)) ->
      futil_open_and_map_file H name (image w) = 0 ->
      let len := u32 (Mem.size (image w)) in
      let fmap := fmap_find H (image w) len in
      let after cs := fold_left (Shown.limited H len fmap) cs (image w) in
      let shown := image (world_of (Bios.ft_show_bios H name w)) in
      shown = after bios_components
      /\ forall before c rest ah,
          bios_components = before ++ c :: rest ->
          fmap_find_by_name H (after before) len fmap (fmap_name c)
          = Some ah ->
          0 <= ah -> ah + 8 <= Mem.size (image w) ->
          Fmap.out_of_range (after before) ah len = true ->
          Fmap.area_offset shown ah = 0 /\ Fmap.area_size shown ah = 0).
Proof.
  split; [|split].
  - intros data. unfold Bios.ft_show_gbb.
    unfold bind at 1. unfold get_image at 1.
    destruct (negb _); [reflexivity|].
    apply (ShowFacts.keeps_bind _ _
             (ShowFacts.show_gbb_buf_keeps_image H name 0 _ data)).
    intros rs. apply ShowFacts.keeps_ret.
  - intros Hpre Hrange. unfold Bios.ft_show_bios.
    unfold bind at 1. unfold get_image at 1.
    destruct (negb _); [reflexivity|].
    unfold bind at 1. unfold say at 1. unfold bind at 1.
    match goal with
    | |- context [Bios.for_each ?f ?cs ?acc ?w1] =>
        pose proof (ShowFacts.for_each_keeps_image H
                      (u32 (Mem.size (image w)))
                      (fmap_find H (image w) (u32 (Mem.size (image w))))
                      cs Hpre acc w1 Hrange) as Hloop;
        destruct (Bios.for_each f cs acc w1) as [rs w'|w']
    end; exact Hloop.
  - intros Hpre Hmap len fmap after shown.
    assert (Hshown : shown = after bios_components).
    { subst shown after. cbv beta. unfold Bios.ft_show_bios.
      unfold bind at 1. unfold get_image at 1.
      rewrite Hmap. cbn [Z.eqb negb].
      unfold bind at 1. unfold say at 1. unfold bind at 1.
      match goal with
      | |- context [Bios.for_each ?f ?cs ?acc ?w1] =>
          destruct (ShownFacts.for_each_limits H len fmap cs Hpre acc w1)
            as (acc' & w' & Hrun & Him)
      end.
      fold len. fold fmap. rewrite Hrun. exact Him. }
    split; [exact Hshown|].
    intros before c rest ah Hsplit Hfind Hah Hsz Hout.
    rewrite Hshown. subst after. cbv beta in *.
    rewrite Hsplit, fold_left_app. cbn [fold_left].
    set (m := fold_left (Shown.limited H len fmap) before (image w)) in *.
    assert (Hm : Mem.size m = Mem.size (image w))
      by apply ShownFacts.fold_limited_size.
    unfold Shown.limited at 2 4. rewrite Hfind.
    destruct (FmapFacts.fmap_limit_area_zeroed ah len m Hah
                ltac:(lia) Hout) as [Ho Hs].
    split; apply ShownFacts.fold_limited_zero; assumption.
Qed.

(** Showing the whole slot-A image, and the one that was cut in the
    middle of VBLOCK_A, whose area header lies at offset 140. *)
Lemma show_keeps_image_within_bounds_witness :
  image (world_of (Bios.ft_show_gbb (Example.host Example.no_cbfs)
                     "bios.bin" None
                     (Example.start (Example.image_a Example.vblock_signed))))
  = Example.image_a Example.vblock_signed
  /\ image (world_of (Bios.ft_show_bios (Example.host Example.no_cbfs)
                        "bios.bin"
                        (Example.start
                           (Example.image_a Example.vblock_signed))))
     = Example.image_a Example.vblock_signed
  /\ Fmap.area_offset
       (image (world_of (Bios.ft_show_bios (Example.host Example.no_cbfs)
                           "bios.bin"
                           (Example.start Example.image_truncated)))) 140
     = 0
  /\ Fmap.area_size
       (image (world_of (Bios.ft_show_bios (Example.host Example.no_cbfs)
                           "bios.bin"
                           (Example.start Example.image_truncated)))) 140
     = 0.
Proof.
  destruct (show_keeps_image_within_bounds (Example.host Example.no_cbfs)
              "bios.bin"
              (Example.start (Example.image_a Example.vblock_signed)))
    as (Tg & Tb & _).
  split; [exact (Tg None)|]. split.
  - apply Tb.
    + intros nm b l st w0. cbn [show_fw_preamble_buf Example.host].
      unfold bind, get_image. destruct (_ =? 0); reflexivity.
    + intros c ah Hf. destruct c; vm_compute in Hf;
        first [discriminate Hf | injection Hf as <-; vm_compute; reflexivity].
  - destruct (show_keeps_image_within_bounds (Example.host Example.no_cbfs)
                "bios.bin" (Example.start Example.image_truncated))
      as (_ & _ & Tz).
    destruct Tz as (_ & Tz).
    + intros nm b l st w0. cbn [show_fw_preamble_buf Example.host].
      unfold bind, get_image, say, ret.
      destruct (_ =? 0); eexists _, _; split; reflexivity.
    + vm_compute. reflexivity.
    + apply (Tz [BIOS_FMAP_GBB; BIOS_FMAP_FW_MAIN_A; BIOS_FMAP_FW_MAIN_B]
                BIOS_FMAP_VBLOCK_A [BIOS_FMAP_VBLOCK_B] 140).
      * reflexivity.
      * vm_compute. reflexivity.
      * lia.
      * vm_compute. intros Hc. discriminate Hc.
      * vm_compute. reflexivity.
Defined.


(** ** More on the clamp of flash map areas *)

Module ClampFacts.

Lemma get_outside (m : Mem.mem) (p : Z) :
  p < 0 \/ Mem.size m <= p -> Mem.get m p = x00.
Proof.
  unfold Mem.get, Mem.size. intros [Hp|Hp].
  - destruct (p <? 0) eqn:E; [reflexivity|lia].
  - destruct (p <? 0); [reflexivity|].
    apply nth_overflow. lia.
Qed.

Lemma get_memcpy_outside m dst src n p :
  p < dst \/ dst + n <= p ->
  Mem.get (Mem.memcpy m dst src n) p = Mem.get m p.
Proof.
  intros Hp.
  destruct (Z_lt_ge_dec p 0) as [Hneg|Hpos].
  { rewrite !get_outside by lia. reflexivity. }
  destruct (Z_lt_ge_dec p (Mem.size m)) as [Hin|Hout].
  - rewrite MemFacts.get_memcpy by lia.
    destruct (dst <=? p) eqn:E1; destruct (p <? dst + n) eqn:E2;
      cbn [andb]; try reflexivity; lia.
  - rewrite !get_outside by (rewrite ?MemFacts.memcpy_size; lia).
    reflexivity.
Qed.

Lemma get_store32_outside m q v p :
  p < q \/ q + 4 <= p ->
  Mem.get (Mem.store32 m q v) p = Mem.get m p.
Proof. intros Hp. unfold Mem.store32. now apply get_memcpy_outside. Qed.

Lemma skipn_same (k : nat) (m m' : Mem.mem) :
  List.length m' = List.length m ->
  (forall p, Z.of_nat k <= p -> Mem.get m' p = Mem.get m p) ->
  skipn k m' = skipn k m.
Proof.
  intros Hlen Hget.
  apply (nth_ext _ _ x00 x00).
  - rewrite !length_skipn. now rewrite Hlen.
  - intros i _. rewrite !nth_skipn.
    specialize (Hget (Z.of_nat (k + i)) ltac:(lia)).
    unfold Mem.get in Hget.
    destruct (Z.of_nat (k + i) <? 0) eqn:E; [apply Z.ltb_lt in E; lia|].
    now rewrite Nat2Z.id in Hget.
Qed.

Lemma get_fmap_limit_area_outside ah len m p :
  p < ah \/ ah + 8 <= p ->
  Mem.get (Fmap.fmap_limit_area ah len m) p = Mem.get m p.
Proof.
  intros Hp. unfold Fmap.fmap_limit_area.
  destruct (_ || _); [|reflexivity].
  unfold Fmap.set_area_size, Fmap.set_area_offset.
  rewrite !get_store32_outside by lia. reflexivity.
Qed.

Lemma area_name_fmap_limit_area ah len m :
  Fmap.area_name (Fmap.fmap_limit_area ah len m) ah = Fmap.area_name m ah.
Proof.
  unfold Fmap.area_name. f_equal.
  apply skipn_same.
  - pose proof (FmapFacts.fmap_limit_area_size ah len m) as Hs.
    unfold Mem.size in Hs. lia.
  - intros q Hq. apply get_fmap_limit_area_outside.
    destruct (Z_lt_ge_dec q (ah + 8)) as [Hlt|Hge]; [|lia].
    left. lia.
Qed.

End ClampFacts.

(** [fmap_limit_area] is idempotent: a header that lies in the buffer
    and was limited once is left as it is by a second call with the
    same length. *)
Theorem fmap_limit_area_idempotent (m : Mem.mem) (ah len : Z) :
  0 <= ah -> ah + 8 <= Mem.size m -> 0 <= len ->
  Fmap.fmap_limit_area ah len (Fmap.fmap_limit_area ah len m)
  = Fmap.fmap_limit_area ah len m.
Proof.
  intros Hah Hsz Hlen.
  destruct (Fmap.out_of_range m ah len) eqn:E.
  - destruct (FmapFacts.fmap_limit_area_zeroed ah len m Hah Hsz E)
      as [Ho Hs].
    apply FmapFacts.fmap_limit_area_unchanged.
    unfold Fmap.out_of_range. rewrite Ho, Hs.
    change (u32 (0 + 0)) with 0.
    apply orb_false_iff. split.
    + reflexivity.
    + rewrite Z.gtb_ltb. apply Z.ltb_ge. exact Hlen.
  - rewrite (FmapFacts.fmap_limit_area_unchanged ah len m E).
    exact (FmapFacts.fmap_limit_area_unchanged ah len m E).
Qed.

(** The header of an area that reaches past the end of a buffer of 688
    bytes. *)
Lemma fmap_limit_area_idempotent_witness :
  let m := Example.area_header 400 600 "VBLOCK_A" in
  Fmap.fmap_limit_area 0 688 (Fmap.fmap_limit_area 0 688 m)
  = Fmap.fmap_limit_area 0 688 m.
Proof.
  intros m.
  apply (fmap_limit_area_idempotent m 0 688); try lia; by_computation.
Defined.

(** [fmap_limit_area] writes to the offset and the size of the area
    header and to nothing else: the buffer keeps its length, and every
    byte outside the eight bytes at [ah], the name and the flags of the
    area among them, stays as it was. *)
Theorem fmap_limit_area_touches_fields_only (m : Mem.mem) (ah len p : Z) :
  p < ah \/ ah + 8 <= p ->
  Mem.size (Fmap.fmap_limit_area ah len m) = Mem.size m
  /\ Mem.get (Fmap.fmap_limit_area ah len m) p = Mem.get m p
  /\ Fmap.area_name (Fmap.fmap_limit_area ah len m) ah = Fmap.area_name m ah.
Proof.
  intros Hp. split; [apply FmapFacts.fmap_limit_area_size|]. split.
  - now apply ClampFacts.get_fmap_limit_area_outside.
  - apply ClampFacts.area_name_fmap_limit_area.
Qed.

(** The byte before and the byte behind the two fields of a header
    that is limited. *)
Lemma fmap_limit_area_touches_fields_only_witness :
  let m := x2a :: Example.area_header 400 600 "VBLOCK_A" in
  (Mem.get (Fmap.fmap_limit_area 1 688 m) 0 = x2a
   /\ Fmap.area_name (Fmap.fmap_limit_area 1 688 m) 1 = "VBLOCK_A"%string)
  /\ Mem.get (Fmap.fmap_limit_area 1 688 m) 9 = "V"%byte
  /\ Fmap.area_offset (Fmap.fmap_limit_area 1 688 m) 1 = 0.
Proof.
  intros m. split; [|split].
  - destruct (fmap_limit_area_touches_fields_only m 1 688 0 ltac:(lia))
      as (_ & Hget & Hname).
    split; [rewrite Hget|rewrite Hname]; by_computation.
  - destruct (fmap_limit_area_touches_fields_only m 1 688 9 ltac:(lia))
      as (_ & Hget & _).
    rewrite Hget. by_computation.
  - by_computation.
Defined.


(** ** What a successful write leaves in the VBLOCK *)

(** When the preamble for a slot can be made and its size and that of
    the keyblock add up to less than 2^32: [write_new_preamble] returns
    1 when the two do not fit in the VBLOCK area and 0 when they do;
    and when they do and the area lies in the image, the area starts
    with the bytes of the keyblock, the bytes of the preamble follow
    them, nothing is printed, and every byte of the image before the
    area or behind the preamble is as it was. *)
Theorem write_new_preamble_writes_chain
        (H : Host) (opt : SignOption.sign_option_s)
        (vblock fw_body : Area.bios_area_s) (signkey keyblock : Mem.mem)
        (w : world) (preamble : Mem.mem) :
  Chain.preamble H opt vblock fw_body signkey (image w) = Some preamble ->
  let ks := Vb2.keyblock_size keyblock 0 in
  let ps := Vb2.preamble_size preamble 0 in
  let buf := Area.buf vblock in
  ks + ps < 2 ^ 32 ->
  0 <= buf -> buf + Area.len vblock <= Mem.size (image w) ->
  exists w',
    Bios.write_new_preamble H opt vblock fw_body signkey keyblock w
    = Returns (if ks + ps >? Area.len vblock then 1 else 0) w'
    /\ (ks + ps <= Area.len vblock ->
        (forall j, 0 <= j < ks ->
                   Mem.get (image w') (buf + j) = Mem.get keyblock j)
        /\ (forall j, 0 <= j < ps ->
                      Mem.get (image w') (buf + ks + j) = Mem.get preamble j)
        /\ (forall p, p < buf \/ buf + ks + ps <= p ->
                      Mem.get (image w') p = Mem.get (image w) p)
        /\ Mem.size (image w') = Mem.size (image w)
        /\ console w' = console w).
Proof.
  intros Hpre ks ps buf Hwrap Hbuf Hin.
  unfold Chain.preamble, Chain.body_signature in Hpre.
  unfold Bios.write_new_preamble, bind, get_image.
  destruct (if negb _ then _ else _) as [body_sig|]; [|discriminate Hpre].
  rewrite Hpre.
  pose proof (MemFacts.load32_range keyblock (0 + 16)) as Hks.
  pose proof (MemFacts.load32_range preamble 0) as Hps.
  change (Mem.load32 keyblock (0 + 16)) with ks in Hks.
  change (Mem.load32 preamble 0) with ps in Hps.
  fold ks. fold ps. fold buf.
  unfold u32. rewrite Z.mod_small by lia.
  destruct (ks + ps >? Area.len vblock) eqn:Egt.
  - eexists. split; [reflexivity|].
    rewrite Z.gtb_ltb in Egt. apply Z.ltb_lt in Egt. lia.
  - rewrite Z.gtb_ltb in Egt. apply Z.ltb_ge in Egt.
    eexists. split; [reflexivity|]. intros _.
    cbn [image console put_image ret].
    split; [|split; [|split; [|split]]].
    + intros j Hj.
      rewrite ClampFacts.get_memcpy_outside by lia.
      rewrite MemFacts.get_memcpy by lia.
      destruct (buf <=? buf + j) eqn:E1; [|lia].
      destruct (buf + j <? buf + ks) eqn:E2; [|lia].
      cbn [andb]. f_equal. lia.
    + intros j Hj.
      rewrite MemFacts.get_memcpy
        by (rewrite MemFacts.memcpy_size; lia).
      destruct (buf + ks <=? buf + ks + j) eqn:E1; [|lia].
      destruct (buf + ks + j <? buf + ks + ps) eqn:E2; [|lia].
      cbn [andb]. f_equal. lia.
    + intros p Hp.
      rewrite !ClampFacts.get_memcpy_outside by lia. reflexivity.
    + rewrite !MemFacts.memcpy_size. reflexivity.
    + reflexivity.
Qed.

(** The keyblock of 120 bytes and a preamble of 108 in the VBLOCK_A
    area of 256 bytes at offset 432. *)
Lemma write_new_preamble_writes_chain_witness :
  exists w',
    Bios.write_new_preamble (Example.host Example.no_cbfs) Example.options
      (Example.area_at 432 256) (Example.area_at 400 32)
      (SignOption.signprivate Example.options)
      (SignOption.keyblock Example.options)
      (Example.start (Example.image_a Example.vblock_blank))
    = Returns 0 w'
    /\ Mem.get (image w') 432 = "C"%byte
    /\ Mem.get (image w') 431
       = Mem.get (Example.image_a Example.vblock_blank) 431.
Proof.
  pose (H := Example.host Example.no_cbfs).
  pose (w := Example.start (Example.image_a Example.vblock_blank)).
  pose (p := match Chain.preamble H Example.options (Example.area_at 432 256)
                     (Example.area_at 400 32)
                     (SignOption.signprivate Example.options) (image w) with
             | Some p => p
             | None => []
             end).
  destruct (write_new_preamble_writes_chain H Example.options
              (Example.area_at 432 256) (Example.area_at 400 32)
              (SignOption.signprivate Example.options)
              (SignOption.keyblock Example.options) w p
              ltac:(by_computation) ltac:(by_computation)
              ltac:(by_computation) ltac:(by_computation))
    as (w' & Hrun & Hfit).
  exists w'. split; [exact Hrun|].
  destruct (Hfit ltac:(by_computation)) as (Hkb & _ & Hout & _).
  split.
  - pose proof (Hkb 0 ltac:(by_computation)) as K.
    change (Mem.get (image w') 432
            = Mem.get (SignOption.keyblock Example.options) 0) in K.
    rewrite K. by_computation.
  - apply Hout. left. by_computation.
Defined.


(** ** More on preparing a slot *)

Module PrepareFacts.

(** Every run of [prepare_slot] returns 0 or 1; it leaves the image
    with the areas limited that it found; when it fails it leaves the
    VBLOCK area of the state as it was; when it succeeds the body area
    is valid. *)
Lemma prepare_slot_cases H opt len fw_c vblock_c st w :
  bios_component_eqb fw_c vblock_c = false ->
  exists r st' w',
    Bios.prepare_slot H opt len fw_c vblock_c st w = Returns (r, st') w'
    /\ image w'
       = Chain.prepared H len fw_c vblock_c
           (Area.fw_size (State.area st fw_c)) (image w)
    /\ (r = 0 \/ r = 1)
    /\ (r <> 0 -> State.area st' vblock_c = State.area st vblock_c)
    /\ (r = 0 -> Area.is_valid (State.area st' fw_c) = 1).
Proof.
  intros Hne.
  assert (Hne' : bios_component_eqb vblock_c fw_c = false)
    by (now rewrite SlotFacts.eqb_sym).
  unfold Chain.prepared.
  destruct (Slot.body_area H len fw_c (image w)) as [[ah1 m1]|] eqn:Hfw.
  - destruct (Area.fw_size (State.area st fw_c) >? Fmap.area_size m1 ah1)
      eqn:Hsize.
    + (* the size is incorrect *)
      unfold Slot.body_area in Hfw.
      destruct (fmap_find_by_name H (image w) len _ (fmap_name fw_c))
        as [a1|] eqn:E1; [|discriminate].
      injection Hfw as -> <-.
      unfold Bios.prepare_slot.
      unfold bind at 1. unfold get_image at 1.
      unfold bind at 1. unfold say at 1. cbn [image console].
      rewrite E1.
      unfold bind at 1. unfold Bios.limit_area, bind at 1, get_image at 1,
        put_image at 1. cbn [image console].
      unfold bind at 1. unfold get_image at 1. cbn [image console].
      rewrite !SlotFacts.area_upd_same.
      cbn [Area.fw_size Area.set_is_valid Area.set_buf].
      rewrite Hsize.
      eexists _, _, _. split; [reflexivity|].
      split; [reflexivity|]. split; [now right|]. split.
      * intros _.
        repeat (rewrite ?SlotFacts.area_upd_other by assumption).
        reflexivity.
      * discriminate.
    + destruct (Slot.vblock_area H len vblock_c (image w) m1)
        as [[ah2 m2]|] eqn:Hvb.
      * destruct (SlotFacts.prepare_slot_run H opt len fw_c vblock_c st w
                    ah1 m1 ah2 m2 Hne Hfw Hsize Hvb)
          as (st' & w' & Hrun & Him & _ & Hvalid & _).
        exists 0, st', w'. split; [exact Hrun|].
        split; [exact Him|]. split; [now left|]. split.
        -- intros Hc. now elim Hc.
        -- intros _. exact Hvalid.
      * (* the VBLOCK is not found *)
        unfold Slot.body_area in Hfw. unfold Slot.vblock_area in Hvb.
        destruct (fmap_find_by_name H (image w) len _ (fmap_name fw_c))
          as [a1|] eqn:E1; [|discriminate].
        injection Hfw as -> <-.
        destruct (fmap_find_by_name H _ len _ (fmap_name vblock_c))
          as [a2|] eqn:E2; [discriminate|].
        unfold Bios.prepare_slot.
        unfold bind at 1. unfold get_image at 1.
        unfold bind at 1. unfold say at 1. cbn [image console].
        rewrite E1.
        unfold bind at 1. unfold Bios.limit_area, bind at 1, get_image at 1,
          put_image at 1. cbn [image console].
        unfold bind at 1. unfold get_image at 1. cbn [image console].
        rewrite !SlotFacts.area_upd_same.
        cbn [Area.fw_size Area.set_is_valid Area.set_buf].
        rewrite Hsize. rewrite E2.
        destruct (Area.fw_size (State.area st fw_c) =? 0);
          cbn [negb];
          [destruct (Vb2.algo _ =? Vb2.VB2_HASH_INVALID)|];
          cbv [bind when say ret]; cbn [image console];
          (eexists _, _, _; split; [reflexivity|];
           split; [reflexivity|]; split; [now right|]; split;
           [ intros _;
             repeat (rewrite ?SlotFacts.area_upd_other by assumption);
             reflexivity
           | discriminate ]).
  - unfold Slot.body_area in Hfw.
    destruct (fmap_find_by_name H (image w) len _ (fmap_name fw_c))
      as [a1|] eqn:E1; [discriminate|].
    unfold Bios.prepare_slot.
    unfold bind at 1. unfold get_image at 1.
    unfold bind at 1. unfold say at 1. cbn [image console].
    rewrite E1. cbv [bind say ret]. cbn [image console].
    eexists _, _, _. split; [reflexivity|].
    split; [reflexivity|]. split; [now right|]. split.
    + reflexivity.
    + discriminate.
Qed.

End PrepareFacts.

(** [prepare_slot] writes to the image only where it limits an area:
    when every area that can be found in the flash map lies within the
    buffer, it returns with every byte of the image as it was. *)
Theorem prepare_slot_keeps_image_within_bounds
        (H : Host) (opt : SignOption.sign_option_s) (len : Z)
        (fw_c vblock_c : bios_component) (st : State.bios_state_s)
        (w : world) :
  bios_component_eqb fw_c vblock_c = false ->
  (forall name ah,
      fmap_find_by_name H (image w) len (fmap_find H (image w) len) name
      = Some ah ->
      Fmap.out_of_range (image w) ah len = false) ->
  exists r st' w',
    Bios.prepare_slot H opt len fw_c vblock_c st w = Returns (r, st') w'
    /\ image w' = image w.
Proof.
  intros Hne Hrange.
  destruct (PrepareFacts.prepare_slot_cases H opt len fw_c vblock_c st w Hne)
    as (r & st' & w' & Hrun & Him & _).
  exists r, st', w'. split; [exact Hrun|].
  rewrite Him. unfold Chain.prepared, Slot.body_area, Slot.vblock_area.
  destruct (fmap_find_by_name H (image w) len _ (fmap_name fw_c))
    as [ah1|] eqn:E1; [|reflexivity].
  rewrite (FmapFacts.fmap_limit_area_unchanged ah1 len (image w)
             (Hrange _ _ E1)).
  destruct (_ >? _); [reflexivity|].
  destruct (fmap_find_by_name H (image w) len _ (fmap_name vblock_c))
    as [ah2|] eqn:E2; [|reflexivity].
  exact (FmapFacts.fmap_limit_area_unchanged ah2 len (image w)
           (Hrange _ _ E2)).
Qed.

(** Slot A of the signed example image: the image is as it was. *)
Lemma prepare_slot_keeps_image_within_bounds_witness :
  exists r st' w',
    Bios.prepare_slot (Example.host Example.no_cbfs) Example.options 688
      BIOS_FMAP_FW_MAIN_A BIOS_FMAP_VBLOCK_A State.zero
      (Example.start (Example.image_a Example.vblock_signed))
    = Returns (r, st') w'
    /\ image w' = Example.image_a Example.vblock_signed.
Proof.
  apply (prepare_slot_keeps_image_within_bounds
           (Example.host Example.no_cbfs) Example.options 688
           BIOS_FMAP_FW_MAIN_A BIOS_FMAP_VBLOCK_A State.zero
           (Example.start (Example.image_a Example.vblock_signed))
           eq_refl).
  intros name ah Hf.
  cbn [fmap_find_by_name fmap_find Example.host image Example.start] in Hf.
  unfold Example.find_area_by_name in Hf.
  change (Example.find_fmap (Example.image_a Example.vblock_signed) 688)
    with (Some 0) in Hf.
  cbv beta iota in Hf.
  change (Z.to_nat (Mem.load16 (Example.image_a Example.vblock_signed)
                               (0 + 54))) with 3%nat in Hf.
  cbn [Example.lookup_area] in Hf.
  repeat match type of Hf with
         | (if ?b then _ else _) = _ =>
             destruct b; [injection Hf as <-; vm_compute; reflexivity|]
         end.
  discriminate Hf.
Defined.


(** The version and the flags of a prepared slot.  Flags and version
    that were specified are taken as they are.  Otherwise, when the
    keyblock and the preamble already in the VBLOCK are valid, the
    flags and the firmware version of that preamble are kept, unless no
    body size was given and the preamble signs more than the body area
    holds: then the chain counts as invalid, and the flags are 0 and
    the version is 1. *)
Theorem prepare_slot_takes_version_and_flags
        (H : Host) (opt : SignOption.sign_option_s) (len : Z)
        (fw_c vblock_c : bios_component) (st : State.bios_state_s)
        (w : world) (ah1 ah2 : Z) (m1 m2 : Mem.mem) :
  bios_component_eqb fw_c vblock_c = false ->
  Slot.body_area H len fw_c (image w) = Some (ah1, m1) ->
  Area.fw_size (State.area st fw_c) <= Fmap.area_size m1 ah1 ->
  Slot.vblock_area H len vblock_c (image w) m1 = Some (ah2, m2) ->
  let keyblock := Fmap.area_offset m2 ah2 in
  let preamble := keyblock + Vb2.keyblock_size m2 keyblock in
  exists st' w',
    Bios.prepare_slot H opt len fw_c vblock_c st w = Returns (0, st') w'
    /\ (SignOption.flags_specified opt <> 0 ->
        Area.flags (State.area st' vblock_c) = SignOption.flags opt)
    /\ (SignOption.version_specified opt <> 0 ->
        Area.version (State.area st' vblock_c) = SignOption.version opt)
    /\ (Slot.chain_valid H m2 keyblock (Fmap.area_size m2 ah2) = true ->
        (Area.fw_size (State.area st fw_c) <> 0
         \/ Slot.signed_size m2 keyblock <= Fmap.area_size m1 ah1 ->
         (SignOption.flags_specified opt = 0 ->
          Area.flags (State.area st' vblock_c) = Vb2.flags m2 preamble)
         /\ (SignOption.version_specified opt = 0 ->
             Area.version (State.area st' vblock_c)
             = Vb2.firmware_version m2 preamble))
        /\ (Area.fw_size (State.area st fw_c) = 0 ->
            Fmap.area_size m1 ah1 < Slot.signed_size m2 keyblock ->
            (SignOption.flags_specified opt = 0 ->
             Area.flags (State.area st' vblock_c) = 0)
            /\ (SignOption.version_specified opt = 0 ->
                Area.version (State.area st' vblock_c) = 1))).
Proof.
  intros Hne Hfw Hsize Hvb keyblock preamble.
  assert (Hsize' : (Area.fw_size (State.area st fw_c)
                    >? Fmap.area_size m1 ah1) = false).
  { rewrite Z.gtb_ltb. apply Z.ltb_ge. exact Hsize. }
  destruct (SlotFacts.prepare_slot_run H opt len fw_c vblock_c st w
              ah1 m1 ah2 m2 Hne Hfw Hsize' Hvb)
    as (st' & w' & Hrun & _ & _ & _ & _ & Hflags & Hversion & _).
  fold keyblock in Hflags, Hversion. fold preamble in Hflags, Hversion.
  exists st', w'. split; [exact Hrun|]. split; [|split; [|]].
  - intros Hf. apply Z.eqb_neq in Hf. rewrite Hflags, Hf. reflexivity.
  - intros Hv. apply Z.eqb_neq in Hv. rewrite Hversion, Hv. reflexivity.
  - intros Hvalid. rewrite Hvalid in Hflags, Hversion.
    cbn [andb] in Hflags, Hversion. split.
    + intros Hfit.
      assert (Hkv : negb (Area.fw_size (State.area st fw_c) =? 0)
                    || negb (Slot.signed_size m2 keyblock
                             >? Fmap.area_size m1 ah1) = true).
      { destruct Hfit as [Hnz|Hle].
        - apply Z.eqb_neq in Hnz. rewrite Hnz. reflexivity.
        - apply orb_true_iff. right. rewrite Z.gtb_ltb.
          apply negb_true_iff. apply Z.ltb_ge. exact Hle. }
      rewrite Hkv in Hflags, Hversion. split.
      * intros Hf. rewrite Hflags, Hf. reflexivity.
      * intros Hv. rewrite Hversion, Hv. reflexivity.
    + intros Hz Hbig.
      assert (Hkv : negb (Area.fw_size (State.area st fw_c) =? 0)
                    || negb (Slot.signed_size m2 keyblock
                             >? Fmap.area_size m1 ah1) = false).
      { rewrite Hz. cbn [Z.eqb negb orb]. apply negb_false_iff.
        rewrite Z.gtb_ltb. apply Z.ltb_lt. exact Hbig. }
      rewrite Hkv in Hflags, Hversion. split.
      * intros Hf. rewrite Hflags, Hf. reflexivity.
      * intros Hv. rewrite Hversion, Hv. reflexivity.
Qed.

(** Slot A of the signed example image keeps the flags 5 and the
    version 7 of its preamble. *)
Lemma prepare_slot_takes_version_and_flags_witness :
  exists st' w',
    Bios.prepare_slot (Example.host Example.no_cbfs) Example.options 688
      BIOS_FMAP_FW_MAIN_A BIOS_FMAP_VBLOCK_A State.zero
      (Example.start (Example.image_a Example.vblock_signed))
    = Returns (0, st') w'
    /\ Area.flags (State.area st' BIOS_FMAP_VBLOCK_A) = 5
    /\ Area.version (State.area st' BIOS_FMAP_VBLOCK_A) = 7.
Proof.
  destruct (prepare_slot_takes_version_and_flags
              (Example.host Example.no_cbfs) Example.options 688
              BIOS_FMAP_FW_MAIN_A BIOS_FMAP_VBLOCK_A State.zero
              (Example.start (Example.image_a Example.vblock_signed))
              98 140
              (Example.image_a Example.vblock_signed)
              (Example.image_a Example.vblock_signed)
              ltac:(by_computation) ltac:(by_computation)
              ltac:(by_computation) ltac:(by_computation))
    as (st' & w' & Hrun & _ & _ & Hkeep).
  destruct (Hkeep ltac:(by_computation)) as (Hfit & _).
  destruct (Hfit ltac:(right; by_computation)) as (Hflags & Hversion).
  exists st', w'. split; [exact Hrun|]. split.
  - rewrite Hflags by reflexivity. by_computation.
  - rewrite Hversion by reflexivity. by_computation.
Defined.

(** [prepare_slot] marks a VBLOCK area valid only at its end: when the
    area was not valid before and is valid afterwards, [prepare_slot]
    has returned 0 and the body area of the slot is valid as well. *)
Theorem prepare_slot_validates_vblock_with_body
        (H : Host) (opt : SignOption.sign_option_s) (len : Z)
        (fw_c vblock_c : bios_component) (st : State.bios_state_s)
        (w : world) :
  bios_component_eqb fw_c vblock_c = false ->
  Area.is_valid (State.area st vblock_c) = 0 ->
  exists r st' w',
    Bios.prepare_slot H opt len fw_c vblock_c st w = Returns (r, st') w'
    /\ (r = 0 /\ Area.is_valid (State.area st' fw_c) = 1
        \/ r = 1 /\ Area.is_valid (State.area st' vblock_c) = 0).
Proof.
  intros Hne Hinvalid.
  destruct (PrepareFacts.prepare_slot_cases H opt len fw_c vblock_c st w Hne)
    as (r & st' & w' & Hrun & _ & Hr & Hfail & Hok).
  exists r, st', w'. split; [exact Hrun|].
  destruct Hr as [-> | ->].
  - left. split; [reflexivity|]. now apply Hok.
  - right. split; [reflexivity|]. rewrite Hfail by discriminate.
    exact Hinvalid.
Qed.

(** Slot B of the image that has a body for it but no VBLOCK_B area,
    prepared from the state in which nothing is valid. *)
Lemma prepare_slot_validates_vblock_with_body_witness :
  exists r st' w',
    Bios.prepare_slot (Example.host Example.no_cbfs) Example.options 720
      BIOS_FMAP_FW_MAIN_B BIOS_FMAP_VBLOCK_B State.zero
      (Example.start Example.image_b_without_vblock)
    = Returns (r, st') w'
    /\ (r = 0 /\ Area.is_valid (State.area st' BIOS_FMAP_FW_MAIN_B) = 1
        \/ r = 1 /\ Area.is_valid (State.area st' BIOS_FMAP_VBLOCK_B) = 0).
Proof.
  apply (prepare_slot_validates_vblock_with_body
           (Example.host Example.no_cbfs) Example.options 720
           BIOS_FMAP_FW_MAIN_B BIOS_FMAP_VBLOCK_B State.zero
           (Example.start Example.image_b_without_vblock)
           eq_refl eq_refl).
Defined.


(** ** Signing without CBFS integration *)

Module ReturnFacts.

Lemma write_new_preamble_bit H opt vblock fw_body signkey keyblock w :
  exists r w',
    Bios.write_new_preamble H opt vblock fw_body signkey keyblock w
    = Returns r w'
    /\ (r = 0 \/ r = 1).
Proof.
  unfold Bios.write_new_preamble, bind, get_image, put_image, say, ret.
  destruct (if negb _ then _ else _) as [body_sig|].
  2:{ eexists _, _. split; [reflexivity|]. now right. }
  destruct (vb2_create_fw_preamble H _ _ _ _ _) as [preamble|].
  2:{ eexists _, _. split; [reflexivity|]. now right. }
  destruct (_ >? _); eexists _, _; (split; [reflexivity|]);
    [now right|now left].
Qed.

Lemma write_loem_bit H opt ab loemid vblock w :
  exists r w',
    Bios.write_loem H opt ab loemid vblock w = Returns r w'
    /\ (r = 0 \/ r = 1).
Proof.
  unfold Bios.write_loem, bind, get_image, say, ret.
  destruct (_ >=? PATH_MAX).
  { eexists _, _. split; [reflexivity|]. now right. }
  destruct (negb (fopen_w H _)).
  { eexists _, _. split; [reflexivity|]. now right. }
  destruct (negb (fwrite_1 H _ _)).
  { eexists _, _. split; [reflexivity|]. now right. }
  destruct (negb (fclose_0 H _)).
  { eexists _, _. split; [reflexivity|]. now right. }
  eexists _, _. split; [reflexivity|]. now left.
Qed.

Lemma lor_bit a b : (a = 0 \/ a = 1) -> (b = 0 \/ b = 1) ->
  Z.lor a b = 0 \/ Z.lor a b = 1.
Proof. intros [-> | ->] [-> | ->]; cbn; auto. Qed.

Lemma sign_bios_at_end_bit H opt st w :
  exists r w',
    Bios.sign_bios_at_end H opt st w = Returns r w' /\ (r = 0 \/ r = 1).
Proof.
  unfold Bios.sign_bios_at_end.
  destruct (_ || _).
  { cbv [bind say ret]. eexists _, _. split; [reflexivity|]. now right. }
  unfold bind at 1.
  destruct (write_new_preamble_bit H opt (State.area st BIOS_FMAP_VBLOCK_A)
              (State.area st BIOS_FMAP_FW_MAIN_A)
              (SignOption.signprivate opt) (SignOption.keyblock opt) w)
    as (ra & wa & -> & Hra).
  assert (Hra' : Z.lor 0 ra = 0 \/ Z.lor 0 ra = 1)
    by (apply lor_bit; auto).
  unfold bind at 1.
  assert (Hmid : exists rb wb,
             (if negb (Area.is_valid (State.area st BIOS_FMAP_VBLOCK_B) =? 0)
                 && negb (Area.is_valid (State.area st BIOS_FMAP_FW_MAIN_B)
                          =? 0)
              then
                r <- Bios.write_new_preamble H opt
                       (State.area st BIOS_FMAP_VBLOCK_B)
                       (State.area st BIOS_FMAP_FW_MAIN_B)
                       (SignOption.signprivate opt)
                       (SignOption.keyblock opt) ;;
                ret (Z.lor (Z.lor 0 ra) r)
              else
                say INFO "BIOS image does not have %s. Signing only %s\n"
                    [fmap_name BIOS_FMAP_FW_MAIN_B;
                     fmap_name BIOS_FMAP_FW_MAIN_A] [] ;;
                ret (Z.lor 0 ra)) wa = Returns rb wb
             /\ (rb = 0 \/ rb = 1)).
  { destruct (_ && _).
    - unfold bind.
      destruct (write_new_preamble_bit H opt
                  (State.area st BIOS_FMAP_VBLOCK_B)
                  (State.area st BIOS_FMAP_FW_MAIN_B)
                  (SignOption.signprivate opt) (SignOption.keyblock opt) wa)
        as (rb & wb & -> & Hrb).
      eexists _, _. split; [reflexivity|]. now apply lor_bit.
    - cbv [bind say ret]. eexists _, _. split; [reflexivity|]. exact Hra'. }
  destruct Hmid as (rb & wb & -> & Hrb).
  destruct (SignOption.loemid opt) as [id|].
  - unfold bind at 1.
    destruct (write_loem_bit H opt "A" id (State.area st BIOS_FMAP_VBLOCK_A)
                wb) as (rl & wl & -> & Hrl).
    destruct (negb _).
    + unfold bind.
      destruct (write_loem_bit H opt "B" id
                  (State.area st BIOS_FMAP_VBLOCK_B) wl)
        as (rm & wm & -> & Hrm).
      eexists _, _. split; [reflexivity|].
      apply lor_bit; [apply lor_bit|]; assumption.
    + eexists _, _. split; [reflexivity|]. now apply lor_bit.
  - eexists _, _. split; [reflexivity|]. exact Hrb.
Qed.

Lemma cbfs_step_returns H name fw_c st w :
  exists st' w',
    Bios.image_check_and_prepare_cbfs H name fw_c false st w = Returns st' w'.
Proof.
  unfold Bios.image_check_and_prepare_cbfs. cbn [negb].
  unfold bind at 1. unfold get_image at 1.
  destruct (cbfstool_truncate H name (image w) (fmap_name fw_c) _)
    as [[rv size] m'].
  destruct (negb _); cbv [bind put_image say ret]; eexists _, _; reflexivity.
Qed.

End ReturnFacts.

(** Only an image that declares CBFS integration can make
    [ft_sign_bios] leave the process with [FATAL]: for every other image
    [ft_sign_bios] returns, and what it returns is 0 or 1. *)
Theorem sign_without_cbfs_integration_returns
        (H : Host) (opt : SignOption.sign_option_s) (name : string)
        (w : world) :
  Bios.image_uses_cbfs_integration H name (image w) = false ->
  exists r w',
    Bios.ft_sign_bios H opt name w = Returns r w' /\ (r = 0 \/ r = 1).
Proof.
  intros Huses.
  unfold Bios.ft_sign_bios. cbv zeta.
  unfold bind at 1. unfold get_image at 1. rewrite Huses.
  unfold bind at 1.
  destruct (ReturnFacts.cbfs_step_returns H name BIOS_FMAP_FW_MAIN_A
              State.zero w) as (sa & wa & ->).
  unfold bind at 1.
  destruct (ReturnFacts.cbfs_step_returns H name BIOS_FMAP_FW_MAIN_B sa wa)
    as (sb & wb & ->).
  unfold bind at 1. unfold get_image at 1.
  destruct (negb _).
  { eexists _, _. split; [reflexivity|]. now right. }
  unfold bind at 1.
  destruct (PrepareFacts.prepare_slot_cases H opt
              (u32 (Mem.size (image wb))) BIOS_FMAP_FW_MAIN_A
              BIOS_FMAP_VBLOCK_A sb wb eq_refl)
    as (ra & s1 & w1 & -> & _ & Hra & _).
  destruct (negb (ra =? 0)).
  { eexists _, _. split; [reflexivity|]. exact Hra. }
  unfold bind at 1.
  destruct (PrepareFacts.prepare_slot_cases H opt
              (u32 (Mem.size (image wb))) BIOS_FMAP_FW_MAIN_B
              BIOS_FMAP_VBLOCK_B s1 w1 eq_refl)
    as (rb & s2 & w2 & -> & _ & Hrb & _).
  destruct (negb (rb =? 0) && _).
  { eexists _, _. split; [reflexivity|]. exact Hrb. }
  unfold Bios.check_slot_after_prepare.
  rewrite !andb_false_r. cbn [andb].
  unfold bind at 1. unfold ret at 1.
  unfold bind at 1. unfold ret at 1.
  apply ReturnFacts.sign_bios_at_end_bit.
Qed.

(** The slot-A image, for which cbfstool knows no configuration. *)
Lemma sign_without_cbfs_integration_returns_witness :
  exists r w',
    Bios.ft_sign_bios (Example.host Example.no_cbfs) Example.options
      "bios.bin" (Example.start (Example.image_a Example.vblock_signed))
    = Returns r w'
    /\ (r = 0 \/ r = 1).
Proof.
  apply (sign_without_cbfs_integration_returns
           (Example.host Example.no_cbfs) Example.options "bios.bin"
           (Example.start (Example.image_a Example.vblock_signed))).
  by_computation.
Defined.


(** ** What the show functions report *)

(** For a GBB area that is not empty, [show_gbb_buf] returns 0 when the
    header is valid and the root key and the recovery key both look ok,
    and 1 otherwise (the keys are not looked at when the header is
    invalid).  The GBB area of the state is marked valid exactly when 0
    is returned, and then both keys of the state are valid too; the
    image is left as it was. *)
Theorem show_gbb_buf_result
        (H : Host) (name : string) (buf len : Z)
        (state : State.bios_state_s) (w : world) :
  len <> 0 ->
  let m := image w in
  let ok :=
    fst (futil_valid_gbb_header H m buf len)
    && (vb2_packed_key_looks_ok H m (buf + Vb2.rootkey_offset m buf)
          (Vb2.rootkey_size m buf) =? Vb2.VB2_SUCCESS)
    && (vb2_packed_key_looks_ok H m (buf + Vb2.recovery_key_offset m buf)
          (Vb2.recovery_key_size m buf) =? Vb2.VB2_SUCCESS) in
  exists st' w',
    Bios.show_gbb_buf H name buf len (Some state) w
    = Returns (if ok then 0 else 1, Some st') w'
    /\ Area.is_valid (State.area st' BIOS_FMAP_GBB)
       = (if ok then 1 else Area.is_valid (State.area state BIOS_FMAP_GBB))
    /\ (ok = true ->
        Area.is_valid (State.rootkey st') = 1
        /\ Area.is_valid (State.recovery_key st') = 1)
    /\ image w' = image w.
Proof.
  intros Hlen m ok. subst ok.
  unfold Bios.show_gbb_buf.
  apply Z.eqb_neq in Hlen. rewrite Hlen.
  unfold bind at 1. unfold get_image at 1. fold m.
  destruct (futil_valid_gbb_header H m buf len) as [valid maxlen].
  cbn [fst].
  destruct valid; cbn [andb negb Z.eqb].
  2:{ cbv [bind say ret]. eexists _, _. split; [reflexivity|].
      repeat split; discriminate. }
  cbv [bind say emit ret]. cbn [image console option_map].
  destruct (vb2_packed_key_looks_ok H m (buf + Vb2.rootkey_offset m buf)
              (Vb2.rootkey_size m buf) =? Vb2.VB2_SUCCESS);
    destruct (vb2_packed_key_looks_ok H m
                (buf + Vb2.recovery_key_offset m buf)
                (Vb2.recovery_key_size m buf) =? Vb2.VB2_SUCCESS);
    cbn [andb Z.eqb option_map];
    eexists _, _; (split; [reflexivity|]);
    repeat split; try discriminate; reflexivity.
Qed.

(** The GBB of the example image, whose keys have no size. *)
Lemma show_gbb_buf_result_witness :
  exists st' w',
    Bios.show_gbb_buf (Example.host Example.no_cbfs) "GBB" 272 128
      (Some State.zero)
      (Example.start (Example.image_a Example.vblock_signed))
    = Returns (1, Some st') w'
    /\ Area.is_valid (State.area st' BIOS_FMAP_GBB) = 0.
Proof.
  destruct (show_gbb_buf_result (Example.host Example.no_cbfs) "GBB" 272 128
              State.zero
              (Example.start (Example.image_a Example.vblock_signed))
              ltac:(discriminate))
    as (st' & w' & Hrun & Hvalid & _).
  exists st', w'. split; [exact Hrun|exact Hvalid].
Defined.

(** A file that was cut short: when the GBB or a firmware body is found
    in the flash map but does not lie within the buffer, the pass of
    [ft_show_bios] over it limits the area to nothing, shows it as
    invalid under the name it has in the flash map, adds 1 to the
    result, and does not mark it valid. *)
Theorem show_component_reports_cut_area
        (H : Host) (len : Z) (fmap : option Z) (retval : Z)
        (state : State.bios_state_s) (c : bios_component) (w : world)
        (ah : Z) :
  c = BIOS_FMAP_GBB \/ c = BIOS_FMAP_FW_MAIN_A \/ c = BIOS_FMAP_FW_MAIN_B ->
  fmap_find_by_name H (image w) len fmap (fmap_name c) = Some ah ->
  0 <= ah -> ah + 8 <= Mem.size (image w) ->
  Fmap.out_of_range (image w) ah len = true ->
  exists st' w',
    Bios.show_component H len fmap (retval, state) c w
    = Returns (retval + 1, st') w'
    /\ Area.offset (State.area st' c) = 0
    /\ Area.len (State.area st' c) = 0
    /\ Area.is_valid (State.area st' c) = Area.is_valid (State.area state c)
    /\ In (Chain.invalid_area_message c (Fmap.area_name (image w) ah)) (console w')
    /\ image w' = Fmap.fmap_limit_area ah len (image w).
Proof.
  intros Hc Hfound Hah Hsz Hout.
  destruct (FmapFacts.fmap_limit_area_zeroed ah len (image w) Hah Hsz Hout)
    as [Ho Hs].
  unfold Bios.show_component.
  unfold bind at 1. unfold get_image at 1. rewrite Hfound.
  unfold bind at 1. unfold Bios.limit_area, bind at 1, get_image at 1,
    put_image at 1. cbn [image console].
  unfold bind at 1. unfold get_image at 1. cbn [image console].
  rewrite Ho, Hs. rewrite ClampFacts.area_name_fmap_limit_area.
  unfold bind at 1. unfold say at 1. cbn [image console].
  rewrite !SlotFacts.area_upd_same. cbn [Area.buf Area.len Area.set_len
    Area.set_buf Area.set_offset].
  destruct Hc as [-> | [-> | ->]].
  - cbn [Bios.fmap_show_fn]. unfold Bios.show_gbb_buf. cbn [Z.eqb].
    cbv [bind say ret]. cbn [image console fst snd].
    eexists _, _. split; [reflexivity|].
    cbn [State.area State.upd_area State.set_c bios_component_eqb
         Area.offset Area.len Area.is_valid Area.set_len Area.set_buf
         Area.set_offset].
    repeat split; try reflexivity.
    cbn [Chain.invalid_area_message console]. apply in_or_app. right.
    left. reflexivity.
  - cbn [Bios.fmap_show_fn]. unfold Bios.fmap_show_fw_main. cbn [Z.eqb].
    cbv [bind say ret]. cbn [image console fst snd].
    eexists _, _. split; [reflexivity|].
    cbn [State.area State.upd_area State.set_c bios_component_eqb
         Area.offset Area.len Area.is_valid Area.set_len Area.set_buf
         Area.set_offset].
    repeat split; try reflexivity.
    cbn [Chain.invalid_area_message console]. apply in_or_app. right.
    left. reflexivity.
  - cbn [Bios.fmap_show_fn]. unfold Bios.fmap_show_fw_main. cbn [Z.eqb].
    cbv [bind say ret]. cbn [image console fst snd].
    eexists _, _. split; [reflexivity|].
    cbn [State.area State.upd_area State.set_c bios_component_eqb
         Area.offset Area.len Area.is_valid Area.set_len Area.set_buf
         Area.set_offset].
    repeat split; try reflexivity.
    cbn [Chain.invalid_area_message console]. apply in_or_app. right.
    left. reflexivity.
Qed.

(** The example image cut after 420 bytes, in the middle of the body of
    slot A. *)
Lemma show_component_reports_cut_area_witness :
  exists st' w',
    Bios.show_component (Example.host Example.no_cbfs) 420 (Some 0)
      (0, State.zero) BIOS_FMAP_FW_MAIN_A
      (Example.start (firstn 420 (Example.image_a Example.vblock_signed)))
    = Returns (1, st') w'
    /\ Area.len (State.area st' BIOS_FMAP_FW_MAIN_A) = 0
    /\ Area.is_valid (State.area st' BIOS_FMAP_FW_MAIN_A) = 0.
Proof.
  destruct (show_component_reports_cut_area (Example.host Example.no_cbfs)
              420 (Some 0) 0 State.zero BIOS_FMAP_FW_MAIN_A
              (Example.start
                 (firstn 420 (Example.image_a Example.vblock_signed)))
              98 ltac:(right; left; reflexivity) ltac:(by_computation)
              ltac:(lia) ltac:(by_computation) ltac:(by_computation))
    as (st' & w' & Hrun & _ & Hlen & Hvalid & _).
  exists st', w'. split; [exact Hrun|]. split; assumption.
Defined.


(** ** The pipes of a subprocess *)

Module PipeFacts.
Import Subprocess.

Lemma get_firstn (n : nat) (l : Mem.mem) (j : Z) :
  0 <= j < Z.of_nat n -> Mem.get (firstn n l) j = Mem.get l j.
Proof.
  intros Hj. unfold Mem.get.
  destruct (j <? 0) eqn:E; [apply Z.ltb_lt in E; lia|].
  destruct (Nat.lt_ge_cases (Z.to_nat j) (List.length l)) as [Hin|Hout].
  - rewrite nth_firstn.
    destruct (Nat.ltb_spec (Z.to_nat j) n) as [_|Hc]; [reflexivity|lia].
  - rewrite !nth_overflow; [reflexivity|lia|].
    rewrite length_firstn. lia.
Qed.

Lemma get_app_l (a b : Mem.mem) (j : Z) :
  0 <= j < Mem.size a -> Mem.get (a ++ b) j = Mem.get a j.
Proof.
  unfold Mem.get, Mem.size. intros Hj.
  destruct (j <? 0); [reflexivity|].
  apply app_nth1. lia.
Qed.

Lemma get_skipn (n : nat) (l : Mem.mem) (j : Z) :
  0 <= j -> Mem.get (skipn n l) j = Mem.get l (Z.of_nat n + j).
Proof.
  unfold Mem.get. intros Hj.
  destruct (j <? 0) eqn:E; [apply Z.ltb_lt in E; lia|].
  destruct (Z.of_nat n + j <? 0) eqn:E'; [apply Z.ltb_lt in E'; lia|].
  rewrite nth_skipn. f_equal. lia.
Qed.

Lemma firstn_glue (r n : nat) (l : Mem.mem) :
  (r <= n)%nat ->
  firstn r l ++ firstn (n - r) (skipn r l) = firstn n l.
Proof.
  intros Hr. rewrite firstn_skipn_comm.
  replace (r + (n - r))%nat with n by lia.
  transitivity (firstn r (firstn n l) ++ skipn r (firstn n l));
    [|apply firstn_skipn].
  f_equal. rewrite firstn_firstn. now rewrite Nat.min_l by lia.
Qed.

Lemma size_skipn (n : nat) (l : Mem.mem) :
  Mem.size (skipn n l) = Z.max 0 (Mem.size l - Z.of_nat n).
Proof. unfold Mem.size. rewrite length_skipn. lia. Qed.

Lemma size_t_small z : 0 <= z < 2 ^ 64 -> size_t z = z.
Proof. intros Hz. unfold size_t. now apply Z.mod_small. Qed.

(** The loop of [process_target_input] ends; it hands the bytes to the
    pipe in their order, all of them when it ends well. *)
Lemma write_loop_spec fuel : forall fd buf n o,
  0 <= n <= Mem.size buf -> Mem.size buf < 2 ^ 64 ->
  (Z.to_nat n <= fuel)%nat ->
  exists rv o',
    write_loop fuel fd buf n o = Some (rv, o')
    /\ closed o' = closed o
    /\ incoming o' = incoming o
    /\ (rv = 0 /\ written o' = written o ++ firstn (Z.to_nat n) buf
        \/ rv = -1
           /\ exists k, 0 <= k < n
                        /\ written o' = written o ++ firstn (Z.to_nat k) buf).
Proof.
  induction fuel as [|fuel IH]; intros fd buf n o Hn Hsz Hfuel.
  - assert (n = 0) by lia. subst n. cbn.
    eexists _, _. split; [reflexivity|]. split; [reflexivity|].
    split; [reflexivity|]. left. split; [reflexivity|].
    cbn. now rewrite app_nil_r.
  - cbn [write_loop].
    destruct (n =? 0) eqn:En.
    { apply Z.eqb_eq in En. subst n.
      eexists _, _. split; [reflexivity|]. split; [reflexivity|].
      split; [reflexivity|]. left. split; [reflexivity|].
      cbn. now rewrite app_nil_r. }
    apply Z.eqb_neq in En.
    unfold write.
    destruct (room o) as [|k rest] eqn:Er.
    { cbn. eexists _, _. split; [reflexivity|]. split; [reflexivity|].
      split; [reflexivity|]. right. split; [reflexivity|].
      exists 0. split; [lia|]. cbn. now rewrite app_nil_r. }
    destruct (k <=? 0) eqn:Ek.
    { cbn. eexists _, _. split; [reflexivity|]. split; [reflexivity|].
      split; [reflexivity|]. right. split; [reflexivity|].
      exists 0. split; [lia|]. cbn. now rewrite app_nil_r. }
    apply Z.leb_gt in Ek.
    set (r := Z.min n k).
    assert (Hr : 0 < r <= n) by (subst r; lia).
    destruct (r <=? 0) eqn:Er0; [apply Z.leb_le in Er0; lia|].
    rewrite size_t_small by lia.
    match goal with
    | |- context [write_loop fuel fd ?b ?n' ?o1] =>
        destruct (IH fd b n' o1) as (rv & o' & Hrun & Hc & Hi & Hw)
    end.
    + rewrite size_skipn. lia.
    + rewrite size_skipn. lia.
    + lia.
    + exists rv, o'. split; [exact Hrun|].
      cbn [closed incoming written] in Hc, Hi, Hw.
      split; [exact Hc|]. split; [exact Hi|].
      destruct Hw as [(-> & Hw) | (-> & k' & Hk' & Hw)].
      * left. split; [reflexivity|]. rewrite Hw, <- app_assoc. f_equal.
        replace (Z.to_nat (n - r)) with (Z.to_nat n - Z.to_nat r)%nat
          by lia.
        apply firstn_glue. lia.
      * right. split; [reflexivity|]. exists (r + k'). split; [lia|].
        rewrite Hw, <- app_assoc. f_equal.
        replace (Z.to_nat k')
          with (Z.to_nat (r + k') - Z.to_nat r)%nat by lia.
        apply firstn_glue. lia.
Qed.

Lemma strlen_range (s : Mem.mem) : 0 <= strlen s <= Mem.size s.
Proof.
  unfold Mem.size. induction s as [|b s IH]; cbn [strlen List.length].
  - lia.
  - destruct (Byte.eqb b x00); lia.
Qed.

Lemma stream_read_rest d rest r :
  0 <= r <= Mem.size d ->
  stream (if r <? Mem.size d then Data (skipn (Z.to_nat r) d) :: rest
          else rest)
  = skipn (Z.to_nat r) (stream (Data d :: rest)).
Proof.
  intros Hr. cbn [stream]. unfold Mem.size in *.
  rewrite skipn_app.
  destruct (r <? Z.of_nat (List.length d)) eqn:E.
  - apply Z.ltb_lt in E. cbn [stream].
    replace (Z.to_nat r - List.length d)%nat with 0%nat by lia.
    reflexivity.
  - apply Z.ltb_ge in E.
    rewrite skipn_all2 by lia.
    replace (Z.to_nat r - List.length d)%nat with 0%nat by lia.
    reflexivity.
Qed.

(** The loop of [process_target_output] ends; what it stores is what
    the child wrote, in its order, and it stores it between the count it
    started with and the count it ends with. *)
Lemma read_loop_spec fuel : forall t rem o,
  0 <= bytes_consumed t -> 0 <= rem ->
  bytes_consumed t + rem <= Mem.size (buf t) ->
  Mem.size (buf t) < 2 ^ 64 ->
  (Z.to_nat rem <= fuel)%nat ->
  exists rv t' o',
    read_loop fuel t rem o = Some (rv, t', o')
    /\ closed o' = closed o
    /\ written o' = written o
    /\ type t' = type t /\ size t' = size t /\ _pipefd t' = _pipefd t
    /\ Mem.size (buf t') = Mem.size (buf t)
    /\ bytes_consumed t <= bytes_consumed t' <= bytes_consumed t + rem
    /\ (forall p, p < bytes_consumed t \/ bytes_consumed t' <= p ->
                  Mem.get (buf t') p = Mem.get (buf t) p)
    /\ (forall j, 0 <= j < bytes_consumed t' - bytes_consumed t ->
                  Mem.get (buf t') (bytes_consumed t + j)
                  = Mem.get (stream (incoming o)) j)
    /\ (rv = 0 \/ rv = -1)
    /\ (forallb is_data (incoming o) = true -> rv = 0).
Proof.
  induction fuel as [|fuel IH]; intros t rem o Hc Hrem Hfit Hsz Hfuel.
  - assert (rem = 0) by lia. subst rem. cbn.
    eexists _, _, _. split; [reflexivity|].
    repeat split; auto; try lia; try (intros j Hj; lia).
  - cbn [read_loop].
    destruct (rem =? 0) eqn:En.
    { eexists _, _, _. split; [reflexivity|].
      repeat split; auto; try lia; try (intros j Hj; lia). }
    apply Z.eqb_neq in En.
    unfold read.
    destruct (incoming o) as [|[d|] rest] eqn:Ei.
    { cbn. eexists _, _, _. split; [reflexivity|].
      repeat split; auto; try lia; try (intros j Hj; lia). }
    2:{ cbn. eexists _, _, _. split; [reflexivity|].
        repeat split; auto; try lia; try (intros j Hj; lia);
          try (intros Hall; cbn in Hall; discriminate Hall). }
    set (r := Z.min rem (Mem.size d)).
    assert (Hd : 0 <= Mem.size d) by (unfold Mem.size; lia).
    assert (Hr : 0 <= r <= rem /\ r <= Mem.size d) by (subst r; lia).
    destruct (r <? 0) eqn:Er0; [apply Z.ltb_lt in Er0; lia|].
    destruct (r =? 0) eqn:Er1.
    { eexists _, _, _. split; [reflexivity|].
      repeat split; auto; try lia; try (intros j Hj; lia). }
    apply Z.eqb_neq in Er1.
    cbn [bytes_consumed set_buf set_bytes_consumed buf].
    rewrite !size_t_small by lia.
    match goal with
    | |- context [read_loop fuel ?t1 ?n' ?o1] =>
        destruct (IH t1 n' o1)
          as (rv & t' & o' & Hrun & Hcl & Hw & Hty & Hsi & Hpi & Hbs
              & Hcons & Hframe & Hdata & Hrv & Hall)
    end.
    + cbn. lia.
    + lia.
    + cbn. rewrite MemFacts.memcpy_size. lia.
    + cbn. rewrite MemFacts.memcpy_size. lia.
    + lia.
    + cbn [bytes_consumed buf type size _pipefd set_buf set_bytes_consumed
           closed written incoming] in *.
      rewrite MemFacts.memcpy_size in Hbs.
      exists rv, t', o'. split; [exact Hrun|].
      split; [exact Hcl|]. split; [exact Hw|]. split; [exact Hty|].
      split; [exact Hsi|]. split; [exact Hpi|]. split; [exact Hbs|].
      split; [lia|]. split; [|split; [|split; [exact Hrv|]]].
      * intros p Hp. rewrite Hframe by lia.
        apply ClampFacts.get_memcpy_outside. lia.
      * intros j Hj.
        destruct (Z_lt_ge_dec j r) as [Hlt|Hge].
        -- rewrite Hframe by lia.
           rewrite MemFacts.get_memcpy by lia.
           destruct (bytes_consumed t <=? bytes_consumed t + j) eqn:E1;
             [|apply Z.leb_gt in E1; lia].
           destruct (bytes_consumed t + j <? bytes_consumed t + r) eqn:E2;
             [|apply Z.ltb_ge in E2; lia].
           cbn [andb].
           replace (bytes_consumed t + j - bytes_consumed t) with j by lia.
           rewrite get_firstn by lia.
           cbn [stream]. now rewrite get_app_l by lia.
        -- specialize (Hdata (j - r) ltac:(lia)).
           replace (bytes_consumed t + r + (j - r))
             with (bytes_consumed t + j) in Hdata by lia.
           rewrite Hdata.
           rewrite stream_read_rest by lia.
           rewrite get_skipn by lia. f_equal. lia.
      * intros Hdat. apply Hall. cbn [forallb is_data andb] in Hdat.
        destruct (r <? Mem.size d); [|exact Hdat].
        cbn [forallb is_data andb]. exact Hdat.
Qed.

End PipeFacts.

(** [process_target_input] on a buffer: it ends, closes the read end of
    the pipe before it writes and the write end afterwards, and hands
    the bytes of the buffer to the pipe in their order: all of them (the
    [size] bytes of a buffer, the string of a null-terminated one) when
    it returns 0, and fewer than all when it returns -1. *)
Theorem process_target_input_writes_buffer
        (t : Subprocess.subprocess_target) (o : Subprocess.os) :
  Mem.size (Subprocess.buf t) < 2 ^ 64 ->
  Subprocess.type t = Subprocess.TARGET_BUFFER
  /\ 0 <= Subprocess.size t <= Mem.size (Subprocess.buf t)
  \/ Subprocess.type t = Subprocess.TARGET_BUFFER_NULL_TERMINATED ->
  let n := match Subprocess.type t with
           | Subprocess.TARGET_BUFFER => Subprocess.size t
           | _ => Subprocess.strlen (Subprocess.buf t)
           end in
  exists rv o',
    Subprocess.process_target_input t o = Some (rv, o')
    /\ Subprocess.closed o'
       = Subprocess.closed o
         ++ [fst (Subprocess._pipefd t); snd (Subprocess._pipefd t)]
    /\ (rv = 0
        /\ Subprocess.written o'
           = Subprocess.written o ++ firstn (Z.to_nat n) (Subprocess.buf t)
        \/ rv = -1
           /\ exists k,
               0 <= k < n
               /\ Subprocess.written o'
                  = Subprocess.written o
                    ++ firstn (Z.to_nat k) (Subprocess.buf t)).
Proof.
  intros Hsz Hty n.
  assert (Hn : 0 <= n <= Mem.size (Subprocess.buf t)).
  { subst n. destruct Hty as [(-> & Hs) | ->]; [exact Hs|].
    apply PipeFacts.strlen_range. }
  unfold Subprocess.process_target_input.
  assert (Hshape :
    Subprocess.process_target_input t o
    = match Subprocess.write_loop (Z.to_nat n)
              (snd (Subprocess._pipefd t)) (Subprocess.buf t) n
              (Subprocess.close (fst (Subprocess._pipefd t)) o) with
      | Some (rv, o) =>
          Some (rv, Subprocess.close (snd (Subprocess._pipefd t)) o)
      | None => None
      end).
  { unfold Subprocess.process_target_input. subst n.
    destruct Hty as [(-> & _) | ->]; reflexivity. }
  fold (Subprocess.process_target_input t o). rewrite Hshape.
  destruct (PipeFacts.write_loop_spec (Z.to_nat n)
              (snd (Subprocess._pipefd t)) (Subprocess.buf t) n
              (Subprocess.close (fst (Subprocess._pipefd t)) o)
              Hn Hsz (Nat.le_refl _))
    as (rv & o' & -> & Hc & _ & Hw).
  eexists _, _. split; [reflexivity|].
  cbn [Subprocess.close Subprocess.closed Subprocess.written] in *.
  rewrite Hc, <- app_assoc. split; [reflexivity|]. exact Hw.
Qed.

(** The string [hello] is written to a pipe that takes four bytes at a
    time. *)
Lemma process_target_input_writes_buffer_witness :
  exists rv o',
    Subprocess.process_target_input
      (Samples.target Subprocess.TARGET_BUFFER "hello" 5) Samples.pipe
    = Some (rv, o')
    /\ Subprocess.closed o' = [3; 4]
    /\ (rv = 0
        /\ Subprocess.written o' = Example.bytes_of_string "hello"
        \/ rv = -1
           /\ exists k,
               0 <= k < 5
               /\ Subprocess.written o'
                  = firstn (Z.to_nat k) (Example.bytes_of_string "helloxxxxxxxxxxx")).
Proof.
  apply (process_target_input_writes_buffer
           (Samples.target Subprocess.TARGET_BUFFER "hello" 5) Samples.pipe).
  - by_computation.
  - left. split; [reflexivity|]. split; by_computation.
Defined.

(** [process_target_output] into a null-terminated buffer of at least
    one byte: it ends, closes the write end of the pipe before it reads
    and the read end afterwards, stores at most [size - 1] bytes, which
    are the first bytes that the child wrote, and touches no byte at
    [size] or behind it; when it returns 0 (as it does when no [read]
    fails) the byte behind what it stored is the null terminator. *)
Theorem process_target_output_terminates_string
        (t : Subprocess.subprocess_target) (o : Subprocess.os) :
  Subprocess.type t = Subprocess.TARGET_BUFFER_NULL_TERMINATED ->
  0 < Subprocess.size t <= Mem.size (Subprocess.buf t) ->
  Mem.size (Subprocess.buf t) < 2 ^ 64 ->
  exists rv t' o',
    Subprocess.process_target_output t o = Some (rv, t', o')
    /\ Subprocess.closed o'
       = Subprocess.closed o
         ++ [snd (Subprocess._pipefd t); fst (Subprocess._pipefd t)]
    /\ Mem.size (Subprocess.buf t') = Mem.size (Subprocess.buf t)
    /\ 0 <= Subprocess.bytes_consumed t' <= Subprocess.size t - 1
    /\ (forall j, 0 <= j < Subprocess.bytes_consumed t' ->
                  Mem.get (Subprocess.buf t') j
                  = Mem.get (Subprocess.stream (Subprocess.incoming o)) j)
    /\ (forall p, Subprocess.size t <= p ->
                  Mem.get (Subprocess.buf t') p
                  = Mem.get (Subprocess.buf t) p)
    /\ (rv = 0 \/ rv = -1)
    /\ (rv = 0 ->
        Mem.get (Subprocess.buf t') (Subprocess.bytes_consumed t') = x00)
    /\ (forallb Subprocess.is_data (Subprocess.incoming o) = true -> rv = 0).
Proof.
  intros Hty Hsize Hsz.
  unfold Subprocess.process_target_output. rewrite Hty.
  destruct (Subprocess.size t =? 0) eqn:E0;
    [apply Z.eqb_eq in E0; lia|].
  rewrite PipeFacts.size_t_small by lia.
  destruct (PipeFacts.read_loop_spec (Z.to_nat (Subprocess.size t - 1))
              (Subprocess.set_bytes_consumed 0 t) (Subprocess.size t - 1)
              (Subprocess.close (snd (Subprocess._pipefd t)) o))
    as (rv & t' & o' & -> & Hcl & _ & Hty' & _ & Hpi & Hbs & Hcons
        & Hframe & Hdata & Hrv & Hall);
    cbn [Subprocess.bytes_consumed Subprocess.set_bytes_consumed
         Subprocess.buf]; try lia.
  cbn [Subprocess.bytes_consumed Subprocess.set_bytes_consumed
       Subprocess.buf Subprocess.type Subprocess._pipefd Subprocess.close
       Subprocess.closed Subprocess.incoming] in *.
  rewrite Hty', Hty.
  eexists _, _, _. split; [reflexivity|].
  assert (Hpi' : Subprocess._pipefd
                   (if rv =? 0
                    then Subprocess.set_buf
                           (Mem.memcpy (Subprocess.buf t')
                              (Subprocess.bytes_consumed t') [x00] 1) t'
                    else t') = Subprocess._pipefd t)
    by (destruct (rv =? 0); exact Hpi).
  rewrite Hpi'.
  cbn [Subprocess.close Subprocess.closed].
  rewrite Hcl, <- app_assoc.
  split; [reflexivity|].
  destruct Hrv as [-> | ->]; cbn [Z.eqb Subprocess.buf Subprocess.set_buf
                                  Subprocess.bytes_consumed].
  - rewrite MemFacts.memcpy_size.
    split; [exact Hbs|]. split; [lia|]. split; [|split; [|split; [|split]]].
    + intros j Hj. rewrite ClampFacts.get_memcpy_outside by lia.
      specialize (Hdata j ltac:(lia)). exact Hdata.
    + intros p Hp. rewrite ClampFacts.get_memcpy_outside by lia.
      apply Hframe. lia.
    + now left.
    + intros _. rewrite MemFacts.get_memcpy by lia.
      destruct (Subprocess.bytes_consumed t' <=? Subprocess.bytes_consumed t')
        eqn:E1; [|apply Z.leb_gt in E1; lia].
      destruct (Subprocess.bytes_consumed t'
                <? Subprocess.bytes_consumed t' + 1) eqn:E2;
        [|apply Z.ltb_ge in E2; lia].
      cbn [andb]. rewrite Z.sub_diag. reflexivity.
    + intros _. reflexivity.
  - split; [exact Hbs|]. split; [lia|]. split; [|split; [|split; [|split]]].
    + intros j Hj. specialize (Hdata j ltac:(lia)). exact Hdata.
    + intros p Hp. apply Hframe. lia.
    + now right.
    + discriminate.
    + exact Hall.
Qed.

(** The child writes [hello world] into a buffer of 8 bytes that lies
    in an object of 16. *)
Lemma process_target_output_terminates_string_witness :
  exists rv t' o',
    Subprocess.process_target_output
      (Samples.target Subprocess.TARGET_BUFFER_NULL_TERMINATED "" 8)
      Samples.pipe
    = Some (rv, t', o')
    /\ rv = 0
    /\ Mem.get (Subprocess.buf t') (Subprocess.bytes_consumed t') = x00
    /\ Mem.get (Subprocess.buf t') 8 = "x"%byte.
Proof.
  destruct (process_target_output_terminates_string
              (Samples.target Subprocess.TARGET_BUFFER_NULL_TERMINATED "" 8)
              Samples.pipe eq_refl ltac:(split; by_computation)
              ltac:(by_computation))
    as (rv & t' & o' & Hrun & _ & _ & _ & _ & Hframe & _ & Hnul & Hall).
  exists rv, t', o'. split; [exact Hrun|].
  assert (Hrv : rv = 0).
  { apply Hall. reflexivity. }
  split; [exact Hrv|]. split; [exact (Hnul Hrv)|].
  rewrite (Hframe 8) by by_computation. by_computation.
Defined.


(** ** The display functions *)

(** [VbDisplayScreen] remembers the screen that was asked for, whatever
    the firmware made of it: after a call for a screen, also after one
    that returned an error, a call for the same screen without [force]
    returns [VB2_SUCCESS] and does nothing, in particular it does not
    call [VbExDisplayScreen] again. *)
Theorem VbDisplayScreen_skips_shown_screen
        {C X : Type} (F : Display.Firmware C X)
        (screen force data data' : Z) (s : Display.machine C X) :
  let s1 := snd (Display.VbDisplayScreen F screen force data s) in
  Display.disp_current_screen s1 = screen
  /\ Display.VbDisplayScreen F screen 0 data' s1
     = (Display.VB2_SUCCESS F, s1).
Proof.
  cbv zeta.
  assert (Hscreen :
    Display.disp_current_screen
      (snd (Display.VbDisplayScreen F screen force data s)) = screen).
  { unfold Display.VbDisplayScreen.
    destruct ((Display.disp_current_screen s =? screen) && (force =? 0))
      eqn:E.
    - apply andb_true_iff in E. destruct E as [E _].
      now apply Z.eqb_eq in E.
    - cbn [Display.set_screen Display.ctx Display.firmware].
      destruct (Display.VbExDisplayScreen F _ _ _ _). reflexivity. }
  split; [exact Hscreen|].
  unfold Display.VbDisplayScreen at 1.
  rewrite Hscreen, Z.eqb_refl. reflexivity.
Qed.

(** A firmware whose display fails: the second call for screen 5
    returns [VB2_SUCCESS], and the screen was asked of the firmware
    once. *)
Example failed_screen_is_not_drawn_again :
  let F := Samples.firmware 3 1 in
  let s0 := Display.loaded F (Samples.context_at 0) 0 in
  let r1 := Display.VbDisplayScreen F 5 0 0 s0 in
  let r2 := Display.VbDisplayScreen F 5 0 0 (snd r1) in
  fst r1 = 1 /\ fst r2 = 0
  /\ Display.calls (snd r2) = [Display.Call_VbExDisplayScreen 5 0 0].
Proof. repeat split. Qed.

(** The index of the menu outlives a change of screen: after
    [VbDisplayScreen] for a screen, [VbDisplayMenu] for the same screen
    and the index that was selected last, without [force], returns
    [VB2_SUCCESS] and draws no menu. *)
Theorem VbDisplayMenu_after_screen_draws_nothing
        {C X : Type} (F : Display.Firmware C X)
        (screen force data disabled_idx_mask : Z)
        (s : Display.machine C X) :
  let s1 := snd (Display.VbDisplayScreen F screen force data s) in
  Display.VbDisplayMenu F screen 0 (Display.disp_current_index s)
                        disabled_idx_mask s1
  = (Display.VB2_SUCCESS F, s1).
Proof.
  cbv zeta.
  assert (Hs1 :
    Display.disp_current_screen
      (snd (Display.VbDisplayScreen F screen force data s)) = screen
    /\ Display.disp_current_index
         (snd (Display.VbDisplayScreen F screen force data s))
       = Display.disp_current_index s).
  { unfold Display.VbDisplayScreen.
    destruct ((Display.disp_current_screen s =? screen) && (force =? 0))
      eqn:E.
    - apply andb_true_iff in E. destruct E as [E _].
      apply Z.eqb_eq in E. now split.
    - cbn [Display.set_screen Display.ctx Display.firmware].
      destruct (Display.VbExDisplayScreen F _ _ _ _). now split. }
  destruct Hs1 as [Hscreen Hindex].
  unfold Display.VbDisplayMenu.
  rewrite Hscreen, Hindex, !Z.eqb_refl. reflexivity.
Qed.

Module LocaleFacts.

Lemma u32_small z : 0 <= z < 2 ^ 32 -> u32 z = z.
Proof. intros Hz. unfold u32. now apply Z.mod_small. Qed.

End LocaleFacts.

(** The arrow keys undo each other: when the localization count is
    known and the localization last saved lies below it, what
    [VbCheckDisplayKey] stores for Left or Down after what it stores
    for Right or Up is the localization it started from, and the other
    way round. *)
Theorem next_locale_back_and_forth
        {C X : Type} (F : Display.Firmware C X) (status count loc : Z) :
  status = Display.VB2_SUCCESS F ->
  0 <= loc < count -> count < 2 ^ 32 ->
  Display.next_locale F false status count
    (Display.next_locale F true status count loc) = loc
  /\ Display.next_locale F true status count
       (Display.next_locale F false status count loc) = loc.
Proof.
  intros -> Hloc Hcount. unfold Display.next_locale.
  rewrite Z.eqb_refl. cbn [negb].
  rewrite (LocaleFacts.u32_small (count - 1)) by lia.
  split.
  - destruct (loc <? count - 1) eqn:E.
    + apply Z.ltb_lt in E.
      rewrite (LocaleFacts.u32_small (loc + 1)) by lia.
      destruct (loc + 1 >? 0) eqn:E'.
      * rewrite LocaleFacts.u32_small by lia. lia.
      * rewrite Z.gtb_ltb in E'. apply Z.ltb_ge in E'. lia.
    + apply Z.ltb_ge in E. cbn. lia.
  - destruct (loc >? 0) eqn:E.
    + rewrite Z.gtb_ltb in E. apply Z.ltb_lt in E.
      rewrite (LocaleFacts.u32_small (loc - 1)) by lia.
      destruct (loc - 1 <? count - 1) eqn:E'.
      * rewrite LocaleFacts.u32_small by lia. lia.
      * apply Z.ltb_ge in E'. lia.
    + rewrite Z.gtb_ltb in E. apply Z.ltb_ge in E.
      destruct (count - 1 <? count - 1) eqn:E'.
      * apply Z.ltb_lt in E'. lia.
      * lia.
Qed.

(** Three localizations: from the last one Right leads to the first,
    and Left leads back. *)
Lemma next_locale_back_and_forth_witness :
  let F := Samples.firmware 3 0 in
  Display.next_locale F true 0 3 2 = 0
  /\ Display.next_locale F false 0 3 (Display.next_locale F true 0 3 2) = 2.
Proof.
  intros F. split; [reflexivity|].
  apply (next_locale_back_and_forth F 0 3 2); [reflexivity|lia|lia].
Defined.

(** The localization that an arrow key stores.  It is 0 when the count
    cannot be had.  For Right and Up it lies below the count, if there
    is any localization; for Left and Down it does so when the
    localization last saved did not exceed the count.  When the
    firmware reports a count of 0, Right and Up count on without
    bound. *)
Theorem next_locale_range
        {C X : Type} (F : Display.Firmware C X)
        (forward : bool) (status count loc : Z) :
  0 <= loc < 2 ^ 32 -> 0 <= count < 2 ^ 32 ->
  (status <> Display.VB2_SUCCESS F ->
   Display.next_locale F forward status count loc = 0)
  /\ (status = Display.VB2_SUCCESS F ->
      (0 < count ->
       0 <= Display.next_locale F true status count loc < count)
      /\ (0 < count -> loc <= count ->
          0 <= Display.next_locale F false status count loc < count)
      /\ (count = 0 -> loc < 2 ^ 32 - 1 ->
          Display.next_locale F true status count loc = loc + 1)).
Proof.
  intros Hloc Hcount. unfold Display.next_locale. split.
  - intros Hs.
    destruct (Display.VB2_SUCCESS F =? status) eqn:E;
      [apply Z.eqb_eq in E; congruence|reflexivity].
  - intros ->. rewrite Z.eqb_refl. cbn [negb].
    split; [|split].
    + intros Hpos. rewrite (LocaleFacts.u32_small (count - 1)) by lia.
      destruct (loc <? count - 1) eqn:E; [|lia].
      apply Z.ltb_lt in E. rewrite LocaleFacts.u32_small by lia. lia.
    + intros Hpos Hle. rewrite (LocaleFacts.u32_small (count - 1)) by lia.
      destruct (loc >? 0) eqn:E; [|lia].
      rewrite Z.gtb_ltb in E. apply Z.ltb_lt in E.
      rewrite LocaleFacts.u32_small by lia. lia.
    + intros -> Hmax. change (u32 (0 - 1)) with (2 ^ 32 - 1).
      destruct (loc <? 2 ^ 32 - 1) eqn:E; [|apply Z.ltb_ge in E; lia].
      apply LocaleFacts.u32_small. lia.
Qed.

(** Three localizations, and none. *)
Lemma next_locale_range_witness :
  let F := Samples.firmware 3 0 in
  Display.next_locale F true 65536 3 1 = 0
  /\ 0 <= Display.next_locale F true 0 3 7 < 3
  /\ Display.next_locale F true 0 0 7 = 8.
Proof.
  intros F.
  destruct (next_locale_range F true 65536 3 1 ltac:(lia) ltac:(lia))
    as (Hfail & _).
  destruct (next_locale_range F true 0 3 7 ltac:(lia) ltac:(lia))
    as (_ & Hok).
  destruct (next_locale_range F true 0 0 7 ltac:(lia) ltac:(lia))
    as (_ & Hnone).
  split; [apply Hfail; discriminate|]. split.
  - apply Hok; [reflexivity|lia].
  - apply Hnone; [reflexivity|reflexivity|lia].
Defined.

Module HexFacts.
Import Display.

Lemma hex_value_trans k :
  0 <= k < 16 -> hex_value (char_at trans k) = Some k.
Proof.
  intros Hk.
  assert (Hcases : k = 0 \/ k = 1 \/ k = 2 \/ k = 3 \/ k = 4 \/ k = 5
                   \/ k = 6 \/ k = 7 \/ k = 8 \/ k = 9 \/ k = 10 \/ k = 11
                   \/ k = 12 \/ k = 13 \/ k = 14 \/ k = 15) by lia.
  repeat (destruct Hcases as [-> | Hcases]; [reflexivity|]).
  subst k. reflexivity.
Qed.

Lemma Uint8ToString_digits val :
  0 <= val < 256 ->
  exists hi lo,
    Uint8ToString val = String hi (String lo EmptyString)
    /\ hex_value hi = Some (val / 16)
    /\ hex_value lo = Some (val mod 16).
Proof.
  intros Hval. unfold Uint8ToString.
  eexists _, _. split; [reflexivity|].
  rewrite Z.shiftr_div_pow2 by lia.
  change 15 with (Z.ones 4). rewrite Z.land_ones by lia.
  change (2 ^ 4) with 16.
  split; apply hex_value_trans.
  - split; [apply Z.div_pos; lia|].
    apply Z.div_lt_upper_bound; lia.
  - apply Z.mod_pos_bound. lia.
Qed.

Lemma hex_of_length digest n : forall i,
  String.length (hex_of digest i n) = (2 * n)%nat.
Proof.
  induction n as [|n IH]; intros i; cbn [hex_of]; [reflexivity|].
  unfold Uint8ToString. cbn [String.append String.length].
  rewrite IH. lia.
Qed.

Lemma hex_of_digits digest n : forall i j,
  (j < n)%nat ->
  exists hi lo,
    String.get (2 * j) (hex_of digest i n) = Some hi
    /\ String.get (2 * j + 1) (hex_of digest i n) = Some lo
    /\ hex_value hi = Some (Mem.load8 digest (i + Z.of_nat j) / 16)
    /\ hex_value lo = Some (Mem.load8 digest (i + Z.of_nat j) mod 16).
Proof.
  induction n as [|n IH]; intros i j Hj; [lia|].
  cbn [hex_of].
  destruct (Uint8ToString_digits (Mem.load8 digest i)
              (MemFacts.load8_range digest i))
    as (hi & lo & -> & Hhi & Hlo).
  cbn [String.append].
  destruct j as [|j].
  - exists hi, lo. cbn [Nat.mul Nat.add String.get].
    rewrite Z.add_0_r. repeat split; assumption.
  - destruct (IH (i + 1) j ltac:(lia)) as (hi' & lo' & G1 & G2 & V1 & V2).
    exists hi', lo'.
    replace (2 * S j)%nat with (S (S (2 * j))) by lia.
    replace (S (S (2 * j)) + 1)%nat with (S (S (2 * j + 1))) by lia.
    cbn [String.get].
    replace (i + Z.of_nat (S j)) with (i + 1 + Z.of_nat j) by lia.
    repeat split; assumption.
Qed.

End HexFacts.

(** [FillInSha1Sum] writes the digest of the key data in hexadecimal:
    the string has two characters for each byte of the digest, and the
    two characters for a byte are the digits, of [0123456789abcdef], of
    its upper and of its lower half. *)
Theorem FillInSha1Sum_writes_hex_digits
        {C X : Type} (F : Display.Firmware C X) (key : Mem.mem) (i : Z) :
  0 <= i < Display.VB2_SHA1_DIGEST_SIZE F ->
  let digest :=
    Display.vb2_digest_buffer F
      (Mem.sub key (Vb2.key_offset key 0) (Vb2.key_size key 0)) in
  let sum := Display.FillInSha1Sum F key in
  Z.of_nat (String.length sum) = 2 * Display.VB2_SHA1_DIGEST_SIZE F
  /\ exists hi lo,
      String.get (Z.to_nat (2 * i)) sum = Some hi
      /\ String.get (Z.to_nat (2 * i + 1)) sum = Some lo
      /\ Display.hex_value hi = Some (Mem.load8 digest i / 16)
      /\ Display.hex_value lo = Some (Mem.load8 digest i mod 16).
Proof.
  intros Hi digest sum. subst sum. unfold Display.FillInSha1Sum.
  fold digest. split.
  - rewrite HexFacts.hex_of_length. lia.
  - destruct (HexFacts.hex_of_digits digest
                (Z.to_nat (Display.VB2_SHA1_DIGEST_SIZE F)) 0 (Z.to_nat i)
                ltac:(lia))
      as (hi & lo & G1 & G2 & V1 & V2).
    exists hi, lo.
    replace (Z.to_nat (2 * i)) with (2 * Z.to_nat i)%nat by lia.
    replace (Z.to_nat (2 * i + 1)) with (2 * Z.to_nat i + 1)%nat by lia.
    replace (0 + Z.of_nat (Z.to_nat i)) with i in V1, V2 by lia.
    repeat split; assumption.
Qed.

(** The key whose data starts with [0123]: the digest of the example
    firmware starts with the byte 0x30, which is written as [30]. *)
Lemma FillInSha1Sum_writes_hex_digits_witness :
  let sum := Display.FillInSha1Sum (Samples.firmware 3 0)
               Samples.packed_key in
  Z.of_nat (String.length sum) = 40
  /\ exists hi lo,
      String.get 0 sum = Some hi /\ String.get 1 sum = Some lo
      /\ Display.hex_value hi = Some 3 /\ Display.hex_value lo = Some 0.
Proof.
  exact (FillInSha1Sum_writes_hex_digits (Samples.firmware 3 0)
           Samples.packed_key 0 ltac:(split; [lia|reflexivity])).
Defined.


(** ** The command line of kernel_utility *)

Module ToolFacts.
Import KernelUtility KernelTool.

(** The options that [CheckOptions] accepts name one mode. *)
Lemma CheckOptions_one_mode T m :
  fst (CheckOptions T m) = true ->
  is_describe_ m = true /\ is_generate_ m = false /\ is_verify_ m = false
  \/ is_describe_ m = false /\ is_generate_ m = true /\ is_verify_ m = false
  \/ is_describe_ m = false /\ is_generate_ m = false /\ is_verify_ m = true.
Proof.
  unfold CheckOptions.
  destruct (is_describe_ m), (is_generate_ m), (is_verify_ m);
    cbn [negb andb orb fst]; intros Hok; try discriminate Hok; tauto.
Qed.

Lemma parse_result_checked T found : forall m,
  fst (fst (ParseCmdLineOptions T found m)) = true ->
  fst (CheckOptions T (snd (fst (ParseCmdLineOptions T found m)))) = true.
Proof.
  induction found as [|[i optarg] found IH]; intros m.
  - cbn [ParseCmdLineOptions].
    destruct (CheckOptions T m) as [ok said] eqn:E.
    cbn. rewrite E. cbn. auto.
  - cbn [ParseCmdLineOptions].
    destruct i; try apply IH; try discriminate;
      destruct (strtol T optarg) as [v e];
      (destruct (not_a_number optarg e); [discriminate|apply IH]).
Qed.

Lemma CheckOptions_says_cerr T m :
  forallb is_cerr (snd (CheckOptions T m)) = true.
Proof.
  unfold CheckOptions.
  repeat match goal with
         | |- context [if ?b then _ else _] => destruct b
         end; reflexivity.
Qed.

Lemma parse_says_cerr T found : forall m,
  forallb is_cerr (snd (ParseCmdLineOptions T found m)) = true.
Proof.
  induction found as [|[i optarg] found IH]; intros m.
  - cbn [ParseCmdLineOptions].
    pose proof (CheckOptions_says_cerr T m) as Hc.
    destruct (CheckOptions T m) as [ok said]. exact Hc.
  - cbn [ParseCmdLineOptions].
    destruct i; try apply IH; try reflexivity;
      destruct (strtol T optarg) as [v e];
      (destruct (not_a_number optarg e); [reflexivity|apply IH]).
Qed.

Lemma usage_algorithms_cerr T n : forall i,
  forallb is_cerr (usage_algorithms T i n) = true.
Proof.
  induction n as [|n IH]; intros i; cbn; [reflexivity|apply IH].
Qed.

Lemma PrintUsage_cerr T : forallb is_cerr (PrintUsage T) = true.
Proof.
  unfold PrintUsage. rewrite !forallb_app, usage_algorithms_cerr.
  reflexivity.
Qed.

Lemma cerr_is_no_write l a :
  forallb is_cerr l = true -> In a l -> is_write a = false.
Proof.
  intros Hall Hin. rewrite forallb_forall in Hall.
  specialize (Hall a Hin). destruct a; try discriminate Hall; reflexivity.
Qed.

(** When [main] calls [WriteKernelImage]. *)
Lemma main_write_inv
        (T : Tool) (is_subkey_out0 : bool)
        (found : list (option_value * string))
        (file : string) (image : KernelImage)
        (only_vblock subkey_out : bool) :
  In (Call_WriteKernelImage file image only_vblock subkey_out)
     (snd (main T is_subkey_out0 found)) ->
  let parsed :=
    ParseCmdLineOptions T found
      (KernelTool.KernelUtility is_subkey_out0) in
  let ku := snd (fst parsed) in
  let generated :=
    GenerateSignedImage (library T)
      (generate_options ku) in
  fst (fst parsed) = true
  /\ is_generate_ ku = true
  /\ returned generated = true
  /\ image = image_ generated
  /\ file = out_file_ ku
  /\ only_vblock = is_only_vblock_ ku
  /\ subkey_out = is_subkey_out_ ku
  /\ fst (main T is_subkey_out0 found) = 0.
Proof.
  cbv zeta. unfold main.
  pose proof (parse_says_cerr T found
                (KernelTool.KernelUtility is_subkey_out0)) as Hsaid.
  pose proof (parse_result_checked T found
                (KernelTool.KernelUtility is_subkey_out0)) as Hchk.
  destruct (ParseCmdLineOptions T found _) as [[ok ku] said].
  cbn [fst snd] in *.
  assert (Hno : forall l,
             forallb is_cerr l = true ->
             ~ In (Call_WriteKernelImage file image only_vblock
                     subkey_out) l).
  { intros l Hl Hin.
    pose proof (cerr_is_no_write l _ Hl Hin) as Hc.
    discriminate Hc. }
  destruct ok; cbn [negb fst snd].
  2:{ intros Hin. apply in_app_or in Hin. destruct Hin as [Hin|Hin].
      - now apply Hno in Hin.
      - apply Hno in Hin; [contradiction|apply PrintUsage_cerr]. }
  destruct (CheckOptions_one_mode T ku (Hchk eq_refl))
    as [(Hd & Hg & Hv) | [(Hd & Hg & Hv) | (Hd & Hg & Hv)]];
    rewrite ?Hd, ?Hg, ?Hv.
  - cbn [fst snd]. intros Hin. apply in_app_or in Hin.
    destruct Hin as [Hin|Hin]; [now apply Hno in Hin|].
    unfold DescribeSignedImage in Hin.
    destruct (ReadKernelImage T _); cbn in Hin;
      destruct Hin as [Hin|[]]; discriminate Hin.
  - destruct (returned _) eqn:Er; cbn [negb fst snd].
    + intros Hin. apply in_app_or in Hin. destruct Hin as [Hin|Hin].
      * apply in_app_or in Hin. destruct Hin as [Hin|Hin];
          [now apply Hno in Hin|].
        apply in_map_iff in Hin. destruct Hin as (e & He & _).
        discriminate He.
      * unfold OutputSignedImage in Hin.
        apply in_app_or in Hin. destruct Hin as [Hin|Hin].
        -- destruct Hin as [Hin|[]]. injection Hin as <- <- <- <-.
           repeat split; reflexivity.
        -- destruct (negb _); [|destruct Hin].
           apply Hno in Hin; [contradiction|reflexivity].
    + intros Hin. apply in_app_or in Hin. destruct Hin as [Hin|Hin];
        [now apply Hno in Hin|].
      apply in_map_iff in Hin. destruct Hin as (e & He & _).
      discriminate He.
  - unfold VerifySignedImage.
    destruct (RSAPublicKeyFromFile T _) as [key|];
      [destruct (ReadKernelImage T _) as [im|];
       [destruct (_ =? 0)|]|];
      cbn [fst snd]; intros Hin;
      (apply in_app_or in Hin; destruct Hin as [Hin|Hin];
       [now apply Hno in Hin|]);
      cbn in Hin;
      repeat (destruct Hin as [Hin|Hin]; [discriminate Hin|]);
      destruct Hin.
Qed.


Lemma parse_keeps_subkey_out T found : forall m,
  ~ In OPT_SUBKEY_OUT (map fst found) ->
  is_subkey_out_ (snd (fst (ParseCmdLineOptions T found m)))
  = is_subkey_out_ m.
Proof.
  induction found as [|[i optarg] found IH]; intros m Hno.
  - cbn [ParseCmdLineOptions]. destruct (CheckOptions T m). reflexivity.
  - cbn [map fst In] in Hno. cbn [ParseCmdLineOptions].
    assert (Hrest : ~ In OPT_SUBKEY_OUT (map fst found)) by tauto.
    destruct i; try (rewrite IH by exact Hrest; reflexivity);
      try reflexivity; try (exfalso; apply Hno; left; reflexivity);
      destruct (strtol T optarg) as [v e];
      (destruct (not_a_number optarg e);
       [reflexivity|rewrite IH by exact Hrest; reflexivity]).
Qed.

End ToolFacts.

(** One option that [getopt_long] does not know, or one number that is
    none, anywhere on the command line, and [main] prints the usage and
    returns -1: it does nothing but write to [cerr]. *)
Theorem main_stops_at_bad_option
        (T : KernelTool.Tool) (is_subkey_out0 : bool)
        (found : list (KernelTool.option_value * string)) :
  existsb (KernelTool.stops T) found = true ->
  fst (KernelTool.main T is_subkey_out0 found) = -1
  /\ forallb KernelTool.is_cerr (snd (KernelTool.main T is_subkey_out0 found))
     = true.
Proof.
  intros Hbad.
  assert (Hparse : forall m,
             fst (fst (KernelTool.ParseCmdLineOptions T found m)) = false).
  { induction found as [|[i optarg] found IH]; intros m;
      [discriminate Hbad|].
    cbn [existsb] in Hbad. cbn [KernelTool.ParseCmdLineOptions].
    unfold KernelTool.stops in Hbad at 1. cbn [fst snd] in Hbad.
    destruct i; cbn [orb] in Hbad; try (apply IH; exact Hbad);
      try reflexivity;
      destruct (KernelTool.strtol T optarg) as [v e]; cbn [snd] in Hbad;
      (destruct (KernelTool.not_a_number optarg e);
       [reflexivity|apply IH; exact Hbad]). }
  unfold KernelTool.main.
  pose proof (Hparse (KernelTool.KernelUtility is_subkey_out0)) as Hok.
  pose proof (ToolFacts.parse_says_cerr T found
                (KernelTool.KernelUtility is_subkey_out0)) as Hsaid.
  destruct (KernelTool.ParseCmdLineOptions T found _) as [[ok ku] said].
  cbn [fst snd] in Hok, Hsaid. subst ok. cbn [negb fst snd].
  split; [reflexivity|].
  rewrite forallb_app, Hsaid, ToolFacts.PrintUsage_cerr. reflexivity.
Qed.

(** [--verify --in signed.bin --padding 4k] *)
Lemma main_stops_at_bad_option_witness :
  fst (KernelTool.main Samples.tool false
         [(KernelTool.OPT_VERIFY, EmptyString);
          (KernelTool.OPT_IN, "signed.bin"%string);
          (KernelTool.OPT_PADDING, "4k"%string)]) = -1
  /\ forallb KernelTool.is_cerr
       (snd (KernelTool.main Samples.tool false
               [(KernelTool.OPT_VERIFY, EmptyString);
                (KernelTool.OPT_IN, "signed.bin"%string);
                (KernelTool.OPT_PADDING, "4k"%string)])) = true.
Proof.
  apply (main_stops_at_bad_option Samples.tool false
           [(KernelTool.OPT_VERIFY, EmptyString);
            (KernelTool.OPT_IN, "signed.bin"%string);
            (KernelTool.OPT_PADDING, "4k"%string)]).
  reflexivity.
Defined.

(** What [main] returns.  It returns -1 when the command line is turned
    down, and when an image is to be generated and
    [GenerateSignedImage] returns false.  In every other case it
    returns 0: when an image is described, when one was generated
    (whether or not it could be written), and when one is verified,
    whether or not the verification succeeds. *)
Theorem main_exit_status
        (T : KernelTool.Tool) (is_subkey_out0 : bool)
        (found : list (KernelTool.option_value * string)) :
  let parsed :=
    KernelTool.ParseCmdLineOptions T found
      (KernelTool.KernelUtility is_subkey_out0) in
  let ok := fst (fst parsed) in
  let ku := snd (fst parsed) in
  let generated :=
    KernelUtility.GenerateSignedImage (KernelTool.library T)
      (KernelTool.generate_options ku) in
  fst (KernelTool.main T is_subkey_out0 found)
  = (if negb ok then -1
     else if KernelTool.is_generate_ ku
             && negb (KernelUtility.returned generated)
          then -1 else 0).
Proof.
  cbv zeta. unfold KernelTool.main.
  pose proof (ToolFacts.parse_result_checked T found
                (KernelTool.KernelUtility is_subkey_out0)) as Hchk.
  destruct (KernelTool.ParseCmdLineOptions T found _) as [[ok ku] said].
  cbn [fst snd] in *.
  destruct ok; cbn [negb]; [|reflexivity].
  destruct (ToolFacts.CheckOptions_one_mode T ku (Hchk eq_refl))
    as [(Hd & Hg & Hv) | [(Hd & Hg & Hv) | (Hd & Hg & Hv)]];
    rewrite ?Hd, ?Hg, ?Hv; cbn [andb].
  - reflexivity.
  - destruct (KernelUtility.returned _); reflexivity.
  - destruct (KernelTool.VerifySignedImage T ku). reflexivity.
Qed.

(** The verification of [signed.bin] fails, and [main] returns 0. *)
Example failed_verification_returns_0 :
  fst (KernelTool.main Samples.tool false Samples.verify_command) = 0
  /\ In (KernelTool.Cerr "FAILURE.\n")
        (snd (KernelTool.main Samples.tool false Samples.verify_command)).
Proof. vm_compute. split; [reflexivity|tauto]. Qed.

(** [main] writes an image only after it has generated one:
    [WriteKernelImage] is called only when the command line was
    accepted in the mode that generates and [GenerateSignedImage] has
    returned true, and it is called with the image that was generated
    and the name of the output file; [main] then returns 0. *)
Theorem main_writes_generated_image
        (T : KernelTool.Tool) (is_subkey_out0 : bool)
        (found : list (KernelTool.option_value * string))
        (file : string) (image : KernelUtility.KernelImage)
        (only_vblock subkey_out : bool) :
  In (KernelTool.Call_WriteKernelImage file image only_vblock subkey_out)
     (snd (KernelTool.main T is_subkey_out0 found)) ->
  let parsed :=
    KernelTool.ParseCmdLineOptions T found
      (KernelTool.KernelUtility is_subkey_out0) in
  let ku := snd (fst parsed) in
  let generated :=
    KernelUtility.GenerateSignedImage (KernelTool.library T)
      (KernelTool.generate_options ku) in
  fst (fst parsed) = true
  /\ KernelTool.is_generate_ ku = true
  /\ KernelUtility.returned generated = true
  /\ image = KernelUtility.image_ generated
  /\ file = KernelTool.out_file_ ku
  /\ fst (KernelTool.main T is_subkey_out0 found) = 0.
Proof.
  intros Hin.
  destruct (ToolFacts.main_write_inv T is_subkey_out0 found file image
              only_vblock subkey_out Hin)
    as (H1 & H2 & H3 & H4 & H5 & _ & _ & H8).
  cbv zeta in *. repeat split; assumption.
Qed.

(** [--generate --subkey_in subkey.good ... --out out.bin]: the image is
    generated and written to [out.bin]. *)
Lemma main_writes_generated_image_witness :
  KernelTool.is_generate_
    (snd (fst (KernelTool.ParseCmdLineOptions Samples.tool
                 (Samples.generate_command "subkey.good")
                 (KernelTool.KernelUtility false)))) = true
  /\ fst (KernelTool.main Samples.tool false
            (Samples.generate_command "subkey.good")) = 0.
Proof.
  destruct (main_writes_generated_image Samples.tool false
              (Samples.generate_command "subkey.good") "out.bin"
              (KernelUtility.image_
                 (KernelUtility.GenerateSignedImage
                    (KernelTool.library Samples.tool)
                    (KernelTool.generate_options
                       (snd (fst (KernelTool.ParseCmdLineOptions Samples.tool
                                    (Samples.generate_command "subkey.good")
                                    (KernelTool.KernelUtility false)))))))
              false false)
    as (_ & Hgen & _ & _ & _ & Hstatus).
  - vm_compute. repeat (first [left; reflexivity | right]).
  - split; [exact Hgen|exact Hstatus].
Defined.

(** The constructor of [KernelUtility] gives [is_subkey_out_] no value,
    and only the option [--subkey_out] gives it one.  Without the
    option, whatever the member happens to hold is what
    [WriteKernelImage] is told; [--vblock] is passed on as given. *)
Theorem main_passes_uninitialised_subkey_out
        (T : KernelTool.Tool) (is_subkey_out0 : bool)
        (found : list (KernelTool.option_value * string))
        (file : string) (image : KernelUtility.KernelImage)
        (only_vblock subkey_out : bool) :
  ~ In KernelTool.OPT_SUBKEY_OUT (map fst found) ->
  In (KernelTool.Call_WriteKernelImage file image only_vblock subkey_out)
     (snd (KernelTool.main T is_subkey_out0 found)) ->
  subkey_out = is_subkey_out0.
Proof.
  intros Hno Hin.
  destruct (ToolFacts.main_write_inv T is_subkey_out0 found file image
              only_vblock subkey_out Hin)
    as (_ & _ & _ & _ & _ & _ & Hso & _).
  cbv zeta in Hso. rewrite Hso.
  apply (ToolFacts.parse_keeps_subkey_out T found
           (KernelTool.KernelUtility is_subkey_out0) Hno).
Qed.

(** The command line of the example has no [--subkey_out]: had the
    member held [true], the image would be written as a subkey
    header. *)
Lemma main_passes_uninitialised_subkey_out_witness :
  In (KernelTool.Call_WriteKernelImage "out.bin"
        (KernelUtility.image_
           (KernelUtility.GenerateSignedImage (Example.lib Example.files)
              (Example.generate "subkey.good")))
        false true)
     (snd (KernelTool.main Samples.tool true
             (Samples.generate_command "subkey.good")))
  /\ true = true.
Proof.
  assert (Hin : In (KernelTool.Call_WriteKernelImage "out.bin"
                      (KernelUtility.image_
                         (KernelUtility.GenerateSignedImage
                            (Example.lib Example.files)
                            (Example.generate "subkey.good")))
                      false true)
                   (snd (KernelTool.main Samples.tool true
                           (Samples.generate_command "subkey.good")))).
  { vm_compute. repeat (first [left; reflexivity | right]). }
  split; [exact Hin|].
  apply (main_passes_uninitialised_subkey_out Samples.tool true
           (Samples.generate_command "subkey.good") "out.bin"
           (KernelUtility.image_
              (KernelUtility.GenerateSignedImage (Example.lib Example.files)
                 (Example.generate "subkey.good")))
           false true).
  - cbn. intros H.
    repeat (destruct H as [H|H]; [discriminate H|]). exact H.
  - exact Hin.
Defined.

(** ** The flash command of futility *)

Module FlashFacts.
Import Flash.

Lemma count_app p l1 l2 :
  count p (l1 ++ l2) = (count p l1 + count p l2)%nat.
Proof. unfold count. rewrite filter_app, length_app. reflexivity. Qed.

Lemma count_none p l :
  (forall c, p c = true -> is_setup_call c = true) ->
  forallb (fun c => negb (is_setup_call c)) l = true ->
  count p l = 0%nat.
Proof.
  intros Hp. unfold count.
  induction l as [|c l IH]; cbn [forallb filter]; intros Hall;
    [reflexivity|].
  apply andb_true_iff in Hall. destruct Hall as [Hc Hl].
  destruct (p c) eqn:E; [|apply IH; exact Hl].
  rewrite (Hp c E) in Hc. discriminate Hc.
Qed.

Lemma get_ro_range_calls U cfg :
  forallb (fun c => negb (is_setup_call c)) (snd (get_ro_range U cfg)) = true.
Proof.
  unfold get_ro_range.
  destruct (flashrom_read_image U cfg _ _) as [rv data].
  destruct (negb (rv =? 0)); [reflexivity|].
  destruct (fmap_find_by_name_in U _ _ _); reflexivity.
Qed.

Lemma print_flash_size_calls U cfg :
  forallb (fun c => negb (is_setup_call c)) (snd (print_flash_size U cfg))
  = true.
Proof.
  unfold print_flash_size.
  destruct (flashrom_get_size U _ _) as [rv size].
  destruct (negb (rv =? 0)); reflexivity.
Qed.

Lemma print_flash_info_calls U cfg :
  forallb (fun c => negb (is_setup_call c)) (snd (print_flash_info U cfg))
  = true.
Proof.
  unfold print_flash_info.
  destruct (flashrom_get_info U _ _) as [rv [[[[vendor name] vid] pid] size]].
  destruct (negb (rv =? 0)); [reflexivity|].
  pose proof (get_ro_range_calls U cfg) as Hr.
  destruct (get_ro_range U cfg) as [[range cfg'] read]. cbn [snd] in Hr.
  destruct range as [[ro_start ro_len]|]; cbn [snd];
    rewrite !forallb_app, Hr; reflexivity.
Qed.

Lemma print_wp_status_calls U cfg ignore_hw :
  forallb (fun c => negb (is_setup_call c))
          (snd (print_wp_status U cfg ignore_hw)) = true.
Proof.
  unfold print_wp_status.
  pose proof (get_ro_range_calls U cfg) as Hr.
  destruct (get_ro_range U cfg) as [[range cfg'] read]. cbn [snd] in Hr.
  destruct range as [[ro_start ro_len]|]; [|exact Hr].
  destruct (flashrom_get_wp U _ _) as [rv [[wp_mode wp_start] wp_len]].
  destruct (negb (rv =? 0)); cbn [snd].
  - rewrite !forallb_app, Hr. reflexivity.
  - destruct ignore_hw; cbn [snd]; rewrite !forallb_app, Hr; reflexivity.
Qed.

Lemma set_flash_wp_calls U cfg enable :
  forallb (fun c => negb (is_setup_call c)) (snd (set_flash_wp U cfg enable))
  = true.
Proof.
  unfold set_flash_wp.
  assert (Hr : forallb (fun c => negb (is_setup_call c))
                 (snd (if enable then get_ro_range U cfg
                       else (Some (0, 0), cfg, []))) = true).
  { destruct enable; [apply get_ro_range_calls|reflexivity]. }
  destruct (if enable then get_ro_range U cfg else _)
    as [[range cfg'] read]. cbn [snd] in Hr.
  destruct range as [[wp_start wp_len]|]; [|exact Hr].
  destruct (negb (flashrom_set_wp U _ _ _ _ _ =? 0)); cbn [snd];
    rewrite !forallb_app, Hr; reflexivity.
Qed.

Lemma operations_calls U cfg f :
  forallb (fun c => negb (is_setup_call c)) (snd (operations U cfg f)) = true.
Proof.
  unfold operations.
  assert (H1 : forallb (fun c => negb (is_setup_call c))
                 (snd (if get_info f then print_flash_info U cfg
                       else (0, cfg, []))) = true).
  { destruct (get_info f); [apply print_flash_info_calls|reflexivity]. }
  destruct (if get_info f then _ else _) as [[ret1 cfg1] calls1].
  cbn [snd] in H1.
  assert (H2 : forallb (fun c => negb (is_setup_call c))
                 (snd (if (ret1 =? 0) && get_size f
                       then let '(r, c) := print_flash_size U cfg1 in
                            (r, calls1 ++ c)
                       else (ret1, calls1))) = true).
  { destruct ((ret1 =? 0) && get_size f); [|exact H1].
    pose proof (print_flash_size_calls U cfg1) as H.
    destruct (print_flash_size U cfg1) as [r c]. cbn [snd] in *.
    rewrite forallb_app, H1, H. reflexivity. }
  destruct (if (ret1 =? 0) && get_size f then _ else _) as [ret2 calls2].
  cbn [snd] in H2.
  assert (H3 : forallb (fun c => negb (is_setup_call c))
                 (snd (if (ret2 =? 0) && enable_wp f
                       then let '(r, cfg, c) := set_flash_wp U cfg1 true in
                            (r, cfg, calls2 ++ c)
                       else (ret2, cfg1, calls2))) = true).
  { destruct ((ret2 =? 0) && enable_wp f); [|exact H2].
    pose proof (set_flash_wp_calls U cfg1 true) as H.
    destruct (set_flash_wp U cfg1 true) as [[r cfg'] c]. cbn [snd] in *.
    rewrite forallb_app, H2, H. reflexivity. }
  destruct (if (ret2 =? 0) && enable_wp f then _ else _)
    as [[ret3 cfg3] calls3].
  cbn [snd] in H3.
  assert (H4 : forallb (fun c => negb (is_setup_call c))
                 (snd (if (ret3 =? 0) && disable_wp f
                       then let '(r, cfg, c) := set_flash_wp U cfg3 false in
                            (r, cfg, calls3 ++ c)
                       else (ret3, cfg3, calls3))) = true).
  { destruct ((ret3 =? 0) && disable_wp f); [|exact H3].
    pose proof (set_flash_wp_calls U cfg3 false) as H.
    destruct (set_flash_wp U cfg3 false) as [[r cfg'] c]. cbn [snd] in *.
    rewrite forallb_app, H3, H. reflexivity. }
  destruct (if (ret3 =? 0) && disable_wp f then _ else _)
    as [[ret4 cfg4] calls4].
  cbn [snd] in H4.
  destruct ((ret4 =? 0) && get_wp_status f); [|exact H4].
  pose proof (print_wp_status_calls U cfg4 (ignore_hw_wp f)) as H.
  destruct (print_wp_status U cfg4 (ignore_hw_wp f)) as [[r cfg'] c].
  cbn [snd] in *. rewrite forallb_app, H4, H. reflexivity.
Qed.

(** The two ways in which [setup_flash] ends when it is built with
    flashrom. *)
Lemma setup_flash_cases U cfg0 args update_needed :
  USE_FLASHROM U = true ->
  let s := setup_flash U cfg0 args update_needed in
  (setup_result s = 0
   /\ (exists cfg, setup_cfg s = Some cfg)
   /\ (exists calls name,
          setup_calls s = calls ++ [Call_prepare_servo_control name true]
          /\ count (is_servo_control true) calls = 0%nat)
   /\ count is_new_config (setup_calls s) = 1%nat
   /\ count is_delete_config (setup_calls s) = 0%nat
   /\ count (is_servo_control true) (setup_calls s) = 1%nat
   /\ count (is_servo_control false) (setup_calls s) = 0%nat)
  \/ (setup_result s = 1
      /\ setup_cfg s = None
      /\ setup_update_needed s = None
      /\ count is_new_config (setup_calls s) = 1%nat
      /\ count is_delete_config (setup_calls s)
         = match updater_new_config U with
           | Some _ => 1%nat
           | None => 0%nat
           end
      /\ count (is_servo_control true) (setup_calls s) = 0%nat
      /\ count (is_servo_control false) (setup_calls s) = 0%nat).
Proof.
  intros Hflashrom. cbv zeta. unfold setup_flash. rewrite Hflashrom.
  destruct (updater_new_config U) as [cfg|];
    [|right; repeat split; reflexivity].
  destruct (detect_servo args).
  - destruct (host_detect_servo U _) as [[servo|] name];
      [|right; repeat split; reflexivity].
    destruct (programmer args);
      destruct (updater_setup_config U cfg _) as [[rv needed] cfg'];
      (destruct (negb (rv =? 0));
       [right; repeat split; reflexivity|]);
      left; cbn [setup_result setup_cfg setup_calls];
      (split; [reflexivity|]); (split; [eexists; reflexivity|]);
      (split; [do 2 eexists; split; [reflexivity|reflexivity]|]);
      repeat split; reflexivity.
  - destruct (updater_setup_config U cfg _) as [[rv needed] cfg'].
    destruct (negb (rv =? 0)); [right; repeat split; reflexivity|].
    left; cbn [setup_result setup_cfg setup_calls].
    split; [reflexivity|]. split; [eexists; reflexivity|].
    split; [do 2 eexists; split; [reflexivity|reflexivity]|].
    repeat split; reflexivity.
Qed.

Lemma parse_return_quiet U argv0 l : forall args f value calls,
  parse_options U argv0 l args f = Return value calls ->
  existsb touches_hardware calls = false
  /\ forallb (fun c => negb (is_setup_call c)) calls = true.
Proof.
  induction l as [|o l IH]; intros args f value calls;
    cbn [parse_options]; [discriminate|].
  destruct (handle_flash_argument U args (opt o) (optarg o));
    [apply IH|].
  repeat match goal with
         | |- context [if ?b then _ else _] =>
             destruct b; [try apply IH|]
         end;
    intros H; injection H as <- <-; split; reflexivity.
Qed.

Lemma get_ro_range_in U cfg c :
  In c (snd (get_ro_range U cfg)) ->
  c = Call_flashrom_read_image [FMAP_RO_FMAP U]
  \/ c = Call_free_image
  \/ c = Says (Msg ERROR "Could not find WP_RO in the FMAP\n" [] []).
Proof.
  unfold get_ro_range.
  destruct (flashrom_read_image U cfg _ _) as [rv data].
  destruct (negb (rv =? 0)); [|destruct (fmap_find_by_name_in U _ _ _)];
    cbn; intuition auto.
Qed.

End FlashFacts.

(** [setup_flash], built with flashrom, does all or nothing.  When it
    returns 0, [*cfg] is a configuration, nothing was deleted, and
    switching the servo control on was the last thing it did.  When it
    returns 1, which is its only other result, [*cfg] is [NULL],
    [*update_needed] was not written, the servo control was left
    alone, and the configuration, if one was made, has been
    deleted. *)
Theorem setup_flash_all_or_nothing
        (U : Flash.Updater) (cfg0 : option Flash.updater_config)
        (args : Flash.updater_config_arguments) (update_needed : bool) :
  Flash.USE_FLASHROM U = true ->
  let s := Flash.setup_flash U cfg0 args update_needed in
  (Flash.setup_result s = 0
   /\ (exists cfg, Flash.setup_cfg s = Some cfg)
   /\ (exists calls name,
          Flash.setup_calls s
          = calls ++ [Flash.Call_prepare_servo_control name true]
          /\ Flash.count (Flash.is_servo_control true) calls = 0%nat)
   /\ Flash.count Flash.is_delete_config (Flash.setup_calls s) = 0%nat)
  \/ (Flash.setup_result s = 1
      /\ Flash.setup_cfg s = None
      /\ Flash.setup_update_needed s = None
      /\ Flash.count (Flash.is_servo_control true) (Flash.setup_calls s)
         = 0%nat
      /\ Flash.count Flash.is_delete_config (Flash.setup_calls s)
         = match Flash.updater_new_config U with
           | Some _ => 1%nat
           | None => 0%nat
           end).
Proof.
  intros Hflashrom.
  destruct (FlashFacts.setup_flash_cases U cfg0 args update_needed Hflashrom)
    as [(H1 & H2 & H3 & _ & H5 & _) | (H1 & H2 & H3 & _ & H5 & H6 & _)];
    cbv zeta in *; [left|right]; repeat split; assumption.
Qed.

(** The updater of the example refuses the options of the servo:
    [setup_flash] returns 1 and has deleted the configuration. *)
Lemma setup_flash_all_or_nothing_witness :
  Flash.setup_result
    (Flash.setup_flash (Samples.updater 1 (0, 0)) None
       {| Flash.programmer := None; Flash.detect_servo := true;
          Flash.verbosity := 0 |} false) = 1
  /\ Flash.setup_calls
       (Flash.setup_flash (Samples.updater 1 (0, 0)) None
          {| Flash.programmer := None; Flash.detect_servo := true;
             Flash.verbosity := 0 |} false)
     = [Flash.Call_updater_new_config; Flash.Call_host_detect_servo;
        Flash.Call_updater_setup_config;
        Flash.Says (Msg ERROR "Bad servo options\n" [] []);
        Flash.Call_updater_delete_config].
Proof.
  destruct (setup_flash_all_or_nothing (Samples.updater 1 (0, 0)) None
              {| Flash.programmer := None; Flash.detect_servo := true;
                 Flash.verbosity := 0 |} false eq_refl)
    as [(H & _) | (H & _)].
  - discriminate H.
  - split; [exact H|reflexivity].
Defined.

(** [do_flash] releases what it sets up.  When [updater_new_config]
    can make a configuration, every run of the command deletes as many
    configurations as it makes, and switches the servo control off as
    often as it switches it on, whatever the options are and whichever
    operation fails. *)
Theorem do_flash_releases_what_it_sets_up
        (U : Flash.Updater) (argv0 : string) (options : list Flash.found)
        (unexpected : bool) :
  Flash.updater_new_config U <> None ->
  let calls := snd (Flash.do_flash U argv0 options unexpected) in
  Flash.count Flash.is_new_config calls
  = Flash.count Flash.is_delete_config calls
  /\ Flash.count (Flash.is_servo_control true) calls
     = Flash.count (Flash.is_servo_control false) calls.
Proof.
  intros Hnew. cbv zeta. unfold Flash.do_flash.
  destruct (Flash.USE_FLASHROM U) eqn:Hflashrom; [|split; reflexivity].
  assert (Hp1 : forall c, Flash.is_new_config c = true ->
                          Flash.is_setup_call c = true)
    by (intros [] H; try discriminate H; reflexivity).
  assert (Hp2 : forall c, Flash.is_delete_config c = true ->
                          Flash.is_setup_call c = true)
    by (intros [] H; try discriminate H; reflexivity).
  assert (Hp3 : forall e c, Flash.is_servo_control e c = true ->
                            Flash.is_setup_call c = true)
    by (intros e [] H; try discriminate H; reflexivity).
  destruct (Flash.parse_options U argv0 options _ _) as [value calls|args f]
    eqn:Hparse.
  { destruct (FlashFacts.parse_return_quiet U argv0 options _ _ _ _ Hparse)
      as [_ Hq].
    cbn [snd].
    rewrite !(FlashFacts.count_none _ calls) by (eauto using Hp3).
    split; reflexivity. }
  destruct unexpected; [split; reflexivity|].
  do 3 match goal with
       | |- context [if ?b then _ else _] =>
           destruct b; [split; reflexivity|]
       end.
  destruct (FlashFacts.setup_flash_cases U None args false Hflashrom)
    as [(H1 & [cfg H2] & _ & H4 & H5 & H6 & H7)
       | (H1 & H2 & _ & H4 & H5 & H6 & H7)]; cbv zeta in *.
  - rewrite H1, H2. cbn [Z.eqb negb].
    pose proof (FlashFacts.operations_calls U cfg f) as Hops.
    destruct (Flash.operations U cfg f) as [[ret cfg'] calls].
    cbn [snd] in *. unfold Flash.teardown_flash. rewrite Hflashrom.
    rewrite !FlashFacts.count_app, H4, H5, H6, H7.
    rewrite !(FlashFacts.count_none _ calls) by (eauto using Hp3).
    split; reflexivity.
  - rewrite H1. cbn [Z.eqb negb snd].
    rewrite !FlashFacts.count_app, H4, H5, H6, H7.
    destruct (Flash.updater_new_config U); [|contradiction].
    split; reflexivity.
Qed.

(** Write protection cannot be switched on, as the flash chip refuses:
    the configuration is deleted and the servo control switched off
    all the same. *)
Lemma do_flash_releases_what_it_sets_up_witness :
  Flash.count Flash.is_new_config
    (snd (Flash.do_flash (Samples.updater 0 (0, 0)) "flash"
            [Samples.flag 1000; Samples.flag 101] false))
  = Flash.count Flash.is_delete_config
      (snd (Flash.do_flash (Samples.updater 0 (0, 0)) "flash"
              [Samples.flag 1000; Samples.flag 101] false))
  /\ Flash.count (Flash.is_servo_control true)
       (snd (Flash.do_flash (Samples.updater 0 (0, 0)) "flash"
               [Samples.flag 1000; Samples.flag 101] false))
     = Flash.count (Flash.is_servo_control false)
         (snd (Flash.do_flash (Samples.updater 0 (0, 0)) "flash"
                 [Samples.flag 1000; Samples.flag 101] false)).
Proof.
  apply (do_flash_releases_what_it_sets_up (Samples.updater 0 (0, 0))
           "flash" [Samples.flag 1000; Samples.flag 101] false).
  discriminate.
Defined.

(** [do_flash] checks its options before it touches anything.  It
    reaches the flash chip or the servo only when all the options were
    understood, no argument was left over, an operation was asked for,
    [--ignore-hw] came with [--wp-status] only, and [--wp-enable] and
    [--wp-disable] were not both given. *)
Theorem do_flash_checks_options_first
        (U : Flash.Updater) (argv0 : string) (options : list Flash.found)
        (unexpected : bool) :
  existsb Flash.touches_hardware
          (snd (Flash.do_flash U argv0 options unexpected)) = true ->
  exists args f,
    Flash.parse_options U argv0 options
      {| Flash.programmer := None; Flash.detect_servo := false;
         Flash.verbosity := 0 |}
      {| Flash.enable_wp := false; Flash.disable_wp := false;
         Flash.get_wp_status := false; Flash.ignore_hw_wp := false;
         Flash.get_size := false; Flash.get_info := false |}
    = Flash.Parsed args f
    /\ unexpected = false
    /\ (Flash.get_size f || Flash.get_info f || Flash.enable_wp f
        || Flash.disable_wp f || Flash.get_wp_status f) = true
    /\ (Flash.ignore_hw_wp f = true -> Flash.get_wp_status f = true)
    /\ (Flash.enable_wp f && Flash.disable_wp f) = false.
Proof.
  unfold Flash.do_flash.
  destruct (Flash.USE_FLASHROM U); [|discriminate].
  destruct (Flash.parse_options U argv0 options _ _) as [value calls|args f]
    eqn:Hparse.
  { destruct (FlashFacts.parse_return_quiet U argv0 options _ _ _ _ Hparse)
      as [Hq _].
    cbn [snd]. rewrite Hq. discriminate. }
  destruct unexpected; [discriminate|].
  destruct (Flash.get_size f) eqn:E1, (Flash.get_info f) eqn:E2,
    (Flash.enable_wp f) eqn:E3, (Flash.disable_wp f) eqn:E4,
    (Flash.get_wp_status f) eqn:E5, (Flash.ignore_hw_wp f) eqn:E6;
    cbn [negb andb orb snd existsb Flash.touches_hardware Flash.print_help];
    try discriminate;
    intros _; exists args, f; rewrite E1, E2, E3, E4, E5, E6;
    repeat split; auto; discriminate.
Qed.

(** [--wp-status]: the flash chip is read. *)
Lemma do_flash_checks_options_first_witness :
  exists args f,
    Flash.parse_options (Samples.updater 0 (0, 2097152)) "flash"
      [Samples.flag 115]
      {| Flash.programmer := None; Flash.detect_servo := false;
         Flash.verbosity := 0 |}
      {| Flash.enable_wp := false; Flash.disable_wp := false;
         Flash.get_wp_status := false; Flash.ignore_hw_wp := false;
         Flash.get_size := false; Flash.get_info := false |}
    = Flash.Parsed args f
    /\ false = false
    /\ (Flash.get_size f || Flash.get_info f || Flash.enable_wp f
        || Flash.disable_wp f || Flash.get_wp_status f) = true
    /\ (Flash.ignore_hw_wp f = true -> Flash.get_wp_status f = true)
    /\ (Flash.enable_wp f && Flash.disable_wp f) = false.
Proof.
  apply (do_flash_checks_options_first (Samples.updater 0 (0, 2097152))
           "flash" [Samples.flag 115] false).
  reflexivity.
Defined.

(** [set_flash_wp] switches the write protection on over no other
    range than the one that [get_ro_range] has read from the FMAP of
    the flash chip, and off with the range (0, 0).  When the range
    cannot be read, [flashrom_set_wp] is not called. *)
Theorem set_flash_wp_uses_ro_range
        (U : Flash.Updater) (cfg : Flash.updater_config)
        (enable e : bool) (wp_start wp_len : Z) :
  In (Flash.Call_flashrom_set_wp e wp_start wp_len)
     (snd (Flash.set_flash_wp U cfg enable)) ->
  e = enable
  /\ if enable
     then fst (fst (Flash.get_ro_range U cfg)) = Some (wp_start, wp_len)
     else wp_start = 0 /\ wp_len = 0.
Proof.
  unfold Flash.set_flash_wp. destruct enable.
  - pose proof (FlashFacts.get_ro_range_in U cfg
                  (Flash.Call_flashrom_set_wp e wp_start wp_len)) as Hread.
    destruct (Flash.get_ro_range U cfg) as [[range cfg'] read].
    cbn [fst snd] in *.
    assert (Hno : ~ In (Flash.Call_flashrom_set_wp e wp_start wp_len) read).
    { intros Hin. destruct (Hread Hin) as [H|[H|H]]; discriminate H. }
    destruct range as [[s l]|]; [|intros Hin; contradiction].
    destruct (negb (Flash.flashrom_set_wp U _ _ _ _ _ =? 0)); cbn [snd];
      intros Hin; apply in_app_or in Hin; destruct Hin as [Hin|Hin];
      try (cbn in Hin; destruct Hin as [Hin|[]]; discriminate Hin);
      (apply in_app_or in Hin; destruct Hin as [Hin|Hin];
       [contradiction|]);
      destruct Hin as [Hin|[]]; injection Hin as <- <- <-;
      split; reflexivity.
  - destruct (negb (Flash.flashrom_set_wp U _ _ _ _ _ =? 0)); cbn [snd];
      intros Hin; cbn in Hin;
      destruct Hin as [Hin|[Hin|[]]]; try discriminate Hin;
      injection Hin as <- <- <-; repeat split; reflexivity.
Qed.

(** The write protection is switched on over the area of the example,
    2 MiB from 0. *)
Lemma set_flash_wp_uses_ro_range_witness :
  true = true
  /\ fst (fst (Flash.get_ro_range (Samples.updater 0 (0, 0))
                 {| Flash.prepare_ctrl_name := None;
                    Flash.image_programmer := "host";
                    Flash.image_current := None;
                    Flash.cfg_verbosity := 0 |}))
     = Some (0, 2097152).
Proof.
  apply (set_flash_wp_uses_ro_range (Samples.updater 0 (0, 0))
           {| Flash.prepare_ctrl_name := None;
              Flash.image_programmer := "host";
              Flash.image_current := None;
              Flash.cfg_verbosity := 0 |}
           true true 0 2097152).
  vm_compute. right. right. left. reflexivity.
Defined.

(** [print_wp_status] says that the write protection is enabled only
    when the FMAP of the flash chip names a WP_RO area, the chip
    reports that its protection is on over exactly this area, and the
    hardware write protection is on or was not to be asked. *)
Theorem print_wp_status_enabled
        (U : Flash.Updater) (cfg : Flash.updater_config) (ignore_hw : bool) :
  In (Flash.Says (Msg STDOUT "WP status: enabled\n" [] []))
     (snd (Flash.print_wp_status U cfg ignore_hw)) ->
  exists ro_start ro_len,
    fst (fst (Flash.get_ro_range U cfg)) = Some (ro_start, ro_len)
    /\ (let cfg' := snd (fst (Flash.get_ro_range U cfg)) in
        Flash.flashrom_get_wp U (Flash.image_programmer cfg')
                              (Flash.cfg_verbosity cfg' + 1)
        = (0, (true, ro_start, ro_len))
        /\ (ignore_hw = true \/ Flash.dut_get_property_WP_HW U cfg' <> 0))
    /\ fst (fst (Flash.print_wp_status U cfg ignore_hw)) = 0.
Proof.
  unfold Flash.print_wp_status.
  pose proof (FlashFacts.get_ro_range_in U cfg
                (Flash.Says (Msg STDOUT "WP status: enabled\n" [] [])))
    as Hread.
  destruct (Flash.get_ro_range U cfg) as [[range cfg'] read].
  cbn [fst snd] in *.
  assert (Hno : ~ In (Flash.Says (Msg STDOUT "WP status: enabled\n" [] []))
                     read).
  { intros Hin. destruct (Hread Hin) as [H|[H|H]]; discriminate H. }
  destruct range as [[ro_start ro_len]|]; [|intros Hin; contradiction].
  destruct (Flash.flashrom_get_wp U _ _) as [rv [[wp_mode wp_start] wp_len]].
  destruct (rv =? 0) eqn:Erv; cbn [negb].
  2:{ cbn [snd]. intros Hin.
      apply in_app_or in Hin. destruct Hin as [Hin|Hin].
      - apply in_app_or in Hin. destruct Hin as [Hin|Hin];
          [contradiction|].
        destruct Hin as [Hin|[]]; discriminate Hin.
      - destruct Hin as [Hin|[]]; discriminate Hin. }
  apply Z.eqb_eq in Erv. subst rv.
  assert (Hmsg : forall hwwp,
             Flash.Says (Flash.wp_status_message
                           (Flash.classify hwwp wp_mode wp_start wp_len
                                           ro_start ro_len)
                           wp_mode wp_start wp_len)
             = Flash.Says (Msg STDOUT "WP status: enabled\n" [] []) ->
             hwwp <> 0 /\ wp_mode = true /\ wp_start = ro_start
             /\ wp_len = ro_len).
  { intros hwwp. unfold Flash.classify.
    destruct (hwwp =? 0) eqn:Eh; cbn [orb]; [discriminate|].
    apply Z.eqb_neq in Eh.
    destruct wp_mode; cbn [negb andb orb].
    - destruct (wp_start =? ro_start) eqn:Es; cbn [andb];
        [|discriminate].
      destruct (wp_len =? ro_len) eqn:El; [|discriminate].
      apply Z.eqb_eq in Es, El. auto.
    - destruct ((wp_start =? 0) && (wp_len =? 0)); discriminate. }
  destruct ignore_hw; cbn [fst snd]; intros Hin;
    apply in_app_or in Hin; destruct Hin as [Hin|Hin].
  - apply in_app_or in Hin. destruct Hin as [Hin|Hin]; [contradiction|].
    destruct Hin as [Hin|[]]; discriminate Hin.
  - destruct Hin as [Hin|[]].
    destruct (Hmsg 1 Hin) as (_ & -> & -> & ->).
    exists ro_start, ro_len. repeat split; auto.
  - apply in_app_or in Hin. destruct Hin as [Hin|Hin].
    + apply in_app_or in Hin. destruct Hin as [Hin|Hin]; [contradiction|].
      destruct Hin as [Hin|[]]; discriminate Hin.
    + destruct Hin as [Hin|[]]; discriminate Hin.
  - destruct Hin as [Hin|[]].
    destruct (Hmsg _ Hin) as (Hhw & -> & -> & ->).
    exists ro_start, ro_len. repeat split; auto.
Qed.

(** The flash chip of the example is protected over the WP_RO area. *)
Lemma print_wp_status_enabled_witness :
  exists ro_start ro_len,
    fst (fst (Flash.get_ro_range (Samples.updater 0 (0, 2097152))
                {| Flash.prepare_ctrl_name := None;
                   Flash.image_programmer := "host";
                   Flash.image_current := None;
                   Flash.cfg_verbosity := 0 |}))
    = Some (ro_start, ro_len)
    /\ (let cfg' :=
          snd (fst (Flash.get_ro_range (Samples.updater 0 (0, 2097152))
                      {| Flash.prepare_ctrl_name := None;
                         Flash.image_programmer := "host";
                         Flash.image_current := None;
                         Flash.cfg_verbosity := 0 |})) in
        Flash.flashrom_get_wp (Samples.updater 0 (0, 2097152))
          (Flash.image_programmer cfg') (Flash.cfg_verbosity cfg' + 1)
        = (0, (true, ro_start, ro_len))
        /\ (false = true
            \/ Flash.dut_get_property_WP_HW (Samples.updater 0 (0, 2097152))
                 cfg' <> 0))
    /\ fst (fst (Flash.print_wp_status (Samples.updater 0 (0, 2097152))
                   {| Flash.prepare_ctrl_name := None;
                      Flash.image_programmer := "host";
                      Flash.image_current := None;
                      Flash.cfg_verbosity := 0 |} false)) = 0.
Proof.
  apply (print_wp_status_enabled (Samples.updater 0 (0, 2097152))
           {| Flash.prepare_ctrl_name := None;
              Flash.image_programmer := "host";
              Flash.image_current := None;
              Flash.cfg_verbosity := 0 |} false).
  vm_compute. do 4 right. left. reflexivity.
Defined.
